(** * Magtogoek: ADCP loader and quality control

    A shallow embedding of [magtogoek/utils.py], [magtogoek/adcp/loader.py]
    and [magtogoek/adcp/quality_control.py].

    - numpy [float64] values are primitive binary64 floats ([PrimFloat]), so
      that [nan], the infinities and the comparisons behave as in numpy;
    - a 1-D array is a [list], a 2-D (depth, time) array a list of rows, one
      row per depth bin;
    - an [xarray.Dataset] is a finite map from names to variables plus a map
      of attributes;
    - Python code that mutates a logger and a dataset and may raise runs in
      a state monad with exceptions; the state survives a raise, as the
      mutated objects do in Python;
    - functions of other packages (scipy's [circmean], pycurrents'
      transforms, [np.cos], number formatting, the clock) are parameters. *)

From Stdlib Require Import Floats ZArith Bool Lia Uint63.
From stdpp Require Import gmap strings list fin_maps pretty sorting.

Open Scope string_scope.

(** ** Python exceptions *)

Inductive exn : Type :=
  | AttributeError (what : string)
  | KeyError (key : string)
  | ValueError (what : string)
  | IndexError (what : string)
  | UnboundLocalError (name : string)
  | TypeError (what : string)
  | CoordinateSystemError (what : string)
  | OutsideModel (what : string).
(** [OutsideModel] is not a Python exception: it marks an access that the
    canonical dataset of [init_dataset] never makes (a variable of the wrong
    rank), where the embedding stops. *)

(** ** State and exceptions *)

Section Monad.
Context {St : Type}.

Definition M (A : Type) : Type := St -> (exn + A) * St.

Definition ret {A} (a : A) : M A := fun s => (inr a, s).

Definition raise {A} (e : exn) : M A := fun s => (inl e, s).

Definition bind {A B} (m : M A) (k : A -> M B) : M B :=
    fun s => match m s with
             | (inr a, s') => k a s'
             | (inl e, s') => (inl e, s')
             end.

Definition get : M St := fun s => (inr s, s).

Definition gets {A} (f : St -> A) : M A := fun s => (inr (f s), s).

Definition modify (f : St -> St) : M unit := fun s => (inr tt, f s).

  (** [for x in xs: body x] *)
Fixpoint for_each {A} (xs : list A) (body : A -> M unit) : M unit :=
    match xs with
    | [] => ret tt
    | x :: xs' => bind (body x) (fun _ => for_each xs' body)
    end.

Definition when (b : bool) (m : M unit) : M unit := if b then m else ret tt.
End Monad.
Arguments M : clear implicits.

(** [m] leaves the observation [f] of the state as it found it, whether it
    returns or raises. *)
Definition preserves {St A X} (f : St -> X) (m : M St A) : Prop :=
  forall s, f (m s).2 = f s.

Notation "'let*' x ':=' m 'in' k" := (bind m (fun x => k))
  (at level 10, x name, m at level 200, k at level 200).
Notation "'exec' m 'then' k" := (bind m (fun _ => k))
  (at level 10, m at level 200, k at level 200).

(** The newline character of the Python literals ["\n"]. *)
Definition nl : string := String (Ascii.ascii_of_nat 10) EmptyString.

(** [sub in s] on strings. *)
Definition str_in (sub s : string) : bool :=
  match String.index 0 sub s with Some _ => true | None => false end.

Set Warnings "-register-all".

(** A message argument of the loggers: a string, or a list of messages
    ([isinstance(msg, list)]). *)
Inductive Msg : Type :=
  | MStr (s : string)
  | MList (ms : list Msg).

(** [[self.log(m) for m in msg]]: the calls run left to right on the same
    logger; each returns the logger after it and the lines it printed. *)
Definition each {L : Type} (f : Msg -> L -> L * list string)
    (ms : list Msg) (self : L) : L * list string :=
  fold_left (fun acc m => let r := f m acc.1 in (r.1, (acc.2 ++ r.2)%list))
            ms (self, []).

(** * [magtogoek/utils.py] *)

Module utils.

  (** [class Logger]: the attributes set by [__init__]. *)
Record Logger : Type := mkLogger {
    logbook : string;
    w_count : nat;
    level : Z
  }.

Definition init (logbook : string) (level : Z) : Logger :=
    {| logbook := logbook; w_count := 0; level := level |}.

Definition repr (self : Logger) : string := logbook self.

Section Methods.
    (** The text [datetime.now().strftime("%Y-%m-%d %Hh%M:%S")] gives. *)
Variable _timestamp : string.

    (** Every method returns the logger after the call and the lines it
        wrote to the terminal ([print], [click.echo], [click.secho]). *)

Definition section (section : string) (t : bool) (self : Logger)
      : Logger * list string :=
      let time := if t then " " +:+ _timestamp else "" in
      ({| logbook := logbook self +:+ "[" +:+ section +:+ "]" +:+ time +:+ nl;
          w_count := w_count self;
          level := level self |},
       if (level self <? 1)%Z then [section] else []).

Definition log_str (msg : string) (t : bool) (self : Logger)
      : Logger * list string :=
      let printed := if (level self <? 1)%Z then [msg] else [] in
      let msg := if t then _timestamp +:+ " " +:+ msg else msg in
      ({| logbook := logbook self +:+ " " +:+ msg +:+ nl;
          w_count := w_count self;
          level := level self |},
       printed).

Definition warning_str (msg : string) (t : bool) (self : Logger)
      : Logger * list string :=
      let printed := if (level self <? 2)%Z then ["WARNING:" +:+ msg] else [] in
      let count := if (level self <? 2)%Z then S (w_count self) else w_count self in
      let msg := if t then _timestamp +:+ " " +:+ msg else msg in
      ({| logbook := logbook self +:+ " " +:+ msg +:+ nl;
          w_count := count;
          level := level self |},
       printed).

Fixpoint log (msg : Msg) (t : bool) (self : Logger) : Logger * list string :=
      match msg with
      | MList ms => each (fun m => log m t) ms self
      | MStr s => log_str s t self
      end.

Fixpoint warning (msg : Msg) (t : bool) (self : Logger)
      : Logger * list string :=
      match msg with
      | MList ms => each (fun m => warning m t) ms self
      | MStr s => warning_str s t self
      end.

Definition reset (self : Logger) : Logger :=
      {| logbook := ""; w_count := 0; level := level self |}.

End Methods.

(** *** [get_files_from_expresion] *)

(** [FileNotFoundError(msg)] *)
Inductive FileNotFoundError : Type := mkFileNotFoundError (msg : string).

(** [sorted(names)]: [str] values are ordered by code point, which on the
    bytes of UTF-8 text is the lexicographic order of the bytes. *)
Definition sorted (names : list string) : list string :=
  merge_sort String.le names.

Section Files.
(** [Path(name).is_file()] *)
Variable is_file : string -> bool.
(** [map(str, p.parent.glob(p.name))] for [p = Path(name)], in the order the
    file system yields the matches *)
Variable glob : string -> list string.
(** [str(Path(name))], as the f-string prints [p] *)
Variable path_str : string -> string.

(** [filenames] is a [str] or a list of [str]. *)
Definition get_files_from_expresion (filenames : string + list string)
  : FileNotFoundError + list string :=
  match filenames with
  | inl name =>
      if is_file name then inr (sorted [name])
      else
        let found := sorted (glob name) in
        if bool_decide (length found = 0%nat) then
          inl (mkFileNotFoundError
                 ("Expression `" +:+ path_str name +:+ "` does not match any files."))
        else inr (sorted found)
  | inr names => inr (sorted names)
  end.

End Files.

End utils.


(** * numpy *)

(** A 2-D array of shape (depth, time): one row per depth bin. Arrays of one
    dataset agree on the size of each dimension (xarray enforces it), so the
    elementwise operations are written with [zip_with]. *)
Abbreviation grid A := (list (list A)).

(** The element at depth bin [i] and time sample [j]. *)
Definition cell {A} (a : grid A) (i j : nat) : option A :=
  a !! i ≫= λ row, row !! j.

Module np.

Definition nan : float := PrimFloat.nan.

Definition isfinite (x : float) : bool := PrimFloat.is_finite x.

Definition less (x y : float) : bool := PrimFloat.ltb x y.

Definition greater (x y : float) : bool := PrimFloat.ltb y x.

(** [np.full(depth.shape + time.shape, v)] *)
Definition full {A} (nd nt : nat) (v : A) : grid A :=
  replicate nd (replicate nt v).

(** [np.tile(a, (reps, 1))] for a 1-D [a] *)
Definition tile {A} (a : list A) (reps : nat) : grid A := replicate reps a.

Definition map2d {A B} (f : A -> B) (a : grid A) : grid B :=
  List.map (List.map f) a.

Definition zip2d {A B C} (f : A -> B -> C) (a : grid A) (b : grid B) : grid C :=
  zip_with (zip_with f) a b.

(** [a[mask] = v] along one row: [a] keeps its length. *)
Fixpoint putmask1 {A} (a : list A) (mask : list bool) (v : A) : list A :=
  match a, mask with
  | x :: a', b :: mask' => (if b then v else x) :: putmask1 a' mask' v
  | _, _ => a
  end.

(** [a[mask] = v] for a boolean [mask] of the shape of [a]. *)
Fixpoint putmask {A} (a : grid A) (mask : grid bool) (v : A) : grid A :=
  match a, mask with
  | r :: a', m :: mask' => putmask1 r m v :: putmask a' mask' v
  | _, _ => a
  end.

Definition size {A} (a : grid A) : nat := length (concat a).

(** [bool(a)], as [if a:] takes it: an array of one element has the truth
    value of that element, an empty one is false, any other raises. *)
Definition truth (a : grid bool) : exn + bool :=
  match concat a with
  | [] => inr false
  | [b] => inr b
  | _ :: _ :: _ =>
      inl (ValueError "The truth value of an array with more than one element is ambiguous. Use a.any() or a.all()")
  end.

(** [np.bitwise_or(x1, x2, out)]: the third positional argument of the ufunc
    is the buffer that receives [x1 | x2]; what it held is not read. *)
Definition bitwise_or (x1 x2 : grid bool) (out : option (grid bool)) : grid bool :=
  zip2d orb x1 x2.

(** [np.greater(a, thres, where=cond)] without [out]: where [cond] is false
    the result keeps what the fresh buffer held, here [uninit i j]. *)
Definition greater_where (a : grid float) (thres : float) (cond : grid bool)
    (uninit : nat -> nat -> bool) : grid bool :=
  imap (fun (i : nat) (row : list (float * bool)) =>
          imap (fun (j : nat) (xc : float * bool) =>
                  if xc.2 then greater xc.1 thres else uninit i j) row)
       (zip2d pair a cond).

(** [np.diff(a)] *)
Definition diff (a : list float) : list float :=
  zip_with (fun x y => (y - x)%float) a (tail a).

End np.

(** * xarray *)

Module xr.

Inductive attr : Type :=
  | AStr (s : string)
  | ANum (x : float)
  | AInts (l : list Z)
  | AStrs (l : list string).

Inductive ndarray : Type :=
  | Float2 (a : grid float)
  | Float1 (a : list float)
  | Int2 (a : grid Z)
  | Str1 (a : list string).

Record DataArray : Type := mkDataArray {
  dims : list string;
  data : ndarray;
  attrs : gmap string attr
}.

(** A dataset with the coordinates [depth] and [time]. *)
Record Dataset : Type := mkDataset {
  depth : list float;
  time : list Z;
  variables : gmap string DataArray;
  ds_attrs : gmap string attr
}.

(** The variable [name] of [ds] holds the array [a]. *)
Definition holds (ds : Dataset) (name : string) (a : ndarray) : Prop :=
  data <$> variables ds !! name = Some a.

(** [name in dataset]: data variables and coordinates. *)
Definition contains (ds : Dataset) (name : string) : bool :=
  bool_decide (is_Some (variables ds !! name))
  || bool_decide (name ∈ ["depth"; "time"]).

(** [dataset[name] = (dims, data)] *)
Definition assign (name : string) (dims : list string) (a : ndarray) (ds : Dataset)
  : Dataset :=
  {| depth := depth ds; time := time ds;
     variables := <[name := mkDataArray dims a ∅]> (variables ds);
     ds_attrs := ds_attrs ds |}.

(** Replacing the values of a variable that is there; its [dims] and [attrs]
    stay. *)
Definition set_data (name : string) (a : ndarray) (ds : Dataset) : Dataset :=
  {| depth := depth ds; time := time ds;
     variables := alter (fun v => mkDataArray (dims v) a (attrs v)) name (variables ds);
     ds_attrs := ds_attrs ds |}.

(** [dataset[name].attrs[key] = value] *)
Definition set_var_attr (name key : string) (value : attr) (ds : Dataset) : Dataset :=
  {| depth := depth ds; time := time ds;
     variables := alter (fun v => mkDataArray (dims v) (data v) (<[key := value]> (attrs v)))
                        name (variables ds);
     ds_attrs := ds_attrs ds |}.

(** [dataset.attrs[key] = value] *)
Definition set_attr (key : string) (value : attr) (ds : Dataset) : Dataset :=
  {| depth := depth ds; time := time ds;
     variables := variables ds;
     ds_attrs := <[key := value]> (ds_attrs ds) |}.

(** [dataset.drop_vars(names)] *)
Definition drop_vars (names : list string) (ds : Dataset) : Dataset :=
  {| depth := depth ds; time := time ds;
     variables := foldr delete (variables ds) names;
     ds_attrs := ds_attrs ds |}.

End xr.

Notation "'let*' ' p ':=' m 'in' k" :=
  (bind m (fun x => match x with p => k end))
  (at level 10, p strict pattern, m at level 200, k at level 200).

(** * [magtogoek/adcp/quality_control.py] *)

Module quality_control.
Import xr.

Definition IMPLAUSIBLE_VEL_TRESHOLD : float := 15.
Definition MIN_TEMPERATURE : float := -2.
Definition MAX_TEMPERATURE : float := 32.
Definition MIN_PRESSURE : float := 0.
Definition MAX_PRESSURE : float := 10000.

Definition FLAG_REFERENCE : string := "BODC SeaDataNet".
Definition FLAG_VALUES : list Z := [0; 1; 2; 3; 4; 5; 6; 7; 8; 9]%Z.
Definition FLAG_MEANINGS : list string :=
  [ "no_quality_control"; "good_value"; "probably_good_value";
    "probably_bad_value"; "bad_value"; "changed_value";
    "value_below_detection"; "value_in_excess"; "interpolated_value";
    "missing_value" ].

(** What the functions of the module work on: the dataset they are handed,
    the module's logger [l], and the terminal. *)
Record State : Type := mkState {
  dataset : Dataset;
  l : utils.Logger;
  stdout : list string
}.

(** [l = Logger(level=0)] *)
Definition l_at_import : utils.Logger := utils.init "" 0.

(** Truth value of a number, of a string and of an optional threshold
    ([None] is false). *)
Definition truthy_num (x : float) : bool := negb (PrimFloat.eqb x 0).
Definition truthy_str (s : string) : bool := negb (String.eqb s "").
Definition truthy_attr (a : attr) : bool :=
  match a with
  | AStr s => truthy_str s
  | ANum x => truthy_num x
  | AInts l => negb (bool_decide (l = []))
  | AStrs l => negb (bool_decide (l = []))
  end.

(** The result of [sidelobe_test]: a mask, [False], or the [None] of a
    function that falls off its end. *)
Inductive sidelobe_result : Type :=
  | Mask (a : grid bool)
  | PyFalse
  | PyNone.

Section Functions.
(** [Logger._timestamp()] *)
Variable _timestamp : string.
(** [Timestamp.now().strftime("%Y-%m-%d")] *)
Variable today : string.
(** [str(x)] of a number in an f-string *)
Variable str_num : float -> string.
(** [scipy.stats.circmean(x, low=-180, high=180)] *)
Variable circmean : list float -> float.
(** [magtogoek.tools.circular_distance(x, mean, units="deg")] *)
Variable circular_distance : list float -> float -> list float.
(** [np.cos(np.radians(x))] *)
Variable cos_radians : float -> float.
(** What the fresh result buffers of the three [np.greater(..., where=...)]
    calls hold, by the name of the test. *)
Variable uninit : string -> nat -> nat -> bool.

Definition str_th (th : option float) : string :=
  match th with Some x => str_num x | None => "None" end.

Definition truthy_th (th : option float) : bool :=
  match th with Some x => truthy_num x | None => false end.

(** *** The logger [l] *)

Definition call_l (f : utils.Logger -> utils.Logger * list string) : M State unit :=
  modify (fun st => let r := f (l st) in
                    mkState (dataset st) r.1 (stdout st ++ r.2)%list).

Definition l_reset : M State unit :=
  modify (fun st => mkState (dataset st) (utils.reset (l st)) (stdout st)).

Definition l_section (s : string) : M State unit :=
  call_l (utils.section _timestamp s false).

Definition l_log (s : string) : M State unit :=
  call_l (utils.log _timestamp (MStr s) false).

Definition l_warning (s : string) : M State unit :=
  call_l (utils.warning _timestamp (MStr s) false).

(** [l.warnings(...)]: [utils.Logger] has no such attribute, so the lookup
    raises before the call; the statements after it are not reached. *)
Definition l_warnings {A} (s : string) : M State A :=
  raise (AttributeError "'Logger' object has no attribute 'warnings'").

(** *** The dataset *)

Definition update (f : Dataset -> Dataset) : M State unit :=
  modify (fun st => mkState (f (dataset st)) (l st) (stdout st)).

(** [dataset[name]] *)
Definition getitem (name : string) : M State DataArray :=
  fun st => match variables (dataset st) !! name with
            | Some v => (inr v, st)
            | None => (inl (KeyError name), st)
            end.

(** [dataset.name] *)
Definition getattr (name : string) : M State DataArray :=
  fun st => match variables (dataset st) !! name with
            | Some v => (inr v, st)
            | None => (inl (AttributeError ("'Dataset' object has no attribute '" +:+ name +:+ "'")), st)
            end.

(** The values of a variable that is read as a (depth, time) array, or as
    an array over time. *)
Definition float2 (m : M State DataArray) : M State (grid float) :=
  let* v := m in
  match data v with
  | Float2 a => ret a
  | _ => raise (OutsideModel "a (depth, time) array of floats is expected")
  end.

Definition float1 (m : M State DataArray) : M State (list float) :=
  let* v := m in
  match data v with
  | Float1 a => ret a
  | _ => raise (OutsideModel "a (time,) array of floats is expected")
  end.

(** [dataset.depth.shape + dataset.time.shape] *)
Definition nd (ds : Dataset) : nat := length (depth ds).
Definition nt (ds : Dataset) : nat := length (time ds).

(** [Variable.values = x]: the replacement must have the variable's shape. *)
Definition same_shape (a : grid float) (v : ndarray) : bool :=
  match v with
  | Float2 b => bool_decide (List.map length a = List.map length b)
  | Int2 b => bool_decide (List.map length a = List.map length b)
  | _ => false
  end.

(** *** [motion_correction] *)

Definition motion_correction (mode : string) : M State unit :=
  let* ds := gets dataset in
  if String.eqb mode "bt" then
    if forallb (contains ds) ["bt_u"; "bt_v"; "bt_w"] then
      exec for_each ["u"; "v"; "w"] (fun field =>
        let* x := float2 (getitem field) in
        let* bt := float1 (getitem ("bt_" +:+ field)) in
        update (set_data field
                  (Float2 (List.map (fun row => zip_with PrimFloat.sub row bt) x))))
      then l_log "Motion correction carried out with bottom track"
    else
      l_warning "Motion correction aborded. Bottom velocity (bt_u, bt_v, bt_w) missing"
  else if String.eqb mode "nav" then
    if forallb (contains ds) ["u_ship"; "v_ship"] then
      for_each ["u"; "v"] (fun field =>
        let* x := float2 (getitem field) in
        let* ship := float1 (getitem (field +:+ "_ship")) in
        let* lon := float1 (getattr "lon") in
        let ship0 := zip_with (fun s o => if np.isfinite o then s else 0%float) ship lon in
        let x' := np.zip2d PrimFloat.add x (np.tile ship0 (nd ds)) in
        exec update (set_data field (Float2 x')) then
        let* target := getitem (field +:+ "ship") in
        if same_shape x' (data target) then
          exec update (set_data (field +:+ "ship") (Float2 x')) then
          l_log "Motion correction carried out with navigation"
        else
          raise (ValueError "replacement data must match the Variable's shape"))
    else
      l_warning "Motion correction aborded. Navigation velocity (u_ship, v_ship) missing"
  else
    l_warning "Motion correction aborded. Motion correction mode invalid. ('bt' or 'nav')".

(** *** [set_implausible_vel_to_nan] *)

Definition plausible (thres : float) (x : float) : bool :=
  np.greater x (- thres) && np.less x thres.

(** [a.where(cond)] *)
Definition where_ (a : grid float) (cond : grid bool) : grid float :=
  np.zip2d (fun x (c : bool) => if c then x else np.nan) a cond.

(** [dataset[name] = dataset[name].where(cond)] *)
Definition assign_where (name : string) (cond : grid bool) : M State unit :=
  let* x := float2 (getitem name) in
  update (set_data name (Float2 (where_ x cond))).

(** The body of the loop [for v in ["u", "v", "w"]:] *)
Definition void_implausible (thres : float) (v : string) : M State unit :=
  let* x := float2 (getitem v) in
  let plausible := np.map2d (plausible thres) x in
  exec assign_where "u" plausible then
  exec assign_where "v" plausible then
  assign_where "w" plausible.

Definition set_implausible_vel_to_nan (thres : float) : M State unit :=
  for_each ["u"; "v"; "w"] (void_implausible thres).

(** *** The tests: a mask that is [true] where the test fails *)

(** [(a1 < th) & (a2 < th) & (a3 < th) & (a4 < th)] *)
Definition below4 (threshold : float) (a1 a2 a3 a4 : grid float) : grid bool :=
  let lt := np.map2d (fun x => np.less x threshold) in
  np.zip2d andb (np.zip2d andb (np.zip2d andb (lt a1) (lt a2)) (lt a3)) (lt a4).

Definition correlation_test (threshold : float) : M State (grid bool) :=
  let* ds := gets dataset in
  if forallb (contains ds) ["corr1"; "corr2"; "corr3"; "corr4"] then
    let* c1 := float2 (getattr "corr1") in
    let* c2 := float2 (getattr "corr2") in
    let* c3 := float2 (getattr "corr3") in
    let* c4 := float2 (getattr "corr4") in
    ret (below4 threshold c1 c2 c3 c4)
  else
    exec @l_warnings unit "Correlation test aborted. Missing one or more corr data" then
    ret (np.full (nd ds) (nt ds) false).

Definition amplitude_test (threshold : float) : M State (grid bool) :=
  let* ds := gets dataset in
  if forallb (contains ds) ["amp1"; "amp2"; "amp3"; "amp4"] then
    let* a1 := float2 (getattr "amp1") in
    let* a2 := float2 (getattr "amp2") in
    let* a3 := float2 (getattr "amp3") in
    let* a4 := float2 (getattr "amp4") in
    ret (below4 threshold a1 a2 a3 a4)
  else
    exec @l_warnings unit "Amplitude test aborted. Missing one or more corr data" then
    ret (np.full (nd ds) (nt ds) false).

Definition percentgood_test (threshold : float) : M State (grid bool) :=
  let* ds := gets dataset in
  if contains ds "pg" then
    let* pg := float2 (getattr "pg") in
    ret (np.map2d (fun x => np.less x threshold) pg)
  else
    exec @l_warnings unit "Percent Good test aborted. Missing one or more corr data" then
    ret (np.full (nd ds) (nt ds) false).

(** [roll_test] and [pitch_test] give a mask over time. *)
Definition roll_test (thres : float) : M State (list bool) :=
  let* ds := gets dataset in
  if contains ds "roll_" then
    let* roll := float1 (getattr "roll_") in
    let roll_mean := circmean roll in
    let roll_from_mean := circular_distance roll roll_mean in
    ret (List.map (fun x => np.greater x thres) roll_from_mean)
  else
    l_warnings "Roll test aborted. Missing one or more corr data".

Definition pitch_test (thres : float) : M State (list bool) :=
  let* ds := gets dataset in
  if contains ds "pitch" then
    let* pitch := float1 (getattr "pitch") in
    let pitch_mean := circmean pitch in
    let pitch_from_mean := circular_distance pitch pitch_mean in
    ret (List.map (fun x => np.greater x thres) pitch_from_mean)
  else
    l_warnings "Pitch test aborted. Missing one or more corr data".

Definition horizontal_vel_test (thres : float) : M State (grid bool) :=
  let* u := float2 (getattr "u") in
  let* v := float2 (getattr "v") in
  let horizontal_velocity :=
    np.zip2d (fun x y => PrimFloat.sqrt (x * x + y * y)%float) u v in
  ret (np.greater_where horizontal_velocity thres
         (np.map2d np.isfinite horizontal_velocity)
         (uninit "horizontal_vel_test")).

Definition vertical_vel_test (thres : float) : M State (grid bool) :=
  let* w := float2 (getattr "w") in
  ret (np.greater_where (np.map2d PrimFloat.abs w) thres
         (np.map2d np.isfinite w)
         (uninit "vertical_vel_test")).

Definition error_vel_test (thres : float) : M State (grid bool) :=
  let* e := float2 (getattr "e") in
  let* w := float2 (getattr "w") in
  ret (np.greater_where (np.map2d PrimFloat.abs e) thres
         (np.map2d np.isfinite w)
         (uninit "error_vel_test")).

(** One channel of [vertical_beam_test]:
    [if name in dataset.variables and thres: vb_test[dataset.name < thres] = True] *)
Definition vertical_beam_channel (name : string) (thres : option float)
    (vb_test : grid bool) : M State (grid bool) :=
  let* ds := gets dataset in
  match thres with
  | Some th =>
      if contains ds name && truthy_num th then
        let* a := float2 (getattr name) in
        ret (np.putmask vb_test (np.map2d (fun x => np.less x th) a) true)
      else ret vb_test
  | None => ret vb_test
  end.

Definition vertical_beam_test (amp_thres corr_thres pg_thres : option float)
  : M State (grid bool) :=
  let* ds := gets dataset in
  let vb_test := np.full (nd ds) (nt ds) false in
  let* vb_test := vertical_beam_channel "vb_amp" amp_thres vb_test in
  let* vb_test := vertical_beam_channel "vb_corr" corr_thres vb_test in
  let* vb_test := vertical_beam_channel "vb_pg" pg_thres vb_test in
  ret vb_test.

(** [dataset.attrs[key]] *)
Definition attrs_getitem (key : string) : M State attr :=
  fun st => match ds_attrs (dataset st) !! key with
            | Some a => (inr a, st)
            | None => (inl (KeyError key), st)
            end.

(** A number read from an attribute for arithmetic. *)
Definition num_attr (a : attr) : M State float :=
  match a with
  | ANum x => ret x
  | _ => raise (TypeError "unsupported operand type")
  end.

Definition attr_is (a : attr) (s : string) : bool :=
  match a with AStr x => String.eqb x s | _ => false end.

Definition sidelobe_test (bottom_depth : option float) : M State sidelobe_result :=
  let* ds := gets dataset in
  let* beam_angle := attrs_getitem "beam_angle" in
  let* both :=
    if truthy_attr beam_angle
    then let* o := attrs_getitem "orientation" in ret (truthy_attr o)
    else ret false in
  if both then
    let* angle := num_attr beam_angle in
    let cos_angle := cos_radians angle in
    (* [None]: the function has returned [False] *)
    let* xducer_depth :=
      if contains ds "xducer_depth"
         && negb (bool_decide (is_Some (ds_attrs ds !! "xducer_depth")))
      then
        let* x := float1 (getitem "xducer_depth") in ret (Some x)
      else if bool_decide (is_Some (ds_attrs ds !! "xducer_depth")) then
        let* x := attrs_getitem "xducer_depth" in let* x := num_attr x in
        ret (Some (replicate (nt ds) x))
      else
        exec l_warning "Sidelobes correction aborded. Adcp depth `xducer_depth` not provided."
        then ret None in
    match xducer_depth with
    | None => ret PyFalse
    | Some xducer_depth =>
        let* orientation := attrs_getitem "orientation" in
        if attr_is orientation "down" then
          let* bottom :=
            if truthy_th bottom_depth then
              ret (Some (replicate (length xducer_depth) (default 0%float bottom_depth)))
            else if contains ds "bt_depth" then
              let* b := float1 (getattr "bt_depth") in ret (Some b)
            else
              exec l_warning "Sidelobes correction aborded. Bottom depth not found or provided."
              then ret None in
          match bottom with
          | None => ret PyFalse
          | Some bottom_depth =>
              let max_depth :=
                zip_with (fun x b => (x + (b - x) * cos_angle)%float)
                         xducer_depth bottom_depth in
              ret (Mask (List.map (fun d => List.map (fun m => np.greater d m) max_depth)
                                  (depth ds)))
          end
        else if attr_is orientation "up" then
          let min_depth :=
            List.map (fun x => (x * (1 - cos_angle))%float) xducer_depth in
          ret (Mask (List.map (fun d => List.map (fun m => np.less d m) min_depth)
                              (depth ds)))
        else
          exec l_warning "Can not correct for sidelobes, `adcp_orientation` parameter not set."
          then ret PyFalse
    end
  else ret PyNone.

Definition temperature_test : M State (list bool) :=
  let* t := float1 (getattr "temperature") in
  ret (List.map (fun x => np.greater x MAX_TEMPERATURE || np.less x MIN_TEMPERATURE) t).

Definition pressure_test : M State (list bool) :=
  let* p := float1 (getattr "pres") in
  ret (List.map (fun x => np.greater x MAX_PRESSURE || np.less x MIN_PRESSURE) p).

(** *** [adcp_quality_control] *)

(** The flag grid [vel_flags] and the list [vel_qc_test] are locals of
    [adcp_quality_control]; its blocks are written as functions on the pair. *)

(** [if th: l.log(...); flag = test(dataset, th); vel_flags[flag] = 3;
     vel_qc_test.append(...)] *)
Definition threshold_block (th : option float) (what : string)
    (test : float -> M State (grid bool)) (entry : string)
    (acc : grid Z * list string) : M State (grid Z * list string) :=
  if truthy_th th then
    exec l_log what then
    let* flag := test (default 0%float th) in
    ret (np.putmask acc.1 flag 3%Z, (acc.2 ++ [entry])%list)
  else ret acc.

Definition sidelobes_block (sidelobes_correction : bool)
    (bottom_depth : option float) (acc : grid Z * list string)
  : M State (grid Z * list string) :=
  if sidelobes_correction then
    let* sidelobe_flag := sidelobe_test bottom_depth in
    (* [if sidelobe_flag:] *)
    match sidelobe_flag with
    | Mask a =>
        match np.truth a with
        | inl e => raise e
        | inr true =>
            exec l_log "Sidelobe correction carried out." then
            ret (np.putmask acc.1 a 4%Z, (acc.2 ++ ["sidelobes"])%list)
        | inr false => ret acc
        end
    | PyFalse | PyNone => ret acc
    end
  else ret acc.

Definition pressure_block (acc : grid Z * list string)
  : M State (grid Z * list string) :=
  let* ds := gets dataset in
  if contains ds "pres" then
    exec l_log "Good pressure range 0 to 10000 dbar" then
    let* pres := float1 (getattr "pres") in
    let pressure_QC := replicate (length pres) 1%float in
    let* pressure_flags := pressure_test in
    let pressure_QC := np.putmask1 pressure_QC pressure_flags 4%float in
    exec update (assign "pres_QC" ["time"] (Float1 pressure_QC)) then
    let vel_flags := np.putmask acc.1 (np.tile pressure_flags (nd ds)) 4%Z in
    let quality_test :=
      "presssure_threshold: less than 0 dbar and greater than 10000 dbar" in
    exec update (set_var_attr "pres_QC" "quality_test" (AStr quality_test)) then
    ret (vel_flags, (acc.2 ++ [quality_test])%list)
  else ret acc.

Definition temperature_block : M State unit :=
  let* ds := gets dataset in
  if contains ds "temperature" then
    exec l_log "Good temperature range -2 to 32 celsius" then
    let* t := float1 (getattr "temperature") in
    let temperature_QC := replicate (length t) 1%float in
    let* flags := temperature_test in
    let temperature_QC := np.putmask1 temperature_QC flags 4%float in
    exec update (assign "temperature_QC" ["time"] (Float1 temperature_QC)) then
    update (set_var_attr "temperature_QC" "quality_test"
              (AStr "temperature_threshold: less than -2 celcius and greater than 32 celsius"))
  else ret tt.

(** [s * (name in dataset)] *)
Definition str_if (s : string) (b : bool) : string := if b then s else "".

Definition fifth_beam_block (amp_th corr_th pg_th : option float) : M State unit :=
  let* ds := gets dataset in
  if contains ds "vb_vel" then
    exec l_log ("Fifth beam quality control carried out with"
                +:+ str_if ("amplitude_threshold: " +:+ str_th amp_th) (contains ds "vb_amp")
                +:+ str_if (", correlation_threshold: " +:+ str_th corr_th) (contains ds "vb_corr")
                +:+ str_if (", percentgood_threshold: " +:+ str_th pg_th) (contains ds "vb_pg")
                +:+ ".") then
    let* vb_flag := vertical_beam_test amp_th corr_th pg_th in
    (* [vb_flag * 3] *)
    exec update (assign "vb_vel_QC" ["depth"; "time"]
                   (Int2 (np.map2d (fun b : bool => if b then 3%Z else 0%Z) vb_flag))) then
    update (set_var_attr "vb_vel_QC" "quality_test"
              (AStr (str_if ("amplitude_threshold: " +:+ str_th amp_th +:+ nl) (contains ds "vb_amp")
                     +:+ str_if ("correlation_threshold: " +:+ str_th corr_th +:+ nl) (contains ds "vb_corr")
                     +:+ str_if ("percentgood_threshold: " +:+ str_th pg_th +:+ nl) (contains ds "vb_pg"))))
  else ret tt.

(** The masks [~np.isfinite(dataset[v]).data] for [v] in [u], [v], [w] are
    unpacked into the positional arguments of [np.bitwise_or]; then
    [vel_flags[missing_vel] = 9]. *)
Definition missing_block (vel_flags : grid Z) : M State (grid Z) :=
  let not_finite := np.map2d (fun x => negb (np.isfinite x)) in
  let* u := float2 (getitem "u") in
  let* v := float2 (getitem "v") in
  let* w := float2 (getitem "w") in
  let missing_vel :=
    np.bitwise_or (not_finite u) (not_finite v) (Some (not_finite w)) in
  ret (np.putmask vel_flags missing_vel 9%Z).

Definition write_flags (vel_flags : grid Z) (vel_qc_test : list string) : M State unit :=
  for_each ["u"; "v"; "w"] (fun v =>
    exec update (assign (v +:+ "_QC") ["depth"; "time"] (Int2 vel_flags)) then
    update (set_var_attr (v +:+ "_QC") "quality_test"
              (AStr (String.concat nl vel_qc_test)))).

(** [for var in list(dataset.variables): if "_QC" in var: ...] *)
Definition stamp (name : string) (v : DataArray) : DataArray :=
  if str_in "_QC" name then
    mkDataArray (dims v) (data v)
      (<["flag_reference" := AStr FLAG_REFERENCE]>
         (<["flag_values" := AInts FLAG_VALUES]>
            (<["flag_meanings" := AStrs FLAG_MEANINGS]>
               (<["quality_date" := AStr today]> (attrs v)))))
  else v.

Definition stamp_flags : M State unit :=
  update (fun ds =>
    {| depth := depth ds; time := time ds;
       variables := map_imap (fun name v => Some (stamp name v)) (variables ds);
       ds_attrs := ds_attrs ds |}).

Definition finish : M State unit :=
  let* lg := gets l in
  exec update (set_attr "quality_comments" (AStr (utils.logbook lg))) then
  exec l_log ("Quality Control was carried out with "
              +:+ pretty (utils.w_count lg) +:+ " warnings") then
  let* book := attrs_getitem "logbook" in
  let* lg := gets l in
  match book with
  | AStr b =>
      exec update (set_attr "logbook" (AStr (b +:+ utils.logbook lg))) then
      exec update (set_attr "flags_reference" (AStr FLAG_REFERENCE)) then
      exec update (set_attr "flags_values" (AInts FLAG_VALUES)) then
      update (set_attr "flags_meanings" (AStrs FLAG_MEANINGS))
  | _ => raise (TypeError "unsupported operand type(s) for +=")
  end.

Definition adcp_quality_control
    (amp_th corr_th pg_th roll_th pitch_th : option float)
    (horizontal_vel_th vertical_vel_th error_vel_th : option float)
    (motion_correction_mode : option string)
    (sidelobes_correction : bool)
    (bottom_depth : option float) : M State unit :=
  exec l_reset then
  exec l_section "Quality Control" then
  exec match motion_correction_mode with
       | Some mode => when (truthy_str mode) (motion_correction mode)
       | None => ret tt
       end then
  exec set_implausible_vel_to_nan IMPLAUSIBLE_VEL_TRESHOLD then
  let* ds := gets dataset in
  let acc : grid Z * list string := (np.full (nd ds) (nt ds) 1%Z, []) in
  let* acc := threshold_block amp_th
                ("amplitude threshold " +:+ str_th amp_th)
                amplitude_test
                ("amplitude_threshold:" +:+ str_th amp_th) acc in
  let* acc := threshold_block corr_th
                ("correlation threshold " +:+ str_th corr_th)
                correlation_test
                ("correlation_threshold:" +:+ str_th corr_th) acc in
  let* acc := threshold_block pg_th
                ("percentgood threshold " +:+ str_th pg_th)
                percentgood_test
                ("percentgood_threshold:" +:+ str_th pg_th) acc in
  let* acc := threshold_block horizontal_vel_th
                ("horizontal velocity threshold " +:+ str_th horizontal_vel_th +:+ " m/s")
                horizontal_vel_test
                ("horizontal_velocity_threshold:" +:+ str_th horizontal_vel_th +:+ " m/s") acc in
  let* acc := threshold_block vertical_vel_th
                ("vertical velocity threshold " +:+ str_th vertical_vel_th +:+ " m/s")
                vertical_vel_test
                ("vertical_velocity_threshold:" +:+ str_th vertical_vel_th +:+ " m/s") acc in
  let* acc := threshold_block error_vel_th
                ("error velocity threshold " +:+ str_th error_vel_th +:+ " m/s")
                error_vel_test
                ("velocity_error_threshold:" +:+ str_th error_vel_th +:+ " m/s") acc in
  let* acc := threshold_block roll_th
                ("roll threshold " +:+ str_th roll_th +:+ " degree")
                (fun th => let* m := roll_test th in ret (np.tile m (nd ds)))
                ("roll_threshold:" +:+ str_th roll_th +:+ " degree") acc in
  let* acc := threshold_block pitch_th
                ("pitch threshold " +:+ str_th pitch_th +:+ " degree")
                (fun th => let* m := pitch_test th in ret (np.tile m (nd ds)))
                ("pitch_threshold:" +:+ str_th pitch_th +:+ " degree") acc in
  let* acc := sidelobes_block sidelobes_correction bottom_depth acc in
  let* acc := pressure_block acc in
  exec temperature_block then
  exec fifth_beam_block amp_th corr_th pg_th then
  let* vel_flags := missing_block acc.1 in
  exec write_flags vel_flags acc.2 then
  exec stamp_flags then
  finish.

End Functions.

End quality_control.

(** * [magtogoek/adcp/loader.py] *)

Module loader.
Import xr.

(** The loader's own [class Logger]. *)
Record Logger : Type := mkLogger {
  logbook : string;
  w_count : nat
}.

Definition init (logbook : string) : Logger :=
  {| logbook := "" +:+ logbook; w_count := 0 |}.

(** [msg[8:]] *)
Definition from8 (msg : string) : string :=
  String.substring 8 (String.length msg - 8) msg.

(** The raw bundle [Multiread(...).read()] returns, with the fields
    [load_rdi_binary] reads. A three-axis array is kept as the list of its
    slices along the beam axis: [vel] holds [vel.data[:, :, i]] for
    [i = 0 .. 3], each of shape (time, depth); [bt_vel] holds
    [bt_vel.data[:, i]], each of shape (time,). *)
Record Bunch : Type := mkBunch {
  dday : list float;
  dep : list float;
  sonar_model : string;
  XducerDepth : list float;
  trans_coordsystem : string;
  sysconfig_convex : bool;
  sysconfig_angle : float;
  sysconfig_kHz : float;
  (** [data.sysconfig.coordsystem], an attribute the bundle may lack *)
  sysconfig_coordsystem : option string;
  vel : list (grid float);
  bt_vel : grid float;
  (** [bt_depth.data], (time, beam) *)
  bt_depth : grid float;
  vbvel : grid float;
  VBCorrelation : grid float;
  VBIntensity : grid float;
  (** [pg.data], (time, depth) of the four beams' values; absent for [sv] *)
  pg : option (grid (list float));
  pg4 : grid float;
  cor1 : grid float; cor2 : grid float; cor3 : grid float; cor4 : grid float;
  amp1 : grid float; amp2 : grid float; amp3 : grid float; amp4 : grid float;
  (** [rawnav]: [Lon1_BAM4] and [Lat1_BAM4] *)
  rawnav : option (list float * list float);
  VL_Pressure : list float;
  heading : list float;
  roll : list float;
  pitch : list float;
  temperature : list float;
  CellSize : float;
  FL_Inst_SN : string
}.

Definition with_trans_coordsystem (cs : string) (d : Bunch) : Bunch :=
  mkBunch (dday d) (dep d) (sonar_model d) (XducerDepth d) cs
    (sysconfig_convex d) (sysconfig_angle d) (sysconfig_kHz d) (sysconfig_coordsystem d)
    (vel d) (bt_vel d) (bt_depth d) (vbvel d) (VBCorrelation d) (VBIntensity d)
    (pg d) (pg4 d) (cor1 d) (cor2 d) (cor3 d) (cor4 d)
    (amp1 d) (amp2 d) (amp3 d) (amp4 d) (rawnav d) (VL_Pressure d)
    (heading d) (roll d) (pitch d) (temperature d) (CellSize d) (FL_Inst_SN d).

Definition with_vel (v : list (grid float)) (d : Bunch) : Bunch :=
  mkBunch (dday d) (dep d) (sonar_model d) (XducerDepth d) (trans_coordsystem d)
    (sysconfig_convex d) (sysconfig_angle d) (sysconfig_kHz d) (sysconfig_coordsystem d)
    v (bt_vel d) (bt_depth d) (vbvel d) (VBCorrelation d) (VBIntensity d)
    (pg d) (pg4 d) (cor1 d) (cor2 d) (cor3 d) (cor4 d)
    (amp1 d) (amp2 d) (amp3 d) (amp4 d) (rawnav d) (VL_Pressure d)
    (heading d) (roll d) (pitch d) (temperature d) (CellSize d) (FL_Inst_SN d).

Definition with_bt_vel (v : grid float) (d : Bunch) : Bunch :=
  mkBunch (dday d) (dep d) (sonar_model d) (XducerDepth d) (trans_coordsystem d)
    (sysconfig_convex d) (sysconfig_angle d) (sysconfig_kHz d) (sysconfig_coordsystem d)
    (vel d) v (bt_depth d) (vbvel d) (VBCorrelation d) (VBIntensity d)
    (pg d) (pg4 d) (cor1 d) (cor2 d) (cor3 d) (cor4 d)
    (amp1 d) (amp2 d) (amp3 d) (amp4 d) (rawnav d) (VL_Pressure d)
    (heading d) (roll d) (pitch d) (temperature d) (CellSize d) (FL_Inst_SN d).

Definition with_vbvel (v : grid float) (d : Bunch) : Bunch :=
  mkBunch (dday d) (dep d) (sonar_model d) (XducerDepth d) (trans_coordsystem d)
    (sysconfig_convex d) (sysconfig_angle d) (sysconfig_kHz d) (sysconfig_coordsystem d)
    (vel d) (bt_vel d) (bt_depth d) v (VBCorrelation d) (VBIntensity d)
    (pg d) (pg4 d) (cor1 d) (cor2 d) (cor3 d) (cor4 d)
    (amp1 d) (amp2 d) (amp3 d) (amp4 d) (rawnav d) (VL_Pressure d)
    (heading d) (roll d) (pitch d) (temperature d) (CellSize d) (FL_Inst_SN d).

(** What [load_rdi_binary] works on: its logger [l], the terminal, the raw
    bundle [data] (mutated in place by [coordsystem2earth]) and the dataset
    [ds]. The name [ds] is bound by [init_dataset]; until then the state
    carries a dataset that nothing reads. *)
Record State : Type := mkState {
  l : Logger;
  stdout : list string;
  data : Bunch;
  ds : Dataset
}.

(** [a.T] for [a] of shape (time, depth) with [ndepth] bins *)
Definition transpose {A} (ndepth : nat) (a : grid A) : grid A :=
  List.map (fun j => omap (fun row : list A => row !! j) a) (seq 0 ndepth).

(** [(a == 0).all()] *)
Definition all_zero (a : list float) : bool :=
  forallb (fun x => PrimFloat.eqb x 0) a.

(** [(np.diff(a) == 0).all()] *)
Definition not_varying (a : list float) : bool := all_zero (np.diff a).

(** [a[a == -32768.0] = np.nan] *)
Definition fill_to_nan (x : float) : float :=
  if PrimFloat.eqb x (-32768)%float then np.nan else x.

Section Functions.
(** [Logger._timestamp()] *)
Variable _timestamp : string.
(** [str(x)] of a number in an f-string *)
Variable str_num : float -> string.
(** One element of [dday_to_datetime64]: the [datetime64[s]] (seconds since
    the epoch) of
    [pd.to_datetime(d, unit="D", origin=pd.Timestamp(str(yearbase) + "-01-01"), utc=True)
       .strftime("%Y-%m-%d %H:%M:%S")] *)
Variable to_datetime64 : Z -> float -> Z.
(** [time.astype(str)], one element *)
Variable datetime_str : Z -> string.
(** [np.median], [np.nanmean] and [np.mean] along one axis *)
Variable median : list float -> float.
Variable nanmean : list float -> float.
Variable mean : list float -> float.
(** [transform.Transform(angle, geometry).beam_to_xyz], on the velocity
    array and on the bottom-track array *)
Variable beam_to_xyz : float -> string -> list (grid float) -> list (grid float).
Variable beam_to_xyz_bt : float -> string -> grid float -> grid float.
(** [transform.rdi_xyz_enu(xyze, heading, pitch, roll, orientation)] *)
Variable rdi_xyz_enu :
  list (grid float) -> list float -> list float -> list float -> string -> list (grid float).
Variable rdi_xyz_enu_bt :
  grid float -> list float -> list float -> list float -> string -> grid float.
(** [np.round(x, decimals=3)] *)
Variable round3 : float -> float.
(** The fixed leaders [read_fixed_leader] returns. *)
Variable FixedLeader : Type.

(** *** [Logger] *)

Definition section (msg : string) (t : bool) (self : Logger) : Logger * list string :=
  let time := if t then " " +:+ _timestamp else "" in
  ({| logbook := logbook self +:+ "[" +:+ msg +:+ "]" +:+ time +:+ nl;
      w_count := w_count self |},
   [msg]).

Definition log_str (msg : string) (t : bool) (self : Logger) : Logger * list string :=
  let warn := str_in "WARNING:" msg in
  let printed := if warn then "WARNING:" +:+ from8 msg else msg in
  let count := if warn then S (w_count self) else w_count self in
  let msg := if t then _timestamp +:+ " " +:+ msg else msg in
  ({| logbook := logbook self +:+ " " +:+ msg +:+ nl; w_count := count |},
   [printed]).

(** The recursive call on the elements of a list does not pass [t]. *)
Fixpoint log (msg : Msg) (t : bool) (self : Logger) : Logger * list string :=
  match msg with
  | MList ms => each (fun m => log m false) ms self
  | MStr s => log_str s t self
  end.

Definition call_l (f : Logger -> Logger * list string) : M State unit :=
  modify (fun st => let r := f (l st) in
                    mkState r.1 (stdout st ++ r.2)%list (data st) (ds st)).

Definition l_log (s : string) : M State unit := call_l (log (MStr s) false).

Definition set_data_ (f : Bunch -> Bunch) : M State unit :=
  modify (fun st => mkState (l st) (stdout st) (f (data st)) (ds st)).

Definition set_ds (f : Dataset -> Dataset) : M State unit :=
  modify (fun st => mkState (l st) (stdout st) (data st) (f (ds st))).

(** [ds[name].values = a] *)
Definition set_values (name : string) (a : ndarray) : M State unit :=
  fun st => match variables (ds st) !! name with
            | Some _ => (inr tt, mkState (l st) (stdout st) (data st)
                                         (set_data name a (ds st)))
            | None => (inl (KeyError name), st)
            end.

(** *** [init_dataset] *)

Definition nans2 (ndepth ntime : nat) : DataArray :=
  mkDataArray ["depth"; "time"] (Float2 (np.full ndepth ntime np.nan)) ∅.

Definition nans1 (ntime : nat) : DataArray :=
  mkDataArray ["time"] (Float1 (replicate ntime np.nan)) ∅.

Definition init_dataset (time : list Z) (depth : list float) (sonar : string) : Dataset :=
  let n2 := nans2 (length depth) (length time) in
  let n1 := nans1 (length time) in
  let data_vars : list (string * DataArray) :=
    (fun name => (name, n2)) <$>
      ["u"; "v"; "w"; "e"; "pg"; "amp1"; "amp2"; "amp3"; "amp4";
       "corr1"; "corr2"; "corr3"; "corr4"] in
  let data_vars := (data_vars ++ ((fun name => (name, n1)) <$>
      ["lon"; "lat"; "roll_"; "pitch"; "heading";
       "bt_u"; "bt_v"; "bt_w"; "bt_e"; "bt_depth";
       "xducer_depth"; "temp"; "pres"; "time_string"]))%list in
  let data_vars :=
    if String.eqb sonar "sv"
    then (data_vars ++ ((fun name => (name, n2)) <$> ["vb_vel"; "vb_amp"; "vb_corr"]))%list
    else data_vars in
  {| depth := depth; time := time;
     variables := list_to_map data_vars;
     ds_attrs := ∅ |}.

(** *** [dday_to_datetime64] *)

Definition dday_to_datetime64 (dday : list float) (yearbase : Z)
  : list Z * list string :=
  let time := List.map (to_datetime64 yearbase) dday in
  (time, List.map datetime_str time).

(** *** [coordsystem2earth] *)

(** [data.vel.data[:, :, i] = np.round(a[:, :, i], decimals=3)] *)
Definition set_vel_slice (i : nat) (a : list (grid float)) : M State unit :=
  set_data_ (fun d =>
    with_vel (<[i := np.map2d round3 (default [] (a !! i))]> (vel d)) d).

(** [data.bt_vel.data[:, i] = np.round(a[:, i], decimals=3)] *)
Definition set_bt_vel_slice (i : nat) (a : grid float) : M State unit :=
  set_data_ (fun d =>
    with_bt_vel (<[i := List.map round3 (default [] (a !! i))]> (bt_vel d)) d).

(** The local [bt_xyze] is bound only in the [beam] branch; it is [None]
    while unbound. [xyze] starts as the array of [data.vel] itself; every
    slice is read before it is written. *)
Definition coordsystem2earth (orientation : string) : M State unit :=
  let* d := gets data in
  exec
    (if negb (bool_decide (trans_coordsystem d ∈ ["beam"; "xyz"])) then
       (* The exception is built, its message reading
          [data.sysconfig.coordsystem], and dropped: there is no [raise]. *)
       match sysconfig_coordsystem d with
       | Some _ => ret tt
       | None => raise (AttributeError "coordsystem")
       end
     else ret tt) then
  let beam_pattern := if sysconfig_convex d then "convex" else "concave" in
  let xyze := vel d in
  let '(xyze, bt_xyze) :=
    if String.eqb (trans_coordsystem d) "beam" then
      (beam_to_xyz (sysconfig_angle d) beam_pattern (vel d),
       Some (beam_to_xyz_bt (sysconfig_angle d) beam_pattern (bt_vel d)))
    else (xyze, None) in
  if all_zero (heading d) || all_zero (roll d) || all_zero (pitch d) then
    exec set_data_ (with_trans_coordsystem "xyz") then
    for_each [0; 1; 2; 3] (fun i =>
      exec set_vel_slice i xyze then
      match bt_xyze with
      | Some bt_xyze => set_bt_vel_slice i bt_xyze
      | None => raise (UnboundLocalError "bt_xyze")
      end)
  else
    let enu := rdi_xyz_enu xyze (heading d) (pitch d) (roll d) orientation in
    match bt_xyze with
    | None => raise (UnboundLocalError "bt_xyze")
    | Some bt_xyze =>
        let bt_enu := rdi_xyz_enu_bt bt_xyze (heading d) (pitch d) (roll d) orientation in
        exec set_data_ (with_trans_coordsystem "earth") then
        for_each [0; 1; 2; 3] (fun i =>
          exec set_vel_slice i enu then
          set_bt_vel_slice i bt_enu)
    end.

(** *** [load_rdi_binary] *)

(** [(data.dday < 0).any() or (np.diff(data.dday) < 0).any()] *)
Definition bad_dday (dday : list float) : bool :=
  existsb (fun x => PrimFloat.ltb x 0) dday
  || existsb (fun x => PrimFloat.ltb x 0) (np.diff dday).

(** [np.arange(n) / (3600 * 24)] *)
Definition arange_days (n : nat) : list float :=
  List.map (fun i => (PrimFloat.of_uint63 (Uint63.of_Z (Z.of_nat i)) / 86400)%float)
           (seq 0 n).

(** Convert [dday] to datetime64: gives [bad_time] and [time, time_string]. *)
Definition convert_dday (yearbase : Z) : M State (bool * (list Z * list string)) :=
  let* d := gets data in
  if bad_dday (dday d) then
    exec call_l (log (MList
      [MStr ("WARNING: The `dday` vector either contains negative values or is not monotonically increasing."
             +:+ "WARNING: Time was replaced by a default datetime vector: 1 second timestep since "
             +:+ pretty yearbase)]) false) then
    ret (true, dday_to_datetime64 (arange_days (length (dday d))) yearbase)
  else
    ret (false, dday_to_datetime64 (dday d) yearbase).

(** Convert depth relative to the ADCP to depth below surface: gives the
    local [XducerDepth] when it binds it. The local [depth] it computes is
    not read afterwards. *)
Definition depth_below_surface (sensor_depth : option float) : M State (option float) :=
  let* d := gets data in
  if negb (String.eqb (sonar_model d) "os") then
    let XducerDepth_ := median (XducerDepth d) in
    exec match sensor_depth with
         | Some s =>
             l_log ("The difference between `sensor_depth` and `XDucerDepth` is "
                    +:+ str_num (PrimFloat.abs (s - XducerDepth_)) +:+ " m")
         | None => ret tt
         end then
    ret (Some XducerDepth_)
  else ret None.

(** Dealing with the coordinates system: gives [original_coordsystem]. *)
Definition coordinates_system (orientation : string) : M State string :=
  let* d := gets data in
  let original_coordsystem := trans_coordsystem d in
  exec
    (if negb (String.eqb original_coordsystem "earth") then
       exec l_log ("The velocity data are in " +:+ trans_coordsystem d +:+ " coordinate") then
       exec coordsystem2earth orientation then
       let* d := gets data in
       exec when (String.eqb (trans_coordsystem d) "xyz")
                 (l_log "WARNING: Roll, Pitch or Heading seems to be missing from the data file.") then
       l_log ("The velocity data were transformed to " +:+ trans_coordsystem d)
     else ret tt) then
  ret original_coordsystem.

(** Loading the transducer data *)
Definition load_transducer_data (original_coordsystem : string) : M State unit :=
  exec set_data_ (fun d => with_vel (List.map (np.map2d fill_to_nan) (vel d)) d) then
  let* d := gets data in
  let T := transpose (length (dep d)) in
  let slice i := T (default [] (vel d !! i)) in
  exec set_values "u" (Float2 (slice 0)) then
  exec set_values "v" (Float2 (slice 1)) then
  exec set_values "w" (Float2 (slice 2)) then
  exec set_values "e" (Float2 (slice 3)) then
  exec
    (if String.eqb (sonar_model d) "sv" then
       exec set_data_ (fun d => with_vbvel (np.map2d fill_to_nan (vbvel d)) d) then
       let* d := gets data in
       exec set_values "vb_vel" (Float2 (T (vbvel d))) then
       exec set_values "vb_corr" (Float2 (T (VBCorrelation d))) then
       exec set_values "vb_amp" (Float2 (T (VBIntensity d))) then
       l_log "Data from the Sentinel V fifth beam loaded."
     else ret tt) then
  exec
    (if negb (forallb all_zero (bt_vel d)) then
       exec set_values "bt_u" (Float1 (default [] (bt_vel d !! 0))) then
       exec set_values "bt_v" (Float1 (default [] (bt_vel d !! 1))) then
       exec set_values "bt_w" (Float1 (default [] (bt_vel d !! 2))) then
       exec set_values "bt_e" (Float1 (default [] (bt_vel d !! 3))) then
       exec set_values "bt_depth" (Float1 (List.map nanmean (bt_depth d))) then
       l_log "Bottom track data loaded"
     else
       exec set_ds (drop_vars ["bt_u"; "bt_v"; "bt_w"; "bt_e"; "bt_depth"]) then
       l_log "Bottom track values were all `0` and so they were dropped from the ouput.") then
  exec
    (if String.eqb original_coordsystem "beam" then
       (* [try: ... except AttributeError:] around the read of [data.pg] *)
       match pg d with
       | Some pg =>
           exec set_values "pg" (Float2 (T (np.map2d mean pg))) then
           l_log "Percent good was computed by averaging each beam PercentGood. The raw data were in beam coordinate."
       | None => l_log "WARNING: Percent good was not retrieve from the dataset."
       end
     else set_values "pg" (Float2 (T (pg4 d)))) then
  exec set_values "corr1" (Float2 (T (cor1 d))) then
  exec set_values "amp1" (Float2 (T (amp1 d))) then
  exec set_values "corr2" (Float2 (T (cor2 d))) then
  exec set_values "amp2" (Float2 (T (amp2 d))) then
  exec set_values "corr3" (Float2 (T (cor3 d))) then
  exec set_values "amp3" (Float2 (T (amp3 d))) then
  exec set_values "corr4" (Float2 (T (cor4 d))) then
  set_values "amp4" (Float2 (T (amp4 d))).

(** Loading depth data *)
Definition load_depth_data (XducerDepth_ : option float) : M State unit :=
  let* d := gets data in
  let* XducerDepth_ :=
    if negb (String.eqb (sonar_model d) "os") then
      exec set_values "xducer_depth" (Float1 (XducerDepth d)) then
      match XducerDepth_ with
      | Some x => ret x
      | None => raise (UnboundLocalError "XducerDepth")
      end
    else
      exec set_ds (drop_vars ["xducer_depth"]) then
      match XducerDepth d with
      | x :: _ => ret x
      | [] => raise (IndexError "index 0 is out of bounds for axis 0 with size 0")
      end in
  set_ds (set_attr "_vartmp_XducerDepth" (ANum XducerDepth_)).

(** Loading the naviagtion data *)
Definition load_navigation_data : M State unit :=
  let* d := gets data in
  let bam4 := List.map (fun x => (x * 180 / 2147483648)%float) in
  match rawnav d with
  | Some (Lon1_BAM4, Lat1_BAM4) =>
      exec set_values "lon" (Float1 (bam4 Lon1_BAM4)) then
      exec set_values "lat" (Float1 (bam4 Lat1_BAM4)) then
      l_log " Navigation (GPS) data loaded."
  | None => set_ds (drop_vars ["lon"; "lat"])
  end.

(** Quick checkup and loading of other variables *)
Definition load_other_variables (bad_time : bool) (time_string : list string)
  : M State unit :=
  let* d := gets data in
  exec
    (if negb (String.eqb (sonar_model d) "os") then
       exec set_values "pres"
              (Float1 (List.map (fun x => (x / 1000)%float) (VL_Pressure d))) then
       exec l_log "Pressure data unavailable" then
       set_ds (drop_vars ["pres"])
     else set_ds (drop_vars ["pres"])) then
  exec when (all_zero (heading d) || not_varying (heading d))
            (l_log "WARNING: Heading data are either all 0, or not variying.") then
  exec when (all_zero (roll d) || not_varying (roll d))
            (l_log "WARNING: Roll data are either all 0, or not variying.") then
  exec when (all_zero (pitch d) || not_varying (pitch d))
            (l_log "WARNING: Pitch data are either all 0, or not variying.") then
  exec when (all_zero (temperature d) || not_varying (temperature d))
            (l_log "WARNING: Temperature data are either all 0, or not variying.") then
  exec set_values "heading" (Float1 (heading d)) then
  exec set_values "roll_" (Float1 (roll d)) then
  exec set_values "pitch" (Float1 (pitch d)) then
  exec set_values "temp" (Float1 (temperature d)) then
  exec set_values "time_string" (Str1 time_string) then
  when bad_time (set_ds (assign "dday" ["T"] (Float1 (dday d)))).

(** Attributes, the closing log line and the logbook. [ds.sortby("depth")]
    before them returns a sorted copy that is dropped. *)
Definition set_attributes (orientation : string) : M State unit :=
  let* d := gets data in
  exec set_ds (set_attr "coordsystem" (AStr (trans_coordsystem d))) then
  exec set_ds (set_attr "beam_angle" (ANum (sysconfig_angle d))) then
  exec set_ds (set_attr "ping_frequency" (ANum (sysconfig_kHz d * 1000)%float)) then
  exec set_ds (set_attr "bin_size" (ANum (CellSize d))) then
  exec set_ds (set_attr "orientation" (AStr orientation)) then
  exec set_ds (set_attr "instrument_serial" (AStr (FL_Inst_SN d))) then
  let* lg := gets l in
  exec l_log ("File(s) loaded with " +:+ pretty (w_count lg) +:+ " warnings") then
  let* lg := gets l in
  set_ds (set_attr "_vartmp_logbook" (AStr (logbook lg))).

(** [files_msg] is the text of the first log line, built from [filenames]
    with [pathlib]; [raw] and [fl] are what [Multiread(...).read()] and
    [read_fixed_leader] return for these files. *)
Definition load_rdi_binary (files_msg : string) (raw : Bunch) (fl : FixedLeader)
    (sonar : string) (yearbase : Z) (orientation : string)
    (sensor_depth : option float) : M State (Dataset * Bunch * FixedLeader) :=
  exec modify (fun st => mkState (init "") (stdout st) (data st) (ds st)) then
  exec call_l (section "Loading RDI" true) then
  exec l_log files_msg then
  exec when (String.eqb sonar "sv")
         (call_l (log (MList
            [MStr "WARNING: (from pycurrents) The SV support is under development.  Missing features:";
             MStr "        - The 0x7000-0x7004 IDs are not being parsed and stored.";
             MStr "        - The `Fixed Leader` can change within a file";
             MStr "        - See pycurrents.adcp.rdiraw module for for information"]) false)) then
  exec set_data_ (fun _ => raw) then
  let* '(bad_time, (time, time_string)) := convert_dday yearbase in
  let* XducerDepth_ := depth_below_surface sensor_depth in
  let* d := gets data in
  exec set_ds (fun _ => init_dataset time (dep d) (sonar_model d)) then
  let* original_coordsystem := coordinates_system orientation in
  exec load_transducer_data original_coordsystem then
  exec load_depth_data XducerDepth_ then
  exec load_navigation_data then
  exec load_other_variables bad_time time_string then
  exec set_attributes orientation then
  let* st := get in
  ret (ds st, data st, fl).

(** *** [magnetic_to_true] *)

(** [np.radians], [np.cos], [np.sin], and [np.dot] of the 2 x 2 rotation
    with the (2, n) array [[dataset.lon, dataset.lat]] *)
Variable radians : float -> float.
Variable cos : float -> float.
Variable sin : float -> float.
Variable dot : grid float -> grid float -> grid float.

Definition R (angle : float) : grid float :=
  [[cos angle; (- sin angle)%float]; [sin angle; cos angle]].

(** [np.split(a, 2)]: the two halves of [a] along its first axis, each with
    the number of axes of [a]. *)
Definition split2 (a : grid float) : exn + grid float * grid float :=
  if (length a mod 2 =? 0)%nat
  then inr (take (length a / 2) a, drop (length a / 2) a)
  else inl (ValueError "array split does not result in an equal division").

(** [a.shape]; a list of rows gives the second size by its first row. *)
Definition shape (a : ndarray) : list nat :=
  match a with
  | Float2 g => [length g; length (default [] (head g))]
  | Int2 g => [length g; length (default [] (head g))]
  | Float1 x => [length x]
  | Str1 x => [length x]
  end.

(** [dataset.name] read as an array over time *)
Definition getattr1 (name : string) : M State (list float) :=
  fun st => match variables (ds st) !! name with
            | Some v =>
                match xr.data v with
                | Float1 a => (inr a, st)
                | _ => (inl (OutsideModel "a (time,) array of floats is expected"), st)
                end
            | None =>
                (inl (AttributeError ("'Dataset' object has no attribute '" +:+ name +:+ "'")), st)
            end.

(** [dataset.name.values = a]: xarray refuses a replacement that has not the
    shape of the variable. *)
Definition setattr_values (name : string) (a : ndarray) : M State unit :=
  fun st => match variables (ds st) !! name with
            | Some v =>
                if bool_decide (shape a = shape (xr.data v)) then
                  (inr tt, mkState (l st) (stdout st) (data st) (set_data name a (ds st)))
                else
                  (inl (ValueError "replacement data must match the Variable's shape"), st)
            | None =>
                (inl (AttributeError ("'Dataset' object has no attribute '" +:+ name +:+ "'")), st)
            end.

(** The dataset is the [ds] of the state. *)
Definition magnetic_to_true : M State unit :=
  let* dataset := gets ds in
  let* declination :=
    match ds_attrs dataset !! "magnetic_declination" with
    | Some (ANum x) => ret x
    | Some _ => raise (TypeError "ufunc 'radians' not supported for the input types")
    | None => raise (KeyError "magnetic_declination")
    end in
  let angle_rad := (- radians declination)%float in
  let* lon := getattr1 "lon" in
  let* lat := getattr1 "lat" in
  match split2 (dot (R angle_rad) [lon; lat]) with
  | inl e => raise e
  | inr (east, north) =>
      exec setattr_values "lon" (Float2 east) then
      setattr_values "lat" (Float2 north)
  end.

End Functions.

End loader.

(** * Statements

    Properties the theorems below are stated with. *)

(** What a four-beam test says of one cell: its mask is [true] there
    exactly when each of the four values is strictly below the threshold. *)
Definition all_four_rule (threshold : float) (a1 a2 a3 a4 : grid float)
    (flag : grid bool) : Prop :=
  forall i j x1 x2 x3 x4,
    cell a1 i j = Some x1 -> cell a2 i j = Some x2 ->
    cell a3 i j = Some x3 -> cell a4 i j = Some x4 ->
    exists failed,
      cell flag i j = Some failed
      /\ (failed = true <->
          (x1 <? threshold)%float = true /\ (x2 <? threshold)%float = true
          /\ (x3 <? threshold)%float = true /\ (x4 <? threshold)%float = true).

(** The three components of one cell before ([x], [y], [z]) and after
    ([x'], [y'], [z']) [set_implausible_vel_to_nan]: all three were voided,
    or all three were kept and are finite and, in absolute value, strictly
    below the threshold. *)
Definition clipped (thres x y z x' y' z' : float) : Prop :=
  (is_nan x' = true /\ is_nan y' = true /\ is_nan z' = true)
  \/ (x' = x /\ y' = y /\ z' = z
      /\ is_finite x = true /\ is_finite y = true /\ is_finite z = true
      /\ (abs x <? thres)%float = true /\ (abs y <? thres)%float = true
      /\ (abs z <? thres)%float = true).

(** An observation of the dataset of a state of [quality_control]. *)
Definition on_dataset {X} (F : xr.Dataset -> X) : quality_control.State -> X :=
  fun st => F (quality_control.dataset st).

(** The values of the variable [n]. *)
Definition values_of (n : string) (ds : xr.Dataset) : option xr.ndarray :=
  xr.data <$> xr.variables ds !! n.

(** The coordinates. *)
Definition axes (ds : xr.Dataset) : list float * list Z := (xr.depth ds, xr.time ds).

(** The grid [g] has a value at every cell of [nd] depth bins and [nt] time
    samples. *)
Definition covers {A} (nd nt : nat) (g : grid A) : Prop :=
  forall i j, (i < nd)%nat -> (j < nt)%nat -> is_Some (cell g i j).

(** The velocities and the coordinates of the dataset of a state. *)
Definition velocities (st : quality_control.State) :=
  (on_dataset (values_of "u") st,
   (on_dataset (values_of "v") st,
    (on_dataset (values_of "w") st, on_dataset axes st))).

(** From every state that satisfies [P], [m] returns, in a state that
    satisfies [Q]. *)
Definition returns {St A} (P : St -> Prop) (m : M St A) (Q : St -> Prop) : Prop :=
  forall s, P s -> exists a s', m s = (inr a, s') /\ Q s'.

(** From every state that satisfies [P], [m] raises an exception that
    satisfies [E]. *)
Definition raises {St A} (P : St -> Prop) (m : M St A) (E : exn -> Prop) : Prop :=
  forall s, P s -> exists e s', m s = (inl e, s') /\ E e.

(** The exceptions [coordsystem2earth] raises on data that are not in beam
    coordinates. *)
Definition slipped (e : exn) : Prop :=
  e = AttributeError "coordsystem" \/ e = UnboundLocalError "bt_xyze".

(** What the load keeps from the moment the dataset is there: the raw
    fractional days and the time coordinate. *)
Definition kept (s : loader.State) : list float * list Z :=
  (loader.dday (loader.data s), xr.time (loader.ds s)).

(** The variables and the time coordinate of the dataset being loaded. *)
Definition loaded (s : loader.State) : gmap string xr.DataArray * list Z :=
  (xr.variables (loader.ds s), xr.time (loader.ds s)).

(** The warning of the substitution, as the two adjacent f-strings of the
    source make it: one string. *)
Definition substitution_warning (yearbase : Z) : string :=
  "WARNING: The `dday` vector either contains negative values or is not monotonically increasing."
  +:+ "WARNING: Time was replaced by a default datetime vector: 1 second timestep since "
  +:+ pretty yearbase.

(** * A small dataset

    Two depth bins and two time samples, with stand-ins for the functions of
    other packages, to run the functions on. *)

Module sample.
Import xr.

Definition timestamp : string := "2021-03-01 12h00:00".
Definition today : string := "2021-03-01".
Definition str_num (x : float) : string := "#".
Definition circmean (x : list float) : float := 0%float.
Definition circular_distance (x : list float) (mean : float) : list float :=
  List.map (fun a => PrimFloat.abs (a - mean)) x.
(** 15/16, for the cosine of a beam angle of 20 degrees *)
Definition cos_radians (x : float) : float := 0.9375%float.
Definition uninit (test : string) (i j : nat) : bool := false.

Definition var2 (a : grid float) : DataArray :=
  mkDataArray ["depth"; "time"] (Float2 a) ∅.
Definition var1 (a : list float) : DataArray :=
  mkDataArray ["time"] (Float1 a) ∅.

Definition u : grid float := [[1; 2]; [0.5; 20]]%float.
Definition v : grid float := [[1; 2]; [0.5; 0.25]]%float.
Definition w : grid float := [[1; PrimFloat.nan]; [0.5; 0.25]]%float.
Definition strong : grid float := [[100; 100]; [100; 100]]%float.
Definition weak_at_1_0 : grid float := [[100; 100]; [10; 100]]%float.

Definition vars : list (string * DataArray) :=
  [ ("u", var2 u); ("v", var2 v); ("w", var2 w); ("e", var2 v);
    ("pg", var2 strong);
    ("amp1", var2 strong); ("amp2", var2 strong);
    ("amp3", var2 strong); ("amp4", var2 strong);
    ("corr1", var2 weak_at_1_0); ("corr2", var2 weak_at_1_0);
    ("corr3", var2 weak_at_1_0); ("corr4", var2 weak_at_1_0);
    ("roll_", var1 [0; 0]%float); ("pitch", var1 [0; 0]%float);
    ("xducer_depth", var1 [0; 0]%float) ].

Definition ds : Dataset :=
  {| depth := [90; 95]%float; time := [0; 1]%Z;
     variables := list_to_map vars;
     ds_attrs := <["logbook" := AStr ""]>
                   (<["beam_angle" := ANum 20]>
                      (<["orientation" := AStr "down"]> ∅)) |}.

(** The same without [amp1] *)
Definition ds_without_amp1 : Dataset :=
  {| depth := depth ds; time := time ds;
     variables := delete "amp1" (variables ds);
     ds_attrs := ds_attrs ds |}.

(** The same with the bottom track of a moving platform *)
Definition ds_with_bt : Dataset :=
  {| depth := depth ds; time := time ds;
     variables := <["bt_u" := var1 [0.5; 0.5]%float]>
                    (<["bt_v" := var1 [0.25; 0.25]%float]>
                       (<["bt_w" := var1 [0; 0]%float]> (variables ds)));
     ds_attrs := ds_attrs ds |}.

(** The same with a fifth beam whose amplitude is weak in one cell *)
Definition ds_with_vb : Dataset :=
  {| depth := depth ds; time := time ds;
     variables := <["vb_vel" := var2 v]>
                    (<["vb_amp" := var2 weak_at_1_0]>
                       (<["vb_corr" := var2 strong]> (variables ds)));
     ds_attrs := ds_attrs ds |}.

Definition state (d : Dataset) : quality_control.State :=
  quality_control.mkState d quality_control.l_at_import [].

(** [adcp_quality_control(dataset, sidelobes_correction=..., bottom_depth=...)]
    with the default thresholds *)
Definition quality_control_run (d : Dataset) (sidelobes_correction : bool)
    (bottom_depth : option float) :=
  quality_control.adcp_quality_control timestamp today str_num circmean
    circular_distance cos_radians uninit
    (Some 30%float) (Some 64%float) (Some 90%float) (Some 20%float) (Some 20%float)
    (Some 5%float) (Some 5%float) (Some 5%float)
    None sidelobes_correction bottom_depth (state d).

End sample.

(** * A small raw bundle

    Two pings of a [wh] instrument with two bins, whose fractional days go
    backwards, with stand-ins for pandas, numpy and pycurrents. *)

Module sample_load.
Import xr loader.

Definition timestamp : string := "2021-03-01 12h00:00".
Definition str_num (x : float) : string := "#".

(** Seconds from the epoch to the first of January of [year]. *)
Definition year_start (year : Z) : Z :=
  (365 * (year - 1970) + (year - 1969) / 4 - (year - 1901) / 100
   + (year - 1601) / 400) * 86400.

(** The integer part of a float that is not negative. *)
Definition whole (x : float) : Z :=
  match Prim2SF x with
  | S754_finite false m e =>
      if (0 <=? e)%Z then Z.pos m * 2 ^ e else Z.pos m / 2 ^ (- e)
  | _ => 0
  end.

Definition to_datetime64 (yearbase : Z) (d : float) : Z :=
  year_start yearbase + whole (d * 86400)%float.
Definition datetime_str (t : Z) : string := pretty t.
Definition median (x : list float) : float := default 0%float (head x).
Definition nanmean (x : list float) : float := default 0%float (head x).
Definition mean (x : list float) : float := default 0%float (head x).
Definition beam_to_xyz (angle : float) (geometry : string) (a : list (grid float))
  : list (grid float) := a.
Definition beam_to_xyz_bt (angle : float) (geometry : string) (a : grid float)
  : grid float := a.
Definition rdi_xyz_enu (a : list (grid float)) (heading pitch roll : list float)
    (orientation : string) : list (grid float) := a.
Definition rdi_xyz_enu_bt (a : grid float) (heading pitch roll : list float)
    (orientation : string) : grid float := a.
Definition round3 (x : float) : float := x.

Definition square : grid float := [[1; 2]; [3; 4]]%float.

(** The bundle, reporting the coordinate system [coordsystem]. *)
Definition raw (coordsystem : string) : Bunch :=
  {| dday := [1; 0.5]%float;
     dep := [4; 8]%float;
     sonar_model := "wh";
     XducerDepth := [10; 10]%float;
     trans_coordsystem := coordsystem;
     sysconfig_convex := true;
     sysconfig_angle := 20;
     sysconfig_kHz := 300;
     sysconfig_coordsystem := Some coordsystem;
     vel := [square; square; [[1; 2]; [3; -32768]]%float; square];
     bt_vel := [[0; 0]; [0; 0]; [0; 0]; [0; 0]]%float;
     bt_depth := [[0; 0; 0; 0]; [0; 0; 0; 0]]%float;
     vbvel := []; VBCorrelation := []; VBIntensity := [];
     pg := None; pg4 := square;
     cor1 := square; cor2 := square; cor3 := square; cor4 := square;
     amp1 := square; amp2 := square; amp3 := square; amp4 := square;
     rawnav := None;
     VL_Pressure := [0; 0]%float;
     heading := [1; 2]%float; roll := [1; 2]%float; pitch := [1; 2]%float;
     temperature := [4; 5]%float;
     CellSize := 4;
     FL_Inst_SN := "1234" |}.

Definition nothing : Dataset :=
  {| depth := []; time := []; variables := ∅; ds_attrs := ∅ |}.

Definition start (coordsystem : string) : State :=
  mkState (init "") [] (raw coordsystem) nothing.

(** [load_rdi_binary("a.000", sonar="wh", yearbase=2020, orientation="down")] *)
Definition load (coordsystem : string) :=
  load_rdi_binary timestamp str_num to_datetime64 datetime_str median nanmean mean
    beam_to_xyz beam_to_xyz_bt rdi_xyz_enu rdi_xyz_enu_bt round3 unit
    "File: a.000" (raw coordsystem) tt "wh" 2020 "down" None (start coordsystem).

(** What the load returned, when it did. *)
Definition returned (coordsystem : string) : Dataset * Bunch * unit :=
  match (load coordsystem).1 with
  | inr r => r
  | inl _ => (nothing, raw coordsystem, tt)
  end.

End sample_load.

(** * Statements on the loggers and the file names *)

(** The strings of a message, left to right. *)
Fixpoint leaves (msg : Msg) : list string :=
  match msg with
  | MStr s => [s]
  | MList ms => concat (List.map leaves ms)
  end.

(** The lines of a logbook, one after the other. *)
Definition lines (ls : list string) : string :=
  foldr (fun line rest => line +:+ rest) "" ls.

(** The line [utils.Logger] and [loader.Logger] append for the string [s]. *)
Definition entry (_timestamp : string) (t : bool) (s : string) : string :=
  " " +:+ (if t then _timestamp +:+ " " +:+ s else s) +:+ nl.

(** What [loader.Logger.log] prints for the string [s]. *)
Definition echoed (s : string) : string :=
  if str_in "WARNING:" s then "WARNING:" +:+ loader.from8 s else s.


(** * Statements on the loader *)

(** An observation of the dataset being loaded. *)
Definition on_ds {X} (G : xr.Dataset -> X) : loader.State -> X :=
  fun s => G (loader.ds s).

(** An observation of the raw bundle. *)
Definition on_data {X} (G : loader.Bunch -> X) : loader.State -> X :=
  fun s => G (loader.data s).

(** The variable [k] of a dataset, if it is there. *)
Definition var (k : string) (d : xr.Dataset) : option xr.DataArray :=
  xr.variables d !! k.

(** The fields of the raw bundle that the load reads and never writes. *)
Definition header (d : loader.Bunch) :=
  (loader.dday d, loader.dep d, loader.sonar_model d, loader.XducerDepth d,
   (loader.sysconfig_angle d, loader.sysconfig_kHz d, loader.CellSize d,
    loader.FL_Inst_SN d),
   (loader.rawnav d, loader.heading d, loader.roll d, loader.pitch d,
    loader.temperature d)).

(** The names under which each stage of the load writes or drops. *)
Definition transducer_names : list string :=
  ["u"; "v"; "w"; "e"; "vb_vel"; "vb_corr"; "vb_amp";
   "bt_u"; "bt_v"; "bt_w"; "bt_e"; "bt_depth"; "pg";
   "corr1"; "amp1"; "corr2"; "amp2"; "corr3"; "amp3"; "corr4"; "amp4"].

Definition other_names : list string :=
  ["pres"; "heading"; "roll_"; "pitch"; "temp"; "time_string"; "dday"].

(** The variables [K] are all in the dataset. *)
Definition present (K : list string) (d : xr.Dataset) : Prop :=
  Forall (fun k => is_Some (var k d)) K.

(** The variables of the fifth beam. *)
Definition fifth_beam_names : list string := ["vb_vel"; "vb_corr"; "vb_amp"].

(** While [raw] is being loaded: the bundle has the header of [raw], and
    the dataset has the variables [K] and, for the sonar [sv], those of the
    fifth beam. *)
Definition loading (raw : loader.Bunch) (K : list string) (s : loader.State) : Prop :=
  header (loader.data s) = header raw
  /\ present K (loader.ds s)
  /\ (loader.sonar_model raw = "sv" -> present fifth_beam_names (loader.ds s)).

(** The variables [init_dataset] makes for every sonar, and what is left of
    them to write after each stage. *)
Definition init_names : list string :=
  ["u"; "v"; "w"; "e"; "pg"; "amp1"; "amp2"; "amp3"; "amp4";
   "corr1"; "corr2"; "corr3"; "corr4"; "lon"; "lat"; "roll_"; "pitch";
   "heading"; "bt_u"; "bt_v"; "bt_w"; "bt_e"; "bt_depth"; "xducer_depth";
   "temp"; "pres"; "time_string"].

Definition after_bottom_track : list string :=
  ["pg"; "amp1"; "amp2"; "amp3"; "amp4"; "corr1"; "corr2"; "corr3"; "corr4";
   "lon"; "lat"; "roll_"; "pitch"; "heading"; "xducer_depth";
   "temp"; "pres"; "time_string"].

Definition after_transducer : list string :=
  ["lon"; "lat"; "roll_"; "pitch"; "heading"; "xducer_depth";
   "temp"; "pres"; "time_string"].

Definition after_depth : list string :=
  ["lon"; "lat"; "roll_"; "pitch"; "heading"; "temp"; "pres"; "time_string"].

Definition after_navigation : list string :=
  ["roll_"; "pitch"; "heading"; "temp"; "pres"; "time_string"].

(** [f] takes no variable out of a dataset. *)
Definition var_domain_kept (f : xr.Dataset -> xr.Dataset) (d : xr.Dataset) : Prop :=
  forall k, is_Some (var k d) -> is_Some (var k (f d)).

(** * Statements on the quality control *)

(** Every flag of the grid is one of [S]. *)
Definition flagged_in (S : list Z) (g : grid Z) : Prop :=
  forall i j f, cell g i j = Some f -> f ∈ S.

(** The attribute [k] of a dataset, if it is there. *)
Definition attribute (k : string) (d : xr.Dataset) : option xr.attr :=
  xr.ds_attrs d !! k.


(** The variables [adcp_quality_control] rewrites: the velocities, and the
    two that the correction for the motion of the ship assigns. *)
Definition rewritten_names : list string := ["u"; "v"; "w"; "uship"; "vship"].

(** The flag of a temperature, and of a pressure, as the two range tests
    give it: 4 above the maximum or below the minimum, 1 otherwise. *)
Definition range_flag (lo hi x : float) : float :=
  if ((hi <? x) || (x <? lo))%float then 4%float else 1%float.

(** The names a loaded dataset can have a variable under: those
    [init_dataset] declares, with the fifth beam, and [dday]. *)
Definition loadable_names : list string :=
  ["u"; "v"; "w"; "e"; "pg"; "amp1"; "amp2"; "amp3"; "amp4";
   "corr1"; "corr2"; "corr3"; "corr4"; "lon"; "lat"; "roll_"; "pitch";
   "heading"; "bt_u"; "bt_v"; "bt_w"; "bt_e"; "bt_depth"; "xducer_depth";
   "temp"; "pres"; "time_string"; "vb_vel"; "vb_amp"; "vb_corr"; "dday"].

(** * More small cases

    The dataset and the bundle above, with the variables the range tests
    and the correction for the ship read, a bundle whose fractional days
    are in order, and a dataset of positions. *)

Module sample_cases.
Import xr.

(** Fractional days in order: the second ping is half a day after the
    first. *)
Definition in_order : loader.Bunch :=
  let r := sample_load.raw "earth" in
  loader.mkBunch [0.5; 1]%float (loader.dep r) (loader.sonar_model r)
    (loader.XducerDepth r) (loader.trans_coordsystem r)
    (loader.sysconfig_convex r) (loader.sysconfig_angle r) (loader.sysconfig_kHz r)
    (loader.sysconfig_coordsystem r)
    (loader.vel r) (loader.bt_vel r) (loader.bt_depth r) (loader.vbvel r)
    (loader.VBCorrelation r) (loader.VBIntensity r)
    (loader.pg r) (loader.pg4 r) (loader.cor1 r) (loader.cor2 r) (loader.cor3 r)
    (loader.cor4 r) (loader.amp1 r) (loader.amp2 r) (loader.amp3 r) (loader.amp4 r)
    (loader.rawnav r) (loader.VL_Pressure r)
    (loader.heading r) (loader.roll r) (loader.pitch r) (loader.temperature r)
    (loader.CellSize r) (loader.FL_Inst_SN r).

(** [load_rdi_binary("a.000", sonar="wh", yearbase=2020, orientation="down")]
    on the bundle [raw] *)
Definition load_bundle (raw : loader.Bunch) :=
  loader.load_rdi_binary sample_load.timestamp sample_load.str_num
    sample_load.to_datetime64 sample_load.datetime_str sample_load.median
    sample_load.nanmean sample_load.mean sample_load.beam_to_xyz
    sample_load.beam_to_xyz_bt sample_load.rdi_xyz_enu sample_load.rdi_xyz_enu_bt
    sample_load.round3 unit
    "File: a.000" raw tt "wh" 2020 "down" None
    (loader.mkState (loader.init "") [] raw sample_load.nothing).

(** The dataset it returned, when it did. *)
Definition loaded_dataset (raw : loader.Bunch) : Dataset :=
  match (load_bundle raw).1 with
  | inr r => r.1.1
  | inl _ => sample_load.nothing
  end.

(** The dataset of the sample, with a temperature above the range at the
    second time and a pressure below the range at the second time. *)
Definition ds_with_sensors : Dataset :=
  {| depth := depth sample.ds; time := time sample.ds;
     variables := <["temperature" := sample.var1 [10; 40]%float]>
                    (<["pres" := sample.var1 [5; -1]%float]> (variables sample.ds));
     ds_attrs := ds_attrs sample.ds |}.

(** The same with the velocity of the ship and a longitude that is missing
    at the second time. *)
Definition ds_with_ship : Dataset :=
  {| depth := depth sample.ds; time := time sample.ds;
     variables := <["u_ship" := sample.var1 [0.5; 0.5]%float]>
                    (<["v_ship" := sample.var1 [0.25; 0.25]%float]>
                       (<["lon" := sample.var1 [-60; PrimFloat.nan]%float]>
                          (variables sample.ds)));
     ds_attrs := ds_attrs sample.ds |}.

(** The same without the attribute [logbook]. *)
Definition ds_without_logbook : Dataset :=
  {| depth := depth sample.ds; time := time sample.ds;
     variables := variables sample.ds;
     ds_attrs := delete "logbook" (ds_attrs sample.ds) |}.

(** [adcp_quality_control(dataset, motion_correction_mode=mode)] with the
    default thresholds *)
Definition quality_control_mode (d : Dataset) (mode : option string) :=
  quality_control.adcp_quality_control sample.timestamp sample.today sample.str_num
    sample.circmean sample.circular_distance sample.cos_radians sample.uninit
    (Some 30%float) (Some 64%float) (Some 90%float) (Some 20%float) (Some 20%float)
    (Some 5%float) (Some 5%float) (Some 5%float)
    mode false None (sample.state d).

(** Stand-ins for [np.radians] (a degree as 1/64), [np.cos] and [np.sin]
    (for small angles),
    and [np.dot] of a matrix of two columns with an array of two rows. *)
Definition radians (x : float) : float := (x * 0.015625)%float.
Definition cos (x : float) : float := (1 - x * x / 2)%float.
Definition sin (x : float) : float := x.
Definition dot (a b : grid float) : grid float :=
  List.map (fun row =>
              zip_with (fun x y => (default 0 (row !! 0%nat) * x
                                    + default 0 (row !! 1%nat) * y)%float)
                       (default [] (b !! 0%nat)) (default [] (b !! 1%nat))) a.

(** Two positions and a declination of ten degrees. *)
Definition positions : loader.State :=
  loader.mkState (loader.init "") [] (sample_load.raw "earth")
    {| depth := []; time := [0; 1]%Z;
       variables := <["lon" := sample.var1 [1; 2]%float]>
                      (<["lat" := sample.var1 [3; 4]%float]> ∅);
       ds_attrs := <["magnetic_declination" := ANum 10]> ∅ |}.

End sample_cases.

(** * Facts *)

(** ** Binary64 comparisons *)

Lemma SFcompare_refl_finite s m e :
  SFcompare (S754_finite s m e) (S754_finite s m e) = Some Eq.
Proof.
  simpl. rewrite Z.compare_refl.
  change (PosDef.Pos.compare_cont Eq m m) with (Pos.compare m m).
  rewrite Pos.compare_refl. by destruct s.
Qed.

Lemma is_finite_SF x :
  is_finite x = match Prim2SF x with
                | S754_zero _ | S754_finite _ _ _ => true
                | _ => false
                end.
Proof.
  unfold is_finite, is_nan, is_infinity.
  rewrite !FloatAxioms.eqb_spec, FloatAxioms.abs_spec.
  change (Prim2SF infinity) with (S754_infinity false).
  destruct (Prim2SF x) as [s|s| |s m e]; try reflexivity.
  - by destruct s.
  - unfold SFeqb. rewrite SFcompare_refl_finite. reflexivity.
Qed.

Lemma ltb_finite_between lo x hi :
  (lo <? x)%float = true -> (x <? hi)%float = true -> is_finite x = true.
Proof.
  rewrite !FloatAxioms.ltb_spec, is_finite_SF. unfold SFltb.
  destruct (Prim2SF x) as [s|s| |s m e]; try reflexivity.
  - destruct (Prim2SF lo) as [s1|s1| |s1 m1 e1], (Prim2SF hi) as [s2|s2| |s2 m2 e2];
      simpl; destruct s; try destruct s1; try destruct s2; simpl; congruence.
  - simpl. destruct (Prim2SF lo); discriminate.
Qed.

Lemma ltb_abs t x :
  (- t <? x)%float = true -> (x <? t)%float = true -> (abs x <? t)%float = true.
Proof.
  rewrite !FloatAxioms.ltb_spec, FloatAxioms.opp_spec, FloatAxioms.abs_spec. unfold SFltb.
  destruct (Prim2SF x) as [s|s| |s m e], (Prim2SF t) as [s2|s2| |s2 m2 e2];
    simpl; try congruence; try (destruct s; simpl; congruence);
    try (destruct s, s2; simpl; congruence).
  destruct s, s2; simpl; try congruence.
  rewrite (Z.compare_antisym e e2).
  change (PosDef.Pos.compare_cont Eq m2 m) with (Pos.compare m2 m).
  change (PosDef.Pos.compare_cont Eq m m2) with (Pos.compare m m2).
  rewrite (Pos.compare_antisym m m2).
  destruct (e ?= e2)%Z; simpl; try congruence.
  destruct (m ?= m2)%positive; simpl; congruence.
Qed.

Lemma ltb_nan_r x : (x <? nan)%float = false.
Proof.
  rewrite FloatAxioms.ltb_spec. change (Prim2SF nan) with S754_nan.
  unfold SFltb. by destruct (Prim2SF x).
Qed.

Lemma sub_not_finite x y : is_finite x = false -> is_finite (x - y) = false.
Proof.
  rewrite !is_finite_SF, FloatAxioms.sub_spec. unfold SF64sub.
  destruct (Prim2SF x) as [s|s| |s m e]; try discriminate; intros _;
    destruct (Prim2SF y) as [s2|s2| |s2 m2 e2]; simpl; try reflexivity;
    destruct s, s2; reflexivity.
Qed.

(** ** Cells of arrays *)

Lemma cell_map2d {A B} (f : A -> B) (a : grid A) i j :
  cell (np.map2d f a) i j = f <$> cell a i j.
Proof.
  unfold cell, np.map2d. rewrite !list_lookup_fmap.
  destruct (a !! i) as [row|]; simpl; [|done].
  by rewrite list_lookup_fmap.
Qed.

Lemma cell_zip2d {A B C} (f : A -> B -> C) (a : grid A) (b : grid B) i j :
  cell (np.zip2d f a b) i j =
  match cell a i j, cell b i j with
  | Some x, Some y => Some (f x y)
  | _, _ => None
  end.
Proof.
  unfold cell, np.zip2d. rewrite lookup_zip_with.
  destruct (a !! i) as [r|]; simpl; [|done].
  destruct (b !! i) as [q|]; simpl.
  - rewrite lookup_zip_with. destruct (r !! j); simpl; [|done]. by destruct (q !! j).
  - by destruct (r !! j).
Qed.

Lemma cell_full {A} (n m : nat) (v : A) i j :
  (i < n)%nat -> (j < m)%nat -> cell (np.full n m v) i j = Some v.
Proof.
  intros Hi Hj. unfold cell, np.full.
  rewrite lookup_replicate_2 by done. simpl. by rewrite lookup_replicate_2.
Qed.

Lemma lookup_putmask1 {A} (a : list A) (m : list bool) (v : A) j :
  np.putmask1 a m v !! j =
  match a !! j with
  | Some x => Some (match m !! j with Some true => v | _ => x end)
  | None => None
  end.
Proof.
  revert m j. induction a as [|x a IH]; intros [|b m] [|j]; simpl; try done.
  all: try by destruct b.
  all: try by destruct (a !! j).
  all: try apply IH.
Qed.

Lemma cell_putmask {A} (a : grid A) (m : grid bool) (v : A) i j :
  cell (np.putmask a m v) i j =
  match cell a i j with
  | Some x => Some (match cell m i j with Some true => v | _ => x end)
  | None => None
  end.
Proof.
  unfold cell. revert m i. induction a as [|r a IH]; intros [|q m] [|i]; simpl; try done.
  all: try by destruct (r !! j).
  all: try (by destruct (a !! i) as [r'|]; simpl; [destruct (r' !! j)|]).
  all: try (rewrite lookup_putmask1; by destruct (r !! j)).
  all: try apply IH.
Qed.

Lemma cell_tile {A} (a : list A) n i j :
  (i < n)%nat -> cell (np.tile a n) i j = a !! j.
Proof. intros Hi. unfold cell, np.tile. by rewrite lookup_replicate_2. Qed.

(** ** The state monad *)

Lemma bind_inr {St A B} (m : M St A) (k : A -> M St B) s b s' :
  bind m k s = (inr b, s') ->
  exists a s1, m s = (inr a, s1) /\ k a s1 = (inr b, s').
Proof.
  unfold bind. destruct (m s) as [[e|a] s1]; [discriminate|]. eauto.
Qed.

Lemma bind_ret_l {St A B} (m : M St A) (k : A -> M St B) s a s1 :
  m s = (inr a, s1) -> bind m k s = k a s1.
Proof. unfold bind. by intros ->. Qed.

Lemma bind_raise_l {St A B} (m : M St A) (k : A -> M St B) s e s1 :
  m s = (inl e, s1) -> bind m k s = (inl e, s1).
Proof. unfold bind. by intros ->. Qed.

Lemma preserves_ret {St A X} (f : St -> X) (a : A) : preserves f (ret a).
Proof. done. Qed.

Lemma preserves_raise {St A X} (f : St -> X) e : preserves f (@raise St A e).
Proof. done. Qed.

Lemma preserves_get {St X} (f : St -> X) : preserves f get.
Proof. done. Qed.

Lemma preserves_gets {St A X} (f : St -> X) (g : St -> A) : preserves f (gets g).
Proof. done. Qed.

Lemma preserves_modify {St X} (f : St -> X) (g : St -> St) :
  (forall s, f (g s) = f s) -> preserves f (modify g).
Proof. intros H s. apply H. Qed.

Lemma preserves_bind {St A B X} (f : St -> X) (m : M St A) (k : A -> M St B) :
  preserves f m -> (forall a, preserves f (k a)) -> preserves f (bind m k).
Proof.
  intros Hm Hk s. unfold bind. specialize (Hm s).
  destruct (m s) as [[e|a] s1]; simpl in *; [done|].
  by rewrite Hk.
Qed.

Lemma preserves_for_each {St A X} (f : St -> X) (xs : list A) (body : A -> M St unit) :
  (forall x, preserves f (body x)) -> preserves f (for_each xs body).
Proof.
  intros H. induction xs as [|x xs IH]; simpl.
  - apply preserves_ret.
  - apply preserves_bind; auto.
Qed.

Lemma preserves_when {St X} (f : St -> X) (b : bool) (m : M St unit) :
  preserves f m -> preserves f (when b m).
Proof. intros H. destruct b; [done|apply preserves_ret]. Qed.

Lemma preserves_run {St A X} (f : St -> X) (m : M St A) s r s' :
  preserves f m -> m s = (r, s') -> f s' = f s.
Proof. intros H E. specialize (H s). by rewrite E in H. Qed.

(** ** [utils.Logger] *)

Section utils_facts.
Variable _timestamp : string.

Lemma each_nil {L} (f : Msg -> L -> L * list string) self :
  each f [] self = (self, []).
Proof. done. Qed.

(** A string is logged by exactly one more line of the logbook, at every
    level. *)
Lemma log_str_logbook msg self :
  utils.logbook (utils.log _timestamp (MStr msg) false self).1
  = utils.logbook self +:+ " " +:+ msg +:+ nl.
Proof. done. Qed.

Lemma warning_str_logbook msg self :
  utils.logbook (utils.warning _timestamp (MStr msg) false self).1
  = utils.logbook self +:+ " " +:+ msg +:+ nl.
Proof. done. Qed.

Lemma section_logbook title self :
  utils.logbook (utils.section _timestamp title false self).1
  = utils.logbook self +:+ "[" +:+ title +:+ "]" +:+ "" +:+ nl.
Proof. done. Qed.

Lemma warning_str_counts msg t self :
  (utils.level self < 2)%Z ->
  utils.w_count (utils.warning _timestamp (MStr msg) t self).1
  = S (utils.w_count self).
Proof.
  intros H. simpl. by apply Z.ltb_lt in H as ->.
Qed.

End utils_facts.

(** C5: [Logger.warning] counts nothing at level 2: whatever the message and
    the counter, the warning counter is after the call what it was before,
    although the message did reach the logbook. The increment is under the
    [if self.level < 2:] that guards the printing. *)
Theorem warning_not_counted_at_level_2 :
  forall (_timestamp msg book : string) (t : bool) (n : nat),
    let self := utils.mkLogger book n 2 in
    let after := (utils.warning _timestamp (MStr msg) t self).1 in
    utils.w_count after = n
    /\ utils.logbook after
       = book +:+ " " +:+ (if t then _timestamp +:+ " " +:+ msg else msg) +:+ nl.
Proof. intros. split; reflexivity. Qed.

(** ** [quality_control]: reading and writing the dataset *)

Section quality_control_access.
Import xr quality_control.

Lemma holds_contains ds name a : holds ds name a -> contains ds name = true.
Proof.
  unfold holds, contains. intros H.
  destruct (variables ds !! name) eqn:E; [|discriminate].
  rewrite bool_decide_true; [done|eauto].
Qed.

Lemma float2_getitem name a st :
  holds (dataset st) name (Float2 a) -> float2 (getitem name) st = (inr a, st).
Proof.
  unfold holds, float2, bind, getitem. intros H.
  destruct (variables (dataset st) !! name) as [v|]; [|discriminate].
  simpl in H. injection H as ->. done.
Qed.

Lemma float2_getattr name a st :
  holds (dataset st) name (Float2 a) -> float2 (getattr name) st = (inr a, st).
Proof.
  unfold holds, float2, bind, getattr. intros H.
  destruct (variables (dataset st) !! name) as [v|]; [|discriminate].
  simpl in H. injection H as ->. done.
Qed.

Lemma float1_getitem name a st :
  holds (dataset st) name (Float1 a) -> float1 (getitem name) st = (inr a, st).
Proof.
  unfold holds, float1, bind, getitem. intros H.
  destruct (variables (dataset st) !! name) as [v|]; [|discriminate].
  simpl in H. injection H as ->. done.
Qed.

Lemma float1_getattr name a st :
  holds (dataset st) name (Float1 a) -> float1 (getattr name) st = (inr a, st).
Proof.
  unfold holds, float1, bind, getattr. intros H.
  destruct (variables (dataset st) !! name) as [v|]; [|discriminate].
  simpl in H. injection H as ->. done.
Qed.

Lemma update_run f st :
  update f st = (inr tt, mkState (f (dataset st)) (l st) (stdout st)).
Proof. done. Qed.

Lemma holds_set_data_eq ds name a b :
  holds ds name a -> holds (set_data name b ds) name b.
Proof.
  unfold holds, set_data. simpl. intros H. rewrite lookup_alter_eq.
  by destruct (variables ds !! name).
Qed.

Lemma holds_set_data_ne ds name name' a b :
  name <> name' -> holds ds name' a -> holds (set_data name b ds) name' a.
Proof.
  unfold holds, set_data. simpl. intros Hne H. by rewrite lookup_alter_ne.
Qed.

Lemma holds_inj ds name a b : holds ds name a -> holds ds name b -> a = b.
Proof. unfold holds. congruence. Qed.

End quality_control_access.

(** ** The per-beam tests *)

Section beam_tests.
Import xr quality_control.

Lemma cell_below4 threshold a1 a2 a3 a4 i j x1 x2 x3 x4 :
  cell a1 i j = Some x1 -> cell a2 i j = Some x2 ->
  cell a3 i j = Some x3 -> cell a4 i j = Some x4 ->
  cell (below4 threshold a1 a2 a3 a4) i j
  = Some (np.less x1 threshold && np.less x2 threshold
          && np.less x3 threshold && np.less x4 threshold).
Proof.
  intros H1 H2 H3 H4. unfold below4.
  rewrite !cell_zip2d, !cell_map2d, H1, H2, H3, H4. done.
Qed.

Lemma amplitude_test_runs threshold st a1 a2 a3 a4 :
  holds (dataset st) "amp1" (Float2 a1) -> holds (dataset st) "amp2" (Float2 a2) ->
  holds (dataset st) "amp3" (Float2 a3) -> holds (dataset st) "amp4" (Float2 a4) ->
  amplitude_test threshold st = (inr (below4 threshold a1 a2 a3 a4), st).
Proof.
  intros H1 H2 H3 H4. unfold amplitude_test.
  rewrite (bind_ret_l _ _ st (dataset st) st) by done.
  cbv beta. cbn [forallb].
  rewrite (holds_contains _ _ _ H1), (holds_contains _ _ _ H2),
    (holds_contains _ _ _ H3), (holds_contains _ _ _ H4). simpl.
  rewrite (bind_ret_l _ _ _ _ _ (float2_getattr _ _ _ H1)).
  rewrite (bind_ret_l _ _ _ _ _ (float2_getattr _ _ _ H2)).
  rewrite (bind_ret_l _ _ _ _ _ (float2_getattr _ _ _ H3)).
  rewrite (bind_ret_l _ _ _ _ _ (float2_getattr _ _ _ H4)). done.
Qed.

Lemma correlation_test_runs threshold st c1 c2 c3 c4 :
  holds (dataset st) "corr1" (Float2 c1) -> holds (dataset st) "corr2" (Float2 c2) ->
  holds (dataset st) "corr3" (Float2 c3) -> holds (dataset st) "corr4" (Float2 c4) ->
  correlation_test threshold st = (inr (below4 threshold c1 c2 c3 c4), st).
Proof.
  intros H1 H2 H3 H4. unfold correlation_test.
  rewrite (bind_ret_l _ _ st (dataset st) st) by done.
  cbv beta. cbn [forallb].
  rewrite (holds_contains _ _ _ H1), (holds_contains _ _ _ H2),
    (holds_contains _ _ _ H3), (holds_contains _ _ _ H4). simpl.
  rewrite (bind_ret_l _ _ _ _ _ (float2_getattr _ _ _ H1)).
  rewrite (bind_ret_l _ _ _ _ _ (float2_getattr _ _ _ H2)).
  rewrite (bind_ret_l _ _ _ _ _ (float2_getattr _ _ _ H3)).
  rewrite (bind_ret_l _ _ _ _ _ (float2_getattr _ _ _ H4)). done.
Qed.

Lemma below4_rule threshold a1 a2 a3 a4 :
  all_four_rule threshold a1 a2 a3 a4 (below4 threshold a1 a2 a3 a4).
Proof.
  intros i j x1 x2 x3 x4 H1 H2 H3 H4. eexists. split.
  - by apply cell_below4.
  - unfold np.less. rewrite !andb_true_iff. tauto.
Qed.

(** C6: on a dataset that has [amp1] .. [amp4], [amplitude_test] returns,
    leaves the state alone, and its mask is true at a cell exactly when all
    four amplitudes there are strictly below the threshold; the same holds
    of [correlation_test] on [corr1] .. [corr4]. A cell with one beam that is
    not below the threshold is therefore not marked. *)
Theorem amplitude_correlation_all_four_beams :
  forall (threshold : float) (st : State) (b1 b2 b3 b4 : grid float),
    (holds (dataset st) "amp1" (Float2 b1) -> holds (dataset st) "amp2" (Float2 b2) ->
     holds (dataset st) "amp3" (Float2 b3) -> holds (dataset st) "amp4" (Float2 b4) ->
     exists flag,
       amplitude_test threshold st = (inr flag, st)
       /\ all_four_rule threshold b1 b2 b3 b4 flag)
    /\
    (holds (dataset st) "corr1" (Float2 b1) -> holds (dataset st) "corr2" (Float2 b2) ->
     holds (dataset st) "corr3" (Float2 b3) -> holds (dataset st) "corr4" (Float2 b4) ->
     exists flag,
       correlation_test threshold st = (inr flag, st)
       /\ all_four_rule threshold b1 b2 b3 b4 flag).
Proof.
  intros threshold st b1 b2 b3 b4. split; intros H1 H2 H3 H4.
  - eexists. split; [by apply amplitude_test_runs|apply below4_rule].
  - eexists. split; [by apply correlation_test_runs|apply below4_rule].
Qed.

End beam_tests.

(** ** [set_implausible_vel_to_nan] *)

Ltac hold :=
  cbn [quality_control.dataset];
  repeat first
    [ eassumption
    | eapply holds_set_data_eq
    | apply holds_set_data_ne; [discriminate|] ].

(** One step of a run: the first action of a [bind] returns. *)
Ltac step lem := rewrite (bind_ret_l _ _ _ _ _ lem); cbv beta.
Ltac step_by lem := erewrite bind_ret_l by (eapply lem; hold); cbv beta.

Section implausible.
Import xr quality_control.

Lemma plausible_nan thres : plausible thres np.nan = false.
Proof.
  unfold plausible, np.greater, np.less, np.nan. by rewrite ltb_nan_r.
Qed.

Lemma plausible_finite thres x :
  plausible thres x = true ->
  is_finite x = true /\ (abs x <? thres)%float = true.
Proof.
  unfold plausible, np.greater, np.less. rewrite andb_true_iff. intros [H1 H2].
  split; [by eapply ltb_finite_between|by apply ltb_abs].
Qed.

Lemma not_finite_implausible thres x : is_finite x = false -> plausible thres x = false.
Proof.
  intros H. destruct (plausible thres x) eqn:E; [|done].
  apply plausible_finite in E as [E _]. congruence.
Qed.

Lemma cell_where a c i j :
  cell (where_ a c) i j =
  match cell a i j, cell c i j with
  | Some x, Some b => Some (if b then x else np.nan)
  | _, _ => None
  end.
Proof. unfold where_. by rewrite cell_zip2d. Qed.

Lemma assign_where_run name a c st :
  holds (dataset st) name (Float2 a) ->
  assign_where name c st
  = (inr tt, mkState (set_data name (Float2 (where_ a c)) (dataset st)) (l st) (stdout st)).
Proof.
  intros H. unfold assign_where. step (float2_getitem _ _ _ H). done.
Qed.

Lemma void_implausible_run thres n st u v w p :
  holds (dataset st) "u" (Float2 u) ->
  holds (dataset st) "v" (Float2 v) ->
  holds (dataset st) "w" (Float2 w) ->
  holds (dataset st) n (Float2 p) ->
  let P := np.map2d (plausible thres) p in
  void_implausible thres n st
  = (inr tt,
     mkState (set_data "w" (Float2 (where_ w P))
                (set_data "v" (Float2 (where_ v P))
                   (set_data "u" (Float2 (where_ u P)) (dataset st))))
             (l st) (stdout st)).
Proof.
  intros Hu Hv Hw Hn. cbv zeta. unfold void_implausible.
  step (float2_getitem _ _ _ Hn).
  step_by (assign_where_run "u" u).
  step_by (assign_where_run "v" v).
  rewrite (assign_where_run "w" w) by hold. done.
Qed.

(** What the loop leaves in [u], [v] and [w]. *)
Lemma set_implausible_vel_to_nan_run thres st u v w :
  holds (dataset st) "u" (Float2 u) ->
  holds (dataset st) "v" (Float2 v) ->
  holds (dataset st) "w" (Float2 w) ->
  let P := np.map2d (plausible thres) in
  let u1 := where_ u (P u) in let v1 := where_ v (P u) in let w1 := where_ w (P u) in
  let u2 := where_ u1 (P v1) in let v2 := where_ v1 (P v1) in let w2 := where_ w1 (P v1) in
  let u3 := where_ u2 (P w2) in let v3 := where_ v2 (P w2) in let w3 := where_ w2 (P w2) in
  exists st',
    set_implausible_vel_to_nan thres st = (inr tt, st')
    /\ l st' = l st /\ stdout st' = stdout st
    /\ depth (dataset st') = depth (dataset st) /\ time (dataset st') = time (dataset st)
    /\ ds_attrs (dataset st') = ds_attrs (dataset st)
    /\ holds (dataset st') "u" (Float2 u3)
    /\ holds (dataset st') "v" (Float2 v3)
    /\ holds (dataset st') "w" (Float2 w3)
    /\ (forall name, name <> "u" -> name <> "v" -> name <> "w" ->
        variables (dataset st') !! name = variables (dataset st) !! name).
Proof.
  intros Hu Hv Hw. cbv zeta. unfold set_implausible_vel_to_nan. cbn [for_each].
  step_by (void_implausible_run thres "u").
  step_by (void_implausible_run thres "v").
  step_by (void_implausible_run thres "w").
  eexists. split; [reflexivity|].
  cbn [dataset l stdout]. repeat split; try hold.
  intros name H1 H2 H3. simpl.
  rewrite !lookup_alter_ne by done. done.
Qed.

(** The same loop on the three values of one cell. *)
Lemma clipped_cell thres x y z :
  let p1 := plausible thres x in
  let x1 := if p1 then x else np.nan in
  let y1 := if p1 then y else np.nan in
  let z1 := if p1 then z else np.nan in
  let p2 := plausible thres y1 in
  let x2 := if p2 then x1 else np.nan in
  let y2 := if p2 then y1 else np.nan in
  let z2 := if p2 then z1 else np.nan in
  let p3 := plausible thres z2 in
  let x3 := if p3 then x2 else np.nan in
  let y3 := if p3 then y2 else np.nan in
  let z3 := if p3 then z2 else np.nan in
  clipped thres x y z x3 y3 z3
  /\ (is_finite x = false \/ is_finite y = false \/ is_finite z = false ->
      is_nan x3 = true /\ is_nan y3 = true /\ is_nan z3 = true).
Proof.
  cbv zeta.
  destruct (plausible thres x) eqn:Px.
  2:{ rewrite !plausible_nan. split; [left|]; done. }
  destruct (plausible thres y) eqn:Py.
  2:{ rewrite !plausible_nan. split; [left|]; done. }
  destruct (plausible thres z) eqn:Pz.
  2:{ split; [left|]; done. }
  apply plausible_finite in Px as [? ?], Py as [? ?], Pz as [? ?].
  split.
  - right. repeat split; done.
  - intros [?|[?|?]]; congruence.
Qed.

End implausible.

Section implausible_theorem.
Import xr quality_control.

(** C10: [set_implausible_vel_to_nan] returns on a dataset that has [u], [v]
    and [w]; afterwards, at every cell, the three components are all NaN, or
    all three are the values they were and each is finite with an absolute
    value strictly below the threshold. A value that is not finite in any
    one component voids all three. *)
Theorem implausible_velocities_share_one_nan_mask :
  forall (thres : float) (st : State) (u v w : grid float),
    holds (dataset st) "u" (Float2 u) ->
    holds (dataset st) "v" (Float2 v) ->
    holds (dataset st) "w" (Float2 w) ->
    exists st' u' v' w',
      set_implausible_vel_to_nan thres st = (inr tt, st')
      /\ holds (dataset st') "u" (Float2 u')
      /\ holds (dataset st') "v" (Float2 v')
      /\ holds (dataset st') "w" (Float2 w')
      /\ forall i j x y z,
           cell u i j = Some x -> cell v i j = Some y -> cell w i j = Some z ->
           exists x' y' z',
             cell u' i j = Some x' /\ cell v' i j = Some y' /\ cell w' i j = Some z'
             /\ clipped thres x y z x' y' z'
             /\ (is_finite x = false \/ is_finite y = false \/ is_finite z = false ->
                 is_nan x' = true /\ is_nan y' = true /\ is_nan z' = true).
Proof.
  intros thres st u v w Hu Hv Hw.
  destruct (set_implausible_vel_to_nan_run thres st u v w Hu Hv Hw)
    as (st' & Hrun & _ & _ & _ & _ & _ & Hu' & Hv' & Hw' & _).
  eexists st', _, _, _. split; [exact Hrun|].
  split; [exact Hu'|]. split; [exact Hv'|]. split; [exact Hw'|].
  intros i j x y z Hx Hy Hz.
  rewrite !cell_where, !cell_map2d, !cell_where, !cell_map2d, !cell_where, !cell_map2d,
    Hx, Hy, Hz. simpl.
  eexists _, _, _. split; [reflexivity|]. split; [reflexivity|]. split; [reflexivity|].
  apply clipped_cell.
Qed.

End implausible_theorem.

(** ** [motion_correction] *)

Section motion.
Import xr quality_control.
Variable _timestamp : string.

Lemma l_warning_run msg st :
  l_warning _timestamp msg st
  = (inr tt, mkState (dataset st)
                     (utils.warning _timestamp (MStr msg) false (l st)).1
                     (stdout st ++ (utils.warning _timestamp (MStr msg) false (l st)).2)).
Proof. done. Qed.

Lemma l_log_run msg st :
  l_log _timestamp msg st
  = (inr tt, mkState (dataset st)
                     (utils.log _timestamp (MStr msg) false (l st)).1
                     (stdout st ++ (utils.log _timestamp (MStr msg) false (l st)).2)).
Proof. done. Qed.

Lemma gets_run {St A} (f : St -> A) s : gets f s = (inr (f s), s).
Proof. done. Qed.

(** [dataset[field] -= dataset["bt_" + field].values] *)
Lemma subtract_bottom_track_run field a b st :
  holds (dataset st) field (Float2 a) ->
  holds (dataset st) ("bt_" +:+ field) (Float1 b) ->
  (let* x := float2 (getitem field) in
   let* bt := float1 (getitem ("bt_" +:+ field)) in
   update (set_data field
             (Float2 (List.map (fun row => zip_with PrimFloat.sub row bt) x)))) st
  = (inr tt,
     mkState (set_data field
                (Float2 (List.map (fun row => zip_with PrimFloat.sub row b) a))
                (dataset st))
             (l st) (stdout st)).
Proof.
  intros Ha Hb.
  step (float2_getitem _ _ _ Ha). step (float1_getitem _ _ _ Hb). done.
Qed.

Lemma cell_sub_rows (a : grid float) (b : list float) i j x y :
  cell a i j = Some x -> b !! j = Some y ->
  cell (List.map (fun row => zip_with PrimFloat.sub row b) a) i j = Some (x - y)%float.
Proof.
  unfold cell. intros Ha Hb. rewrite list_lookup_fmap.
  destruct (a !! i) as [row|]; [|done]. simpl in *.
  by rewrite lookup_zip_with, Ha, Hb.
Qed.

End motion.

Section motion_theorem.
Import xr quality_control.

(** C9: [motion_correction] in mode [bt]. When one of [bt_u], [bt_v], [bt_w]
    is not in the dataset it returns with the dataset as it was, and the
    logger (at the level 0 the module creates it with) has counted one more
    warning and holds one more line, the one that names the missing
    bottom-track velocities. When the three are there, each of [u], [v], [w]
    has at depth [i] and time [j] its former value minus the bottom-track
    value at time [j], no other variable has changed and no warning is
    counted. *)
Theorem motion_correction_bottom_track :
  forall (_timestamp : string) (st : State),
    ((contains (dataset st) "bt_u" = false \/ contains (dataset st) "bt_v" = false
      \/ contains (dataset st) "bt_w" = false) ->
     utils.level (l st) = 0%Z ->
     exists st',
       motion_correction _timestamp "bt" st = (inr tt, st')
       /\ dataset st' = dataset st
       /\ utils.w_count (l st') = S (utils.w_count (l st))
       /\ utils.logbook (l st')
          = utils.logbook (l st) +:+ " "
            +:+ "Motion correction aborded. Bottom velocity (bt_u, bt_v, bt_w) missing"
            +:+ nl
       /\ stdout st'
          = (stdout st
             ++ ["WARNING:Motion correction aborded. Bottom velocity (bt_u, bt_v, bt_w) missing"])%list)
    /\
    (forall u v w bu bv bw,
       holds (dataset st) "u" (Float2 u) -> holds (dataset st) "v" (Float2 v) ->
       holds (dataset st) "w" (Float2 w) ->
       holds (dataset st) "bt_u" (Float1 bu) -> holds (dataset st) "bt_v" (Float1 bv) ->
       holds (dataset st) "bt_w" (Float1 bw) ->
       exists st' u' v' w',
         motion_correction _timestamp "bt" st = (inr tt, st')
         /\ holds (dataset st') "u" (Float2 u')
         /\ holds (dataset st') "v" (Float2 v')
         /\ holds (dataset st') "w" (Float2 w')
         /\ (forall i j x b, cell u i j = Some x -> bu !! j = Some b ->
                             cell u' i j = Some (x - b)%float)
         /\ (forall i j x b, cell v i j = Some x -> bv !! j = Some b ->
                             cell v' i j = Some (x - b)%float)
         /\ (forall i j x b, cell w i j = Some x -> bw !! j = Some b ->
                             cell w' i j = Some (x - b)%float)
         /\ (forall name, name <> "u" -> name <> "v" -> name <> "w" ->
                          variables (dataset st') !! name = variables (dataset st) !! name)
         /\ utils.w_count (l st') = utils.w_count (l st)).
Proof.
  intros ts st. split.
  - intros Hmiss Hlevel. unfold motion_correction.
    step (gets_run dataset st). cbn [String.eqb Ascii.eqb Bool.eqb forallb].
    assert (contains (dataset st) "bt_u" && (contains (dataset st) "bt_v"
              && (contains (dataset st) "bt_w" && true)) = false) as ->.
    { destruct Hmiss as [H|[H|H]]; rewrite H, ?andb_false_r; done. }
    rewrite l_warning_run. eexists. split; [reflexivity|].
    cbn [dataset l stdout]. simpl. rewrite Hlevel. done.
  - intros u v w bu bv bw Hu Hv Hw Hbu Hbv Hbw. unfold motion_correction.
    step (gets_run dataset st). cbn [String.eqb Ascii.eqb Bool.eqb forallb].
    rewrite (holds_contains _ _ _ Hbu), (holds_contains _ _ _ Hbv),
      (holds_contains _ _ _ Hbw). cbn [andb for_each].
    erewrite bind_ret_l; cycle 1.
    { step_by (subtract_bottom_track_run "u" u bu).
      step_by (subtract_bottom_track_run "v" v bv).
      step_by (subtract_bottom_track_run "w" w bw).
      reflexivity. }
    cbv beta. rewrite l_log_run.
    eexists _, _, _, _. split; [reflexivity|]. cbn [dataset l stdout].
    split; [hold|]. split; [hold|]. split; [hold|].
    split; [intros; by apply cell_sub_rows|].
    split; [intros; by apply cell_sub_rows|].
    split; [intros; by apply cell_sub_rows|].
    split; [|done].
    intros name H1 H2 H3. simpl. rewrite !lookup_alter_ne by done. done.
Qed.

End motion_theorem.

(** ** What the blocks of [adcp_quality_control] leave alone *)

Section frames.
Import xr quality_control.

Lemma preserves_getitem {X} (f : State -> X) n : preserves f (getitem n).
Proof. intros s. unfold getitem. by destruct (variables (dataset s) !! n). Qed.

Lemma preserves_getattr {X} (f : State -> X) n : preserves f (getattr n).
Proof. intros s. unfold getattr. by destruct (variables (dataset s) !! n). Qed.

Lemma preserves_attrs_getitem {X} (f : State -> X) n : preserves f (attrs_getitem n).
Proof. intros s. unfold attrs_getitem. by destruct (ds_attrs (dataset s) !! n). Qed.

Lemma preserves_float2 {X} (f : State -> X) m : preserves f m -> preserves f (float2 m).
Proof.
  intros H. unfold float2. apply preserves_bind; [done|].
  intros v. destruct (data v); (apply preserves_ret || apply preserves_raise).
Qed.

Lemma preserves_float1 {X} (f : State -> X) m : preserves f m -> preserves f (float1 m).
Proof.
  intros H. unfold float1. apply preserves_bind; [done|].
  intros v. destruct (data v); (apply preserves_ret || apply preserves_raise).
Qed.

Lemma preserves_num_attr {X} (f : State -> X) a : preserves f (num_attr a).
Proof. destruct a; (apply preserves_ret || apply preserves_raise). Qed.

Lemma preserves_call_l {X} (F : Dataset -> X) g : preserves (on_dataset F) (call_l g).
Proof. by intros s. Qed.

Lemma preserves_update {X} (F : Dataset -> X) h :
  (forall ds, F (h ds) = F ds) -> preserves (on_dataset F) (update h).
Proof. intros H s. apply H. Qed.

Lemma values_of_assign n name dims a ds :
  n <> name -> values_of n (assign name dims a ds) = values_of n ds.
Proof. intros H. unfold values_of, assign. simpl. by rewrite lookup_insert_ne. Qed.

Lemma values_of_set_data n name a ds :
  n <> name -> values_of n (set_data name a ds) = values_of n ds.
Proof. intros H. unfold values_of, set_data. simpl. by rewrite lookup_alter_ne. Qed.

Lemma values_of_set_var_attr n name key v ds :
  values_of n (set_var_attr name key v ds) = values_of n ds.
Proof.
  unfold values_of, set_var_attr. simpl.
  destruct (decide (name = n)) as [->|Hne].
  - rewrite lookup_alter_eq. by destruct (variables ds !! n).
  - by rewrite lookup_alter_ne.
Qed.

Lemma values_of_set_attr n key v ds : values_of n (set_attr key v ds) = values_of n ds.
Proof. done. Qed.

Lemma axes_assign name dims a ds : axes (assign name dims a ds) = axes ds.
Proof. done. Qed.
Lemma axes_set_data name a ds : axes (set_data name a ds) = axes ds.
Proof. done. Qed.
Lemma axes_set_var_attr name key v ds : axes (set_var_attr name key v ds) = axes ds.
Proof. done. Qed.
Lemma axes_set_attr key v ds : axes (set_attr key v ds) = axes ds.
Proof. done. Qed.

End frames.

(** Proves that a computation built from the primitives preserves an
    observation of the dataset; what is left are the updates. *)
Ltac pres :=
  repeat first
    [ progress intros
    | apply preserves_ret | apply preserves_raise
    | apply preserves_gets | apply preserves_get
    | apply preserves_getitem | apply preserves_getattr
    | apply preserves_attrs_getitem | apply preserves_num_attr
    | apply preserves_float2 | apply preserves_float1
    | apply preserves_call_l | apply preserves_when | apply preserves_for_each
    | apply preserves_bind
    | match goal with
      | |- preserves _ (if ?b then _ else _) => destruct b
      | |- preserves _ (match ?x with _ => _ end) => destruct x
      end ].

Section frames_tests.
Import xr quality_control.
Context {X : Type} (F : Dataset -> X).
Variable _timestamp : string.
Variable circmean : list float -> float.
Variable circular_distance : list float -> float -> list float.
Variable cos_radians : float -> float.
Variable uninit : string -> nat -> nat -> bool.

Lemma preserves_l_log s : preserves (on_dataset F) (l_log _timestamp s).
Proof. unfold l_log. pres. Qed.

Lemma preserves_l_warning s : preserves (on_dataset F) (l_warning _timestamp s).
Proof. unfold l_warning. pres. Qed.

Lemma preserves_amplitude_test th : preserves (on_dataset F) (amplitude_test th).
Proof. unfold amplitude_test, l_warnings. pres. Qed.

Lemma preserves_correlation_test th : preserves (on_dataset F) (correlation_test th).
Proof. unfold correlation_test, l_warnings. pres. Qed.

Lemma preserves_percentgood_test th : preserves (on_dataset F) (percentgood_test th).
Proof. unfold percentgood_test, l_warnings. pres. Qed.

Lemma preserves_roll_test th :
  preserves (on_dataset F) (roll_test circmean circular_distance th).
Proof. unfold roll_test, l_warnings. pres. Qed.

Lemma preserves_pitch_test th :
  preserves (on_dataset F) (pitch_test circmean circular_distance th).
Proof. unfold pitch_test, l_warnings. pres. Qed.

Lemma preserves_horizontal_vel_test th :
  preserves (on_dataset F) (horizontal_vel_test uninit th).
Proof. unfold horizontal_vel_test. pres. Qed.

Lemma preserves_vertical_vel_test th :
  preserves (on_dataset F) (vertical_vel_test uninit th).
Proof. unfold vertical_vel_test. pres. Qed.

Lemma preserves_error_vel_test th :
  preserves (on_dataset F) (error_vel_test uninit th).
Proof. unfold error_vel_test. pres. Qed.

Lemma preserves_vertical_beam_test a c p :
  preserves (on_dataset F) (vertical_beam_test a c p).
Proof. unfold vertical_beam_test, vertical_beam_channel. pres. Qed.

Lemma preserves_sidelobe_test b :
  preserves (on_dataset F) (sidelobe_test _timestamp cos_radians b).
Proof. unfold sidelobe_test, l_warning. pres. Qed.

Lemma preserves_temperature_test : preserves (on_dataset F) temperature_test.
Proof. unfold temperature_test. pres. Qed.

Lemma preserves_pressure_test : preserves (on_dataset F) pressure_test.
Proof. unfold pressure_test. pres. Qed.

Lemma preserves_threshold_block th what test entry acc :
  (forall x, preserves (on_dataset F) (test x)) ->
  preserves (on_dataset F) (threshold_block _timestamp th what test entry acc).
Proof. intros H. unfold threshold_block, l_log. pres. apply H. Qed.

Lemma preserves_sidelobes_block b d acc :
  preserves (on_dataset F) (sidelobes_block _timestamp cos_radians b d acc).
Proof.
  unfold sidelobes_block, l_log. pres; apply preserves_sidelobe_test.
Qed.

End frames_tests.

Section frames_blocks.
Import xr quality_control.
Variable _timestamp : string.
Variable today : string.
Variable str_num : float -> string.

Ltac upd :=
  apply preserves_update; intros;
  first [ apply values_of_set_var_attr
        | apply values_of_assign; done
        | apply values_of_set_data; done
        | reflexivity ].

Lemma pressure_block_values n acc :
  n <> "pres_QC" ->
  preserves (on_dataset (values_of n)) (pressure_block _timestamp acc).
Proof.
  intros Hn. unfold pressure_block, l_log. pres; try apply preserves_pressure_test; upd.
Qed.

Lemma pressure_block_axes acc :
  preserves (on_dataset axes) (pressure_block _timestamp acc).
Proof.
  unfold pressure_block, l_log. pres; try apply preserves_pressure_test; upd.
Qed.

Lemma temperature_block_values n :
  n <> "temperature_QC" ->
  preserves (on_dataset (values_of n)) (temperature_block _timestamp).
Proof.
  intros Hn. unfold temperature_block, l_log.
  pres; try apply preserves_temperature_test; upd.
Qed.

Lemma temperature_block_axes :
  preserves (on_dataset axes) (temperature_block _timestamp).
Proof.
  unfold temperature_block, l_log. pres; try apply preserves_temperature_test; upd.
Qed.

Lemma fifth_beam_block_values n a c p :
  n <> "vb_vel_QC" ->
  preserves (on_dataset (values_of n)) (fifth_beam_block _timestamp str_num a c p).
Proof.
  intros Hn. unfold fifth_beam_block, l_log.
  pres; try apply preserves_vertical_beam_test; upd.
Qed.

Lemma fifth_beam_block_axes a c p :
  preserves (on_dataset axes) (fifth_beam_block _timestamp str_num a c p).
Proof.
  unfold fifth_beam_block, l_log. pres; try apply preserves_vertical_beam_test; upd.
Qed.

Lemma write_flags_values n vf tests :
  n <> "u_QC" -> n <> "v_QC" -> n <> "w_QC" ->
  preserves (on_dataset (values_of n)) (write_flags vf tests).
Proof.
  intros H1 H2 H3. unfold write_flags. cbn [for_each].
  pres; upd.
Qed.

Lemma write_flags_axes vf tests : preserves (on_dataset axes) (write_flags vf tests).
Proof. unfold write_flags. pres; upd. Qed.

Lemma values_of_stamp n ds :
  values_of n
    {| depth := depth ds; time := time ds;
       variables := map_imap (fun name v => Some (stamp today name v)) (variables ds);
       ds_attrs := ds_attrs ds |}
  = values_of n ds.
Proof.
  unfold values_of. simpl. rewrite map_lookup_imap.
  destruct (variables ds !! n) as [v|]; [|done]. simpl.
  unfold stamp. by destruct (str_in "_QC" n).
Qed.

Lemma stamp_flags_values n : preserves (on_dataset (values_of n)) (stamp_flags today).
Proof. unfold stamp_flags. apply preserves_update. intros. apply values_of_stamp. Qed.

Lemma stamp_flags_axes : preserves (on_dataset axes) (stamp_flags today).
Proof. unfold stamp_flags. by apply preserves_update. Qed.

Lemma finish_values n : preserves (on_dataset (values_of n)) (finish _timestamp).
Proof. unfold finish, l_log. pres; upd. Qed.

Lemma finish_axes : preserves (on_dataset axes) (finish _timestamp).
Proof. unfold finish, l_log. pres; upd. Qed.

End frames_blocks.

(** ** The flag grid of [adcp_quality_control] *)

Section flag_grid.
Import xr quality_control.
Variable _timestamp : string.
Variable today : string.
Variable str_num : float -> string.
Variable circmean : list float -> float.
Variable circular_distance : list float -> float -> list float.
Variable cos_radians : float -> float.
Variable uninit : string -> nat -> nat -> bool.

Lemma covers_full {A} n m (v : A) : covers n m (np.full n m v).
Proof. intros i j Hi Hj. rewrite cell_full by done. eauto. Qed.

Lemma covers_putmask {A} n m (g : grid A) mask v :
  covers n m g -> covers n m (np.putmask g mask v).
Proof.
  intros H i j Hi Hj. rewrite cell_putmask.
  destruct (H i j Hi Hj) as [x ->]. eauto.
Qed.

Lemma float2_getitem_inv name a st st' :
  float2 (getitem name) st = (inr a, st') ->
  st' = st /\ holds (dataset st) name (Float2 a).
Proof.
  unfold float2, bind, getitem, holds.
  destruct (variables (dataset st) !! name) as [v|]; [|discriminate]. simpl.
  destruct (data v); try discriminate. intros [= -> ->]. done.
Qed.

Lemma holds_set_data_ne_inv ds name name' a b :
  name <> name' -> holds (set_data name b ds) name' a -> holds ds name' a.
Proof. unfold holds, set_data. simpl. intros Hne. by rewrite lookup_alter_ne. Qed.

Lemma assign_where_inv name c st st' :
  assign_where name c st = (inr tt, st') ->
  exists a, holds (dataset st) name (Float2 a)
            /\ st' = mkState (set_data name (Float2 (where_ a c)) (dataset st))
                             (l st) (stdout st).
Proof.
  unfold assign_where. intros H.
  apply bind_inr in H as (a & s1 & H1 & H2).
  apply float2_getitem_inv in H1 as [-> H1].
  rewrite update_run in H2. injection H2 as <-. eauto.
Qed.

Lemma set_implausible_vel_to_nan_inv thres st st' :
  set_implausible_vel_to_nan thres st = (inr tt, st') ->
  exists u v w,
    holds (dataset st) "u" (Float2 u) /\ holds (dataset st) "v" (Float2 v)
    /\ holds (dataset st) "w" (Float2 w).
Proof.
  unfold set_implausible_vel_to_nan. cbn [for_each]. intros H.
  apply bind_inr in H as ([] & s1 & H & _). unfold void_implausible in H.
  apply bind_inr in H as (x & s2 & Hx & H).
  apply float2_getitem_inv in Hx as [-> Hx].
  apply bind_inr in H as ([] & s3 & H3 & H).
  apply assign_where_inv in H3 as (a & Ha & ->).
  apply bind_inr in H as ([] & s4 & H4 & H).
  apply assign_where_inv in H4 as (b & Hb & ->).
  apply assign_where_inv in H as (c & Hc & _).
  cbn [dataset] in *.
  apply holds_set_data_ne_inv in Hb; [|done].
  apply holds_set_data_ne_inv in Hc; [|done].
  apply holds_set_data_ne_inv in Hc; [|done].
  by eexists _, _, _.
Qed.

(** After the loop the three components of a cell are finite together. *)
Lemma clipped_together thres (u v w : grid float) i j x' y' z' :
  let P := np.map2d (plausible thres) in
  let u1 := where_ u (P u) in let v1 := where_ v (P u) in let w1 := where_ w (P u) in
  let u2 := where_ u1 (P v1) in let v2 := where_ v1 (P v1) in let w2 := where_ w1 (P v1) in
  let u3 := where_ u2 (P w2) in let v3 := where_ v2 (P w2) in let w3 := where_ w2 (P w2) in
  cell u3 i j = Some x' -> cell v3 i j = Some y' -> cell w3 i j = Some z' ->
  is_finite x' = false \/ is_finite y' = false \/ is_finite z' = false ->
  is_finite x' = false /\ is_finite y' = false.
Proof.
  cbv zeta.
  rewrite !cell_where, !cell_map2d, !cell_where, !cell_map2d, !cell_where, !cell_map2d.
  destruct (cell u i j) as [x|]; simpl.
  2:{ destruct (cell v i j), (cell w i j); simpl; discriminate. }
  destruct (cell v i j) as [y|]; simpl; [|discriminate].
  destruct (cell w i j) as [z|]; simpl; [|discriminate].
  intros [= <-] [= <-] [= <-].
  destruct (clipped_cell thres x y z) as [Hc _]. cbv zeta in Hc.
  destruct Hc as [(Hx & Hy & Hz)|(Ex & Ey & Ez & Hx & Hy & Hz & _)].
  - intros _. unfold is_finite. by rewrite Hx, Hy.
  - rewrite Ex, Ey, Ez, Hx, Hy, Hz. intros [?|[?|?]]; discriminate.
Qed.

Lemma threshold_block_covers n m th what test entry acc acc' st st' :
  threshold_block _timestamp th what test entry acc st = (inr acc', st') ->
  covers n m acc.1 -> covers n m acc'.1.
Proof.
  unfold threshold_block. destruct (truthy_th th).
  - intros H Hc. apply bind_inr in H as ([] & s1 & _ & H).
    apply bind_inr in H as (flag & s2 & _ & H). injection H as <- _.
    by apply covers_putmask.
  - by intros [= <- _].
Qed.

Lemma sidelobes_block_covers n m b d acc acc' st st' :
  sidelobes_block _timestamp cos_radians b d acc st = (inr acc', st') ->
  covers n m acc.1 -> covers n m acc'.1.
Proof.
  unfold sidelobes_block. destruct b; [|by intros [= <- _]].
  intros H Hc. apply bind_inr in H as (r & s1 & _ & H).
  destruct r as [a| |]; try (by injection H as <- _).
  destruct (np.truth a) as [e|[|]]; try discriminate; try (by injection H as <- _).
  apply bind_inr in H as ([] & s2 & _ & H). injection H as <- _.
  by apply covers_putmask.
Qed.

Lemma pressure_block_covers n m acc acc' st st' :
  pressure_block _timestamp acc st = (inr acc', st') ->
  covers n m acc.1 -> covers n m acc'.1.
Proof.
  unfold pressure_block. intros H Hc.
  apply bind_inr in H as (ds & s1 & _ & H).
  destruct (contains ds "pres"); [|by injection H as <- _].
  apply bind_inr in H as ([] & s2 & _ & H).
  apply bind_inr in H as (p & s3 & _ & H).
  apply bind_inr in H as (f & s4 & _ & H).
  apply bind_inr in H as ([] & s5 & _ & H).
  apply bind_inr in H as ([] & s6 & _ & H).
  injection H as <- _. by apply covers_putmask.
Qed.

Lemma missing_block_inv vel_flags flags st st' :
  missing_block vel_flags st = (inr flags, st') ->
  st' = st
  /\ exists u v w,
       holds (dataset st) "u" (Float2 u) /\ holds (dataset st) "v" (Float2 v)
       /\ holds (dataset st) "w" (Float2 w)
       /\ flags = np.putmask vel_flags
                    (np.zip2d orb (np.map2d (fun x => negb (np.isfinite x)) u)
                                  (np.map2d (fun x => negb (np.isfinite x)) v)) 9%Z.
Proof.
  unfold missing_block. intros H.
  apply bind_inr in H as (u & s1 & Hu & H). apply float2_getitem_inv in Hu as [-> Hu].
  apply bind_inr in H as (v & s2 & Hv & H). apply float2_getitem_inv in Hv as [-> Hv].
  apply bind_inr in H as (w & s3 & Hw & H). apply float2_getitem_inv in Hw as [-> Hw].
  injection H as <- <-. split; [done|]. eexists u, v, w. done.
Qed.

Lemma write_flags_run vel_flags tests st :
  exists st',
    write_flags vel_flags tests st = (inr tt, st')
    /\ holds (dataset st') "u_QC" (Int2 vel_flags)
    /\ holds (dataset st') "v_QC" (Int2 vel_flags)
    /\ holds (dataset st') "w_QC" (Int2 vel_flags).
Proof.
  eexists. split; [reflexivity|].
  unfold holds. cbn. repeat split; by simplify_map_eq.
Qed.

End flag_grid.

Section motion_frame.
Import xr quality_control.
Variable _timestamp : string.

Lemma float1_getitem_inv name a st st' :
  float1 (getitem name) st = (inr a, st') ->
  st' = st /\ holds (dataset st) name (Float1 a).
Proof.
  unfold float1, bind, getitem, holds.
  destruct (variables (dataset st) !! name) as [v|]; [|discriminate]. simpl.
  destruct (data v); try discriminate. intros [= -> ->]. done.
Qed.

Lemma subtract_bottom_track_inv field st st' :
  (let* x := float2 (getitem field) in
   let* bt := float1 (getitem ("bt_" +:+ field)) in
   update (set_data field
             (Float2 (List.map (fun row => zip_with PrimFloat.sub row bt) x)))) st
  = (inr tt, st') ->
  exists a b,
    holds (dataset st) field (Float2 a)
    /\ st' = mkState (set_data field
                        (Float2 (List.map (fun row => zip_with PrimFloat.sub row b) a))
                        (dataset st))
                     (l st) (stdout st).
Proof.
  intros H. apply bind_inr in H as (a & s1 & Ha & H).
  apply float2_getitem_inv in Ha as [-> Ha].
  apply bind_inr in H as (b & s2 & Hb & H).
  apply float1_getitem_inv in Hb as [-> Hb].
  rewrite update_run in H. injection H as <-. eauto.
Qed.

Lemma cell_sub_rows_inv (a : grid float) (b : list float) i j r :
  cell (List.map (fun row => zip_with PrimFloat.sub row b) a) i j = Some r ->
  exists x y, cell a i j = Some x /\ r = (x - y)%float.
Proof.
  unfold cell. rewrite list_lookup_fmap.
  destruct (a !! i) as [row|]; [|done]. simpl.
  rewrite lookup_zip_with.
  destruct (row !! j) as [x|]; [|done]. simpl.
  destruct (b !! j) as [y|]; [|done]. simpl. intros [= <-]. eauto.
Qed.

(** Motion correction never makes a value of [w] that is not finite finite. *)
Lemma motion_correction_w mode st st' w :
  motion_correction _timestamp mode st = (inr tt, st') ->
  holds (dataset st) "w" (Float2 w) ->
  exists w1,
    holds (dataset st') "w" (Float2 w1)
    /\ forall i j z1,
         cell w1 i j = Some z1 ->
         exists z, cell w i j = Some z /\ (is_finite z = false -> is_finite z1 = false).
Proof.
  intros H Hw. unfold motion_correction in H.
  apply bind_inr in H as (ds & s0 & Hds & H). rewrite gets_run in Hds.
  injection Hds as <- <-.
  assert (Hsame : forall s, on_dataset (values_of "w") s = on_dataset (values_of "w") st ->
            exists w1, holds (dataset s) "w" (Float2 w1)
              /\ forall i j z1, cell w1 i j = Some z1 ->
                   exists z, cell w i j = Some z
                             /\ (is_finite z = false -> is_finite z1 = false)).
  { intros s E. exists w. split; [unfold on_dataset, values_of, holds in *; congruence|].
    intros i j z1 Hz. eauto. }
  destruct (String.eqb mode "bt").
  - destruct (forallb _ _).
    + apply bind_inr in H as ([] & s1 & H & Hlog).
      cbn [for_each] in H.
      apply bind_inr in H as ([] & su & Hu & H).
      apply subtract_bottom_track_inv in Hu as (au & bu & _ & ->).
      apply bind_inr in H as ([] & sv & Hv & H).
      apply subtract_bottom_track_inv in Hv as (av & bv & _ & ->).
      apply bind_inr in H as ([] & sw & Hsw & H).
      apply subtract_bottom_track_inv in Hsw as (aw & bw & Haw & ->).
      injection H as <-. cbn [dataset] in *.
      apply holds_set_data_ne_inv in Haw; [|done].
      apply holds_set_data_ne_inv in Haw; [|done].
      pose proof (holds_inj _ _ _ _ Haw Hw) as [= ->].
      rewrite l_log_run in Hlog. injection Hlog as <-. cbn [dataset].
      eexists. split; [hold|].
      intros i j z1 Hz1. apply cell_sub_rows_inv in Hz1 as (z & y & Hz & ->).
      exists z. split; [done|]. apply sub_not_finite.
    + apply Hsame. eapply preserves_run; [|exact H]. apply preserves_l_warning.
  - destruct (String.eqb mode "nav").
    + destruct (forallb _ _).
      * apply Hsame. eapply preserves_run; [|exact H]. cbn [for_each].
        unfold l_log. pres; apply preserves_update; intros;
          apply values_of_set_data; done.
      * apply Hsame. eapply preserves_run; [|exact H]. apply preserves_l_warning.
    + apply Hsame. eapply preserves_run; [|exact H]. apply preserves_l_warning.
Qed.

Lemma cell_where_inv a c i j r :
  cell (where_ a c) i j = Some r ->
  exists x, cell a i j = Some x /\ (r = x \/ r = np.nan).
Proof.
  rewrite cell_where. destruct (cell a i j) as [x|]; [|done].
  destruct (cell c i j) as [[|]|]; [| |done]; intros [= <-]; eauto.
Qed.

End motion_frame.

Lemma preserves_pair {St A X Y} (f : St -> X) (g : St -> Y) (m : M St A) :
  preserves f m -> preserves g m -> preserves (fun s => (f s, g s)) m.
Proof. intros Hf Hg s. by rewrite Hf, Hg. Qed.

Section missing_value.
Import xr quality_control.

Lemma preserves_velocities {A} (m : M State A) :
  preserves (on_dataset (values_of "u")) m ->
  preserves (on_dataset (values_of "v")) m ->
  preserves (on_dataset (values_of "w")) m ->
  preserves (on_dataset axes) m ->
  preserves velocities m.
Proof.
  intros. unfold velocities.
  apply preserves_pair; [done|]. apply preserves_pair; [done|].
  by apply preserves_pair.
Qed.

Ltac vel_frame tac := apply preserves_velocities; tac.

(** C1: when [adcp_quality_control] returns, [u_QC], [v_QC] and [w_QC] hold
    one flag grid, and that grid has 9 at every depth/time cell where one of
    [u], [v], [w], as the dataset then holds them, is not finite, whatever
    the tests before had put there. Without motion correction the same is
    true of the cells of the dataset that was handed in: a cell whose [w]
    alone is not finite ends with 9. With motion correction too, a cell
    whose [w] was not finite in the dataset handed in has 9, if it is still
    a cell of the three velocity grids. *)
Theorem missing_value_flag_wins :
  forall (_timestamp today : string) (str_num : float -> string)
         (circmean : list float -> float)
         (circular_distance : list float -> float -> list float)
         (cos_radians : float -> float) (uninit : string -> nat -> nat -> bool)
         (amp_th corr_th pg_th roll_th pitch_th : option float)
         (horizontal_vel_th vertical_vel_th error_vel_th : option float)
         (motion_correction_mode : option string) (sidelobes_correction : bool)
         (bottom_depth : option float) (st st' : State),
    adcp_quality_control _timestamp today str_num circmean circular_distance
      cos_radians uninit amp_th corr_th pg_th roll_th pitch_th
      horizontal_vel_th vertical_vel_th error_vel_th
      motion_correction_mode sidelobes_correction bottom_depth st = (inr tt, st') ->
    exists flags u' v' w',
      holds (dataset st') "u_QC" (Int2 flags)
      /\ holds (dataset st') "v_QC" (Int2 flags)
      /\ holds (dataset st') "w_QC" (Int2 flags)
      /\ holds (dataset st') "u" (Float2 u')
      /\ holds (dataset st') "v" (Float2 v')
      /\ holds (dataset st') "w" (Float2 w')
      /\ (forall i j x y z,
            (i < nd (dataset st'))%nat -> (j < nt (dataset st'))%nat ->
            cell u' i j = Some x -> cell v' i j = Some y -> cell w' i j = Some z ->
            is_finite x = false \/ is_finite y = false \/ is_finite z = false ->
            cell flags i j = Some 9%Z)
      /\ (motion_correction_mode = None ->
          forall u v w,
            holds (dataset st) "u" (Float2 u) -> holds (dataset st) "v" (Float2 v) ->
            holds (dataset st) "w" (Float2 w) ->
            forall i j x y z,
              (i < nd (dataset st))%nat -> (j < nt (dataset st))%nat ->
              cell u i j = Some x -> cell v i j = Some y -> cell w i j = Some z ->
              is_finite x = false \/ is_finite y = false \/ is_finite z = false ->
              cell flags i j = Some 9%Z)
      /\ (forall w,
            holds (dataset st) "w" (Float2 w) ->
            forall i j z x' y' z',
              (i < nd (dataset st'))%nat -> (j < nt (dataset st'))%nat ->
              cell w i j = Some z -> is_finite z = false ->
              cell u' i j = Some x' -> cell v' i j = Some y' -> cell w' i j = Some z' ->
              cell flags i j = Some 9%Z).
Proof.
  intros ts today str_num circmean cdist cosr uninit
    amp_th corr_th pg_th roll_th pitch_th hth vth eth mode side bottom st st' H.
  unfold adcp_quality_control in H.
  apply bind_inr in H as ([] & s1 & H1 & H).
  apply bind_inr in H as ([] & s2 & H2 & H).
  apply bind_inr in H as ([] & s3 & H3 & H).
  apply bind_inr in H as ([] & s4 & H4 & H).
  apply bind_inr in H as (ds & s4' & Hds & H).
  rewrite gets_run in Hds. injection Hds as <- <-. cbv zeta in H.
  apply bind_inr in H as (acc1 & t1 & B1 & H).
  apply bind_inr in H as (acc2 & t2 & B2 & H).
  apply bind_inr in H as (acc3 & t3 & B3 & H).
  apply bind_inr in H as (acc4 & t4 & B4 & H).
  apply bind_inr in H as (acc5 & t5 & B5 & H).
  apply bind_inr in H as (acc6 & t6 & B6 & H).
  apply bind_inr in H as (acc7 & t7 & B7 & H).
  apply bind_inr in H as (acc8 & t8 & B8 & H).
  apply bind_inr in H as (acc9 & t9 & B9 & H).
  apply bind_inr in H as (acc10 & t10 & B10 & H).
  apply bind_inr in H as ([] & t11 & B11 & H).
  apply bind_inr in H as ([] & t12 & B12 & H).
  apply bind_inr in H as (flags & t13 & B13 & H).
  apply bind_inr in H as ([] & t14 & B14 & H).
  apply bind_inr in H as ([] & t15 & B15 & H).
  (* the clipping *)
  destruct (set_implausible_vel_to_nan_inv _ _ _ H4) as (u0 & v0 & w0 & Hu0 & Hv0 & Hw0).
  destruct (set_implausible_vel_to_nan_run IMPLAUSIBLE_VEL_TRESHOLD s3 u0 v0 w0 Hu0 Hv0 Hw0)
    as (s4'' & Hrun & _ & _ & Hdepth & Htime & _ & Hu3 & Hv3 & Hw3 & _).
  cbv zeta in *. rewrite H4 in Hrun. injection Hrun as <-.
  (* the velocities from there to the end *)
  assert (velocities t1 = velocities s4) as E1.
  { eapply preserves_run; [|exact B1]. vel_frame ltac:(apply preserves_threshold_block; intros; apply preserves_amplitude_test). }
  assert (velocities t2 = velocities t1) as E2.
  { eapply preserves_run; [|exact B2]. vel_frame ltac:(apply preserves_threshold_block; intros; apply preserves_correlation_test). }
  assert (velocities t3 = velocities t2) as E3.
  { eapply preserves_run; [|exact B3]. vel_frame ltac:(apply preserves_threshold_block; intros; apply preserves_percentgood_test). }
  assert (velocities t4 = velocities t3) as E4.
  { eapply preserves_run; [|exact B4]. vel_frame ltac:(apply preserves_threshold_block; intros; apply preserves_horizontal_vel_test). }
  assert (velocities t5 = velocities t4) as E5.
  { eapply preserves_run; [|exact B5]. vel_frame ltac:(apply preserves_threshold_block; intros; apply preserves_vertical_vel_test). }
  assert (velocities t6 = velocities t5) as E6.
  { eapply preserves_run; [|exact B6]. vel_frame ltac:(apply preserves_threshold_block; intros; apply preserves_error_vel_test). }
  assert (velocities t7 = velocities t6) as E7.
  { eapply preserves_run; [|exact B7]. vel_frame ltac:(apply preserves_threshold_block; intros; pres). }
  assert (velocities t8 = velocities t7) as E8.
  { eapply preserves_run; [|exact B8]. vel_frame ltac:(apply preserves_threshold_block; intros; pres). }
  assert (velocities t9 = velocities t8) as E9.
  { eapply preserves_run; [|exact B9]. vel_frame ltac:(apply preserves_sidelobes_block). }
  assert (velocities t10 = velocities t9) as E10.
  { eapply preserves_run; [|exact B10]. apply preserves_velocities;
      first [by apply pressure_block_values | apply pressure_block_axes]. }
  assert (velocities t11 = velocities t10) as E11.
  { eapply preserves_run; [|exact B11]. apply preserves_velocities;
      first [by apply temperature_block_values | apply temperature_block_axes]. }
  assert (velocities t12 = velocities t11) as E12.
  { eapply preserves_run; [|exact B12]. apply preserves_velocities;
      first [by apply fifth_beam_block_values | apply fifth_beam_block_axes]. }
  apply missing_block_inv in B13 as (-> & um & vm & wm & Hum & Hvm & Hwm & Hflags).
  assert (velocities t14 = velocities t12) as E14.
  { eapply preserves_run; [|exact B14]. apply preserves_velocities;
      first [by apply write_flags_values | apply write_flags_axes]. }
  assert (velocities t15 = velocities t14) as E15.
  { eapply preserves_run; [|exact B15]. apply preserves_velocities;
      first [apply stamp_flags_values | apply stamp_flags_axes]. }
  assert (velocities st' = velocities t15) as E16.
  { eapply preserves_run; [|exact H]. apply preserves_velocities;
      first [apply finish_values | apply finish_axes]. }
  assert (velocities t12 = velocities s4) as Emid by congruence.
  assert (velocities st' = velocities s4) as Eend by congruence.
  (* the grid *)
  assert (covers (nd (dataset s4)) (nt (dataset s4)) acc10.1) as Hcov.
  { eapply pressure_block_covers; [exact B10|].
    eapply sidelobes_block_covers; [exact B9|].
    eapply threshold_block_covers; [exact B8|].
    eapply threshold_block_covers; [exact B7|].
    eapply threshold_block_covers; [exact B6|].
    eapply threshold_block_covers; [exact B5|].
    eapply threshold_block_covers; [exact B4|].
    eapply threshold_block_covers; [exact B3|].
    eapply threshold_block_covers; [exact B2|].
    eapply threshold_block_covers; [exact B1|].
    apply covers_full. }
  destruct (write_flags_run flags acc10.2 t12) as (t14' & Hw & Q1 & Q2 & Q3).
  rewrite B14 in Hw. injection Hw as <-.
  assert (forall n, on_dataset (values_of n) st' = on_dataset (values_of n) t14) as Eqc.
  { intros n. etransitivity.
    - eapply preserves_run; [apply finish_values|exact H].
    - eapply preserves_run; [apply stamp_flags_values|exact B15]. }
  unfold velocities, on_dataset, values_of, axes in Emid, Eend.
  injection Emid as Emu Emv Emw _ _. injection Eend as Eeu Eev Eew Eed Eet.
  match type of Hu3 with holds _ _ (Float2 ?a) =>
    assert (um = a) as Eum by (unfold holds in *; congruence); set (u3 := a) in *
  end.
  match type of Hv3 with holds _ _ (Float2 ?a) =>
    assert (vm = a) as Evm by (unfold holds in *; congruence); set (v3 := a) in *
  end.
  match type of Hw3 with holds _ _ (Float2 ?a) =>
    assert (wm = a) as Ewm by (unfold holds in *; congruence); set (w3 := a) in *
  end.
  subst um vm wm.
  assert (Hflag9 : forall i j x y z,
            (i < nd (dataset s4))%nat -> (j < nt (dataset s4))%nat ->
            cell u3 i j = Some x -> cell v3 i j = Some y -> cell w3 i j = Some z ->
            is_finite x = false \/ is_finite y = false \/ is_finite z = false ->
            cell flags i j = Some 9%Z).
  { intros i j x y z Hi Hj Hx Hy Hz Hnf.
    destruct (clipped_together _ _ _ _ i j x y z Hx Hy Hz Hnf) as [Fx Fy].
    rewrite Hflags, cell_putmask. destruct (Hcov i j Hi Hj) as [q ->].
    rewrite cell_zip2d, !cell_map2d, Hx, Hy. simpl.
    unfold np.isfinite. by rewrite Fx, Fy. }
  exists flags, u3, v3, w3.
  assert (forall n a, holds (dataset t14) n a -> holds (dataset st') n a) as Hqc.
  { intros n a Hn. specialize (Eqc n). unfold on_dataset, values_of in Eqc.
    unfold holds in *. congruence. }
  split; [by apply Hqc|]. split; [by apply Hqc|]. split; [by apply Hqc|].
  split; [unfold holds in *; congruence|].
  split; [unfold holds in *; congruence|].
  split; [unfold holds in *; congruence|].
  assert (nd (dataset st') = nd (dataset s4)) as End by (unfold nd; congruence).
  assert (nt (dataset st') = nt (dataset s4)) as Ent by (unfold nt; congruence).
  split.
  { intros i j x y z Hi Hj. apply Hflag9; congruence. }
  unfold l_section, call_l, modify in H2. injection H2 as <-.
  unfold l_reset, modify in H1. injection H1 as <-.
  split; cycle 1.
  { intros w Hw i j z x' y' z' Hi Hj Hz Hnf Hx' Hy' Hz'.
    assert (exists w1, holds (dataset s3) "w" (Float2 w1)
              /\ forall i j z1, cell w1 i j = Some z1 ->
                   exists z, cell w i j = Some z
                             /\ (is_finite z = false -> is_finite z1 = false))
      as (w1 & Hw1 & Hrel).
    { destruct mode as [m|].
      - unfold when in H3. destruct (truthy_str m).
        + eapply motion_correction_w; [exact H3|exact Hw].
        + injection H3 as <-. exists w. split; [exact Hw|]. eauto.
      - injection H3 as <-. exists w. split; [exact Hw|]. eauto. }
    pose proof (holds_inj _ _ _ _ Hw0 Hw1) as [= ->].
    eapply (Hflag9 i j); [congruence|congruence|exact Hx'|exact Hy'|exact Hz'|].
    right. right. unfold w3 in Hz'.
    apply cell_where_inv in Hz' as (r2 & Hr2 & C2).
    apply cell_where_inv in Hr2 as (r1 & Hr1 & C1).
    apply cell_where_inv in Hr1 as (r0 & Hr0 & C0).
    destruct (Hrel i j r0 Hr0) as (zz & Hzz & Himp).
    rewrite Hz in Hzz. injection Hzz as <-. specialize (Himp Hnf).
    destruct C2 as [->| ->]; [|done].
    destruct C1 as [->| ->]; [|done].
    destruct C0 as [->| ->]; [|done]. exact Himp. }
  intros -> u v w Hu Hv Hw i j x y z Hi Hj Hx Hy Hz Hnf.
  injection H3 as <-.
  cbn [dataset] in *.
  pose proof (holds_inj _ _ _ _ Hu0 Hu) as [= ->].
  pose proof (holds_inj _ _ _ _ Hv0 Hv) as [= ->].
  pose proof (holds_inj _ _ _ _ Hw0 Hw) as [= ->].
  destruct (clipped_cell IMPLAUSIBLE_VEL_TRESHOLD x y z) as [_ Hnan]. cbv zeta in Hnan.
  destruct (Hnan Hnf) as (Nx & _ & _).
  eapply (Hflag9 i j).
  - unfold nd in *. congruence.
  - unfold nt in *. congruence.
  - unfold u3. rewrite !cell_where, !cell_map2d, !cell_where, !cell_map2d,
      !cell_where, !cell_map2d, Hx, Hy, Hz. simpl. reflexivity.
  - unfold v3. rewrite !cell_where, !cell_map2d, !cell_where, !cell_map2d,
      !cell_where, !cell_map2d, Hx, Hy, Hz. simpl. reflexivity.
  - unfold w3. rewrite !cell_where, !cell_map2d, !cell_where, !cell_map2d,
      !cell_where, !cell_map2d, Hx, Hy, Hz. simpl. reflexivity.
  - left. unfold is_finite. by rewrite Nx.
Qed.

End missing_value.

(** ** Missing prerequisites of a per-beam test *)

Section prerequisites.
Import xr quality_control.

(** C2: when one of [amp1] .. [amp4] is not in the dataset, [amplitude_test]
    does not skip the test: it raises [AttributeError], from the lookup of
    [l.warnings], which [utils.Logger] does not have. The state is as it
    was: nothing is logged, no warning is counted, and no mask is returned.
    The same holds of [correlation_test] and of [percentgood_test]. *)
Theorem missing_prerequisite_raises :
  forall (threshold : float) (st : State),
    let no_warnings := AttributeError "'Logger' object has no attribute 'warnings'" in
    (forallb (contains (dataset st)) ["amp1"; "amp2"; "amp3"; "amp4"] = false ->
     amplitude_test threshold st = (inl no_warnings, st))
    /\ (forallb (contains (dataset st)) ["corr1"; "corr2"; "corr3"; "corr4"] = false ->
        correlation_test threshold st = (inl no_warnings, st))
    /\ (contains (dataset st) "pg" = false ->
        percentgood_test threshold st = (inl no_warnings, st)).
Proof.
  intros threshold st no_warnings. repeat split; intros H.
  - unfold amplitude_test. step (gets_run dataset st). by rewrite H.
  - unfold correlation_test. step (gets_run dataset st). by rewrite H.
  - unfold percentgood_test. step (gets_run dataset st). by rewrite H.
Qed.

(** On the sample dataset without [amp1], the amplitude test raises. *)
Lemma missing_prerequisite_raises_witness :
  forallb (contains (dataset (sample.state sample.ds_without_amp1)))
          ["amp1"; "amp2"; "amp3"; "amp4"] = false
  /\ amplitude_test 30 (sample.state sample.ds_without_amp1)
     = (inl (AttributeError "'Logger' object has no attribute 'warnings'"),
        sample.state sample.ds_without_amp1).
Proof.
  split; [vm_compute; reflexivity|].
  apply (proj1 (missing_prerequisite_raises 30 (sample.state sample.ds_without_amp1))).
  vm_compute; reflexivity.
Defined.

(** The whole quality control stops there: it raises, having counted no
    warning. *)
Lemma quality_control_without_amp1 :
  let r := sample.quality_control_run sample.ds_without_amp1 false None in
  r.1 = inl (AttributeError "'Logger' object has no attribute 'warnings'")
  /\ utils.w_count (l r.2) = 0%nat
  /\ variables (dataset r.2) !! "u_QC" = None.
Proof. vm_compute. done. Qed.

End prerequisites.

(** ** The fifth beam *)

Section fifth_beam.
Import xr quality_control.

Lemma vertical_beam_test_state a c p :
  preserves (fun s : State => s) (vertical_beam_test a c p).
Proof. unfold vertical_beam_test, vertical_beam_channel. pres. Qed.

(** C4: when the dataset has [vb_vel], the block of the fifth beam writes
    [vb_vel_QC] as the mask of [vertical_beam_test] times 3: a cell where
    the test fails holds 3 and every other cell holds 0, never 1. *)
Theorem fifth_beam_flags_are_3_or_0 :
  forall (_timestamp : string) (str_num : float -> string)
         (amp_th corr_th pg_th : option float) (st st' : State),
    contains (dataset st) "vb_vel" = true ->
    fifth_beam_block _timestamp str_num amp_th corr_th pg_th st = (inr tt, st') ->
    exists vb_flag flags s1,
      dataset s1 = dataset st
      /\ vertical_beam_test amp_th corr_th pg_th s1 = (inr vb_flag, s1)
      /\ holds (dataset st') "vb_vel_QC" (Int2 flags)
      /\ forall i j,
           cell flags i j
           = (fun failed : bool => if failed then 3%Z else 0%Z) <$> cell vb_flag i j.
Proof.
  intros ts str_num a c p st st' Hvb H. unfold fifth_beam_block in H.
  apply bind_inr in H as (ds & s0 & Hds & H). rewrite gets_run in Hds.
  injection Hds as <- <-. rewrite Hvb in H.
  apply bind_inr in H as ([] & s1 & Hlog & H).
  rewrite l_log_run in Hlog. injection Hlog as <-.
  apply bind_inr in H as (vb_flag & s2 & Htest & H).
  pose proof (preserves_run _ _ _ _ _ (vertical_beam_test_state a c p) Htest) as Hst.
  cbv beta in Hst. subst s2.
  unfold bind, update, modify in H. injection H as <-.
  eexists vb_flag, (np.map2d (fun b : bool => if b then 3%Z else 0%Z) vb_flag), _.
  split; [|split; [exact Htest|split]].
  - reflexivity.
  - unfold holds. cbn. by simplify_map_eq.
  - intros i j. by rewrite cell_map2d.
Qed.

End fifth_beam.

Section fifth_beam_sample.
Import xr quality_control.

(** On the sample dataset with a fifth beam: the block returns, and the
    cells that pass hold 0. *)
Lemma fifth_beam_flags_are_3_or_0_witness :
  let st := sample.state sample.ds_with_vb in
  let r := fifth_beam_block sample.timestamp sample.str_num
             (Some 30%float) (Some 64%float) (Some 90%float) st in
  contains (dataset st) "vb_vel" = true
  /\ r = (inr tt, r.2)
  /\ exists vb_flag flags s1,
       dataset s1 = dataset st
       /\ vertical_beam_test (Some 30%float) (Some 64%float) (Some 90%float) s1
          = (inr vb_flag, s1)
       /\ holds (dataset r.2) "vb_vel_QC" (Int2 flags)
       /\ forall i j,
            cell flags i j
            = (fun failed : bool => if failed then 3%Z else 0%Z) <$> cell vb_flag i j.
Proof.
  cbv zeta. split; [vm_compute; reflexivity|]. split; [vm_compute; reflexivity|].
  apply (fifth_beam_flags_are_3_or_0 sample.timestamp sample.str_num
           (Some 30%float) (Some 64%float) (Some 90%float)
           (sample.state sample.ds_with_vb)); vm_compute; reflexivity.
Defined.

(** The whole quality control on that dataset: where the fifth beam passes,
    [vb_vel_QC] is 0 (no_quality_control), not 1 (good_value). *)
Lemma quality_control_with_fifth_beam :
  let r := sample.quality_control_run sample.ds_with_vb false None in
  r.1 = inr tt
  /\ values_of "vb_vel_QC" (dataset r.2) = Some (Int2 [[0; 0]; [3; 0]]%Z)
  /\ values_of "u_QC" (dataset r.2) = Some (Int2 [[1; 9]; [3; 9]]%Z).
Proof. vm_compute. done. Qed.

End fifth_beam_sample.

(** ** The sidelobe test *)

Section sidelobes.
Import xr quality_control.
Variable _timestamp : string.
Variable cos_radians : float -> float.

Lemma truth_ambiguous (a : grid bool) :
  (1 < np.size a)%nat ->
  np.truth a
  = inl (ValueError "The truth value of an array with more than one element is ambiguous. Use a.any() or a.all()").
Proof.
  unfold np.size, np.truth. destruct (concat a) as [|b [|b' rest]]; simpl; [lia|lia|done].
Qed.

Lemma attrs_getitem_run key a st :
  ds_attrs (dataset st) !! key = Some a -> attrs_getitem key st = (inr a, st).
Proof. unfold attrs_getitem. by intros ->. Qed.

(** Downward-looking, with the transducer depth a variable and the bottom
    depth given: the mask is true exactly at the cells deeper than
    [xducer_depth + (bottom_depth - xducer_depth) * cos(beam_angle)]. *)
Lemma sidelobe_test_down (angle bottom : float) (xducer : list float) st :
  ds_attrs (dataset st) !! "beam_angle" = Some (ANum angle) ->
  truthy_num angle = true ->
  ds_attrs (dataset st) !! "orientation" = Some (AStr "down") ->
  ds_attrs (dataset st) !! "xducer_depth" = None ->
  holds (dataset st) "xducer_depth" (Float1 xducer) ->
  truthy_num bottom = true ->
  exists mask,
    sidelobe_test _timestamp cos_radians (Some bottom) st = (inr (Mask mask), st)
    /\ forall i j d x,
         depth (dataset st) !! i = Some d -> xducer !! j = Some x ->
         cell mask i j
         = Some (np.greater d (x + (bottom - x) * cos_radians angle)%float).
Proof.
  intros Hangle Htruthy Horient Hattr Hx Hbottom. unfold sidelobe_test.
  step (gets_run dataset st).
  step (attrs_getitem_run _ _ _ Hangle). cbn [truthy_attr]. rewrite Htruthy.
  erewrite bind_ret_l; cycle 1.
  { step (attrs_getitem_run _ _ _ Horient). reflexivity. }
  cbv beta. cbn [truthy_attr truthy_str String.eqb negb num_attr].
  step (@eq_refl _ (ret angle st)).
  rewrite (holds_contains _ _ _ Hx), Hattr. cbn [andb negb].
  rewrite bool_decide_false by (by intros []).
  cbn [andb negb].
  erewrite bind_ret_l; cycle 1.
  { step (float1_getitem _ _ _ Hx). reflexivity. }
  cbv beta iota.
  step (attrs_getitem_run _ _ _ Horient).
  cbn [attr_is String.eqb Ascii.eqb Bool.eqb truthy_th]. rewrite Hbottom.
  step (@eq_refl _ (ret (Some (replicate (length xducer) (default 0%float (Some bottom)))) st)).
  cbv beta iota.
  eexists. split; [reflexivity|].
  intros i j d x Hd Hxj. unfold cell.
  rewrite list_lookup_fmap, Hd. simpl.
  rewrite list_lookup_fmap, lookup_zip_with, Hxj. simpl.
  rewrite lookup_replicate_2 by (by eapply lookup_lt_Some). done.
Qed.

(** C7: whenever [sidelobe_test] returns a mask of more than one cell, the
    block [if sidelobes_correction: ...] raises [ValueError] at
    [if sidelobe_flag:], the truth value of such an array being ambiguous:
    no flag 4 is set and [adcp_quality_control] does not complete. *)
Theorem sidelobe_flag_truth_value_raises :
  forall (bottom_depth : option float) (acc : grid Z * list string)
         (st st1 : State) (mask : grid bool),
    sidelobe_test _timestamp cos_radians bottom_depth st = (inr (Mask mask), st1) ->
    (1 < np.size mask)%nat ->
    sidelobes_block _timestamp cos_radians true bottom_depth acc st
    = (inl (ValueError "The truth value of an array with more than one element is ambiguous. Use a.any() or a.all()"),
       st1).
Proof.
  intros bottom acc st st1 mask Htest Hsize. unfold sidelobes_block.
  step Htest. by rewrite truth_ambiguous.
Qed.

End sidelobes.

Section sidelobes_sample.
Import xr quality_control.

(** On the sample dataset, two bins by two samples, looking down from the
    surface to a bottom at 100 m. *)
Lemma sidelobe_flag_truth_value_raises_witness :
  let st := sample.state sample.ds in
  let acc : grid Z * list string := (np.full 2 2 1%Z, []) in
  sidelobe_test sample.timestamp sample.cos_radians (Some 100%float) st
  = (inr (Mask [[false; false]; [true; true]]), st)
  /\ (1 < np.size [[false; false]; [true; true]])%nat
  /\ sidelobes_block sample.timestamp sample.cos_radians true (Some 100%float) acc st
     = (inl (ValueError "The truth value of an array with more than one element is ambiguous. Use a.any() or a.all()"),
        st).
Proof.
  cbv zeta. split; [vm_compute; reflexivity|]. split; [vm_compute; lia|].
  apply (sidelobe_flag_truth_value_raises sample.timestamp sample.cos_radians
           (Some 100%float) (np.full 2 2 1%Z, []) (sample.state sample.ds)
           (sample.state sample.ds) [[false; false]; [true; true]]).
  - vm_compute; reflexivity.
  - vm_compute; lia.
Defined.

(** The whole quality control with [sidelobes_correction=True]: it raises,
    and the dataset has no [u_QC]. *)
Lemma quality_control_with_sidelobes :
  let r := sample.quality_control_run sample.ds true (Some 100%float) in
  r.1 = inl (ValueError "The truth value of an array with more than one element is ambiguous. Use a.any() or a.all()")
  /\ variables (dataset r.2) !! "u_QC" = None.
Proof. vm_compute. done. Qed.

End sidelobes_sample.

(** ** The theorems on the sample dataset *)

Section on_the_sample.
Import xr quality_control.

(** Cell (0, 1) of the sample has a [w] that is NaN and finite [u] and [v]:
    the quality control returns and the cell is flagged 9. *)
Lemma missing_value_flag_wins_witness :
  let r := sample.quality_control_run sample.ds false None in
  r = (inr tt, r.2)
  /\ cell sample.u 0 1 = Some 2%float
  /\ cell sample.v 0 1 = Some 2%float
  /\ cell sample.w 0 1 = Some PrimFloat.nan
  /\ exists flags,
       holds (dataset r.2) "u_QC" (Int2 flags)
       /\ holds (dataset r.2) "v_QC" (Int2 flags)
       /\ holds (dataset r.2) "w_QC" (Int2 flags)
       /\ cell flags 0 1 = Some 9%Z.
Proof.
  cbv zeta.
  assert (sample.quality_control_run sample.ds false None
          = (inr tt, (sample.quality_control_run sample.ds false None).2)) as Hrun
    by (vm_compute; reflexivity).
  split; [exact Hrun|].
  split; [reflexivity|]. split; [reflexivity|]. split; [reflexivity|].
  destruct (missing_value_flag_wins sample.timestamp sample.today sample.str_num
              sample.circmean sample.circular_distance sample.cos_radians sample.uninit
              (Some 30%float) (Some 64%float) (Some 90%float) (Some 20%float)
              (Some 20%float) (Some 5%float) (Some 5%float) (Some 5%float)
              None false None (sample.state sample.ds)
              (sample.quality_control_run sample.ds false None).2 Hrun)
    as (flags & u' & v' & w' & Qu & Qv & Qw & _ & _ & _ & _ & Hin & _).
  exists flags. split; [exact Qu|]. split; [exact Qv|]. split; [exact Qw|].
  apply (Hin eq_refl sample.u sample.v sample.w) with (x := 2%float) (y := 2%float)
                                                       (z := PrimFloat.nan);
    try (vm_compute; reflexivity); try (vm_compute; lia).
Defined.

(** The four amplitudes of the sample are strong everywhere; its four
    correlations are weak in cell (1, 0). *)
Lemma amplitude_correlation_all_four_beams_witness :
  let st := sample.state sample.ds in
  (exists flag,
     amplitude_test 30 st = (inr flag, st)
     /\ all_four_rule 30 sample.strong sample.strong sample.strong sample.strong flag)
  /\ (exists flag,
        correlation_test 64 st = (inr flag, st)
        /\ all_four_rule 64 sample.weak_at_1_0 sample.weak_at_1_0
             sample.weak_at_1_0 sample.weak_at_1_0 flag).
Proof.
  cbv zeta. split.
  - apply (proj1 (amplitude_correlation_all_four_beams 30 (sample.state sample.ds)
                    sample.strong sample.strong sample.strong sample.strong));
      vm_compute; reflexivity.
  - apply (proj2 (amplitude_correlation_all_four_beams 64 (sample.state sample.ds)
                    sample.weak_at_1_0 sample.weak_at_1_0
                    sample.weak_at_1_0 sample.weak_at_1_0));
      vm_compute; reflexivity.
Defined.

(** The sample has no bottom track: the correction aborts with one warning.
    With a bottom track it subtracts it. *)
Lemma motion_correction_bottom_track_witness :
  let st := sample.state sample.ds in
  let st_bt := sample.state sample.ds_with_bt in
  contains (dataset st) "bt_u" = false
  /\ (exists st',
        motion_correction sample.timestamp "bt" st = (inr tt, st')
        /\ dataset st' = dataset st
        /\ utils.w_count (l st') = 1%nat)
  /\ (exists st' u' v' w',
        motion_correction sample.timestamp "bt" st_bt = (inr tt, st')
        /\ holds (dataset st') "u" (Float2 u')
        /\ holds (dataset st') "v" (Float2 v')
        /\ holds (dataset st') "w" (Float2 w')
        /\ cell u' 1 1 = Some 19.5%float).
Proof.
  cbv zeta. split; [vm_compute; reflexivity|]. split.
  - destruct (proj1 (motion_correction_bottom_track sample.timestamp
                       (sample.state sample.ds)))
      as (st' & Hrun & Hds & Hw & _).
    + left. vm_compute; reflexivity.
    + vm_compute; reflexivity.
    + exists st'. split; [exact Hrun|]. split; [exact Hds|]. exact Hw.
  - destruct (proj2 (motion_correction_bottom_track sample.timestamp
                       (sample.state sample.ds_with_bt))
                sample.u sample.v sample.w [0.5; 0.5]%float [0.25; 0.25]%float
                [0; 0]%float)
      as (st' & u' & v' & w' & Hrun & Hu & Hv & Hw & Hcell & _);
      try (vm_compute; reflexivity).
    exists st', u', v', w'. split; [exact Hrun|]. split; [exact Hu|].
    split; [exact Hv|]. split; [exact Hw|].
    apply (Hcell 1%nat 1%nat 20%float 0.5%float); vm_compute; reflexivity.
Defined.

(** In the sample, [u] is 20 m/s in cell (1, 1) and [w] is NaN in cell
    (0, 1): both cells are voided in the three components. *)
Lemma implausible_velocities_share_one_nan_mask_witness :
  let st := sample.state sample.ds in
  holds (dataset st) "u" (Float2 sample.u)
  /\ holds (dataset st) "v" (Float2 sample.v)
  /\ holds (dataset st) "w" (Float2 sample.w)
  /\ exists st' u' v' w',
       set_implausible_vel_to_nan IMPLAUSIBLE_VEL_TRESHOLD st = (inr tt, st')
       /\ holds (dataset st') "u" (Float2 u')
       /\ holds (dataset st') "v" (Float2 v')
       /\ holds (dataset st') "w" (Float2 w')
       /\ forall i j x y z,
            cell sample.u i j = Some x -> cell sample.v i j = Some y ->
            cell sample.w i j = Some z ->
            exists x' y' z',
              cell u' i j = Some x' /\ cell v' i j = Some y' /\ cell w' i j = Some z'
              /\ clipped IMPLAUSIBLE_VEL_TRESHOLD x y z x' y' z'
              /\ (is_finite x = false \/ is_finite y = false \/ is_finite z = false ->
                  is_nan x' = true /\ is_nan y' = true /\ is_nan z' = true).
Proof.
  cbv zeta.
  assert (H1 : holds (dataset (sample.state sample.ds)) "u" (Float2 sample.u))
    by (vm_compute; reflexivity).
  assert (H2 : holds (dataset (sample.state sample.ds)) "v" (Float2 sample.v))
    by (vm_compute; reflexivity).
  assert (H3 : holds (dataset (sample.state sample.ds)) "w" (Float2 sample.w))
    by (vm_compute; reflexivity).
  split; [exact H1|]. split; [exact H2|]. split; [exact H3|].
  exact (implausible_velocities_share_one_nan_mask IMPLAUSIBLE_VEL_TRESHOLD
           (sample.state sample.ds) sample.u sample.v sample.w H1 H2 H3).
Defined.

End on_the_sample.

(** ** Returning and raising *)

Lemma returns_ret {St A} (P : St -> Prop) (a : A) : returns P (ret a) P.
Proof. intros s H. by eexists _, _. Qed.

Lemma returns_gets {St A} (P : St -> Prop) (f : St -> A) : returns P (gets f) P.
Proof. intros s H. by eexists _, _. Qed.

Lemma returns_modify {St} (P Q : St -> Prop) (f : St -> St) :
  (forall s, P s -> Q (f s)) -> returns P (modify f) Q.
Proof. intros H s Hs. eexists _, _. split; [reflexivity|]. by apply H. Qed.

Lemma returns_bind {St A B} (P Q R : St -> Prop) (m : M St A) (k : A -> M St B) :
  returns P m Q -> (forall a, returns Q (k a) R) -> returns P (bind m k) R.
Proof.
  intros Hm Hk s Hs. destruct (Hm s Hs) as (a & s1 & E & H1).
  destruct (Hk a s1 H1) as (b & s2 & E2 & H2).
  exists b, s2. split; [|done]. by rewrite (bind_ret_l _ _ _ _ _ E).
Qed.

Lemma returns_when {St} (P : St -> Prop) (b : bool) (m : M St unit) :
  returns P m P -> returns P (when b m) P.
Proof. intros H. destruct b; [done|apply returns_ret]. Qed.

Lemma raises_bind_l {St A B} (P : St -> Prop) (m : M St A) (k : A -> M St B) E :
  raises P m E -> raises P (bind m k) E.
Proof.
  intros Hm s Hs. destruct (Hm s Hs) as (e & s1 & Em & He).
  exists e, s1. split; [|done]. by rewrite (bind_raise_l _ _ _ _ _ Em).
Qed.

Lemma raises_bind_r {St A B} (P Q : St -> Prop) (m : M St A) (k : A -> M St B) E :
  returns P m Q -> (forall a, raises Q (k a) E) -> raises P (bind m k) E.
Proof.
  intros Hm Hk s Hs. destruct (Hm s Hs) as (a & s1 & Em & H1).
  destruct (Hk a s1 H1) as (e & s2 & Ek & He).
  exists e, s2. split; [|done]. by rewrite (bind_ret_l _ _ _ _ _ Em).
Qed.

(** ** [loader]: the coordinate system *)

Section coordinate_system.
Import xr loader.
Variable _timestamp : string.
Variable str_num : float -> string.
Variable to_datetime64 : Z -> float -> Z.
Variable datetime_str : Z -> string.
Variable median : list float -> float.
Variable nanmean : list float -> float.
Variable mean : list float -> float.
Variable beam_to_xyz : float -> string -> list (grid float) -> list (grid float).
Variable beam_to_xyz_bt : float -> string -> grid float -> grid float.
Variable rdi_xyz_enu :
  list (grid float) -> list float -> list float -> list float -> string -> list (grid float).
Variable rdi_xyz_enu_bt :
  grid float -> list float -> list float -> list float -> string -> grid float.
Variable round3 : float -> float.
Variable FixedLeader : Type.

(** Data that are not in beam coordinates never leave [coordsystem2earth]:
    [bt_xyze] is bound in the [beam] branch only. *)
Lemma coordsystem2earth_raises orientation :
  raises (fun s => trans_coordsystem (data s) <> "beam")
         (coordsystem2earth beam_to_xyz beam_to_xyz_bt rdi_xyz_enu rdi_xyz_enu_bt
            round3 orientation)
         slipped.
Proof.
  intros s Hcs. unfold coordsystem2earth.
  step (gets_run data s).
  apply String.eqb_neq in Hcs. rewrite Hcs.
  destruct (negb (bool_decide (trans_coordsystem (data s) ∈ ["beam"; "xyz"]))).
  - destruct (sysconfig_coordsystem (data s)).
    + step (@eq_refl _ (ret tt s)).
      destruct (all_zero (heading (data s)) || all_zero (roll (data s))
                || all_zero (pitch (data s))).
      * eexists _, _. split; [reflexivity|]. by right.
      * eexists _, _. split; [reflexivity|]. by right.
    + eexists _, _. split; [reflexivity|]. by left.
  - step (@eq_refl _ (ret tt s)).
    destruct (all_zero (heading (data s)) || all_zero (roll (data s))
              || all_zero (pitch (data s))).
    + eexists _, _. split; [reflexivity|]. by right.
    + eexists _, _. split; [reflexivity|]. by right.
Qed.


(** A computation that returns from every state and keeps the raw bundle. *)
Ltac keeps_data :=
  repeat first
    [ apply returns_ret | apply returns_gets | apply returns_when
    | (apply returns_modify; intros ? ?; assumption)
    | match goal with
      | |- returns ?P (bind _ _) _ => apply (returns_bind P P); [|intros]
      | |- returns _ (if ?b then _ else _) _ => destruct b
      | |- returns _ (match ?x with _ => _ end) _ => destruct x
      end ].

Lemma convert_dday_keeps_data yearbase raw :
  returns (fun s => data s = raw)
          (convert_dday _timestamp to_datetime64 datetime_str yearbase)
          (fun s => data s = raw).
Proof. unfold convert_dday, call_l. keeps_data. Qed.

Lemma depth_below_surface_keeps_data sensor_depth raw :
  returns (fun s => data s = raw)
          (depth_below_surface _timestamp str_num median sensor_depth)
          (fun s => data s = raw).
Proof. unfold depth_below_surface, l_log, call_l. keeps_data. Qed.

Lemma coordinates_system_raises orientation raw :
  trans_coordsystem raw <> "beam" -> trans_coordsystem raw <> "earth" ->
  raises (fun s => data s = raw)
         (coordinates_system _timestamp beam_to_xyz beam_to_xyz_bt rdi_xyz_enu
            rdi_xyz_enu_bt round3 orientation)
         slipped.
Proof.
  intros Hbeam Hearth s Hs. subst raw. unfold coordinates_system.
  step (gets_run data s).
  apply String.eqb_neq in Hearth. rewrite Hearth. cbn [negb].
  destruct (coordsystem2earth_raises orientation
              (mkState (log _timestamp
                          (MStr ("The velocity data are in "
                                 +:+ trans_coordsystem (data s) +:+ " coordinate"))
                          false (l s)).1
                       (stdout s ++ (log _timestamp
                          (MStr ("The velocity data are in "
                                 +:+ trans_coordsystem (data s) +:+ " coordinate"))
                          false (l s)).2)
                       (data s) (ds s)) Hbeam) as (e & s2 & E & He).
  exists e, s2. split; [|exact He].
  apply bind_raise_l. erewrite bind_ret_l by reflexivity.
  apply bind_raise_l. exact E.
Qed.

(** X24: a load whose raw bundle reports a coordinate system that is none of
    [beam], [xyz], [earth] does not raise [CoordinateSystemError]: the
    exception is built and dropped, the transform goes on, and the load
    fails further down on the unbound local [bt_xyze] (or, when the bundle
    has no [sysconfig.coordsystem], on the message of the dropped
    exception). *)
Theorem unknown_coordsystem_is_not_refused :
  forall (files_msg : string) (raw : Bunch) (fl : FixedLeader)
         (sonar : string) (yearbase : Z) (orientation : string)
         (sensor_depth : option float) (st : State),
    trans_coordsystem raw ∉ ["beam"; "xyz"; "earth"] ->
    exists e st',
      load_rdi_binary _timestamp str_num to_datetime64 datetime_str median nanmean
        mean beam_to_xyz beam_to_xyz_bt rdi_xyz_enu rdi_xyz_enu_bt round3 FixedLeader
        files_msg raw fl sonar yearbase orientation sensor_depth st = (inl e, st')
      /\ slipped e
      /\ forall what, e <> CoordinateSystemError what.
Proof.
  intros files_msg raw fl sonar yearbase orientation sensor_depth st Hcs.
  assert (trans_coordsystem raw <> "beam") as Hbeam by set_solver.
  assert (trans_coordsystem raw <> "earth") as Hearth by set_solver.
  assert (raises (fun _ : State => True)
            (load_rdi_binary _timestamp str_num to_datetime64 datetime_str median
               nanmean mean beam_to_xyz beam_to_xyz_bt rdi_xyz_enu rdi_xyz_enu_bt
               round3 FixedLeader files_msg raw fl sonar yearbase orientation
               sensor_depth) slipped) as Hraises.
  { unfold load_rdi_binary.
    eapply raises_bind_r; [apply (returns_modify _ (fun _ => True)); done|intros].
    eapply raises_bind_r; [apply (returns_modify _ (fun _ => True)); done|intros].
    eapply raises_bind_r; [apply (returns_modify _ (fun _ => True)); done|intros].
    eapply raises_bind_r;
      [apply returns_when; apply (returns_modify _ (fun _ => True)); done|intros].
    eapply raises_bind_r;
      [apply (returns_modify _ (fun s => data s = raw)); done|intros].
    eapply raises_bind_r; [apply convert_dday_keeps_data|intros [bad [t ts]]].
    eapply raises_bind_r; [apply depth_below_surface_keeps_data|intros].
    eapply raises_bind_r; [apply returns_gets|intros].
    eapply raises_bind_r;
      [apply (returns_modify _ (fun s => data s = raw)); intros ? ?; assumption|intros].
    apply raises_bind_l. by apply coordinates_system_raises. }
  destruct (Hraises st I) as (e & st' & E & He).
  exists e, st'. split; [exact E|]. split; [exact He|].
  intros what ->. destruct He; discriminate.
Qed.

End coordinate_system.

(** ** [loader]: the time *)

Ltac lpres :=
  repeat first
    [ progress intros
    | match goal with
      | |- preserves _ (bind _ _) => apply preserves_bind
      | |- preserves _ (ret _) => apply preserves_ret
      | |- preserves _ (raise _) => apply preserves_raise
      | |- preserves _ (gets _) => apply preserves_gets
      | |- preserves _ get => apply preserves_get
      | |- preserves _ (when _ _) => apply preserves_when
      | |- preserves _ (for_each _ _) => apply preserves_for_each
      | |- preserves _ (modify _) => apply preserves_modify; intros; reflexivity
      | |- preserves _ (if ?b then _ else _) => destruct b
      | |- preserves _ (match ?x with _ => _ end) => destruct x
      | |- preserves _ (let _ := _ in _) => progress cbv zeta
      end
    | progress cbv zeta
    | apply preserves_ret | apply preserves_raise
    | apply preserves_gets | apply preserves_get
    | apply preserves_when | apply preserves_for_each
    | (apply preserves_modify; intros; reflexivity)
    | apply preserves_bind ].

Section time.
Import xr loader.
Variable _timestamp : string.
Variable str_num : float -> string.
Variable to_datetime64 : Z -> float -> Z.
Variable datetime_str : Z -> string.
Variable median : list float -> float.
Variable nanmean : list float -> float.
Variable mean : list float -> float.
Variable beam_to_xyz : float -> string -> list (grid float) -> list (grid float).
Variable beam_to_xyz_bt : float -> string -> grid float -> grid float.
Variable rdi_xyz_enu :
  list (grid float) -> list float -> list float -> list float -> string -> list (grid float).
Variable rdi_xyz_enu_bt :
  grid float -> list float -> list float -> list float -> string -> grid float.
Variable round3 : float -> float.
Variable FixedLeader : Type.

Lemma preserves_set_values {X} (f : State -> X) name a :
  (forall s, f (mkState (l s) (stdout s) (data s) (set_data name a (ds s))) = f s) ->
  preserves f (set_values name a).
Proof.
  intros H s. unfold set_values.
  destruct (variables (ds s) !! name); simpl; [apply H|done].
Qed.

Lemma set_values_kept name a : preserves kept (set_values name a).
Proof. by apply preserves_set_values. Qed.

Lemma coordsystem2earth_kept orientation :
  preserves kept (coordsystem2earth beam_to_xyz beam_to_xyz_bt rdi_xyz_enu
                    rdi_xyz_enu_bt round3 orientation).
Proof.
  unfold coordsystem2earth, set_vel_slice, set_bt_vel_slice, set_data_.
  lpres.
Qed.

Lemma coordinates_system_kept orientation :
  preserves kept (coordinates_system _timestamp beam_to_xyz beam_to_xyz_bt
                    rdi_xyz_enu rdi_xyz_enu_bt round3 orientation).
Proof.
  unfold coordinates_system, l_log, call_l. lpres.
Qed.

Lemma load_transducer_data_kept original_coordsystem :
  preserves kept (load_transducer_data _timestamp nanmean mean original_coordsystem).
Proof.
  unfold load_transducer_data, l_log, call_l, set_data_, set_ds.
  lpres; apply set_values_kept.
Qed.

Lemma load_depth_data_kept x : preserves kept (load_depth_data x).
Proof.
  unfold load_depth_data, set_ds. lpres; apply set_values_kept.
Qed.

Lemma load_navigation_data_kept : preserves kept (load_navigation_data _timestamp).
Proof.
  unfold load_navigation_data, l_log, call_l, set_ds. lpres; apply set_values_kept.
Qed.

Lemma set_attributes_loaded orientation :
  preserves loaded (set_attributes _timestamp orientation).
Proof. unfold set_attributes, l_log, call_l, set_ds. lpres. Qed.


Lemma load_other_variables_kept bad_time time_string :
  preserves kept (load_other_variables _timestamp bad_time time_string).
Proof.
  unfold load_other_variables, l_log, call_l, set_ds. lpres; apply set_values_kept.
Qed.

Lemma depth_below_surface_data sensor_depth :
  preserves (fun s => data s) (depth_below_surface _timestamp str_num median sensor_depth).
Proof. unfold depth_below_surface, l_log, call_l. lpres. Qed.

Lemma set_values_inv name a s s' :
  set_values name a s = (inr tt, s') ->
  s' = mkState (l s) (stdout s) (data s) (set_data name a (ds s))
  /\ is_Some (variables (ds s) !! name).
Proof.
  unfold set_values. destruct (variables (ds s) !! name); [|discriminate].
  intros [= <-]. eauto.
Qed.

(** Both tests of [bad_dday], element by element. *)
Lemma bad_dday_spec (d : list float) :
  bad_dday d = true <->
  (exists x, x ∈ d /\ (x <? 0)%float = true)
  \/ (exists i x y, d !! i = Some x /\ d !! S i = Some y /\ (y - x <? 0)%float = true).
Proof.
  unfold bad_dday, np.diff. rewrite orb_true_iff, !existsb_exists.
  split; intros [(x & Hin & Hx)|H]; [left| |left|].
  - exists x. by rewrite list_elem_of_In.
  - right. destruct H as (r & Hin & Hr).
    apply list_elem_of_In, list_elem_of_lookup in Hin as [i Hi].
    rewrite lookup_zip_with in Hi.
    destruct (d !! i) as [x|] eqn:Ex; [|done]. simpl in Hi.
    rewrite lookup_tail in Hi.
    destruct (d !! S i) as [y|] eqn:Ey; [|done]. simpl in Hi. injection Hi as <-.
    by exists i, x, y.
  - exists x. by rewrite <- list_elem_of_In.
  - destruct H as (i & x & y & Hx & Hy & Hlt). right.
    exists (y - x)%float. split; [|done].
    apply list_elem_of_In, list_elem_of_lookup. exists i.
    by rewrite lookup_zip_with, Hx, lookup_tail, Hy.
Qed.

Lemma lookup_map {A B} (f : A -> B) (xs : list A) i :
  List.map f xs !! i = f <$> xs !! i.
Proof. revert i. induction xs as [|x xs IH]; intros [|i]; simpl; auto. Qed.

Lemma lookup_arange_days n k :
  (k < n)%nat ->
  arange_days n !! k
  = Some (PrimFloat.of_uint63 (Uint63.of_Z (Z.of_nat k)) / 86400)%float.
Proof.
  intros H. unfold arange_days.
  by rewrite lookup_map, lookup_seq_lt.
Qed.

Lemma convert_dday_bad yearbase s :
  bad_dday (dday (data s)) = true ->
  exists s',
    convert_dday _timestamp to_datetime64 datetime_str yearbase s
    = (inr (true, dday_to_datetime64 to_datetime64 datetime_str
                    (arange_days (length (dday (data s)))) yearbase), s')
    /\ w_count (l s') = S (w_count (l s))
    /\ logbook (l s') = logbook (l s) +:+ " " +:+ substitution_warning yearbase +:+ nl
    /\ stdout s' = (stdout s ++ ["WARNING:" +:+ from8 (substitution_warning yearbase)])%list
    /\ data s' = data s /\ ds s' = ds s.
Proof.
  intros H. unfold convert_dday. step (gets_run data s). rewrite H.
  erewrite bind_ret_l by reflexivity. cbv beta.
  eexists. split; [reflexivity|]. cbn [l stdout data ds].
  repeat split; reflexivity.
Qed.

Lemma load_other_variables_bad_time time_string s s' :
  load_other_variables _timestamp true time_string s = (inr tt, s') ->
  variables (ds s') !! "dday" = Some (mkDataArray ["T"] (Float1 (dday (data s))) ∅)
  /\ holds (ds s') "time_string" (Str1 time_string).
Proof.
  unfold load_other_variables. intros H.
  apply bind_inr in H as (d & s0 & Hd & H). rewrite gets_run in Hd.
  injection Hd as <- <-.
  apply bind_inr in H as ([] & s1 & _ & H).
  apply bind_inr in H as ([] & s2 & _ & H).
  apply bind_inr in H as ([] & s3 & _ & H).
  apply bind_inr in H as ([] & s4 & _ & H).
  apply bind_inr in H as ([] & s5 & _ & H).
  apply bind_inr in H as ([] & s6 & _ & H).
  apply bind_inr in H as ([] & s7 & _ & H).
  apply bind_inr in H as ([] & s8 & _ & H).
  apply bind_inr in H as ([] & s9 & _ & H).
  apply bind_inr in H as ([] & s10 & Hts & H).
  apply set_values_inv in Hts as [-> [v Hv]].
  unfold when, set_ds, modify in H. injection H as <-.
  unfold holds. cbn. rewrite lookup_insert_eq.
  rewrite lookup_insert_ne by done. rewrite lookup_alter_eq, Hv. done.
Qed.

(** X25: a raw fractional-day vector that has a negative value, or a step
    [np.diff] finds negative, is replaced: [time] is the conversion, from
    the first of January of [yearbase], of the fractional days
    0/86400, 1/86400, ... (one second apart), as many as the raw vector has;
    the substitution is logged by one line, counted as one warning; and the
    dataset the load returns has that time coordinate, its mirror in
    [time_string], and the raw vector under [dday]. *)
Theorem bad_time_is_replaced :
  forall (files_msg : string) (raw : Bunch) (fl : FixedLeader)
         (sonar : string) (yearbase : Z) (orientation : string)
         (sensor_depth : option float),
    (exists x, x ∈ dday raw /\ (x <? 0)%float = true)
    \/ (exists i x y, dday raw !! i = Some x /\ dday raw !! S i = Some y
                      /\ (y - x <? 0)%float = true) ->
    let n := length (dday raw) in
    let synthetic := List.map (to_datetime64 yearbase) (arange_days n) in
    (length synthetic = n
     /\ forall k, (k < n)%nat ->
          synthetic !! k
          = Some (to_datetime64 yearbase
                    (PrimFloat.of_uint63 (Uint63.of_Z (Z.of_nat k)) / 86400)%float))
    /\ (forall s, data s = raw ->
          exists s',
            convert_dday _timestamp to_datetime64 datetime_str yearbase s
            = (inr (true, (synthetic, List.map datetime_str synthetic)), s')
            /\ w_count (l s') = S (w_count (l s))
            /\ logbook (l s')
               = logbook (l s) +:+ " " +:+ substitution_warning yearbase +:+ nl
            /\ data s' = raw /\ ds s' = ds s)
    /\ (forall st dataset raw' fl' st',
          load_rdi_binary _timestamp str_num to_datetime64 datetime_str median nanmean
            mean beam_to_xyz beam_to_xyz_bt rdi_xyz_enu rdi_xyz_enu_bt round3
            FixedLeader files_msg raw fl sonar yearbase orientation sensor_depth st
          = (inr (dataset, raw', fl'), st') ->
          time dataset = synthetic
          /\ holds dataset "time_string" (Str1 (List.map datetime_str synthetic))
          /\ variables dataset !! "dday"
             = Some (mkDataArray ["T"] (Float1 (dday raw)) ∅)).
Proof.
  intros files_msg raw fl sonar yearbase orientation sensor_depth Hbad n synthetic.
  apply bad_dday_spec in Hbad.
  split; [|split].
  - subst synthetic. split.
    + unfold arange_days. by rewrite !length_map, length_seq.
    + intros k Hk. by rewrite lookup_map, lookup_arange_days.
  - intros s <-. destruct (convert_dday_bad yearbase s Hbad)
      as (s' & Hrun & Hw & Hlog & _ & Hdata & Hds).
    exists s'. by repeat split.
  - intros st dataset raw' fl' st' H. unfold load_rdi_binary in H.
    apply bind_inr in H as ([] & s1 & _ & H).
    apply bind_inr in H as ([] & s2 & _ & H).
    apply bind_inr in H as ([] & s3 & _ & H).
    apply bind_inr in H as ([] & s4 & _ & H).
    apply bind_inr in H as ([] & s5 & H5 & H).
    unfold set_data_, modify in H5. injection H5 as <-.
    apply bind_inr in H as ([bad_time [time_ time_string]] & s6 & H6 & H).
    destruct (convert_dday_bad yearbase (mkState (l s4) (stdout s4) raw (ds s4)) Hbad)
      as (s6' & Hrun & _ & _ & _ & Hdata6 & _).
    rewrite H6 in Hrun. injection Hrun as -> -> -> <-. cbn [data] in Hdata6.
    apply bind_inr in H as (xd & s7 & H7 & H).
    apply bind_inr in H as (d & s8 & H8 & H).
    rewrite gets_run in H8. injection H8 as <- <-.
    apply bind_inr in H as ([] & s9 & H9 & H).
    unfold set_ds, modify in H9. injection H9 as <-.
    apply bind_inr in H as (oc & s10 & H10 & H).
    apply bind_inr in H as ([] & s11 & H11 & H).
    apply bind_inr in H as ([] & s12 & H12 & H).
    apply bind_inr in H as ([] & s13 & H13 & H).
    apply bind_inr in H as ([] & s14 & H14 & H).
    apply bind_inr in H as ([] & s15 & H15 & H).
    apply bind_inr in H as (sf & s16 & H16 & H).
    unfold get in H16. injection H16 as <- <-.
    injection H as <- _ _ _.
    pose proof (preserves_run _ _ _ _ _
                  (depth_below_surface_data sensor_depth) H7) as E7.
    pose proof (preserves_run _ _ _ _ _ (coordinates_system_kept orientation) H10) as E10.
    pose proof (preserves_run _ _ _ _ _ (load_transducer_data_kept oc) H11) as E11.
    pose proof (preserves_run _ _ _ _ _ (load_depth_data_kept xd) H12) as E12.
    pose proof (preserves_run _ _ _ _ _ load_navigation_data_kept H13) as E13.
    pose proof (preserves_run _ _ _ _ _ (load_other_variables_kept _ _) H14) as E14.
    pose proof (preserves_run _ _ _ _ _ (set_attributes_loaded orientation) H15) as E15.
    apply load_other_variables_bad_time in H14 as [Hdday Hts].
    unfold kept, loaded in *. cbn [data ds time] in *.
    injection E15 as Ev Et. injection E14 as _ Et14.
    injection E13 as Ed13 Et13. injection E12 as Ed12 Et12.
    injection E11 as Ed11 Et11. injection E10 as Ed10 Et10.
    assert (dday (data s13) = dday raw) as Edd
      by (rewrite Ed13, Ed12, Ed11, Ed10, E7, Hdata6; reflexivity).
    subst synthetic n. split; [|split].
    + rewrite Et, Et14, Et13, Et12, Et11, Et10. reflexivity.
    + unfold holds in *. rewrite Ev. exact Hts.
    + rewrite Ev, Hdday, Edd. done.
Qed.

End time.

Section load_sample.
Import xr loader.

(** A bundle that reports [ship] coordinates: the load fails, and not with
    [CoordinateSystemError]. *)
Lemma unknown_coordsystem_is_not_refused_witness :
  (trans_coordsystem (sample_load.raw "ship") ∉ ["beam"; "xyz"; "earth"])
  /\ exists e st',
       sample_load.load "ship" = (inl e, st')
       /\ slipped e
       /\ forall what, e <> CoordinateSystemError what.
Proof.
  assert (trans_coordsystem (sample_load.raw "ship") ∉ ["beam"; "xyz"; "earth"])
    as Hcs.
  { apply (bool_decide_unpack _). vm_compute. exact I. }
  split; [exact Hcs|].
  exact (unknown_coordsystem_is_not_refused sample_load.timestamp
           sample_load.str_num sample_load.to_datetime64 sample_load.datetime_str
           sample_load.median sample_load.nanmean sample_load.mean
           sample_load.beam_to_xyz sample_load.beam_to_xyz_bt
           sample_load.rdi_xyz_enu sample_load.rdi_xyz_enu_bt sample_load.round3
           unit "File: a.000" (sample_load.raw "ship") tt "wh" 2020%Z "down" None
           (sample_load.start "ship") Hcs).
Defined.

(** The run itself: the unbound local stops it, after the message of the
    dropped exception was built. *)
Lemma load_ship :
  (sample_load.load "ship").1 = inl (UnboundLocalError "bt_xyze").
Proof. vm_compute. reflexivity. Qed.

(** A bundle in earth coordinates whose second fractional day, 0.5, comes
    before the first, 1: the load returns a dataset on the two first seconds
    of 2020, with one warning and the raw days under [dday]. *)
Lemma bad_time_is_replaced_witness :
  let r := sample_load.load "earth" in
  let dataset := (sample_load.returned "earth").1.1 in
  (exists i x y, dday (sample_load.raw "earth") !! i = Some x
                 /\ dday (sample_load.raw "earth") !! S i = Some y
                 /\ (y - x <? 0)%float = true)
  /\ r.1 = inr (sample_load.returned "earth")
  /\ time dataset = [1577836800; 1577836801]%Z
  /\ holds dataset "time_string" (Str1 ["1577836800"; "1577836801"])
  /\ variables dataset !! "dday"
     = Some (mkDataArray ["T"] (Float1 [1; 0.5]%float) ∅)
  /\ w_count (l r.2) = 1%nat.
Proof.
  cbv zeta.
  assert (exists i x y, dday (sample_load.raw "earth") !! i = Some x
                        /\ dday (sample_load.raw "earth") !! S i = Some y
                        /\ (y - x <? 0)%float = true) as Hbad.
  { exists 0%nat, 1%float, 0.5%float. vm_compute. done. }
  split; [exact Hbad|].
  assert (load_rdi_binary sample_load.timestamp
            sample_load.str_num sample_load.to_datetime64 sample_load.datetime_str
            sample_load.median sample_load.nanmean sample_load.mean
            sample_load.beam_to_xyz sample_load.beam_to_xyz_bt
            sample_load.rdi_xyz_enu sample_load.rdi_xyz_enu_bt sample_load.round3
            unit "File: a.000" (sample_load.raw "earth") tt "wh" 2020%Z "down" None
            (sample_load.start "earth")
          = (inr ((sample_load.returned "earth").1.1,
                  (sample_load.returned "earth").1.2,
                  (sample_load.returned "earth").2),
             (sample_load.load "earth").2)) as Hrun.
  { vm_compute. reflexivity. }
  pose proof (bad_time_is_replaced sample_load.timestamp
                sample_load.str_num sample_load.to_datetime64 sample_load.datetime_str
                sample_load.median sample_load.nanmean sample_load.mean
                sample_load.beam_to_xyz sample_load.beam_to_xyz_bt
                sample_load.rdi_xyz_enu sample_load.rdi_xyz_enu_bt sample_load.round3
                unit "File: a.000" (sample_load.raw "earth") tt "wh" 2020%Z "down" None
                (or_intror Hbad)) as H.
  cbv zeta in H. destruct H as (_ & _ & Hload).
  pose proof (Hload (sample_load.start "earth")
                (sample_load.returned "earth").1.1
                (sample_load.returned "earth").1.2
                (sample_load.returned "earth").2
                (sample_load.load "earth").2 Hrun) as H.
  destruct H as (Htime & Hstr & Hdday).
  assert (List.map (sample_load.to_datetime64 2020)
            (arange_days (length (dday (sample_load.raw "earth"))))
          = [1577836800; 1577836801]%Z) as Esyn by (vm_compute; reflexivity).
  rewrite Esyn in Htime, Hstr.
  split; [vm_compute; reflexivity|].
  split; [exact Htime|]. split; [exact Hstr|]. split; [exact Hdday|].
  vm_compute. reflexivity.
Defined.

End load_sample.

(** ** The loggers on lists of messages *)

Lemma append_assoc (a b c : string) : (a +:+ b) +:+ c = a +:+ b +:+ c.
Proof.
  induction a as [|x a IH]; [done|].
  change (String x ((a +:+ b) +:+ c) = String x (a +:+ b +:+ c)). by rewrite IH.
Qed.

Lemma append_nil_r (a : string) : a +:+ "" = a.
Proof.
  induction a as [|x a IH]; [done|].
  change (String x (a +:+ "") = String x a). by rewrite IH.
Qed.

Lemma lines_app (xs ys : list string) : lines (xs ++ ys) = lines xs +:+ lines ys.
Proof.
  induction xs as [|x xs IH]; simpl; [done|]. by rewrite IH, append_assoc.
Qed.

Lemma Msg_induction (P : Msg -> Prop) :
  (forall s, P (MStr s)) ->
  (forall ms, Forall P ms -> P (MList ms)) ->
  forall m, P m.
Proof.
  intros Hs Hl. fix IH 1. intros [s|ms]; [apply Hs|].
  apply Hl. induction ms as [|m ms IHms]; constructor; [apply IH|exact IHms].
Qed.

(** [each] threads the logger through the calls and gathers what they print. *)
Lemma each_from {L} (f : Msg -> L -> L * list string) ms self out :
  fold_left (fun acc m => let r := f m acc.1 in (r.1, (acc.2 ++ r.2)%list)) ms (self, out)
  = ((each f ms self).1, (out ++ (each f ms self).2)%list).
Proof.
  unfold each. revert self out. induction ms as [|m ms IH]; intros self out.
  - simpl. by rewrite app_nil_r.
  - cbn [fold_left fst snd]. cbv zeta. cbn [fst snd].
    rewrite (IH (f m self).1 (out ++ (f m self).2)%list).
    rewrite (IH (f m self).1 ([] ++ (f m self).2)%list).
    cbn [fst snd]. by rewrite app_nil_l, app_assoc.
Qed.

Lemma each_cons {L} (f : Msg -> L -> L * list string) m ms self :
  each f (m :: ms) self
  = ((each f ms (f m self).1).1, ((f m self).2 ++ (each f ms (f m self).1).2)%list).
Proof.
  unfold each at 1. cbn [fold_left fst snd]. cbv zeta. cbn [fst snd].
  rewrite each_from. by rewrite app_nil_l.
Qed.

Section utils_lists.
Import utils.
Variable _timestamp : string.

(** X1: [utils.Logger.warning] on a message that is a list, nested or not,
    does what it does on each of its strings, left to right: one line of the
    logbook per string, and, below level 2, one counted and printed warning
    per string; at level 2 nothing is counted. *)
Theorem warning_goes_through_lists :
  forall (msg : Msg) (t : bool) (self : Logger),
    let r := warning _timestamp msg t self in
    logbook r.1 = logbook self +:+ lines (entry _timestamp t <$> leaves msg)
    /\ w_count r.1
       = (if (level self <? 2)%Z then w_count self + length (leaves msg)
          else w_count self)%nat
    /\ level r.1 = level self
    /\ r.2 = (if (level self <? 2)%Z
              then (fun s => "WARNING:" +:+ s) <$> leaves msg else []).
Proof.
  intros msg t. induction msg as [s|ms IH] using Msg_induction; intros self.
  - cbv zeta. simpl. unfold entry. rewrite append_nil_r.
    destruct (level self <? 2)%Z; repeat split; try done; simpl; lia.
  - cbv zeta. simpl.
    revert self. induction IH as [|m ms Hm _ IHms]; intros self.
    + rewrite each_nil. simpl. rewrite append_nil_r.
      destruct (level self <? 2)%Z; repeat split; try done; simpl; lia.
    + rewrite each_cons. cbn [fst snd].
      destruct (Hm self) as (L1 & W1 & V1 & P1).
      destruct (IHms (warning _timestamp m t self).1) as (L2 & W2 & V2 & P2).
      cbn [List.map concat]. rewrite fmap_app, lines_app, length_app.
      rewrite V1 in W2, P2, V2.
      rewrite L2, L1, W2, W1, V2, P2, P1, append_assoc.
      destruct (level self <? 2)%Z; repeat split; try done.
      * lia.
      * by rewrite fmap_app.
Qed.

(** X2: [utils.Logger.log] on a message that is a list, nested or not, adds
    one line of the logbook per string, left to right, prints the strings
    below level 1, and leaves the count of warnings alone. *)
Theorem log_goes_through_lists :
  forall (msg : Msg) (t : bool) (self : Logger),
    let r := log _timestamp msg t self in
    logbook r.1 = logbook self +:+ lines (entry _timestamp t <$> leaves msg)
    /\ w_count r.1 = w_count self
    /\ level r.1 = level self
    /\ r.2 = (if (level self <? 1)%Z then leaves msg else []).
Proof.
  intros msg t. induction msg as [s|ms IH] using Msg_induction; intros self.
  - cbv zeta. simpl. unfold entry. rewrite append_nil_r.
    destruct (level self <? 1)%Z; repeat split; done.
  - cbv zeta. simpl.
    revert self. induction IH as [|m ms Hm _ IHms]; intros self.
    + rewrite each_nil. simpl. rewrite append_nil_r.
      destruct (level self <? 1)%Z; repeat split; done.
    + rewrite each_cons. cbn [fst snd].
      destruct (Hm self) as (L1 & W1 & V1 & P1).
      destruct (IHms (log _timestamp m t self).1) as (L2 & W2 & V2 & P2).
      cbn [List.map concat]. rewrite fmap_app, lines_app.
      rewrite V1 in P2, V2.
      rewrite L2, L1, W2, W1, V2, P2, P1, append_assoc.
      destruct (level self <? 1)%Z; repeat split; done.
Qed.

End utils_lists.

Section loader_lists.
Import loader.
Variable _timestamp : string.

(** X3: [loader.Logger.log] counts one warning per string that contains
    [WARNING:], wherever in the string, and adds one line of the logbook per
    string; on a list the time stamp asked for with [t] is not written, the
    recursive call does not pass [t] on. *)
Theorem loader_log_through_lists :
  forall (msg : Msg) (t : bool) (self : Logger),
    let r := log _timestamp msg t self in
    let stamped := match msg with MStr _ => t | MList _ => false end in
    logbook r.1 = logbook self +:+ lines (entry _timestamp stamped <$> leaves msg)
    /\ w_count r.1
       = (w_count self + length (filter (fun s => str_in "WARNING:" s = true) (leaves msg)))%nat
    /\ r.2 = echoed <$> leaves msg.
Proof.
  assert (forall msg self,
            let r := log _timestamp msg false self in
            logbook r.1 = logbook self +:+ lines (entry _timestamp false <$> leaves msg)
            /\ w_count r.1
               = (w_count self
                  + length (filter (fun s => str_in "WARNING:" s = true) (leaves msg)))%nat
            /\ r.2 = echoed <$> leaves msg) as Hfalse.
  { intros msg. induction msg as [s|ms IH] using Msg_induction; intros self.
    - cbv zeta. simpl. unfold entry, echoed. rewrite append_nil_r.
      rewrite filter_cons, filter_nil.
      destruct (decide (str_in "WARNING:" s = true)) as [->|Hn].
      + repeat split; try done; simpl; lia.
      + apply not_true_is_false in Hn. rewrite Hn. repeat split; try done; simpl; lia.
    - cbv zeta. simpl.
      revert self. induction IH as [|m ms Hm _ IHms]; intros self.
      + rewrite each_nil. simpl. rewrite append_nil_r. repeat split; try done; lia.
      + rewrite each_cons. cbn [fst snd].
        destruct (Hm self) as (L1 & W1 & P1).
        destruct (IHms (log _timestamp m false self).1) as (L2 & W2 & P2).
        cbn [List.map concat]. rewrite !fmap_app, lines_app, filter_app, length_app.
        rewrite L2, L1, W2, W1, P2, P1, append_assoc.
        repeat split; try done; lia. }
  intros [s|ms] t self.
  - cbv zeta. simpl. unfold entry, echoed. rewrite append_nil_r.
    rewrite filter_cons, filter_nil.
    destruct (decide (str_in "WARNING:" s = true)) as [->|Hn].
    + repeat split; try done; simpl; lia.
    + apply not_true_is_false in Hn. rewrite Hn. repeat split; try done; simpl; lia.
  - apply (Hfalse (MList ms) self).
Qed.

End loader_lists.

(** ** [get_files_from_expresion] *)

Section files.
Import utils.
Variable is_file : string -> bool.
Variable glob : string -> list string.
Variable path_str : string -> string.

Lemma sorted_spec names :
  StronglySorted String.le (sorted names) /\ sorted names ≡ₚ names.
Proof.
  split; [apply StronglySorted_merge_sort; apply _|apply merge_sort_Permutation].
Qed.

Lemma sorted_fixed names : StronglySorted String.le names -> sorted names = names.
Proof.
  intros H. apply (StronglySorted_unique String.le); [|exact H|].
  - apply sorted_spec.
  - apply sorted_spec.
Qed.

Lemma get_files_sorted filenames files :
  get_files_from_expresion is_file glob path_str filenames = inr files ->
  StronglySorted String.le files.
Proof.
  destruct filenames as [name|names]; unfold get_files_from_expresion.
  - destruct (is_file name).
    + intros [= <-]. apply sorted_spec.
    + cbv zeta. case_bool_decide; [done|]. intros [= <-]. apply sorted_spec.
  - intros [= <-]. apply sorted_spec.
Qed.


(** X5: what [get_files_from_expresion] returns is a list it returns
    unchanged, whatever is then on disk. *)
Theorem files_sorted_once_for_all :
  forall (filenames : string + list string) (files : list string),
    get_files_from_expresion is_file glob path_str filenames = inr files ->
    forall (is_file' : string -> bool) (glob' : string -> list string)
           (path_str' : string -> string),
      get_files_from_expresion is_file' glob' path_str' (inr files) = inr files.
Proof.
  intros filenames files H is_file' glob' path_str'.
  simpl. f_equal. apply sorted_fixed. by eapply get_files_sorted.
Qed.

End files.

(** A pattern that matches [b.000] and [a.000], in that order. *)
Lemma files_sorted_once_for_all_witness :
  utils.get_files_from_expresion (fun _ => false) (fun _ => ["b.000"; "a.000"])
    (fun name => name) (inl "*.000")
  = inr ["a.000"; "b.000"]
  /\ utils.get_files_from_expresion (fun _ => true) (fun _ => []) (fun name => name)
       (inr ["a.000"; "b.000"])
     = inr ["a.000"; "b.000"].
Proof.
  assert (utils.get_files_from_expresion (fun _ => false)
            (fun _ => ["b.000"; "a.000"]) (fun name => name) (inl "*.000")
          = inr ["a.000"; "b.000"]) as H by (vm_compute; reflexivity).
  split; [exact H|].
  exact (files_sorted_once_for_all (fun _ => false) (fun _ => ["b.000"; "a.000"])
           (fun name => name) (inl "*.000") ["a.000"; "b.000"] H
           (fun _ => true) (fun _ => []) (fun name => name)).
Defined.

(** ** [magnetic_to_true] *)

Section magnetic.
Import xr loader.
Variable radians : float -> float.
Variable cos : float -> float.
Variable sin : float -> float.
Variable dot : grid float -> grid float -> grid float.

Lemma getattr1_run name a st :
  holds (ds st) name (Float1 a) -> getattr1 name st = (inr a, st).
Proof.
  unfold holds, getattr1. intros H.
  destruct (variables (ds st) !! name) as [v|]; [|done].
  simpl in H. injection H as ->. done.
Qed.

Lemma setattr_values_rank name g a st :
  holds (ds st) name (Float1 a) ->
  setattr_values name (Float2 g) st
  = (inl (ValueError "replacement data must match the Variable's shape"), st).
Proof.
  unfold holds, setattr_values. intros H.
  destruct (variables (ds st) !! name) as [v|]; [|done].
  simpl in H. injection H as ->. rewrite bool_decide_eq_false_2; [done|].
  simpl. discriminate.
Qed.

(** X6: on a dataset whose [lon] and [lat] are arrays over time, as
    [init_dataset] makes them, [magnetic_to_true] rotates nothing: the two
    halves [np.split] gives have two axes, the assignment to
    [dataset.lon.values] is refused, and the call raises [ValueError] with
    the dataset as it was. *)
Theorem magnetic_to_true_raises :
  forall (st : State) (lon lat : list float) (declination : float),
    holds (ds st) "lon" (Float1 lon) ->
    holds (ds st) "lat" (Float1 lat) ->
    ds_attrs (ds st) !! "magnetic_declination" = Some (ANum declination) ->
    exists what,
      magnetic_to_true radians cos sin dot st = (inl (ValueError what), st).
Proof.
  intros st lon lat x Hlon Hlat Hattr. unfold magnetic_to_true.
  step (gets_run ds st). rewrite Hattr.
  erewrite bind_ret_l by reflexivity. cbv beta zeta.
  step (getattr1_run _ _ _ Hlon). step (getattr1_run _ _ _ Hlat).
  destruct (split2 _) as [e|[east north]] eqn:Hsplit.
  - unfold split2 in Hsplit. destruct (_ =? _)%nat; [done|].
    injection Hsplit as <-. by eexists.
  - eexists. apply bind_raise_l. by eapply setattr_values_rank.
Qed.

End magnetic.

(** ** [load_rdi_binary], stage by stage *)

(** Walking through a stage, down to the statements that touch the state. *)
Ltac lwalk :=
  repeat match goal with
    | |- preserves _ (bind _ _) => apply preserves_bind; [|intros]
    | |- preserves _ (ret _) => apply preserves_ret
    | |- preserves _ (raise _) => apply preserves_raise
    | |- preserves _ (gets _) => apply preserves_gets
    | |- preserves _ get => apply preserves_get
    | |- preserves _ (when _ _) => apply preserves_when
    | |- preserves _ (for_each _ _) => apply preserves_for_each; intros
    | |- preserves _ (if ?b then _ else _) => destruct b
    | |- preserves _ (match ?x with _ => _ end) => destruct x
    | |- preserves _ (let _ := _ in _) => cbv zeta
    | |- forall _, _ => intros
    end.

Section loader_frames.
Import xr loader.
Variable _timestamp : string.

Lemma preserves_set_ds {X} (F : State -> X) f :
  (forall s, F (mkState (l s) (stdout s) (data s) (f (ds s))) = F s) ->
  preserves F (set_ds f).
Proof. intros H s. apply H. Qed.

Lemma preserves_set_data_ {X} (F : State -> X) f :
  (forall s, F (mkState (l s) (stdout s) (f (data s)) (ds s)) = F s) ->
  preserves F (set_data_ f).
Proof. intros H s. apply H. Qed.

Lemma on_ds_call_l {X} (G : Dataset -> X) g : preserves (on_ds G) (call_l g).
Proof. done. Qed.

Lemma on_ds_l_log {X} (G : Dataset -> X) msg : preserves (on_ds G) (l_log _timestamp msg).
Proof. done. Qed.

Lemma on_ds_set_data_ {X} (G : Dataset -> X) f : preserves (on_ds G) (set_data_ f).
Proof. done. Qed.

Lemma on_ds_set_values {X} (G : Dataset -> X) name a :
  (forall d, G (set_data name a d) = G d) -> preserves (on_ds G) (set_values name a).
Proof. intros H. apply preserves_set_values. intros s. apply H. Qed.

Lemma on_ds_set_ds {X} (G : Dataset -> X) f :
  (forall d, G (f d) = G d) -> preserves (on_ds G) (set_ds f).
Proof. intros H s. apply H. Qed.

Lemma on_data_call_l {X} (G : Bunch -> X) g : preserves (on_data G) (call_l g).
Proof. done. Qed.

Lemma on_data_l_log {X} (G : Bunch -> X) msg : preserves (on_data G) (l_log _timestamp msg).
Proof. done. Qed.

Lemma on_data_set_values {X} (G : Bunch -> X) name a :
  preserves (on_data G) (set_values name a).
Proof. by apply preserves_set_values. Qed.

Lemma on_data_set_ds {X} (G : Bunch -> X) f : preserves (on_data G) (set_ds f).
Proof. done. Qed.

Lemma on_data_set_data_ {X} (G : Bunch -> X) f :
  (forall d, G (f d) = G d) -> preserves (on_data G) (set_data_ f).
Proof. intros H s. apply H. Qed.

End loader_frames.

(** The statements that touch the state, for an observation of the dataset
    and for one of the bundle; [tac] shows that a change of the observed part
    leaves the observation as it was. *)
Ltac lleaf tac :=
  match goal with
  | |- preserves (on_ds _) (loader.call_l _) => apply on_ds_call_l
  | |- preserves (on_ds _) (loader.l_log _ _) => apply on_ds_l_log
  | |- preserves (on_ds _) (loader.set_data_ _) => apply on_ds_set_data_
  | |- preserves (on_ds _) (loader.set_vel_slice _ _ _) => apply on_ds_set_data_
  | |- preserves (on_ds _) (loader.set_bt_vel_slice _ _ _) => apply on_ds_set_data_
  | |- preserves (on_ds _) (loader.set_values _ _) => apply on_ds_set_values; intros; tac
  | |- preserves (on_ds _) (loader.set_ds _) => apply on_ds_set_ds; intros; tac
  | |- preserves (on_data _) (loader.call_l _) => apply on_data_call_l
  | |- preserves (on_data _) (loader.l_log _ _) => apply on_data_l_log
  | |- preserves (on_data _) (loader.set_values _ _) => apply on_data_set_values
  | |- preserves (on_data _) (loader.set_ds _) => apply on_data_set_ds
  | |- preserves (on_data _) (loader.set_data_ _) => apply on_data_set_data_; intros; tac
  | |- preserves (on_data _) (loader.set_vel_slice _ _ _) => apply on_data_set_data_; intros; tac
  | |- preserves (on_data _) (loader.set_bt_vel_slice _ _ _) => apply on_data_set_data_; intros; tac
  end.

Ltac lframe tac := lwalk; lleaf tac.

Section loading.
Import xr loader.
Variable _timestamp : string.
Variable str_num : float -> string.
Variable to_datetime64 : Z -> float -> Z.
Variable datetime_str : Z -> string.
Variable median : list float -> float.
Variable nanmean : list float -> float.
Variable mean : list float -> float.
Variable beam_to_xyz : float -> string -> list (grid float) -> list (grid float).
Variable beam_to_xyz_bt : float -> string -> grid float -> grid float.
Variable rdi_xyz_enu :
  list (grid float) -> list float -> list float -> list float -> string -> list (grid float).
Variable rdi_xyz_enu_bt :
  grid float -> list float -> list float -> list float -> string -> grid float.
Variable round3 : float -> float.
Variable FixedLeader : Type.

Lemma convert_dday_data yearbase :
  preserves (fun s => (data s, ds s))
            (convert_dday _timestamp to_datetime64 datetime_str yearbase).
Proof. unfold convert_dday, call_l. lpres. Qed.

Lemma depth_below_surface_frame sensor_depth :
  preserves (fun s => (data s, ds s))
            (depth_below_surface _timestamp str_num median sensor_depth).
Proof. unfold depth_below_surface, l_log, call_l. lpres. Qed.

(** A load that returns went through each of its stages. *)
Lemma load_rdi_binary_inv files_msg raw (fl : FixedLeader) sonar yearbase orientation
    sensor_depth st dataset raw' fl' st' :
  load_rdi_binary _timestamp str_num to_datetime64 datetime_str median nanmean
    mean beam_to_xyz beam_to_xyz_bt rdi_xyz_enu rdi_xyz_enu_bt round3
    FixedLeader files_msg raw fl sonar yearbase orientation sensor_depth st
  = (inr (dataset, raw', fl'), st') ->
  exists bad_time time_ time_string xd oc s5 s6 s7 s10 s11 s12 s13 s14,
    data s5 = raw
    /\ convert_dday _timestamp to_datetime64 datetime_str yearbase s5
       = (inr (bad_time, (time_, time_string)), s6)
    /\ data s6 = raw
    /\ depth_below_surface _timestamp str_num median sensor_depth s6 = (inr xd, s7)
    /\ data s7 = raw
    /\ coordinates_system _timestamp beam_to_xyz beam_to_xyz_bt rdi_xyz_enu
         rdi_xyz_enu_bt round3 orientation
         (mkState (l s7) (stdout s7) raw (init_dataset time_ (dep raw) (sonar_model raw)))
       = (inr oc, s10)
    /\ load_transducer_data _timestamp nanmean mean oc s10 = (inr tt, s11)
    /\ load_depth_data xd s11 = (inr tt, s12)
    /\ load_navigation_data _timestamp s12 = (inr tt, s13)
    /\ load_other_variables _timestamp bad_time time_string s13 = (inr tt, s14)
    /\ set_attributes _timestamp orientation s14 = (inr tt, st')
    /\ dataset = ds st' /\ raw' = data st' /\ fl' = fl.
Proof.
  intros H. unfold load_rdi_binary in H.
  apply bind_inr in H as ([] & s1 & _ & H).
  apply bind_inr in H as ([] & s2 & _ & H).
  apply bind_inr in H as ([] & s3 & _ & H).
  apply bind_inr in H as ([] & s4 & _ & H).
  apply bind_inr in H as ([] & s5 & H5 & H).
  unfold set_data_, modify in H5. injection H5 as <-.
  apply bind_inr in H as ([bad_time [time_ time_string]] & s6 & H6 & H).
  pose proof (preserves_run _ _ _ _ _ (convert_dday_data yearbase) H6) as E6.
  cbn [data ds] in E6. injection E6 as Ed6 Es6.
  apply bind_inr in H as (xd & s7 & H7 & H).
  pose proof (preserves_run _ _ _ _ _ (depth_below_surface_frame sensor_depth) H7) as E7.
  injection E7 as Ed7 Es7.
  apply bind_inr in H as (d & s8 & H8 & H).
  rewrite gets_run in H8. injection H8 as <- <-.
  apply bind_inr in H as ([] & s9 & H9 & H).
  unfold set_ds, modify in H9. injection H9 as <-.
  apply bind_inr in H as (oc & s10 & H10 & H).
  apply bind_inr in H as ([] & s11 & H11 & H).
  apply bind_inr in H as ([] & s12 & H12 & H).
  apply bind_inr in H as ([] & s13 & H13 & H).
  apply bind_inr in H as ([] & s14 & H14 & H).
  apply bind_inr in H as ([] & s15 & H15 & H).
  apply bind_inr in H as (sf & s16 & H16 & H).
  unfold get in H16. injection H16 as <- <-.
  injection H as <- <- <- <-.
  assert (data s7 = raw) as Eraw by congruence.
  rewrite Eraw in H10.
  exists bad_time, time_, time_string, xd, oc,
    (mkState (l s4) (stdout s4) raw (ds s4)), s6, s7, s10, s11, s12, s13, s14.
  split; [reflexivity|]. split; [exact H6|]. split; [exact Ed6|].
  split; [exact H7|]. split; [exact Eraw|]. split; [exact H10|].
  repeat split; assumption.
Qed.

End loading.

(** ** What a load that returns has built *)

Section loaded_dataset.
Import xr loader.
Variable _timestamp : string.
Variable str_num : float -> string.
Variable to_datetime64 : Z -> float -> Z.
Variable datetime_str : Z -> string.
Variable median : list float -> float.
Variable nanmean : list float -> float.
Variable mean : list float -> float.
Variable beam_to_xyz : float -> string -> list (grid float) -> list (grid float).
Variable beam_to_xyz_bt : float -> string -> grid float -> grid float.
Variable rdi_xyz_enu :
  list (grid float) -> list float -> list float -> list float -> string -> list (grid float).
Variable rdi_xyz_enu_bt :
  grid float -> list float -> list float -> list float -> string -> grid float.
Variable round3 : float -> float.
Variable FixedLeader : Type.

(** *** The coordinates *)

Lemma coordinates_system_axes orientation :
  preserves (on_ds axes)
    (coordinates_system _timestamp beam_to_xyz beam_to_xyz_bt rdi_xyz_enu
       rdi_xyz_enu_bt round3 orientation).
Proof. unfold coordinates_system, coordsystem2earth. lframe ltac:(idtac). Qed.

Lemma load_transducer_data_axes oc :
  preserves (on_ds axes) (load_transducer_data _timestamp nanmean mean oc).
Proof. unfold load_transducer_data. lframe ltac:(reflexivity). Qed.

Lemma load_depth_data_axes xd : preserves (on_ds axes) (load_depth_data xd).
Proof. unfold load_depth_data. lframe ltac:(reflexivity). Qed.

Lemma load_navigation_data_axes :
  preserves (on_ds axes) (load_navigation_data _timestamp).
Proof. unfold load_navigation_data. lframe ltac:(reflexivity). Qed.

Lemma load_other_variables_axes bad_time time_string :
  preserves (on_ds axes) (load_other_variables _timestamp bad_time time_string).
Proof. unfold load_other_variables. lframe ltac:(reflexivity). Qed.

Lemma set_attributes_axes orientation :
  preserves (on_ds axes) (set_attributes _timestamp orientation).
Proof. unfold set_attributes. lframe ltac:(reflexivity). Qed.

Lemma convert_dday_inv yearbase s bad_time time_ time_string s' :
  convert_dday _timestamp to_datetime64 datetime_str yearbase s
  = (inr (bad_time, (time_, time_string)), s') ->
  bad_time = bad_dday (dday (data s))
  /\ time_ = List.map (to_datetime64 yearbase)
               (if bad_time then arange_days (length (dday (data s))) else dday (data s))
  /\ time_string = List.map datetime_str time_
  /\ w_count (l s') = (if bad_time then S (w_count (l s)) else w_count (l s)).
Proof.
  unfold convert_dday. intros H.
  apply bind_inr in H as (d & s0 & Hd & H). rewrite gets_run in Hd.
  injection Hd as <- <-.
  destruct (bad_dday (dday (data s))).
  - apply bind_inr in H as ([] & s1 & H1 & H).
    unfold call_l, modify in H1. injection H1 as <-.
    injection H as <- <- <- <-. done.
  - injection H as <- <- <- <-. done.
Qed.

(** X7: the depth coordinate of the dataset a load returns is the vector
    [dep] of the raw bundle as it is, whatever the orientation, the
    transducer depth and [sensor_depth] are: the depth below the surface the
    load computes is not used. The time coordinate has one stamp per ping. *)
Theorem depth_coordinate_is_dep :
  forall (files_msg : string) (raw : Bunch) (fl : FixedLeader) (sonar : string)
         (yearbase : Z) (orientation : string) (sensor_depth : option float)
         (st st' : State) (dataset : Dataset) (raw' : Bunch) (fl' : FixedLeader),
    load_rdi_binary _timestamp str_num to_datetime64 datetime_str median nanmean
      mean beam_to_xyz beam_to_xyz_bt rdi_xyz_enu rdi_xyz_enu_bt round3
      FixedLeader files_msg raw fl sonar yearbase orientation sensor_depth st
    = (inr (dataset, raw', fl'), st') ->
    depth dataset = dep raw
    /\ length (time dataset) = length (dday raw)
    /\ fl' = fl.
Proof.
  intros files_msg raw fl sonar yearbase orientation sensor_depth st st'
    dataset raw' fl' H.
  apply load_rdi_binary_inv in H
    as (bad & t & ts & xd & oc & s5 & s6 & s7 & s10 & s11 & s12 & s13 & s14
        & E5 & H6 & E6 & H7 & E7 & H10 & H11 & H12 & H13 & H14 & H15 & -> & -> & ->).
  pose proof (preserves_run _ _ _ _ _ (coordinates_system_axes orientation) H10) as A10.
  pose proof (preserves_run _ _ _ _ _ (load_transducer_data_axes oc) H11) as A11.
  pose proof (preserves_run _ _ _ _ _ (load_depth_data_axes xd) H12) as A12.
  pose proof (preserves_run _ _ _ _ _ load_navigation_data_axes H13) as A13.
  pose proof (preserves_run _ _ _ _ _ (load_other_variables_axes bad ts) H14) as A14.
  pose proof (preserves_run _ _ _ _ _ (set_attributes_axes orientation) H15) as A15.
  assert (axes (ds st') = (dep raw, t)) as [= -> ->].
  { unfold on_ds in *. rewrite A15, A14, A13, A12, A11, A10. reflexivity. }
  apply convert_dday_inv in H6 as (_ & -> & _ & _). rewrite E5.
  split; [done|]. split; [|done].
  rewrite length_map. destruct bad; [|done].
  unfold arange_days. by rewrite length_map, length_seq.
Qed.

End loaded_dataset.

(** ** The variables and the attributes, stage by stage *)

Lemma var_set_data_ne k name a d : name <> k -> var k (xr.set_data name a d) = var k d.
Proof. intros H. unfold var, xr.set_data. cbn. by rewrite lookup_alter_ne. Qed.

Lemma var_set_data_is_Some k name a d :
  is_Some (var k (xr.set_data name a d)) <-> is_Some (var k d).
Proof.
  unfold var, xr.set_data. cbn. destruct (decide (name = k)) as [->|Hne].
  - rewrite lookup_alter_eq. by rewrite fmap_is_Some.
  - by rewrite lookup_alter_ne.
Qed.

Lemma var_drop_vars k names d :
  var k (xr.drop_vars names d) = if bool_decide (k ∈ names) then None else var k d.
Proof.
  unfold var, xr.drop_vars. cbn [xr.variables].
  induction names as [|n names IH]; cbn [foldr].
  - rewrite bool_decide_eq_false_2; [done|apply not_elem_of_nil].
  - destruct (decide (n = k)) as [->|Hne].
    + rewrite lookup_delete_eq. rewrite bool_decide_eq_true_2; [done|].
      apply elem_of_cons. by left.
    + rewrite lookup_delete_ne by done. rewrite IH.
      destruct (decide (k ∈ names)) as [Hin|Hout].
      * rewrite (bool_decide_eq_true_2 (k ∈ names)) by done.
        by rewrite (bool_decide_eq_true_2 (k ∈ n :: names))
          by (apply elem_of_cons; by right).
      * rewrite (bool_decide_eq_false_2 (k ∈ names)) by done.
        by rewrite (bool_decide_eq_false_2 (k ∈ n :: names))
          by (apply not_elem_of_cons; split; [congruence|done]).
Qed.

Lemma var_drop_vars_ne k names d : k ∉ names -> var k (xr.drop_vars names d) = var k d.
Proof. intros H. rewrite var_drop_vars. by rewrite bool_decide_eq_false_2. Qed.

Lemma var_set_attr k key v d : var k (xr.set_attr key v d) = var k d.
Proof. done. Qed.

Lemma var_assign_ne k name dims a d :
  name <> k -> var k (xr.assign name dims a d) = var k d.
Proof. intros H. unfold var, xr.assign. cbn. by rewrite lookup_insert_ne. Qed.

(** From [k ∉ names] for a list of names written out, the inequality with
    each name. *)
Ltac apart H :=
  repeat match type of H with
    | _ ∉ _ :: _ => apply not_elem_of_cons in H as [? H]
    end.

Ltac var_leaf :=
  first
    [ apply var_set_attr
    | apply var_set_data_ne; congruence
    | apply var_assign_ne; congruence
    | apply var_drop_vars_ne;
      repeat (apply not_elem_of_cons; split; [congruence|]); apply not_elem_of_nil ].

Section loader_stages.
Import xr loader.
Variable _timestamp : string.
Variable str_num : float -> string.
Variable to_datetime64 : Z -> float -> Z.
Variable datetime_str : Z -> string.
Variable median : list float -> float.
Variable nanmean : list float -> float.
Variable mean : list float -> float.
Variable beam_to_xyz : float -> string -> list (grid float) -> list (grid float).
Variable beam_to_xyz_bt : float -> string -> grid float -> grid float.
Variable rdi_xyz_enu :
  list (grid float) -> list float -> list float -> list float -> string -> list (grid float).
Variable rdi_xyz_enu_bt :
  grid float -> list float -> list float -> list float -> string -> grid float.
Variable round3 : float -> float.

(** *** The variables *)

Lemma coordinates_system_ds orientation :
  preserves (on_ds (fun d => d))
    (coordinates_system _timestamp beam_to_xyz beam_to_xyz_bt rdi_xyz_enu
       rdi_xyz_enu_bt round3 orientation).
Proof. unfold coordinates_system, coordsystem2earth. lframe ltac:(idtac). Qed.

Lemma load_transducer_data_var k oc :
  k ∉ transducer_names ->
  preserves (on_ds (var k)) (load_transducer_data _timestamp nanmean mean oc).
Proof.
  intros Hk. unfold transducer_names in Hk. apart Hk.
  unfold load_transducer_data. lframe ltac:(var_leaf).
Qed.

Lemma load_depth_data_var k xd :
  k <> "xducer_depth" -> preserves (on_ds (var k)) (load_depth_data xd).
Proof. intros Hk. unfold load_depth_data. lframe ltac:(var_leaf). Qed.

Lemma load_navigation_data_var k :
  k ∉ ["lon"; "lat"] -> preserves (on_ds (var k)) (load_navigation_data _timestamp).
Proof. intros Hk. apart Hk. unfold load_navigation_data. lframe ltac:(var_leaf). Qed.

Lemma load_other_variables_var k bad_time time_string :
  k ∉ other_names ->
  preserves (on_ds (var k)) (load_other_variables _timestamp bad_time time_string).
Proof.
  intros Hk. unfold other_names in Hk. apart Hk.
  unfold load_other_variables. lframe ltac:(var_leaf).
Qed.

Lemma set_attributes_var k orientation :
  preserves (on_ds (var k)) (set_attributes _timestamp orientation).
Proof. unfold set_attributes. lframe ltac:(var_leaf). Qed.

(** *** The bundle *)

Lemma coordinates_system_header orientation :
  preserves (on_data header)
    (coordinates_system _timestamp beam_to_xyz beam_to_xyz_bt rdi_xyz_enu
       rdi_xyz_enu_bt round3 orientation).
Proof. unfold coordinates_system, coordsystem2earth. lframe ltac:(reflexivity). Qed.

Lemma load_transducer_data_header oc :
  preserves (on_data header) (load_transducer_data _timestamp nanmean mean oc).
Proof. unfold load_transducer_data. lframe ltac:(reflexivity). Qed.

Lemma load_depth_data_data xd : preserves (on_data (fun d => d)) (load_depth_data xd).
Proof. unfold load_depth_data. lframe ltac:(reflexivity). Qed.

Lemma load_navigation_data_data :
  preserves (on_data (fun d => d)) (load_navigation_data _timestamp).
Proof. unfold load_navigation_data. lframe ltac:(reflexivity). Qed.

Lemma load_other_variables_data bad_time time_string :
  preserves (on_data (fun d => d))
    (load_other_variables _timestamp bad_time time_string).
Proof. unfold load_other_variables. lframe ltac:(reflexivity). Qed.

Lemma set_attributes_data orientation :
  preserves (on_data (fun d => d)) (set_attributes _timestamp orientation).
Proof. unfold set_attributes. lframe ltac:(reflexivity). Qed.

(** *** The attributes *)

Lemma load_transducer_data_attrs oc :
  preserves (on_ds ds_attrs) (load_transducer_data _timestamp nanmean mean oc).
Proof. unfold load_transducer_data. lframe ltac:(reflexivity). Qed.

Lemma load_navigation_data_attrs :
  preserves (on_ds ds_attrs) (load_navigation_data _timestamp).
Proof. unfold load_navigation_data. lframe ltac:(reflexivity). Qed.

Lemma load_other_variables_attrs bad_time time_string :
  preserves (on_ds ds_attrs) (load_other_variables _timestamp bad_time time_string).
Proof. unfold load_other_variables. lframe ltac:(reflexivity). Qed.

End loader_stages.

(** ** The stages, one by one *)

Section loader_inversions.
Import xr loader.
Variable _timestamp : string.
Variable nanmean : list float -> float.
Variable mean : list float -> float.

Lemma init_dataset_var k time_ depth_ sonar :
  k ∈ ["u"; "v"; "w"; "e"; "pg"; "amp1"; "amp2"; "amp3"; "amp4";
       "corr1"; "corr2"; "corr3"; "corr4"; "lon"; "lat"; "roll_"; "pitch";
       "heading"; "bt_u"; "bt_v"; "bt_w"; "bt_e"; "bt_depth"; "xducer_depth";
       "temp"; "pres"; "time_string"] ->
  is_Some (var k (init_dataset time_ depth_ sonar)).
Proof.
  intros Hk. unfold var, init_dataset. cbn [variables].
  repeat (apply elem_of_cons in Hk as [->|Hk];
          [destruct (String.eqb sonar "sv"); eexists; reflexivity|]).
  by apply elem_of_nil in Hk.
Qed.

Lemma init_dataset_no_dday time_ depth_ sonar :
  var "dday" (init_dataset time_ depth_ sonar) = None.
Proof.
  unfold var, init_dataset. cbn [variables].
  destruct (String.eqb sonar "sv"); reflexivity.
Qed.

Lemma init_dataset_attrs time_ depth_ sonar :
  ds_attrs (init_dataset time_ depth_ sonar) = ∅.
Proof. done. Qed.

Lemma l_log_ds msg s r s' :
  l_log _timestamp msg s = (r, s') -> ds s' = ds s /\ data s' = data s.
Proof. unfold l_log, call_l, modify. by intros [= <- <-]. Qed.

Lemma when_log_ds b msg s r s' :
  when b (l_log _timestamp msg) s = (r, s') -> ds s' = ds s /\ data s' = data s.
Proof. destruct b; [apply l_log_ds|]. by intros [= <- <-]. Qed.

Lemma set_ds_run f s : set_ds f s = (inr tt, mkState (l s) (stdout s) (data s) (f (ds s))).
Proof. done. Qed.

Lemma set_values_ds name a s s' :
  set_values name a s = (inr tt, s') ->
  ds s' = set_data name a (ds s) /\ data s' = data s
  /\ is_Some (var name (ds s)).
Proof. intros H. apply set_values_inv in H as [-> ?]. done. Qed.

Lemma holds_set_data name a d :
  is_Some (var name d) -> holds (set_data name a d) name a.
Proof.
  unfold var, holds, set_data. cbn. intros [v Hv].
  by rewrite lookup_alter_eq, Hv.
Qed.

Lemma holds_var name a d d' : var name d' = var name d -> holds d name a -> holds d' name a.
Proof. unfold var, holds. by intros ->. Qed.

(** Loading depth data *)
Lemma load_depth_data_inv xd s s' :
  load_depth_data xd s = (inr tt, s') ->
  (is_Some (var "xducer_depth" (ds s')) <-> sonar_model (data s) <> "os")
  /\ exists x,
       ds_attrs (ds s') = <["_vartmp_XducerDepth" := ANum x]> (ds_attrs (ds s))
       /\ (if String.eqb (sonar_model (data s)) "os"
           then head (XducerDepth (data s)) = Some x else xd = Some x).
Proof.
  unfold load_depth_data. intros H.
  apply bind_inr in H as (d & s0 & Hd & H). rewrite gets_run in Hd.
  injection Hd as <- <-.
  apply bind_inr in H as (x & s1 & H1 & H).
  rewrite set_ds_run in H. injection H as <-. cbn [ds].
  destruct (String.eqb_spec (sonar_model (data s)) "os") as [Hos|Hos]; cbn [negb] in H1.
  - apply bind_inr in H1 as ([] & s2 & H2 & H1).
    rewrite set_ds_run in H2. injection H2 as <-.
    destruct (XducerDepth (data s)) as [|x0 xs] eqn:Ex; [discriminate|].
    injection H1 as <- <-. cbn [ds]. split.
    + fold (var "xducer_depth" (set_attr "_vartmp_XducerDepth" (ANum x0)
                                  (drop_vars ["xducer_depth"] (ds s)))).
      rewrite var_set_attr, var_drop_vars.
      rewrite bool_decide_eq_true_2 by (apply elem_of_cons; by left).
      split; [by intros [? ?]|done].
    + exists x0. done.
  - apply bind_inr in H1 as ([] & s2 & H2 & H1).
    apply set_values_ds in H2 as (E2 & _ & Hsome).
    destruct xd as [x0|]; [|discriminate].
    injection H1 as <- <-. split.
    + fold (var "xducer_depth" (set_attr "_vartmp_XducerDepth" (ANum x0) (ds s2))).
      rewrite var_set_attr, E2. rewrite var_set_data_is_Some. done.
    + exists x0. rewrite E2. done.
Qed.

(** Loading the navigation data *)
Lemma load_navigation_data_inv s s' :
  load_navigation_data _timestamp s = (inr tt, s') ->
  (is_Some (var "lon" (ds s')) <-> is_Some (rawnav (data s)))
  /\ (is_Some (var "lat" (ds s')) <-> is_Some (rawnav (data s))).
Proof.
  unfold load_navigation_data. intros H.
  apply bind_inr in H as (d & s0 & Hd & H). rewrite gets_run in Hd.
  injection Hd as <- <-. cbv zeta in H.
  destruct (rawnav (data s)) as [[lon lat]|].
  - apply bind_inr in H as ([] & s1 & H1 & H).
    apply bind_inr in H as ([] & s2 & H2 & H).
    apply l_log_ds in H as [E3 _].
    apply set_values_ds in H1 as (E1 & _ & S1).
    apply set_values_ds in H2 as (E2 & _ & S2).
    rewrite E1, var_set_data_is_Some in S2.
    rewrite E3, E2, E1. rewrite !var_set_data_is_Some.
    split; split; eauto.
  - rewrite set_ds_run in H. injection H as <-. cbn [ds].
    rewrite !var_drop_vars.
    rewrite !bool_decide_eq_true_2
      by (repeat first [apply list_elem_of_here | apply list_elem_of_further]).
    split; split; intros [? ?]; done.
Qed.

(** Quick checkup and loading of other variables *)
Lemma load_other_variables_inv bad_time time_string s s' :
  load_other_variables _timestamp bad_time time_string s = (inr tt, s') ->
  var "pres" (ds s') = None
  /\ holds (ds s') "time_string" (Str1 time_string)
  /\ holds (ds s') "heading" (Float1 (heading (data s)))
  /\ holds (ds s') "roll_" (Float1 (roll (data s)))
  /\ holds (ds s') "pitch" (Float1 (pitch (data s)))
  /\ holds (ds s') "temp" (Float1 (temperature (data s)))
  /\ var "dday" (ds s')
     = (if bad_time then Some (mkDataArray ["T"] (Float1 (dday (data s))) ∅)
        else var "dday" (ds s)).
Proof.
  unfold load_other_variables. intros H.
  apply bind_inr in H as (d & s0 & Hd & H). rewrite gets_run in Hd.
  injection Hd as <- <-.
  apply bind_inr in H as ([] & s1 & H1 & H).
  assert (var "pres" (ds s1) = None /\ var "dday" (ds s1) = var "dday" (ds s)
          /\ data s1 = data s) as (P1 & D1 & A1).
  { destruct (negb _).
    - apply bind_inr in H1 as ([] & t1 & T1 & H1).
      apply bind_inr in H1 as ([] & t2 & T2 & H1).
      apply l_log_ds in T2 as [E2 B2]. apply set_values_ds in T1 as (E1 & B1 & _).
      rewrite set_ds_run in H1. injection H1 as <-. cbn [ds data].
      rewrite !var_drop_vars, E2, E1.
      rewrite bool_decide_eq_true_2 by (apply elem_of_cons; by left).
      rewrite bool_decide_eq_false_2
        by (apply not_elem_of_cons; split; [done|apply not_elem_of_nil]).
      rewrite var_set_data_ne by done. split; [done|]. split; [done|]. congruence.
    - rewrite set_ds_run in H1. injection H1 as <-. cbn [ds data].
      rewrite !var_drop_vars.
      rewrite bool_decide_eq_true_2 by (apply elem_of_cons; by left).
      rewrite bool_decide_eq_false_2
        by (apply not_elem_of_cons; split; [done|apply not_elem_of_nil]).
      done. }
  apply bind_inr in H as ([] & s2 & H2 & H). apply when_log_ds in H2 as [E2 A2].
  apply bind_inr in H as ([] & s3 & H3 & H). apply when_log_ds in H3 as [E3 A3].
  apply bind_inr in H as ([] & s4 & H4 & H). apply when_log_ds in H4 as [E4 A4].
  apply bind_inr in H as ([] & s5 & H5 & H). apply when_log_ds in H5 as [E5 A5].
  apply bind_inr in H as ([] & s6 & H6 & H). apply set_values_ds in H6 as (E6 & A6 & S6).
  apply bind_inr in H as ([] & s7 & H7 & H). apply set_values_ds in H7 as (E7 & A7 & S7).
  apply bind_inr in H as ([] & s8 & H8 & H). apply set_values_ds in H8 as (E8 & A8 & S8).
  apply bind_inr in H as ([] & s9 & H9 & H). apply set_values_ds in H9 as (E9 & A9 & S9).
  apply bind_inr in H as ([] & s10 & H10 & H). apply set_values_ds in H10 as (E10 & A10 & S10).
  assert (ds s5 = ds s1) as E51 by congruence.
  assert (forall k, k ∉ ["heading"; "roll_"; "pitch"; "temp"; "time_string"] ->
                    var k (ds s10) = var k (ds s1)) as Hrest.
  { intros k Hk. apart Hk.
    rewrite E10, var_set_data_ne, E9, var_set_data_ne, E8, var_set_data_ne,
      E7, var_set_data_ne, E6, var_set_data_ne, E51 by congruence. done. }
  assert (holds (ds s10) "time_string" (Str1 time_string)
          /\ holds (ds s10) "heading" (Float1 (heading (data s)))
          /\ holds (ds s10) "roll_" (Float1 (roll (data s)))
          /\ holds (ds s10) "pitch" (Float1 (pitch (data s)))
          /\ holds (ds s10) "temp" (Float1 (temperature (data s)))) as (T & Hh & Hr & Hp & Ht).
  { split; [rewrite E10; by apply holds_set_data|].
    split.
    { eapply holds_var; [|apply (holds_set_data _ _ _ S6)].
      rewrite E10, var_set_data_ne, E9, var_set_data_ne, E8, var_set_data_ne,
        E7, var_set_data_ne, E6 by done. done. }
    split.
    { eapply holds_var; [|apply (holds_set_data _ _ _ S7)].
      rewrite E10, var_set_data_ne, E9, var_set_data_ne, E8, var_set_data_ne, E7 by done.
      done. }
    split.
    { eapply holds_var; [|apply (holds_set_data _ _ _ S8)].
      rewrite E10, var_set_data_ne, E9, var_set_data_ne, E8 by done. done. }
    eapply holds_var; [|apply (holds_set_data _ _ _ S9)].
    rewrite E10, var_set_data_ne, E9 by done. done. }
  assert (forall k, k <> "dday" -> var k (ds s') = var k (ds s10)) as Hlast.
  { intros k Hk. destruct bad_time; cbn [when] in H.
    - rewrite set_ds_run in H. injection H as <-. cbn [ds].
      by rewrite var_assign_ne.
    - by injection H as <-. }
  split.
  { rewrite Hlast by done. rewrite Hrest; [done|].
    repeat (apply not_elem_of_cons; split; [done|]). apply not_elem_of_nil. }
  split; [eapply holds_var; [|exact T]; by apply Hlast|].
  split; [eapply holds_var; [|exact Hh]; by apply Hlast|].
  split; [eapply holds_var; [|exact Hr]; by apply Hlast|].
  split; [eapply holds_var; [|exact Hp]; by apply Hlast|].
  split; [eapply holds_var; [|exact Ht]; by apply Hlast|].
  destruct bad_time; cbn [when] in H.
  - rewrite set_ds_run in H. injection H as <-. cbn [ds].
    unfold var, assign. cbn. rewrite lookup_insert_eq.
    done.
  - injection H as <-. rewrite Hrest; [done|].
    repeat (apply not_elem_of_cons; split; [done|]). apply not_elem_of_nil.
Qed.

End loader_inversions.

(** ** The coordinate system and the transducer data *)

Section loader_transducer.
Import xr loader.
Variable _timestamp : string.
Variable nanmean : list float -> float.
Variable mean : list float -> float.
Variable beam_to_xyz : float -> string -> list (grid float) -> list (grid float).
Variable beam_to_xyz_bt : float -> string -> grid float -> grid float.
Variable rdi_xyz_enu :
  list (grid float) -> list float -> list float -> list float -> string -> list (grid float).
Variable rdi_xyz_enu_bt :
  grid float -> list float -> list float -> list float -> string -> grid float.
Variable round3 : float -> float.

Lemma slices_keep_coordsystem (xs : list nat) body :
  (forall i, preserves (on_data trans_coordsystem) (body i)) ->
  preserves (on_data trans_coordsystem) (for_each xs body).
Proof. apply preserves_for_each. Qed.

(** [coordsystem2earth] returns on beam data only, and leaves them in
    [xyz] or [earth] coordinates. *)
Lemma coordsystem2earth_inv orientation s s' :
  coordsystem2earth beam_to_xyz beam_to_xyz_bt rdi_xyz_enu rdi_xyz_enu_bt round3
    orientation s = (inr tt, s') ->
  trans_coordsystem (data s) = "beam"
  /\ (trans_coordsystem (data s') = "xyz" \/ trans_coordsystem (data s') = "earth").
Proof.
  intros H.
  destruct (decide (trans_coordsystem (data s) = "beam")) as [Hbeam|Hbeam]; cycle 1.
  { destruct (coordsystem2earth_raises beam_to_xyz beam_to_xyz_bt rdi_xyz_enu
                rdi_xyz_enu_bt round3 orientation s Hbeam) as (e & s2 & E & _).
    rewrite E in H. discriminate. }
  split; [exact Hbeam|].
  unfold coordsystem2earth in H.
  apply bind_inr in H as (d & s0 & Hd & H). rewrite gets_run in Hd.
  injection Hd as <- <-.
  apply bind_inr in H as ([] & s1 & H1 & H).
  assert (data s1 = data s) as E1.
  { destruct (negb _); [|by injection H1 as <-].
    destruct (sysconfig_coordsystem (data s)); [by injection H1 as <-|discriminate]. }
  cbv zeta in H. rewrite Hbeam in H. cbn [String.eqb Ascii.eqb Bool.eqb] in H.
  destruct (all_zero (heading (data s)) || all_zero (roll (data s))
            || all_zero (pitch (data s))).
  - apply bind_inr in H as ([] & s2 & H2 & H).
    unfold set_data_, modify in H2. injection H2 as <-.
    left. etransitivity.
    + eapply (preserves_run (on_data trans_coordsystem)); [|exact H].
      apply slices_keep_coordsystem. intros i. lframe ltac:(reflexivity).
    + reflexivity.
  - apply bind_inr in H as ([] & s2 & H2 & H).
    unfold set_data_, modify in H2. injection H2 as <-.
    right. etransitivity.
    + eapply (preserves_run (on_data trans_coordsystem)); [|exact H].
      apply slices_keep_coordsystem. intros i. lframe ltac:(reflexivity).
    + reflexivity.
Qed.

(** Dealing with the coordinates system *)
Lemma coordinates_system_inv orientation s oc s' :
  coordinates_system _timestamp beam_to_xyz beam_to_xyz_bt rdi_xyz_enu
    rdi_xyz_enu_bt round3 orientation s = (inr oc, s') ->
  oc = trans_coordsystem (data s)
  /\ (oc = "earth" /\ data s' = data s
      \/ oc = "beam"
         /\ (trans_coordsystem (data s') = "xyz"
             \/ trans_coordsystem (data s') = "earth")).
Proof.
  unfold coordinates_system. intros H.
  apply bind_inr in H as (d & s0 & Hd & H). rewrite gets_run in Hd.
  injection Hd as <- <-. cbv zeta in H.
  apply bind_inr in H as ([] & s1 & H1 & H). injection H as <- <-.
  split; [done|].
  destruct (String.eqb_spec (trans_coordsystem (data s)) "earth") as [He|He];
    cbn [negb] in H1.
  - injection H1 as <-. by left.
  - right.
    apply bind_inr in H1 as ([] & t1 & T1 & H1). apply l_log_ds in T1 as [_ D1].
    apply bind_inr in H1 as ([] & t2 & T2 & H1).
    apply coordsystem2earth_inv in T2 as [Hbeam Hto].
    apply bind_inr in H1 as (d2 & t3 & T3 & H1). rewrite gets_run in T3.
    injection T3 as <- <-.
    apply bind_inr in H1 as ([] & t4 & T4 & H1). apply when_log_ds in T4 as [_ D4].
    apply l_log_ds in H1 as [_ D5].
    rewrite D1 in Hbeam. split; [done|]. by rewrite D5, D4.
Qed.




End loader_transducer.

Section loader_transducer_data.
Import xr loader.
Variable _timestamp : string.
Variable nanmean : list float -> float.
Variable mean : list float -> float.

(** Loading the transducer data *)
Lemma load_transducer_data_inv oc s s' :
  load_transducer_data _timestamp nanmean mean oc s = (inr tt, s') ->
  let filled := List.map (np.map2d fill_to_nan) (vel (data s)) in
  let T := transpose (length (dep (data s))) in
  vel (data s') = filled
  /\ bt_vel (data s') = bt_vel (data s)
  /\ holds (ds s') "u" (Float2 (T (default [] (filled !! 0%nat))))
  /\ holds (ds s') "v" (Float2 (T (default [] (filled !! 1%nat))))
  /\ holds (ds s') "w" (Float2 (T (default [] (filled !! 2%nat))))
  /\ holds (ds s') "e" (Float2 (T (default [] (filled !! 3%nat))))
  /\ (forall k, k ∈ ["bt_u"; "bt_v"; "bt_w"; "bt_e"; "bt_depth"] ->
        (is_Some (var k (ds s')) <-> forallb all_zero (bt_vel (data s)) = false)).
Proof.
  unfold load_transducer_data. intros H. cbv zeta.
  apply bind_inr in H as ([] & s1 & H1 & H).
  unfold set_data_, modify in H1. injection H1 as <-.
  apply bind_inr in H as (d & s2 & Hd & H). rewrite gets_run in Hd.
  injection Hd as <- <-.
  cbn [data vel with_vel dep bt_vel sonar_model pg pg4 cor1 cor2 cor3 cor4
       amp1 amp2 amp3 amp4 vbvel VBCorrelation VBIntensity bt_depth] in H.
  cbv zeta in H.
  apply bind_inr in H as ([] & s3 & H3 & H).
  apply bind_inr in H as ([] & s4 & H4 & H).
  apply bind_inr in H as ([] & s5 & H5 & H).
  apply bind_inr in H as ([] & s6 & H6 & H).
  apply bind_inr in H as ([] & s7 & H7 & H).
  apply bind_inr in H as ([] & s8 & H8 & H).
  apply set_values_ds in H3 as (E3 & D3 & S3).
  apply set_values_ds in H4 as (E4 & D4 & S4).
  apply set_values_ds in H5 as (E5 & D5 & S5).
  apply set_values_ds in H6 as (E6 & D6 & S6).
  cbn [ds data] in *.
  (* the fifth beam *)
  assert ((forall k, k ∉ ["vb_vel"; "vb_corr"; "vb_amp"] ->
             var k (ds s7) = var k (ds s6))
          /\ vel (data s7) = vel (data s6) /\ bt_vel (data s7) = bt_vel (data s6))
    as (V7 & L7 & B7).
  { destruct (String.eqb (sonar_model (data s)) "sv").
    - apply bind_inr in H7 as ([] & t1 & T1 & H7).
      unfold set_data_, modify in T1. injection T1 as <-.
      apply bind_inr in H7 as (d2 & t2 & T2 & H7). rewrite gets_run in T2.
      injection T2 as <- <-.
      apply bind_inr in H7 as ([] & t3 & T3 & H7).
      apply bind_inr in H7 as ([] & t4 & T4 & H7).
      apply bind_inr in H7 as ([] & t5 & T5 & H7).
      apply l_log_ds in H7 as [E7 D7].
      apply set_values_ds in T3 as (F3 & G3 & _).
      apply set_values_ds in T4 as (F4 & G4 & _).
      apply set_values_ds in T5 as (F5 & G5 & _).
      cbn [ds data] in *. split.
      + intros k Hk. apart Hk.
        rewrite E7, F5, var_set_data_ne, F4, var_set_data_ne, F3, var_set_data_ne
          by congruence. done.
      + rewrite D7, G5, G4, G3. done.
    - injection H7 as <-. done. }
  (* the bottom track *)
  assert ((forall k, k ∉ ["bt_u"; "bt_v"; "bt_w"; "bt_e"; "bt_depth"] ->
             var k (ds s8) = var k (ds s7))
          /\ data s8 = data s7
          /\ (forall k, k ∈ ["bt_u"; "bt_v"; "bt_w"; "bt_e"; "bt_depth"] ->
                (is_Some (var k (ds s8))
                 <-> forallb all_zero (bt_vel (data s)) = false)))
    as (V8 & D8 & B8).
  { destruct (forallb all_zero (bt_vel (data s))); cbn [negb] in H8.
    - apply bind_inr in H8 as ([] & t1 & T1 & H8).
      rewrite set_ds_run in T1. injection T1 as <-.
      apply l_log_ds in H8 as [E8 D8']. cbn [ds data] in *.
      split; [|split; [done|]].
      + intros k Hk. rewrite E8. by apply var_drop_vars_ne.
      + intros k Hk. rewrite E8, var_drop_vars.
        rewrite bool_decide_eq_true_2 by done. split; [by intros [? ?]|done].
    - apply bind_inr in H8 as ([] & t1 & T1 & H8).
      apply bind_inr in H8 as ([] & t2 & T2 & H8).
      apply bind_inr in H8 as ([] & t3 & T3 & H8).
      apply bind_inr in H8 as ([] & t4 & T4 & H8).
      apply bind_inr in H8 as ([] & t5 & T5 & H8).
      apply l_log_ds in H8 as [E8 D8'].
      apply set_values_ds in T1 as (F1 & G1 & Q1).
      apply set_values_ds in T2 as (F2 & G2 & Q2).
      apply set_values_ds in T3 as (F3 & G3 & Q3).
      apply set_values_ds in T4 as (F4 & G4 & Q4).
      apply set_values_ds in T5 as (F5 & G5 & Q5).
      split; [|split; [congruence|]].
      + intros k Hk. apart Hk.
        rewrite E8, F5, var_set_data_ne, F4, var_set_data_ne, F3, var_set_data_ne,
          F2, var_set_data_ne, F1, var_set_data_ne by congruence. done.
      + intros k Hk. split; [done|intros _].
        rewrite F1, var_set_data_is_Some in Q2.
        rewrite F2, var_set_data_is_Some, F1, var_set_data_is_Some in Q3.
        rewrite F3, var_set_data_is_Some, F2, var_set_data_is_Some,
          F1, var_set_data_is_Some in Q4.
        rewrite F4, var_set_data_is_Some, F3, var_set_data_is_Some,
          F2, var_set_data_is_Some, F1, var_set_data_is_Some in Q5.
        rewrite E8, F5, var_set_data_is_Some, F4, var_set_data_is_Some,
          F3, var_set_data_is_Some, F2, var_set_data_is_Some,
          F1, var_set_data_is_Some.
        repeat (apply elem_of_cons in Hk as [->|Hk]; [assumption|]).
        by apply elem_of_nil in Hk. }
  (* percent good, correlation and amplitude *)
  assert (forall k, k ∉ ["pg"; "corr1"; "amp1"; "corr2"; "amp2"; "corr3"; "amp3";
                         "corr4"; "amp4"] ->
            var k (ds s') = var k (ds s8)) as V9.
  { intros k Hk. apart Hk.
    eapply (preserves_run (on_ds (var k))); [|exact H]. lframe ltac:(var_leaf). }
  assert (data s' = data s8) as D9.
  { eapply (preserves_run (on_data (fun d => d))); [|exact H].
    lframe ltac:(reflexivity). }
  assert (forall k, k ∈ ["u"; "v"; "w"; "e"] -> var k (ds s') = var k (ds s6)) as Vel.
  { intros k Hk. rewrite V9, V8, V7; [done|..];
      repeat (apply elem_of_cons in Hk as [->|Hk];
              [repeat (apply not_elem_of_cons; split; [done|]); apply not_elem_of_nil|]);
      by apply elem_of_nil in Hk. }
  split; [rewrite D9, D8, L7, D6, D5, D4, D3; done|].
  split; [rewrite D9, D8, B7, D6, D5, D4, D3; done|].
  split.
  { eapply holds_var; [apply Vel; repeat first [apply list_elem_of_here | apply list_elem_of_further]|].
    eapply holds_var; [|apply (holds_set_data _ _ _ S3)].
    rewrite E6, var_set_data_ne, E5, var_set_data_ne, E4, var_set_data_ne, E3 by done.
    done. }
  split.
  { eapply holds_var; [apply Vel; repeat first [apply list_elem_of_here | apply list_elem_of_further]|].
    eapply holds_var; [|apply (holds_set_data _ _ _ S4)].
    rewrite E6, var_set_data_ne, E5, var_set_data_ne, E4 by done. done. }
  split.
  { eapply holds_var; [apply Vel; repeat first [apply list_elem_of_here | apply list_elem_of_further]|].
    eapply holds_var; [|apply (holds_set_data _ _ _ S5)].
    rewrite E6, var_set_data_ne, E5 by done. done. }
  split.
  { eapply holds_var; [apply Vel; repeat first [apply list_elem_of_here | apply list_elem_of_further]|].
    rewrite E6. by apply holds_set_data. }
  intros k Hk. rewrite V9; [by apply B8|].
  repeat (apply elem_of_cons in Hk as [->|Hk];
          [repeat (apply not_elem_of_cons; split; [done|]); apply not_elem_of_nil|]).
  by apply elem_of_nil in Hk.
Qed.

End loader_transducer_data.

(** ** The dataset of a load that returns *)

Section loaded.
Import xr loader.
Variable _timestamp : string.
Variable str_num : float -> string.
Variable to_datetime64 : Z -> float -> Z.
Variable datetime_str : Z -> string.
Variable median : list float -> float.
Variable nanmean : list float -> float.
Variable mean : list float -> float.
Variable beam_to_xyz : float -> string -> list (grid float) -> list (grid float).
Variable beam_to_xyz_bt : float -> string -> grid float -> grid float.
Variable rdi_xyz_enu :
  list (grid float) -> list float -> list float -> list float -> string -> list (grid float).
Variable rdi_xyz_enu_bt :
  grid float -> list float -> list float -> list float -> string -> grid float.
Variable round3 : float -> float.
Variable FixedLeader : Type.

Lemma set_attributes_inv orientation s s' :
  set_attributes _timestamp orientation s = (inr tt, s') ->
  ds_attrs (ds s')
  = <["_vartmp_logbook" := AStr (logbook (l s'))]>
      (<["instrument_serial" := AStr (FL_Inst_SN (data s))]>
         (<["orientation" := AStr orientation]>
            (<["bin_size" := ANum (CellSize (data s))]>
               (<["ping_frequency" := ANum (sysconfig_kHz (data s) * 1000)%float]>
                  (<["beam_angle" := ANum (sysconfig_angle (data s))]>
                     (<["coordsystem" := AStr (trans_coordsystem (data s))]>
                        (ds_attrs (ds s))))))))
  /\ w_count (l s') = w_count (l s)
     + (if str_in "WARNING:" ("File(s) loaded with " +:+ pretty (w_count (l s)) +:+ " warnings")
        then 1 else 0).
Proof.
  unfold set_attributes. intros H.
  apply bind_inr in H as (d & s0 & Hd & H). rewrite gets_run in Hd.
  injection Hd as <- <-.
  apply bind_inr in H as ([] & s1 & H1 & H). rewrite set_ds_run in H1. injection H1 as <-.
  apply bind_inr in H as ([] & s2 & H2 & H). rewrite set_ds_run in H2. injection H2 as <-.
  apply bind_inr in H as ([] & s3 & H3 & H). rewrite set_ds_run in H3. injection H3 as <-.
  apply bind_inr in H as ([] & s4 & H4 & H). rewrite set_ds_run in H4. injection H4 as <-.
  apply bind_inr in H as ([] & s5 & H5 & H). rewrite set_ds_run in H5. injection H5 as <-.
  apply bind_inr in H as ([] & s6 & H6 & H). rewrite set_ds_run in H6. injection H6 as <-.
  apply bind_inr in H as (lg & s7 & H7 & H). rewrite gets_run in H7.
  injection H7 as <- <-. cbn [l] in H.
  apply bind_inr in H as ([] & s8 & H8 & H).
  unfold l_log, call_l, modify in H8. injection H8 as <-.
  apply bind_inr in H as (lg & s9 & H9 & H). rewrite gets_run in H9.
  injection H9 as <- <-. cbn [l] in H.
  rewrite set_ds_run in H. injection H as <-. cbn [ds l data].
  split; [reflexivity|]. cbn [log log_str fst w_count].
  destruct (str_in _ _); lia.
Qed.

(** What every returning load went through, with what each stage left. *)
Lemma load_rdi_binary_stages files_msg raw (fl : FixedLeader) sonar yearbase orientation
    sensor_depth st dataset raw' fl' st' :
  load_rdi_binary _timestamp str_num to_datetime64 datetime_str median nanmean
    mean beam_to_xyz beam_to_xyz_bt rdi_xyz_enu rdi_xyz_enu_bt round3
    FixedLeader files_msg raw fl sonar yearbase orientation sensor_depth st
  = (inr (dataset, raw', fl'), st') ->
  exists bad_time time_ xd oc s10 s11 s12 s13 s14,
    bad_time = bad_dday (dday raw)
    /\ time_ = List.map (to_datetime64 yearbase)
                 (if bad_time then arange_days (length (dday raw)) else dday raw)
    /\ ds s10 = init_dataset time_ (dep raw) (sonar_model raw)
    /\ header (data s10) = header raw
    /\ oc = trans_coordsystem raw
    /\ (oc = "earth" /\ data s10 = raw
        \/ oc = "beam" /\ (trans_coordsystem (data s10) = "xyz"
                           \/ trans_coordsystem (data s10) = "earth"))
    /\ load_transducer_data _timestamp nanmean mean oc s10 = (inr tt, s11)
    /\ load_depth_data xd s11 = (inr tt, s12)
    /\ (if String.eqb (sonar_model raw) "os" then xd = None
        else xd = Some (median (XducerDepth raw)))
    /\ load_navigation_data _timestamp s12 = (inr tt, s13)
    /\ load_other_variables _timestamp bad_time
         (List.map datetime_str time_) s13 = (inr tt, s14)
    /\ set_attributes _timestamp orientation s14 = (inr tt, st')
    /\ dataset = ds st' /\ raw' = data st' /\ fl' = fl.
Proof.
  intros H.
  apply load_rdi_binary_inv in H
    as (bad & t & ts & xd & oc & s5 & s6 & s7 & s10 & s11 & s12 & s13 & s14
        & E5 & H6 & E6 & H7 & E7 & H10 & H11 & H12 & H13 & H14 & H15 & -> & -> & ->).
  apply convert_dday_inv in H6. rewrite E5 in H6. destruct H6 as (-> & -> & -> & _).
  eexists (bad_dday (dday raw)), _, xd, oc, s10, s11, s12, s13, s14.
  split; [reflexivity|]. split; [reflexivity|].
  split.
  { apply (preserves_run _ _ _ _ _
             (coordinates_system_ds _timestamp beam_to_xyz beam_to_xyz_bt rdi_xyz_enu
                rdi_xyz_enu_bt round3 orientation) H10). }
  split.
  { apply (preserves_run _ _ _ _ _
             (coordinates_system_header _timestamp beam_to_xyz beam_to_xyz_bt rdi_xyz_enu
                rdi_xyz_enu_bt round3 orientation) H10). }
  apply coordinates_system_inv in H10 as [-> Hcs]. cbn [data] in Hcs.
  split; [done|]. split; [exact Hcs|]. split; [exact H11|]. split; [exact H12|].
  split.
  { unfold depth_below_surface in H7.
    apply bind_inr in H7 as (d & s0 & Hd & H7). rewrite gets_run in Hd.
    injection Hd as <- <-. rewrite E6 in H7.
    destruct (String.eqb (sonar_model raw) "os"); cbn [negb] in H7.
    - by injection H7 as <- _.
    - apply bind_inr in H7 as ([] & s1 & _ & H7). by injection H7 as <- _. }
  repeat split; assumption.
Qed.

End loaded.

Section loaded_tail.
Import xr loader.
Variable _timestamp : string.

(** From the transducer data on: the depth, the navigation, the other
    variables and the attributes. *)
Lemma load_tail xd bad_time time_string orientation s11 s12 s13 s14 st' :
  load_depth_data xd s11 = (inr tt, s12) ->
  load_navigation_data _timestamp s12 = (inr tt, s13) ->
  load_other_variables _timestamp bad_time time_string s13 = (inr tt, s14) ->
  set_attributes _timestamp orientation s14 = (inr tt, st') ->
  data st' = data s11
  /\ (forall k, k ∉ "xducer_depth" :: "lon" :: "lat" :: other_names ->
        var k (ds st') = var k (ds s11))
  /\ (is_Some (var "xducer_depth" (ds st')) <-> sonar_model (data s11) <> "os")
  /\ (is_Some (var "lon" (ds st')) <-> is_Some (rawnav (data s11)))
  /\ (is_Some (var "lat" (ds st')) <-> is_Some (rawnav (data s11)))
  /\ var "pres" (ds st') = None
  /\ holds (ds st') "time_string" (Str1 time_string)
  /\ var "dday" (ds st')
     = (if bad_time then Some (mkDataArray ["T"] (Float1 (dday (data s11))) ∅)
        else var "dday" (ds s11))
  /\ exists x,
       (if String.eqb (sonar_model (data s11)) "os"
        then head (XducerDepth (data s11)) = Some x else xd = Some x)
       /\ ds_attrs (ds st')
          = <["_vartmp_logbook" := AStr (logbook (l st'))]>
              (<["instrument_serial" := AStr (FL_Inst_SN (data s11))]>
                 (<["orientation" := AStr orientation]>
                    (<["bin_size" := ANum (CellSize (data s11))]>
                       (<["ping_frequency" := ANum (sysconfig_kHz (data s11) * 1000)%float]>
                          (<["beam_angle" := ANum (sysconfig_angle (data s11))]>
                             (<["coordsystem" := AStr (trans_coordsystem (data s11))]>
                                (<["_vartmp_XducerDepth" := ANum x]>
                                   (ds_attrs (ds s11))))))))).
Proof.
  intros H12 H13 H14 H15.
  pose proof (preserves_run _ _ _ _ _ (load_depth_data_data xd) H12) as D12.
  pose proof (preserves_run _ _ _ _ _ (load_navigation_data_data _timestamp) H13) as D13.
  pose proof (preserves_run _ _ _ _ _
                (load_other_variables_data _timestamp bad_time time_string) H14) as D14.
  pose proof (preserves_run _ _ _ _ _ (set_attributes_data _timestamp orientation) H15)
    as D15.
  unfold on_data in D12, D13, D14, D15.
  assert (forall k, var k (ds st') = var k (ds s14)) as V15.
  { intros k. apply (preserves_run _ _ _ _ _ (set_attributes_var _timestamp k orientation) H15). }
  assert (forall k, k ∉ other_names -> var k (ds s14) = var k (ds s13)) as V14.
  { intros k Hk.
    apply (preserves_run _ _ _ _ _
             (load_other_variables_var _timestamp k bad_time time_string Hk) H14). }
  assert (forall k, k ∉ ["lon"; "lat"] -> var k (ds s13) = var k (ds s12)) as V13.
  { intros k Hk.
    apply (preserves_run _ _ _ _ _ (load_navigation_data_var _timestamp k Hk) H13). }
  assert (forall k, k <> "xducer_depth" -> var k (ds s12) = var k (ds s11)) as V12.
  { intros k Hk. apply (preserves_run _ _ _ _ _ (load_depth_data_var k xd Hk) H12). }
  pose proof (preserves_run _ _ _ _ _ (load_navigation_data_attrs _timestamp) H13) as A13.
  pose proof (preserves_run _ _ _ _ _
                (load_other_variables_attrs _timestamp bad_time time_string) H14) as A14.
  unfold on_ds in A13, A14.
  apply load_depth_data_inv in H12 as (X12 & x & A12 & Hx).
  apply load_navigation_data_inv in H13 as (Lon & Lat).
  apply load_other_variables_inv in H14 as (P & TS & _ & _ & _ & _ & DD).
  apply set_attributes_inv in H15 as [A15 _].
  split; [congruence|].
  split.
  { intros k Hk.
    apply not_elem_of_cons in Hk as [K1 Hk]. apply not_elem_of_cons in Hk as [K2 Hk].
    apply not_elem_of_cons in Hk as [K3 Hk].
    rewrite V15. rewrite V14 by exact Hk.
    rewrite V13
      by (apply not_elem_of_cons; split; [done|];
          apply not_elem_of_cons; split; [done|]; apply not_elem_of_nil).
    by rewrite V12. }
  split.
  { rewrite V15.
    rewrite V14
      by (unfold other_names; repeat (apply not_elem_of_cons; split; [done|]);
          apply not_elem_of_nil).
    rewrite V13
      by (repeat (apply not_elem_of_cons; split; [done|]); apply not_elem_of_nil).
    exact X12. }
  split.
  { rewrite V15.
    rewrite V14
      by (unfold other_names; repeat (apply not_elem_of_cons; split; [done|]);
          apply not_elem_of_nil).
    by rewrite Lon, D12. }
  split.
  { rewrite V15.
    rewrite V14
      by (unfold other_names; repeat (apply not_elem_of_cons; split; [done|]);
          apply not_elem_of_nil).
    by rewrite Lat, D12. }
  split; [by rewrite V15|].
  split; [eapply holds_var; [apply V15|exact TS]|].
  split.
  { rewrite V15, DD, D13, D12. destruct bad_time; [done|].
    rewrite V13
      by (repeat (apply not_elem_of_cons; split; [done|]); apply not_elem_of_nil).
    by rewrite V12. }
  exists x. split; [exact Hx|].
  rewrite A15, A14, A13, A12, D14, D13, D12. reflexivity.
Qed.

End loaded_tail.

Section loaded_theorems.
Import xr loader.
Variable _timestamp : string.
Variable str_num : float -> string.
Variable to_datetime64 : Z -> float -> Z.
Variable datetime_str : Z -> string.
Variable median : list float -> float.
Variable nanmean : list float -> float.
Variable mean : list float -> float.
Variable beam_to_xyz : float -> string -> list (grid float) -> list (grid float).
Variable beam_to_xyz_bt : float -> string -> grid float -> grid float.
Variable rdi_xyz_enu :
  list (grid float) -> list float -> list float -> list float -> string -> list (grid float).
Variable rdi_xyz_enu_bt :
  grid float -> list float -> list float -> list float -> string -> grid float.
Variable round3 : float -> float.
Variable FixedLeader : Type.

Lemma load_transducer_data_coordsystem oc :
  preserves (on_data trans_coordsystem)
    (load_transducer_data _timestamp nanmean mean oc).
Proof. unfold load_transducer_data. lframe ltac:(reflexivity). Qed.

Lemma header_fields d d' :
  header d = header d' ->
  dday d = dday d' /\ dep d = dep d' /\ sonar_model d = sonar_model d'
  /\ XducerDepth d = XducerDepth d' /\ sysconfig_angle d = sysconfig_angle d'
  /\ sysconfig_kHz d = sysconfig_kHz d' /\ CellSize d = CellSize d'
  /\ FL_Inst_SN d = FL_Inst_SN d' /\ rawnav d = rawnav d'
  /\ heading d = heading d' /\ roll d = roll d' /\ pitch d = pitch d'
  /\ temperature d = temperature d'.
Proof. unfold header. intros [= -> -> -> -> -> -> -> -> -> -> -> -> ->]. done. Qed.

(** X8: of the variables [init_dataset] prepares, a load that returns
    always drops [pres] (it writes the pressure of the file, logs
    [Pressure data unavailable] and drops the variable in the next
    statement); it keeps [xducer_depth] unless the sonar is [os], and [lon]
    and [lat] only when the bundle has [rawnav]. *)
Theorem optional_variables_of_a_load :
  forall (files_msg : string) (raw : Bunch) (fl : FixedLeader) (sonar : string)
         (yearbase : Z) (orientation : string) (sensor_depth : option float)
         (st st' : State) (dataset : Dataset) (raw' : Bunch) (fl' : FixedLeader),
    load_rdi_binary _timestamp str_num to_datetime64 datetime_str median nanmean
      mean beam_to_xyz beam_to_xyz_bt rdi_xyz_enu rdi_xyz_enu_bt round3
      FixedLeader files_msg raw fl sonar yearbase orientation sensor_depth st
    = (inr (dataset, raw', fl'), st') ->
    var "pres" dataset = None
    /\ (is_Some (var "xducer_depth" dataset) <-> sonar_model raw <> "os")
    /\ (is_Some (var "lon" dataset) <-> is_Some (rawnav raw))
    /\ (is_Some (var "lat" dataset) <-> is_Some (rawnav raw)).
Proof.
  intros files_msg raw fl sonar yearbase orientation sensor_depth st st'
    dataset raw' fl' H.
  apply load_rdi_binary_stages in H
    as (bad & t & xd & oc & s10 & s11 & s12 & s13 & s14
        & _ & _ & _ & Hh & _ & _ & H11 & H12 & _ & H13 & H14 & H15 & -> & -> & ->).
  pose proof (preserves_run _ _ _ _ _
                (load_transducer_data_header _timestamp nanmean mean oc) H11) as Hh11.
  unfold on_data in Hh11. rewrite Hh in Hh11.
  apply header_fields in Hh11 as (_ & _ & Em & _ & _ & _ & _ & _ & En & _).
  destruct (load_tail _ _ _ _ _ _ _ _ _ _ H12 H13 H14 H15)
    as (_ & _ & X & Lon & Lat & P & _).
  rewrite Em in X. rewrite En in Lon, Lat. done.
Qed.

(** X9: the five bottom-track variables are loaded together or dropped
    together: they are dropped exactly when every bottom-track velocity of
    the bundle the load returns is 0 (for data in earth coordinates, the
    velocities of the file). *)
Theorem bottom_track_all_or_none :
  forall (files_msg : string) (raw : Bunch) (fl : FixedLeader) (sonar : string)
         (yearbase : Z) (orientation : string) (sensor_depth : option float)
         (st st' : State) (dataset : Dataset) (raw' : Bunch) (fl' : FixedLeader),
    load_rdi_binary _timestamp str_num to_datetime64 datetime_str median nanmean
      mean beam_to_xyz beam_to_xyz_bt rdi_xyz_enu rdi_xyz_enu_bt round3
      FixedLeader files_msg raw fl sonar yearbase orientation sensor_depth st
    = (inr (dataset, raw', fl'), st') ->
    (forall k, k ∈ ["bt_u"; "bt_v"; "bt_w"; "bt_e"; "bt_depth"] ->
       (is_Some (var k dataset) <-> forallb all_zero (bt_vel raw') = false))
    /\ (trans_coordsystem raw = "earth" -> bt_vel raw' = bt_vel raw).
Proof.
  intros files_msg raw fl sonar yearbase orientation sensor_depth st st'
    dataset raw' fl' H.
  apply load_rdi_binary_stages in H
    as (bad & t & xd & oc & s10 & s11 & s12 & s13 & s14
        & _ & _ & _ & _ & Hoc & Hcs & H11 & H12 & _ & H13 & H14 & H15 & -> & -> & ->).
  destruct (load_tail _ _ _ _ _ _ _ _ _ _ H12 H13 H14 H15) as (D & V & _).
  apply load_transducer_data_inv in H11 as (_ & B & _ & _ & _ & _ & Hbt).
  cbv zeta in Hbt. rewrite D, B. split.
  - intros k Hk. rewrite V; [by apply Hbt|]. unfold other_names.
    repeat (apply elem_of_cons in Hk as [->|Hk];
            [repeat (apply not_elem_of_cons; split; [done|]); apply not_elem_of_nil|]).
    by apply elem_of_nil in Hk.
  - intros He. destruct Hcs as [[_ ->]|[Hb _]]; [done|]. congruence.
Qed.


(** X11: fractional days that are never negative and never go backwards
    are converted as they are: the time coordinate is their conversion from
    [yearbase], [time_string] mirrors it, and the dataset has no [dday]. *)
Theorem good_time_is_converted :
  forall (files_msg : string) (raw : Bunch) (fl : FixedLeader) (sonar : string)
         (yearbase : Z) (orientation : string) (sensor_depth : option float)
         (st st' : State) (dataset : Dataset) (raw' : Bunch) (fl' : FixedLeader),
    bad_dday (dday raw) = false ->
    load_rdi_binary _timestamp str_num to_datetime64 datetime_str median nanmean
      mean beam_to_xyz beam_to_xyz_bt rdi_xyz_enu rdi_xyz_enu_bt round3
      FixedLeader files_msg raw fl sonar yearbase orientation sensor_depth st
    = (inr (dataset, raw', fl'), st') ->
    time dataset = List.map (to_datetime64 yearbase) (dday raw)
    /\ holds dataset "time_string"
         (Str1 (List.map datetime_str (List.map (to_datetime64 yearbase) (dday raw))))
    /\ var "dday" dataset = None.
Proof.
  intros files_msg raw fl sonar yearbase orientation sensor_depth st st'
    dataset raw' fl' Hgood H.
  apply load_rdi_binary_stages in H
    as (bad & t & xd & oc & s10 & s11 & s12 & s13 & s14
        & -> & -> & Hds & _ & _ & _ & H11 & H12 & _ & H13 & H14 & H15 & -> & -> & ->).
  rewrite Hgood in *.
  pose proof (preserves_run _ _ _ _ _
                (load_transducer_data_axes _timestamp nanmean mean oc) H11) as A11.
  pose proof (preserves_run _ _ _ _ _ (load_depth_data_axes xd) H12) as A12.
  pose proof (preserves_run _ _ _ _ _ (load_navigation_data_axes _timestamp) H13) as A13.
  pose proof (preserves_run _ _ _ _ _
                (load_other_variables_axes _timestamp false _) H14) as A14.
  pose proof (preserves_run _ _ _ _ _ (set_attributes_axes _timestamp orientation) H15)
    as A15.
  pose proof (preserves_run _ _ _ _ _
                (load_transducer_data_var _timestamp nanmean mean "dday" oc
                   ltac:(unfold transducer_names;
                         repeat (apply not_elem_of_cons; split; [done|]);
                         apply not_elem_of_nil)) H11) as V11.
  destruct (load_tail _ _ _ _ _ _ _ _ _ _ H12 H13 H14 H15)
    as (_ & _ & _ & _ & _ & _ & TS & DD & _).
  split; [|split].
  - assert (axes (ds st') = axes (ds s10)) as [= _ ->].
    { unfold on_ds in *. by rewrite A15, A14, A13, A12, A11. }
    by rewrite Hds.
  - exact TS.
  - rewrite DD. unfold on_ds in V11. rewrite V11, Hds. apply init_dataset_no_dday.
Qed.

(** X12: the attributes of the dataset a load returns are these eight and
    no other; in particular it has no [logbook], the log is under
    [_vartmp_logbook]. The coordinate system it records is [earth] or [xyz],
    never [beam]. *)
Theorem attributes_of_a_load :
  forall (files_msg : string) (raw : Bunch) (fl : FixedLeader) (sonar : string)
         (yearbase : Z) (orientation : string) (sensor_depth : option float)
         (st st' : State) (dataset : Dataset) (raw' : Bunch) (fl' : FixedLeader),
    load_rdi_binary _timestamp str_num to_datetime64 datetime_str median nanmean
      mean beam_to_xyz beam_to_xyz_bt rdi_xyz_enu rdi_xyz_enu_bt round3
      FixedLeader files_msg raw fl sonar yearbase orientation sensor_depth st
    = (inr (dataset, raw', fl'), st') ->
    exists x,
      ds_attrs dataset
      = <["_vartmp_logbook" := AStr (logbook (l st'))]>
          (<["instrument_serial" := AStr (FL_Inst_SN raw)]>
             (<["orientation" := AStr orientation]>
                (<["bin_size" := ANum (CellSize raw)]>
                   (<["ping_frequency" := ANum (sysconfig_kHz raw * 1000)%float]>
                      (<["beam_angle" := ANum (sysconfig_angle raw)]>
                         (<["coordsystem" := AStr (trans_coordsystem raw')]>
                            (<["_vartmp_XducerDepth" := ANum x]> ∅)))))))
      /\ (if String.eqb (sonar_model raw) "os"
          then head (XducerDepth raw) = Some x
          else x = median (XducerDepth raw))
      /\ (trans_coordsystem raw' = "earth" \/ trans_coordsystem raw' = "xyz")
      /\ ds_attrs dataset !! "logbook" = None.
Proof.
  intros files_msg raw fl sonar yearbase orientation sensor_depth st st'
    dataset raw' fl' H.
  apply load_rdi_binary_stages in H
    as (bad & t & xd & oc & s10 & s11 & s12 & s13 & s14
        & _ & _ & Hds & Hh & Hoc & Hcs & H11 & H12 & Hxd & H13 & H14 & H15
        & -> & -> & ->).
  pose proof (preserves_run _ _ _ _ _
                (load_transducer_data_header _timestamp nanmean mean oc) H11) as Hh11.
  pose proof (preserves_run _ _ _ _ _ (load_transducer_data_coordsystem oc) H11) as Hc11.
  pose proof (preserves_run _ _ _ _ _
                (load_transducer_data_attrs _timestamp nanmean mean oc) H11) as Ha11.
  unfold on_data, on_ds in Hh11, Hc11, Ha11. rewrite Hh in Hh11.
  apply header_fields in Hh11
    as (_ & _ & Em & Ex & Ea & Ek & Ec & Es & _).
  destruct (load_tail _ _ _ _ _ _ _ _ _ _ H12 H13 H14 H15)
    as (D & _ & _ & _ & _ & _ & _ & _ & x & Hx & A).
  exists x. rewrite Em, Ex in Hx. rewrite Ea, Ek, Ec, Es, Ha11, Hds in A.
  rewrite D. split; [exact A|]. split.
  { destruct (String.eqb (sonar_model raw) "os"); [exact Hx|]. congruence. }
  split.
  { rewrite Hc11. destruct Hcs as [[-> ->]|[_ [?|?]]]; [by left|by right|by left]. }
  rewrite A. rewrite !lookup_insert_ne by done. apply lookup_empty.
Qed.

End loaded_theorems.

(** ** Data in [xyz] coordinates *)

Section xyz.
Import xr loader.
Variable _timestamp : string.
Variable str_num : float -> string.
Variable to_datetime64 : Z -> float -> Z.
Variable datetime_str : Z -> string.
Variable median : list float -> float.
Variable nanmean : list float -> float.
Variable mean : list float -> float.
Variable beam_to_xyz : float -> string -> list (grid float) -> list (grid float).
Variable beam_to_xyz_bt : float -> string -> grid float -> grid float.
Variable rdi_xyz_enu :
  list (grid float) -> list float -> list float -> list float -> string -> list (grid float).
Variable rdi_xyz_enu_bt :
  grid float -> list float -> list float -> list float -> string -> grid float.
Variable round3 : float -> float.
Variable FixedLeader : Type.

Lemma coordsystem2earth_xyz orientation :
  raises (fun s => trans_coordsystem (data s) = "xyz")
         (coordsystem2earth beam_to_xyz beam_to_xyz_bt rdi_xyz_enu rdi_xyz_enu_bt
            round3 orientation)
         (fun e => e = UnboundLocalError "bt_xyze").
Proof.
  intros s Hcs. unfold coordsystem2earth.
  step (gets_run data s). rewrite Hcs.
  rewrite bool_decide_eq_true_2
    by (repeat first [apply list_elem_of_here | apply list_elem_of_further]).
  cbn [negb]. step (@eq_refl _ (ret tt s)).
  cbn [String.eqb Ascii.eqb Bool.eqb andb].
  destruct (all_zero (heading (data s)) || all_zero (roll (data s))
            || all_zero (pitch (data s))).
  - eexists _, _. split; [reflexivity|]. done.
  - eexists _, _. split; [reflexivity|]. done.
Qed.

(** With the exception [coordsystem2earth] raises, whatever it is. *)
Lemma coordinates_system_raises_with (E : exn -> Prop) orientation raw :
  trans_coordsystem raw <> "earth" ->
  raises (fun s => data s = raw)
         (coordsystem2earth beam_to_xyz beam_to_xyz_bt rdi_xyz_enu rdi_xyz_enu_bt
            round3 orientation) E ->
  raises (fun s => data s = raw)
         (coordinates_system _timestamp beam_to_xyz beam_to_xyz_bt rdi_xyz_enu
            rdi_xyz_enu_bt round3 orientation) E.
Proof.
  intros Hearth Hraises s Hs. subst raw. unfold coordinates_system.
  step (gets_run data s).
  apply String.eqb_neq in Hearth. rewrite Hearth. cbn [negb].
  destruct (Hraises
              (mkState (log _timestamp
                          (MStr ("The velocity data are in "
                                 +:+ trans_coordsystem (data s) +:+ " coordinate"))
                          false (l s)).1
                       (stdout s ++ (log _timestamp
                          (MStr ("The velocity data are in "
                                 +:+ trans_coordsystem (data s) +:+ " coordinate"))
                          false (l s)).2)
                       (data s) (ds s)) eq_refl) as (e & s2 & E2 & He).
  exists e, s2. split; [|exact He].
  apply bind_raise_l. erewrite bind_ret_l by reflexivity.
  apply bind_raise_l. exact E2.
Qed.

Lemma load_rdi_binary_raises_with (E : exn -> Prop) files_msg raw (fl : FixedLeader)
    sonar yearbase orientation sensor_depth :
  raises (fun s => data s = raw)
         (coordinates_system _timestamp beam_to_xyz beam_to_xyz_bt rdi_xyz_enu
            rdi_xyz_enu_bt round3 orientation) E ->
  raises (fun _ : State => True)
         (load_rdi_binary _timestamp str_num to_datetime64 datetime_str median
            nanmean mean beam_to_xyz beam_to_xyz_bt rdi_xyz_enu rdi_xyz_enu_bt
            round3 FixedLeader files_msg raw fl sonar yearbase orientation
            sensor_depth) E.
Proof.
  intros Hcs. unfold load_rdi_binary.
  eapply raises_bind_r; [apply (returns_modify _ (fun _ => True)); done|intros].
  eapply raises_bind_r; [apply (returns_modify _ (fun _ => True)); done|intros].
  eapply raises_bind_r; [apply (returns_modify _ (fun _ => True)); done|intros].
  eapply raises_bind_r;
    [apply returns_when; apply (returns_modify _ (fun _ => True)); done|intros].
  eapply raises_bind_r;
    [apply (returns_modify _ (fun s => data s = raw)); done|intros].
  eapply raises_bind_r;
    [apply (convert_dday_keeps_data _timestamp to_datetime64 datetime_str)
    |intros [bad [t ts]]].
  eapply raises_bind_r;
    [apply (depth_below_surface_keeps_data _timestamp str_num median)|intros].
  eapply raises_bind_r; [apply returns_gets|intros].
  eapply raises_bind_r;
    [apply (returns_modify _ (fun s => data s = raw)); intros ? ?; assumption|intros].
  apply raises_bind_l. exact Hcs.
Qed.

(** X13: data in [xyz] coordinates cannot be loaded: [coordsystem2earth]
    binds [bt_xyze] for beam data only and reads it for all, so the load
    raises [UnboundLocalError], whatever the attitude data are. *)
Theorem xyz_data_cannot_be_loaded :
  forall (files_msg : string) (raw : Bunch) (fl : FixedLeader) (sonar : string)
         (yearbase : Z) (orientation : string) (sensor_depth : option float)
         (st : State),
    trans_coordsystem raw = "xyz" ->
    exists st',
      load_rdi_binary _timestamp str_num to_datetime64 datetime_str median nanmean
        mean beam_to_xyz beam_to_xyz_bt rdi_xyz_enu rdi_xyz_enu_bt round3
        FixedLeader files_msg raw fl sonar yearbase orientation sensor_depth st
      = (inl (UnboundLocalError "bt_xyze"), st').
Proof.
  intros files_msg raw fl sonar yearbase orientation sensor_depth st Hxyz.
  destruct (load_rdi_binary_raises_with (fun e => e = UnboundLocalError "bt_xyze")
              files_msg raw fl sonar yearbase orientation sensor_depth) with (s := st)
    as (e & st' & Hrun & ->); [|done|by exists st'].
  apply coordinates_system_raises_with; [by rewrite Hxyz|].
  intros s Hs. apply coordsystem2earth_xyz. by rewrite Hs.
Qed.

End xyz.

(** ** Which loads return *)

Ltac in_list := repeat first [apply list_elem_of_here | apply list_elem_of_further].

Section returning.
Import xr loader.
Variable _timestamp : string.
Variable raw : Bunch.

Lemma present_set_data K name a d : present K d -> present K (set_data name a d).
Proof.
  unfold present. intros H. eapply Forall_impl; [exact H|].
  intros k. by rewrite var_set_data_is_Some.
Qed.

Lemma present_drop_vars K K' names d :
  (forall k, k ∈ K' -> k ∈ K /\ k ∉ names) ->
  present K d -> present K' (drop_vars names d).
Proof.
  unfold present. rewrite !Forall_forall. intros Hsub H k Hk.
  destruct (Hsub k Hk) as [HK Hn]. rewrite var_drop_vars_ne by done. by apply H.
Qed.

Lemma present_in K k d : k ∈ K -> present K d -> is_Some (var k d).
Proof. unfold present. rewrite Forall_forall. auto. Qed.

Lemma run_set_values K name a s :
  name ∈ K \/ (sonar_model raw = "sv" /\ name ∈ fifth_beam_names) ->
  loading raw K s ->
  exists s', set_values name a s = (inr tt, s') /\ loading raw K s'.
Proof.
  intros Hname (Hh & HK & Hvb). unfold set_values.
  assert (is_Some (var name (ds s))) as [v Hv].
  { destruct Hname as [Hin|[Hsv Hin]]; [by eapply present_in|].
    eapply present_in; [exact Hin|by apply Hvb]. }
  unfold var in Hv. rewrite Hv. eexists. split; [reflexivity|].
  split; [exact Hh|]. split; [by apply present_set_data|].
  intros Hsv. by apply present_set_data, Hvb.
Qed.

Lemma run_drop K K' names s :
  (forall k, k ∈ K' -> k ∈ K /\ k ∉ names) ->
  (forall k, k ∈ fifth_beam_names -> k ∉ names) ->
  loading raw K s ->
  exists s', set_ds (drop_vars names) s = (inr tt, s') /\ loading raw K' s'.
Proof.
  intros Hsub Hfifth (Hh & HK & Hvb). eexists. split; [reflexivity|].
  split; [exact Hh|]. split; [by eapply present_drop_vars|].
  intros Hsv. cbn [ds]. eapply present_drop_vars; [|by apply Hvb].
  intros k Hk. split; [exact Hk|by apply Hfifth].
Qed.

Lemma run_set_ds K f s :
  (forall d, var_domain_kept f d) ->
  loading raw K s ->
  exists s', set_ds f s = (inr tt, s') /\ loading raw K s'.
Proof.
  intros Hf (Hh & HK & Hvb). eexists. split; [reflexivity|].
  split; [exact Hh|]. cbn [ds]. split.
  - unfold present in *. eapply Forall_impl; [exact HK|]. intros k. apply Hf.
  - intros Hsv. specialize (Hvb Hsv). unfold present in *.
    eapply Forall_impl; [exact Hvb|]. intros k. apply Hf.
Qed.

Lemma run_call_l K g s :
  loading raw K s -> exists s', call_l g s = (inr tt, s') /\ loading raw K s'.
Proof. intros H. eexists. split; [reflexivity|]. exact H. Qed.

Lemma run_l_log K msg s :
  loading raw K s ->
  exists s', l_log _timestamp msg s = (inr tt, s') /\ loading raw K s'.
Proof. apply run_call_l. Qed.

Lemma run_when_log K b msg s :
  loading raw K s ->
  exists s', when b (l_log _timestamp msg) s = (inr tt, s') /\ loading raw K s'.
Proof. destruct b; [apply run_l_log|]. intros H. by exists s. Qed.

Lemma run_set_data_ K f s :
  (forall d, header (f d) = header d) ->
  loading raw K s ->
  exists s', set_data_ f s = (inr tt, s') /\ loading raw K s'.
Proof.
  intros Hf (Hh & HK & Hvb). eexists. split; [reflexivity|].
  split; [|done]. cbn [data]. by rewrite Hf.
Qed.

Lemma bind_assoc {St A B C} (m : M St A) (k1 : A -> M St B) (k2 : B -> M St C) s :
  bind (bind m k1) k2 s = bind m (fun a => bind (k1 a) k2) s.
Proof. unfold bind. by destruct (m s) as [[e|a] s1]. Qed.

Lemma loading_weaken K K' s :
  (forall k, k ∈ K' -> k ∈ K) -> loading raw K s -> loading raw K' s.
Proof.
  intros Hsub (Hh & HK & Hvb). split; [exact Hh|]. split; [|exact Hvb].
  unfold present in *. rewrite !Forall_forall in *. auto.
Qed.

Lemma loading_sonar K s : loading raw K s -> sonar_model (data s) = sonar_model raw.
Proof. intros (Hh & _). by apply header_fields in Hh as (_ & _ & -> & _). Qed.

End returning.

(** Every name of a list written out is in another one. *)
Ltac sub_list :=
  let k := fresh "k" in
  let Hk := fresh "Hk" in
  intros k Hk;
  repeat (apply elem_of_cons in Hk as [->|Hk]; [in_list|]);
  by apply elem_of_nil in Hk.

(** One statement further, from a proof that it returns in a state that is
    still [loading]. *)
Ltac go lem :=
  let s' := fresh "s" in
  let E := fresh "E" in
  let I := fresh "I" in
  destruct lem as (s' & E & I);
  first [ rewrite (bind_ret_l _ _ _ _ _ E); cbv beta
        | exists s'; split; [exact E|] ].

Ltac go_gets f s :=
  rewrite (bind_ret_l _ _ _ _ _ (gets_run f s)); cbv beta zeta.

(** The statement [ds[name].values = a] at the head, in the state of [I]. *)
Ltac go_set I :=
  match type of I with
  | loading ?raw ?K ?s =>
      match goal with
      | |- context [loader.set_values ?n ?a s] =>
          let H := fresh "Hin" in
          assert (n ∈ K \/ (loader.sonar_model raw = "sv" /\ n ∈ fifth_beam_names)) as H
            by first [ solve [left; in_list]
                     | solve [right; split; [assumption|unfold fifth_beam_names; in_list]] ];
          go (run_set_values raw K n a s H I); clear H
      | |- context [bind (loader.set_values ?n ?a) _ s] =>
          let H := fresh "Hin" in
          assert (n ∈ K \/ (loader.sonar_model raw = "sv" /\ n ∈ fifth_beam_names)) as H
            by first [ solve [left; in_list]
                     | solve [right; split; [assumption|unfold fifth_beam_names; in_list]] ];
          go (run_set_values raw K n a s H I); clear H
      end
  end.

Ltac go_log ts I :=
  match type of I with
  | loading ?raw ?K ?s =>
      match goal with
      | |- context [loader.l_log ts ?msg s] => go (run_l_log ts raw K msg s I)
      | |- context [bind (loader.l_log ts ?msg) _ s] => go (run_l_log ts raw K msg s I)
      | |- context [bind (when ?b (loader.l_log ts ?msg)) _ s] =>
          go (run_when_log ts raw K b msg s I)
      end
  end.

Section returning_stages.
Import xr loader.
Variable _timestamp : string.
Variable nanmean : list float -> float.
Variable mean : list float -> float.
Variable raw : Bunch.

Lemma load_transducer_data_returns oc s :
  loading raw init_names s ->
  exists s',
    load_transducer_data _timestamp nanmean mean oc s = (inr tt, s')
    /\ loading raw after_transducer s'.
Proof.
  intros I. unfold load_transducer_data.
  go (run_set_data_ raw init_names
        (fun d => with_vel (List.map (np.map2d fill_to_nan) (vel d)) d) s
        (fun d => eq_refl) I).
  go_gets data s0.
  go_set I0.
  go_set I1.
  go_set I2.
  go_set I3.
  (* the fifth beam *)
  assert (exists s5,
            (if String.eqb (sonar_model (data s0)) "sv" then
               exec set_data_ (fun d => with_vbvel (np.map2d fill_to_nan (vbvel d)) d) then
               let* d := gets data in
               exec set_values "vb_vel"
                      (Float2 (transpose (length (dep (data s0))) (vbvel d))) then
               exec set_values "vb_corr"
                      (Float2 (transpose (length (dep (data s0))) (VBCorrelation d))) then
               exec set_values "vb_amp"
                      (Float2 (transpose (length (dep (data s0))) (VBIntensity d))) then
               l_log _timestamp "Data from the Sentinel V fifth beam loaded."
             else ret tt) s4 = (inr tt, s5)
            /\ loading raw init_names s5) as Hsv.
  { destruct (String.eqb_spec (sonar_model (data s0)) "sv") as [Hsv|Hsv];
      [|by exists s4].
    rewrite (loading_sonar _ _ _ I0) in Hsv.
    go (run_set_data_ raw init_names
          (fun d => with_vbvel (np.map2d fill_to_nan (vbvel d)) d) s4
          (fun d => eq_refl) I4).
    go_gets data s5.
    go_set I5.
    go_set I6.
    go_set I7.
    go_log _timestamp I8.
    exact I9. }
  go Hsv.
  (* the bottom track *)
  assert (exists s6,
            (if negb (forallb all_zero (bt_vel (data s0))) then
               exec set_values "bt_u" (Float1 (default [] (bt_vel (data s0) !! 0%nat))) then
               exec set_values "bt_v" (Float1 (default [] (bt_vel (data s0) !! 1%nat))) then
               exec set_values "bt_w" (Float1 (default [] (bt_vel (data s0) !! 2%nat))) then
               exec set_values "bt_e" (Float1 (default [] (bt_vel (data s0) !! 3%nat))) then
               exec set_values "bt_depth"
                      (Float1 (List.map nanmean (bt_depth (data s0)))) then
               l_log _timestamp "Bottom track data loaded"
             else
               exec set_ds (drop_vars ["bt_u"; "bt_v"; "bt_w"; "bt_e"; "bt_depth"]) then
               l_log _timestamp
                 "Bottom track values were all `0` and so they were dropped from the ouput.")
              s5 = (inr tt, s6)
            /\ loading raw after_bottom_track s6) as Hbt.
  { destruct (negb (forallb all_zero (bt_vel (data s0)))).
    - go_set I5.
      go_set I6.
      go_set I7.
      go_set I8.
      go_set I9.
      go_log _timestamp I10.
      eapply loading_weaken; [|exact I11]. unfold init_names, after_bottom_track. sub_list.
    - assert (exists s',
                set_ds (drop_vars ["bt_u"; "bt_v"; "bt_w"; "bt_e"; "bt_depth"]) s5
                = (inr tt, s')
                /\ loading raw after_bottom_track s') as Hdrop.
      { apply (run_drop raw init_names); [| |exact I5].
        - intros k Hk. unfold after_bottom_track in Hk. split.
          + unfold init_names.
            repeat (apply elem_of_cons in Hk as [->|Hk]; [in_list|]).
            by apply elem_of_nil in Hk.
          + repeat (apply elem_of_cons in Hk as [->|Hk];
                    [repeat (apply not_elem_of_cons; split; [done|]);
                     apply not_elem_of_nil|]).
            by apply elem_of_nil in Hk.
        - intros k Hk. unfold fifth_beam_names in Hk.
          repeat (apply elem_of_cons in Hk as [->|Hk];
                  [repeat (apply not_elem_of_cons; split; [done|]);
                   apply not_elem_of_nil|]).
          by apply elem_of_nil in Hk. }
      go Hdrop.
      go_log _timestamp I6.
      exact I7. }
  go Hbt.
  (* percent good *)
  assert (exists s7,
            (if String.eqb oc "beam" then
               match pg (data s0) with
               | Some pg =>
                   exec set_values "pg"
                          (Float2 (transpose (length (dep (data s0))) (np.map2d mean pg))) then
                   l_log _timestamp
                     "Percent good was computed by averaging each beam PercentGood. The raw data were in beam coordinate."
               | None => l_log _timestamp "WARNING: Percent good was not retrieve from the dataset."
               end
             else set_values "pg" (Float2 (transpose (length (dep (data s0))) (pg4 (data s0)))))
              s6 = (inr tt, s7)
            /\ loading raw after_bottom_track s7) as Hpg.
  { destruct (String.eqb oc "beam").
    - destruct (pg (data s0)) as [p|].
      + go_set I6.
        go_log _timestamp I7.
        exact I8.
      + go_log _timestamp I6.
        exact I7.
    - go_set I6.
      exact I7. }
  go Hpg.
  go_set I7.
  go_set I8.
  go_set I9.
  go_set I10.
  go_set I11.
  go_set I12.
  go_set I13.
  go_set I14.
  eapply loading_weaken; [|exact I15]. unfold after_transducer, after_bottom_track. sub_list.
Qed.

End returning_stages.

Section returning_tail.
Import xr loader.
Variable _timestamp : string.
Variable raw : Bunch.

Lemma set_attr_keeps key v d : var_domain_kept (set_attr key v) d.
Proof. by intros k. Qed.

Lemma assign_keeps name dims a d : var_domain_kept (assign name dims a) d.
Proof.
  intros k [v Hv]. unfold var, assign in *. cbn.
  destruct (decide (name = k)) as [->|Hne].
  - rewrite lookup_insert_eq. eauto.
  - rewrite lookup_insert_ne by done. eauto.
Qed.

Lemma load_depth_data_returns xd s :
  (sonar_model raw = "os" -> XducerDepth raw <> []) ->
  (sonar_model raw <> "os" -> is_Some xd) ->
  loading raw after_transducer s ->
  exists s', load_depth_data xd s = (inr tt, s') /\ loading raw after_depth s'.
Proof.
  intros Hos Hxd I. unfold load_depth_data. go_gets data s.
  assert (exists x s1,
            (if negb (String.eqb (sonar_model (data s)) "os") then
               exec set_values "xducer_depth" (Float1 (XducerDepth (data s))) then
               match xd with
               | Some x => ret x
               | None => raise (UnboundLocalError "XducerDepth")
               end
             else
               exec set_ds (drop_vars ["xducer_depth"]) then
               match XducerDepth (data s) with
               | x :: _ => ret x
               | [] => raise (IndexError "index 0 is out of bounds for axis 0 with size 0")
               end) s = (inr x, s1)
            /\ loading raw after_depth s1) as (x & s1 & E1 & I1).
  { pose proof I as (Hh & _).
    apply header_fields in Hh as (_ & _ & Em & Ex & _).
    rewrite Em, Ex.
    destruct (String.eqb_spec (sonar_model raw) "os") as [Hm|Hm]; cbn [negb].
    - assert (exists s',
                set_ds (drop_vars ["xducer_depth"]) s = (inr tt, s')
                /\ loading raw after_depth s') as Hdrop.
      { apply (run_drop raw after_transducer); [| |exact I].
        - intros k Hk. unfold after_depth in Hk. split.
          + unfold after_transducer.
            repeat (apply elem_of_cons in Hk as [->|Hk]; [in_list|]).
            by apply elem_of_nil in Hk.
          + repeat (apply elem_of_cons in Hk as [->|Hk];
                    [repeat (apply not_elem_of_cons; split; [done|]);
                     apply not_elem_of_nil|]).
            by apply elem_of_nil in Hk.
        - intros k Hk. unfold fifth_beam_names in Hk.
          repeat (apply elem_of_cons in Hk as [->|Hk];
                  [repeat (apply not_elem_of_cons; split; [done|]);
                   apply not_elem_of_nil|]).
          by apply elem_of_nil in Hk. }
      destruct Hdrop as (s1 & E1 & I1).
      destruct (XducerDepth raw) as [|x xs]; [by destruct (Hos Hm)|].
      exists x, s1. split; [|exact I1].
      by rewrite (bind_ret_l _ _ _ _ _ E1).
    - destruct (Hxd Hm) as [x ->].
      assert ("xducer_depth" ∈ after_transducer
              \/ (sonar_model raw = "sv" /\ "xducer_depth" ∈ fifth_beam_names)) as Hin
        by (left; unfold after_transducer; in_list).
      destruct (run_set_values raw after_transducer "xducer_depth"
                  (Float1 (XducerDepth raw)) s Hin I) as (s1 & E1 & I1).
      exists x, s1. split; [by rewrite (bind_ret_l _ _ _ _ _ E1)|].
      eapply loading_weaken; [|exact I1]. unfold after_transducer, after_depth. sub_list. }
  rewrite (bind_ret_l _ _ _ _ _ E1). cbv beta.
  apply run_set_ds; [|exact I1]. intros d. apply set_attr_keeps.
Qed.

Lemma load_navigation_data_returns s :
  loading raw after_depth s ->
  exists s',
    load_navigation_data _timestamp s = (inr tt, s') /\ loading raw after_navigation s'.
Proof.
  intros I. unfold load_navigation_data. go_gets data s.
  destruct (rawnav (data s)) as [[lon lat]|].
  - go_set I. go_set I0. go_log _timestamp I1.
    eapply loading_weaken; [|exact I2]. unfold after_depth, after_navigation. sub_list.
  - apply (run_drop raw after_depth); [| |exact I].
    + intros k Hk. unfold after_navigation in Hk. split.
      * unfold after_depth.
        repeat (apply elem_of_cons in Hk as [->|Hk]; [in_list|]).
        by apply elem_of_nil in Hk.
      * repeat (apply elem_of_cons in Hk as [->|Hk];
                [repeat (apply not_elem_of_cons; split; [done|]);
                 apply not_elem_of_nil|]).
        by apply elem_of_nil in Hk.
    + intros k Hk. unfold fifth_beam_names in Hk.
      repeat (apply elem_of_cons in Hk as [->|Hk];
              [repeat (apply not_elem_of_cons; split; [done|]);
               apply not_elem_of_nil|]).
      by apply elem_of_nil in Hk.
Qed.

Lemma load_other_variables_returns bad_time time_string s :
  loading raw after_navigation s ->
  exists s',
    load_other_variables _timestamp bad_time time_string s = (inr tt, s')
    /\ loading raw [] s'.
Proof.
  intros I. unfold load_other_variables. go_gets data s.
  assert (exists s1,
            (if negb (String.eqb (sonar_model (data s)) "os") then
               exec set_values "pres"
                      (Float1 (List.map (fun x => (x / 1000)%float)
                                 (VL_Pressure (data s)))) then
               exec l_log _timestamp "Pressure data unavailable" then
               set_ds (drop_vars ["pres"])
             else set_ds (drop_vars ["pres"])) s = (inr tt, s1)
            /\ loading raw ["roll_"; "pitch"; "heading"; "temp"; "time_string"] s1)
    as Hpres.
  { assert (forall s0, loading raw after_navigation s0 ->
              exists s',
                set_ds (drop_vars ["pres"]) s0 = (inr tt, s')
                /\ loading raw ["roll_"; "pitch"; "heading"; "temp"; "time_string"] s')
      as Hdrop.
    { intros s0 I0. apply (run_drop raw after_navigation); [| |exact I0].
      - intros k Hk. split.
        + unfold after_navigation.
          repeat (apply elem_of_cons in Hk as [->|Hk]; [in_list|]).
          by apply elem_of_nil in Hk.
        + repeat (apply elem_of_cons in Hk as [->|Hk];
                  [repeat (apply not_elem_of_cons; split; [done|]);
                   apply not_elem_of_nil|]).
          by apply elem_of_nil in Hk.
      - intros k Hk. unfold fifth_beam_names in Hk.
        repeat (apply elem_of_cons in Hk as [->|Hk];
                [repeat (apply not_elem_of_cons; split; [done|]);
                 apply not_elem_of_nil|]).
        by apply elem_of_nil in Hk. }
    destruct (negb _); [|by apply Hdrop].
    go_set I. go_log _timestamp I0. by apply Hdrop. }
  go Hpres.
  go_log _timestamp I0. go_log _timestamp I1.
  go_log _timestamp I2. go_log _timestamp I3.
  go_set I4. go_set I5. go_set I6. go_set I7. go_set I8.
  destruct bad_time; cbn [when].
  - eapply (run_set_ds raw); [|eapply loading_weaken; [|exact I9]].
    + intros d. apply assign_keeps.
    + intros k Hk. by apply elem_of_nil in Hk.
  - eexists. split; [reflexivity|].
    eapply loading_weaken; [|exact I9]. intros k Hk. by apply elem_of_nil in Hk.
Qed.

Lemma set_attributes_returns orientation s :
  exists s', set_attributes _timestamp orientation s = (inr tt, s').
Proof. eexists. reflexivity. Qed.

End returning_tail.

Section returning_load.
Import xr loader.
Variable _timestamp : string.
Variable str_num : float -> string.
Variable to_datetime64 : Z -> float -> Z.
Variable datetime_str : Z -> string.
Variable median : list float -> float.
Variable nanmean : list float -> float.
Variable mean : list float -> float.
Variable beam_to_xyz : float -> string -> list (grid float) -> list (grid float).
Variable beam_to_xyz_bt : float -> string -> grid float -> grid float.
Variable rdi_xyz_enu :
  list (grid float) -> list float -> list float -> list float -> string -> list (grid float).
Variable rdi_xyz_enu_bt :
  grid float -> list float -> list float -> list float -> string -> grid float.
Variable round3 : float -> float.
Variable FixedLeader : Type.

Lemma modify_run {St} (f : St -> St) s : modify f s = (inr tt, f s).
Proof. done. Qed.

Lemma call_l_run g s :
  call_l g s = (inr tt, mkState (g (l s)).1 (stdout s ++ (g (l s)).2)%list (data s) (ds s)).
Proof. done. Qed.

Lemma l_log_run' msg s :
  l_log _timestamp msg s
  = (inr tt, mkState (log _timestamp (MStr msg) false (l s)).1
               (stdout s ++ (log _timestamp (MStr msg) false (l s)).2)%list
               (data s) (ds s)).
Proof. done. Qed.

Lemma when_call_l_run b g s :
  when b (call_l g) s
  = (inr tt, if b then mkState (g (l s)).1 (stdout s ++ (g (l s)).2)%list (data s) (ds s)
             else s).
Proof. by destruct b. Qed.

Lemma set_data__run f s :
  set_data_ f s = (inr tt, mkState (l s) (stdout s) (f (data s)) (ds s)).
Proof. done. Qed.

Lemma returns_for_each {St A} (P : St -> Prop) (xs : list A) (body : A -> M St unit) :
  (forall x, returns P (body x) P) -> returns P (for_each xs body) P.
Proof.
  intros H. induction xs as [|x xs IH]; simpl.
  - apply returns_ret.
  - eapply returns_bind; [apply H|]. intros _. exact IH.
Qed.

Lemma coordsystem2earth_beam orientation s :
  trans_coordsystem (data s) = "beam" ->
  exists s',
    coordsystem2earth beam_to_xyz beam_to_xyz_bt rdi_xyz_enu rdi_xyz_enu_bt round3
      orientation s = (inr tt, s').
Proof.
  intros Hbeam. unfold coordsystem2earth.
  step (gets_run data s). rewrite Hbeam.
  rewrite bool_decide_eq_true_2 by in_list.
  cbn [negb]. step (@eq_refl _ (ret tt s)).
  cbn [String.eqb Ascii.eqb Bool.eqb andb].
  assert (forall m : M State unit, returns (fun _ => True) m (fun _ => True) ->
                                   exists s', m s = (inr tt, s')) as Hret.
  { intros m Hm. destruct (Hm s I) as ([] & s' & E & _). by exists s'. }
  apply Hret.
  destruct (all_zero (heading (data s)) || all_zero (roll (data s))
            || all_zero (pitch (data s))).
  - apply (returns_bind (fun _ => True) (fun _ => True) (fun _ => True));
      [apply returns_modify; done|intros _].
    apply returns_for_each. intros i.
    apply (returns_bind (fun _ => True) (fun _ => True) (fun _ => True));
      [apply returns_modify; done|intros _].
    apply returns_modify; done.
  - apply (returns_bind (fun _ => True) (fun _ => True) (fun _ => True));
      [apply returns_modify; done|intros _].
    apply returns_for_each. intros i.
    apply (returns_bind (fun _ => True) (fun _ => True) (fun _ => True));
      [apply returns_modify; done|intros _].
    apply returns_modify; done.
Qed.

Lemma coordinates_system_returns orientation s :
  trans_coordsystem (data s) ∈ ["beam"; "earth"] ->
  exists oc s',
    coordinates_system _timestamp beam_to_xyz beam_to_xyz_bt rdi_xyz_enu
      rdi_xyz_enu_bt round3 orientation s = (inr oc, s').
Proof.
  intros Hcs. unfold coordinates_system. step (gets_run data s).
  destruct (String.eqb_spec (trans_coordsystem (data s)) "earth") as [He|He];
    cbn [negb].
  - eexists _, _. reflexivity.
  - assert (trans_coordsystem (data s) = "beam") as Hbeam.
    { apply elem_of_cons in Hcs as [?|Hcs]; [done|].
      apply elem_of_cons in Hcs as [?|Hcs]; [done|]. by apply elem_of_nil in Hcs. }
    rewrite bind_assoc. erewrite bind_ret_l by reflexivity. cbv beta.
    rewrite bind_assoc.
    match goal with
    | |- context [bind (coordsystem2earth _ _ _ _ _ ?o) _ ?s1] =>
        destruct (coordsystem2earth_beam o s1 Hbeam) as (s2 & E2)
    end.
    rewrite (bind_ret_l _ _ _ _ _ E2). cbv beta.
    rewrite bind_assoc. step (gets_run data s2).
    rewrite bind_assoc.
    destruct (String.eqb (trans_coordsystem (data s2)) "xyz"); cbn [when];
      eexists _, _; reflexivity.
Qed.

Lemma init_dataset_loading raw lg out time_ :
  loading raw init_names
    (mkState lg out raw (init_dataset time_ (dep raw) (sonar_model raw))).
Proof.
  split; [done|]. cbn [ds]. split.
  - unfold present, init_names. rewrite Forall_forall. intros k Hk.
    by apply init_dataset_var.
  - intros Hsv. rewrite Hsv. unfold present, fifth_beam_names, var, init_dataset.
    cbn [variables String.eqb Ascii.eqb Bool.eqb].
    repeat (apply Forall_cons; split; [eexists; reflexivity|]).
    apply Forall_nil. done.
Qed.

(** X14: a load returns exactly when the raw bundle is in [beam] or in
    [earth] coordinates (for the sonar [os], as long as the bundle has a
    transducer depth at all); every other coordinate system makes it raise.
    What it returns beside the dataset and the bundle is the fixed leader
    it was given. The arrays of the bundle are taken to have the shapes
    [Multiread] gives them, and the transforms of pycurrents to return: an
    assignment of an array of another shape, which xarray refuses, is not
    in the embedding. *)
Theorem load_returns_iff_beam_or_earth :
  forall (files_msg : string) (raw : Bunch) (fl : FixedLeader) (sonar : string)
         (yearbase : Z) (orientation : string) (sensor_depth : option float)
         (st : State),
    (sonar_model raw = "os" -> XducerDepth raw <> []) ->
    (exists dataset raw' st',
       load_rdi_binary _timestamp str_num to_datetime64 datetime_str median nanmean
         mean beam_to_xyz beam_to_xyz_bt rdi_xyz_enu rdi_xyz_enu_bt round3
         FixedLeader files_msg raw fl sonar yearbase orientation sensor_depth st
       = (inr (dataset, raw', fl), st'))
    <-> trans_coordsystem raw ∈ ["beam"; "earth"].
Proof.
  intros files_msg raw fl sonar yearbase orientation sensor_depth st Hos. split.
  - intros (dataset & raw' & st' & H).
    destruct (decide (trans_coordsystem raw ∈ ["beam"; "earth"])) as [|Hn]; [done|].
    apply not_elem_of_cons in Hn as [Hb Hn]. apply not_elem_of_cons in Hn as [He _].
    destruct (load_rdi_binary_raises_with _timestamp str_num to_datetime64 datetime_str
                median nanmean mean beam_to_xyz beam_to_xyz_bt rdi_xyz_enu
                rdi_xyz_enu_bt round3 FixedLeader slipped
                files_msg raw fl sonar yearbase orientation sensor_depth) with (s := st)
      as (e & st2 & Hrun & _); [|done|congruence].
    by apply coordinates_system_raises.
  - intros Hcs. unfold load_rdi_binary.
    rewrite (bind_ret_l _ _ _ _ _ (modify_run _ _)). cbv beta.
    rewrite (bind_ret_l _ _ _ _ _ (call_l_run _ _)). cbv beta.
    rewrite (bind_ret_l _ _ _ _ _ (l_log_run' _ _)). cbv beta.
    rewrite (bind_ret_l _ _ _ _ _ (when_call_l_run _ _ _)). cbv beta.
    rewrite (bind_ret_l _ _ _ _ _ (set_data__run _ _)). cbv beta.
    match goal with
    | |- context [bind (convert_dday _ _ _ _) _ ?s] =>
        set (s5 := s); assert (data s5 = raw) as D5 by reflexivity; clearbody s5
    end.
    destruct (convert_dday_keeps_data _timestamp to_datetime64 datetime_str
                yearbase raw s5 D5) as ([bad [t ts]] & s6 & E6 & D6).
    rewrite (bind_ret_l _ _ _ _ _ E6). cbv beta iota.
    assert (exists xd s7,
              depth_below_surface _timestamp str_num median sensor_depth s6
              = (inr xd, s7)
              /\ data s7 = raw /\ (sonar_model raw <> "os" -> is_Some xd))
      as (xd & s7 & E7 & D7 & Hxd).
    { unfold depth_below_surface. step (gets_run data s6). rewrite D6.
      destruct (String.eqb_spec (sonar_model raw) "os") as [Hm|Hm]; cbn [negb].
      - exists None, s6. done.
      - destruct sensor_depth as [sd|].
        + eexists _, _. split; [reflexivity|]. split; [exact D6|]. eauto.
        + eexists _, _. split; [reflexivity|]. split; [exact D6|]. eauto. }
    rewrite (bind_ret_l _ _ _ _ _ E7). cbv beta.
    step (gets_run data s7).
    rewrite (bind_ret_l _ _ _ _ _ (set_ds_run _ _)). cbv beta.
    rewrite D7.
    pose proof (init_dataset_loading raw (l s7) (stdout s7) t) as I9.
    match goal with
    | |- context [bind (coordinates_system _ _ _ _ _ _ _) _ ?s] =>
        destruct (coordinates_system_returns orientation s Hcs) as (oc & s10 & E10)
    end.
    assert (loading raw init_names s10) as I10.
    { destruct I9 as (Hh & HK & Hvb).
      pose proof (preserves_run _ _ _ _ _
                    (coordinates_system_ds _timestamp beam_to_xyz beam_to_xyz_bt
                       rdi_xyz_enu rdi_xyz_enu_bt round3 orientation) E10) as Eds.
      pose proof (preserves_run _ _ _ _ _
                    (coordinates_system_header _timestamp beam_to_xyz beam_to_xyz_bt
                       rdi_xyz_enu rdi_xyz_enu_bt round3 orientation) E10) as Ehd.
      unfold on_ds, on_data in Eds, Ehd.
      split; [by rewrite Ehd|]. rewrite Eds. done. }
    rewrite (bind_ret_l _ _ _ _ _ E10). cbv beta.
    destruct (load_transducer_data_returns _timestamp nanmean mean raw oc s10 I10)
      as (s11 & E11 & I11).
    rewrite (bind_ret_l _ _ _ _ _ E11). cbv beta.
    destruct (load_depth_data_returns raw xd s11 Hos Hxd I11) as (s12 & E12 & I12).
    rewrite (bind_ret_l _ _ _ _ _ E12). cbv beta.
    destruct (load_navigation_data_returns _timestamp raw s12 I12) as (s13 & E13 & I13).
    rewrite (bind_ret_l _ _ _ _ _ E13). cbv beta.
    destruct (load_other_variables_returns _timestamp raw bad ts s13 I13)
      as (s14 & E14 & I14).
    rewrite (bind_ret_l _ _ _ _ _ E14). cbv beta.
    destruct (set_attributes_returns _timestamp orientation s14) as (s15 & E15).
    rewrite (bind_ret_l _ _ _ _ _ E15). cbv beta.
    eexists _, _, _. reflexivity.
Qed.

End returning_load.

(** ** The values of the velocity flags *)

Section flag_values.
Import xr quality_control.
Variable _timestamp : string.
Variable today : string.
Variable str_num : float -> string.
Variable circmean : list float -> float.
Variable circular_distance : list float -> float -> list float.
Variable cos_radians : float -> float.
Variable uninit : string -> nat -> nat -> bool.

Lemma flagged_in_full S n m v : v ∈ S -> flagged_in S (np.full n m v).
Proof.
  intros Hv i j f Hf. unfold cell, np.full in Hf.
  destruct (replicate n (replicate m v) !! i) as [row|] eqn:Hrow; [|done].
  simpl in Hf. apply lookup_replicate in Hrow as [-> _].
  by apply lookup_replicate in Hf as [-> _].
Qed.

Lemma flagged_in_putmask S g mask v :
  v ∈ S -> flagged_in S g -> flagged_in S (np.putmask g mask v).
Proof.
  intros Hv Hg i j f. rewrite cell_putmask.
  destruct (cell g i j) as [x|] eqn:Hx; [|done]. intros [= <-].
  destruct (cell mask i j) as [[|]|]; [done|by eapply Hg..].
Qed.

Lemma threshold_block_flagged S th what test entry acc acc' st st' :
  3%Z ∈ S ->
  threshold_block _timestamp th what test entry acc st = (inr acc', st') ->
  flagged_in S acc.1 -> flagged_in S acc'.1.
Proof.
  intros H3. unfold threshold_block. destruct (truthy_th th).
  - intros H Hc. apply bind_inr in H as ([] & s1 & _ & H).
    apply bind_inr in H as (flag & s2 & _ & H). injection H as <- _.
    by apply flagged_in_putmask.
  - by intros [= <- _].
Qed.

Lemma sidelobes_block_flagged S b d acc acc' st st' :
  4%Z ∈ S ->
  sidelobes_block _timestamp cos_radians b d acc st = (inr acc', st') ->
  flagged_in S acc.1 -> flagged_in S acc'.1.
Proof.
  intros H4. unfold sidelobes_block. destruct b; [|by intros [= <- _]].
  intros H Hc. apply bind_inr in H as (r & s1 & _ & H).
  destruct r as [a| |]; try (by injection H as <- _).
  destruct (np.truth a) as [e|[|]]; try discriminate; try (by injection H as <- _).
  apply bind_inr in H as ([] & s2 & _ & H). injection H as <- _.
  by apply flagged_in_putmask.
Qed.

Lemma pressure_block_flagged S acc acc' st st' :
  4%Z ∈ S ->
  pressure_block _timestamp acc st = (inr acc', st') ->
  flagged_in S acc.1 -> flagged_in S acc'.1.
Proof.
  intros H4. unfold pressure_block. intros H Hc.
  apply bind_inr in H as (ds & s1 & _ & H).
  destruct (contains ds "pres"); [|by injection H as <- _].
  apply bind_inr in H as ([] & s2 & _ & H).
  apply bind_inr in H as (p & s3 & _ & H).
  apply bind_inr in H as (f & s4 & _ & H).
  apply bind_inr in H as ([] & s5 & _ & H).
  apply bind_inr in H as ([] & s6 & _ & H).
  injection H as <- _. by apply flagged_in_putmask.
Qed.

(** X15: when [adcp_quality_control] returns, the grid under [u_QC],
    [v_QC] and [w_QC] has a flag at every depth/time cell, and every flag
    is 1, 3, 4 or 9: none of the other values of [FLAG_VALUES] is given. *)
Theorem velocity_flags_are_1_3_4_or_9 :
  forall (amp_th corr_th pg_th roll_th pitch_th : option float)
         (horizontal_vel_th vertical_vel_th error_vel_th : option float)
         (motion_correction_mode : option string) (sidelobes_correction : bool)
         (bottom_depth : option float) (st st' : State),
    adcp_quality_control _timestamp today str_num circmean circular_distance
      cos_radians uninit amp_th corr_th pg_th roll_th pitch_th
      horizontal_vel_th vertical_vel_th error_vel_th
      motion_correction_mode sidelobes_correction bottom_depth st = (inr tt, st') ->
    exists flags,
      holds (dataset st') "u_QC" (Int2 flags)
      /\ holds (dataset st') "v_QC" (Int2 flags)
      /\ holds (dataset st') "w_QC" (Int2 flags)
      /\ covers (nd (dataset st')) (nt (dataset st')) flags
      /\ flagged_in [1; 3; 4; 9]%Z flags.
Proof.
  intros amp_th corr_th pg_th roll_th pitch_th hth vth eth mode side bottom st st' H.
  unfold adcp_quality_control in H.
  apply bind_inr in H as ([] & s1 & H1 & H).
  apply bind_inr in H as ([] & s2 & H2 & H).
  apply bind_inr in H as ([] & s3 & H3 & H).
  apply bind_inr in H as ([] & s4 & H4 & H).
  apply bind_inr in H as (ds & s4' & Hds & H).
  rewrite gets_run in Hds. injection Hds as <- <-. cbv zeta in H.
  apply bind_inr in H as (acc1 & t1 & B1 & H).
  apply bind_inr in H as (acc2 & t2 & B2 & H).
  apply bind_inr in H as (acc3 & t3 & B3 & H).
  apply bind_inr in H as (acc4 & t4 & B4 & H).
  apply bind_inr in H as (acc5 & t5 & B5 & H).
  apply bind_inr in H as (acc6 & t6 & B6 & H).
  apply bind_inr in H as (acc7 & t7 & B7 & H).
  apply bind_inr in H as (acc8 & t8 & B8 & H).
  apply bind_inr in H as (acc9 & t9 & B9 & H).
  apply bind_inr in H as (acc10 & t10 & B10 & H).
  apply bind_inr in H as ([] & t11 & B11 & H).
  apply bind_inr in H as ([] & t12 & B12 & H).
  apply bind_inr in H as (flags & t13 & B13 & H).
  apply bind_inr in H as ([] & t14 & B14 & H).
  apply bind_inr in H as ([] & t15 & B15 & H).
  (* the coordinates, from the first block to the end *)
  assert (axes (dataset st') = axes (dataset s4)) as Eaxes.
  { transitivity (axes (dataset t15));
      [apply (preserves_run (on_dataset axes) _ _ _ _ (finish_axes _timestamp) H)|].
    transitivity (axes (dataset t14));
      [apply (preserves_run (on_dataset axes) _ _ _ _ (stamp_flags_axes today) B15)|].
    transitivity (axes (dataset t13));
      [apply (preserves_run (on_dataset axes) _ _ _ _ (write_flags_axes _ _) B14)|].
    apply missing_block_inv in B13 as (-> & _).
    transitivity (axes (dataset t11));
      [apply (preserves_run (on_dataset axes) _ _ _ _
                (fifth_beam_block_axes _timestamp str_num _ _ _) B12)|].
    transitivity (axes (dataset t10));
      [apply (preserves_run (on_dataset axes) _ _ _ _
                (temperature_block_axes _timestamp) B11)|].
    transitivity (axes (dataset t9));
      [apply (preserves_run (on_dataset axes) _ _ _ _
                (pressure_block_axes _timestamp _) B10)|].
    transitivity (axes (dataset t8));
      [apply (preserves_run (on_dataset axes) _ _ _ _
                (preserves_sidelobes_block axes _timestamp cos_radians _ _ _) B9)|].
    transitivity (axes (dataset t7)).
    { eapply (preserves_run (on_dataset axes)); [|exact B8].
      apply preserves_threshold_block. intros. pres. }
    transitivity (axes (dataset t6)).
    { eapply (preserves_run (on_dataset axes)); [|exact B7].
      apply preserves_threshold_block. intros. pres. }
    transitivity (axes (dataset t5)).
    { eapply (preserves_run (on_dataset axes)); [|exact B6].
      apply preserves_threshold_block. intros. apply preserves_error_vel_test. }
    transitivity (axes (dataset t4)).
    { eapply (preserves_run (on_dataset axes)); [|exact B5].
      apply preserves_threshold_block. intros. apply preserves_vertical_vel_test. }
    transitivity (axes (dataset t3)).
    { eapply (preserves_run (on_dataset axes)); [|exact B4].
      apply preserves_threshold_block. intros. apply preserves_horizontal_vel_test. }
    transitivity (axes (dataset t2)).
    { eapply (preserves_run (on_dataset axes)); [|exact B3].
      apply preserves_threshold_block. intros. apply preserves_percentgood_test. }
    transitivity (axes (dataset t1)).
    { eapply (preserves_run (on_dataset axes)); [|exact B2].
      apply preserves_threshold_block. intros. apply preserves_correlation_test. }
    eapply (preserves_run (on_dataset axes)); [|exact B1].
    apply preserves_threshold_block. intros. apply preserves_amplitude_test. }
  (* the grid *)
  assert (covers (nd (dataset s4)) (nt (dataset s4)) acc10.1
          /\ flagged_in [1; 3; 4; 9]%Z acc10.1) as [Hcov Hdom].
  { split.
    - eapply pressure_block_covers; [exact B10|].
      eapply sidelobes_block_covers; [exact B9|].
      eapply threshold_block_covers; [exact B8|].
      eapply threshold_block_covers; [exact B7|].
      eapply threshold_block_covers; [exact B6|].
      eapply threshold_block_covers; [exact B5|].
      eapply threshold_block_covers; [exact B4|].
      eapply threshold_block_covers; [exact B3|].
      eapply threshold_block_covers; [exact B2|].
      eapply threshold_block_covers; [exact B1|].
      apply covers_full.
    - eapply pressure_block_flagged; [|exact B10|]; [in_list|].
      eapply sidelobes_block_flagged; [|exact B9|]; [in_list|].
      eapply threshold_block_flagged; [|exact B8|]; [in_list|].
      eapply threshold_block_flagged; [|exact B7|]; [in_list|].
      eapply threshold_block_flagged; [|exact B6|]; [in_list|].
      eapply threshold_block_flagged; [|exact B5|]; [in_list|].
      eapply threshold_block_flagged; [|exact B4|]; [in_list|].
      eapply threshold_block_flagged; [|exact B3|]; [in_list|].
      eapply threshold_block_flagged; [|exact B2|]; [in_list|].
      eapply threshold_block_flagged; [|exact B1|]; [in_list|].
      apply flagged_in_full. in_list. }
  apply missing_block_inv in B13 as (-> & um & vm & wm & _ & _ & _ & Hflags).
  destruct (write_flags_run flags acc10.2 t12) as (t14' & Hw & Q1 & Q2 & Q3).
  rewrite B14 in Hw. injection Hw as <-.
  assert (forall n a, holds (dataset t14) n a -> holds (dataset st') n a) as Hqc.
  { intros n a Hn.
    pose proof (preserves_run _ _ _ _ _ (finish_values _timestamp n) H) as E1.
    pose proof (preserves_run _ _ _ _ _ (stamp_flags_values today n) B15) as E2.
    unfold on_dataset, values_of in E1, E2. unfold holds in *. congruence. }
  exists flags. split; [by apply Hqc|]. split; [by apply Hqc|]. split; [by apply Hqc|].
  unfold axes in Eaxes. injection Eaxes as Ed Et.
  unfold nd, nt. rewrite Ed, Et. fold (nd (dataset s4)). fold (nt (dataset s4)).
  rewrite Hflags. split.
  - by apply covers_putmask.
  - apply flagged_in_putmask; [in_list|done].
Qed.

End flag_values.

(** ** The attribute [logbook] *)

Lemma raises_bind_frame {St A B X} (F : St -> X) (x : X) (m : M St A) (k : A -> M St B) :
  preserves F m ->
  (forall a, raises (fun s => F s = x) (k a) (fun _ => True)) ->
  raises (fun s => F s = x) (bind m k) (fun _ => True).
Proof.
  intros Hm Hk s Hs. destruct (m s) as [[e|a] s1] eqn:E.
  - exists e, s1. split; [by apply bind_raise_l|done].
  - assert (F s1 = x) as H1 by (rewrite <- Hs; eapply preserves_run; eauto).
    destruct (Hk a s1 H1) as (e & s2 & E2 & _).
    exists e, s2. split; [|done]. by rewrite (bind_ret_l _ _ _ _ _ E).
Qed.

Section attribute_frames.
Import xr quality_control.
Variable _timestamp : string.
Variable today : string.
Variable str_num : float -> string.
Variable k : string.

Ltac upd_attr := apply preserves_update; intros; reflexivity.

Lemma motion_correction_attribute mode :
  preserves (on_dataset (attribute k)) (motion_correction _timestamp mode).
Proof.
  unfold motion_correction.
  pres; first [apply preserves_l_log | apply preserves_l_warning | upd_attr].
Qed.

Lemma set_implausible_vel_to_nan_attribute thres :
  preserves (on_dataset (attribute k)) (set_implausible_vel_to_nan thres).
Proof.
  unfold set_implausible_vel_to_nan, void_implausible, assign_where. pres; upd_attr.
Qed.

Lemma pressure_block_attribute acc :
  preserves (on_dataset (attribute k)) (pressure_block _timestamp acc).
Proof.
  unfold pressure_block, l_log. pres; try apply preserves_pressure_test; upd_attr.
Qed.

Lemma temperature_block_attribute :
  preserves (on_dataset (attribute k)) (temperature_block _timestamp).
Proof.
  unfold temperature_block, l_log. pres; try apply preserves_temperature_test; upd_attr.
Qed.

Lemma fifth_beam_block_attribute a c p :
  preserves (on_dataset (attribute k)) (fifth_beam_block _timestamp str_num a c p).
Proof.
  unfold fifth_beam_block, l_log. pres; try apply preserves_vertical_beam_test; upd_attr.
Qed.

Lemma missing_block_attribute vel_flags :
  preserves (on_dataset (attribute k)) (missing_block vel_flags).
Proof. unfold missing_block. pres. Qed.

Lemma write_flags_attribute vf tests :
  preserves (on_dataset (attribute k)) (write_flags vf tests).
Proof. unfold write_flags. pres; upd_attr. Qed.

Lemma stamp_flags_attribute : preserves (on_dataset (attribute k)) (stamp_flags today).
Proof. unfold stamp_flags. upd_attr. Qed.

End attribute_frames.

Section needs_logbook.
Import xr quality_control.
Variable _timestamp : string.
Variable today : string.
Variable str_num : float -> string.
Variable circmean : list float -> float.
Variable circular_distance : list float -> float -> list float.
Variable cos_radians : float -> float.
Variable uninit : string -> nat -> nat -> bool.

Lemma finish_without_logbook :
  raises (fun s => on_dataset (attribute "logbook") s = None) (finish _timestamp)
         (fun e => e = KeyError "logbook").
Proof.
  intros s Hs. unfold finish.
  step (gets_run l s). rewrite (bind_ret_l _ _ _ _ _ (update_run _ _)). cbv beta.
  erewrite bind_ret_l by reflexivity. cbv beta.
  eexists _, _. split; [|reflexivity].
  apply bind_raise_l. unfold attrs_getitem. cbn [dataset ds_attrs set_attr].
  unfold on_dataset, attribute in Hs.
  rewrite lookup_insert_ne by done. by rewrite Hs.
Qed.

(** Without the attribute [logbook], [adcp_quality_control] raises. *)
Lemma quality_control_without_logbook
    amp_th corr_th pg_th roll_th pitch_th hth vth eth mode side bottom :
  raises (fun s => on_dataset (attribute "logbook") s = None)
         (adcp_quality_control _timestamp today str_num circmean circular_distance
            cos_radians uninit amp_th corr_th pg_th roll_th pitch_th hth vth eth
            mode side bottom)
         (fun _ => True).
Proof.
  unfold adcp_quality_control.
  apply raises_bind_frame; [by intros s|intros _].
  apply raises_bind_frame; [apply preserves_call_l|intros _].
  apply raises_bind_frame.
  { destruct mode as [m|]; [|apply preserves_ret].
    apply preserves_when. apply motion_correction_attribute. }
  intros _.
  apply raises_bind_frame; [apply set_implausible_vel_to_nan_attribute|intros _].
  apply raises_bind_frame; [apply preserves_gets|intros ds]. cbv zeta.
  apply raises_bind_frame;
    [apply preserves_threshold_block; intros; apply preserves_amplitude_test|intros ?].
  apply raises_bind_frame;
    [apply preserves_threshold_block; intros; apply preserves_correlation_test|intros ?].
  apply raises_bind_frame;
    [apply preserves_threshold_block; intros; apply preserves_percentgood_test|intros ?].
  apply raises_bind_frame;
    [apply preserves_threshold_block; intros; apply preserves_horizontal_vel_test|intros ?].
  apply raises_bind_frame;
    [apply preserves_threshold_block; intros; apply preserves_vertical_vel_test|intros ?].
  apply raises_bind_frame;
    [apply preserves_threshold_block; intros; apply preserves_error_vel_test|intros ?].
  apply raises_bind_frame; [apply preserves_threshold_block; intros; pres|intros ?].
  apply raises_bind_frame; [apply preserves_threshold_block; intros; pres|intros ?].
  apply raises_bind_frame; [apply preserves_sidelobes_block|intros ?].
  apply raises_bind_frame; [apply pressure_block_attribute|intros ?].
  apply raises_bind_frame; [apply temperature_block_attribute|intros _].
  apply raises_bind_frame; [apply fifth_beam_block_attribute|intros _].
  apply raises_bind_frame; [apply missing_block_attribute|intros ?].
  apply raises_bind_frame; [apply write_flags_attribute|intros _].
  apply raises_bind_frame; [apply stamp_flags_attribute|intros _].
  intros s Hs. destruct (finish_without_logbook s Hs) as (e & s' & E & _).
  by exists e, s'.
Qed.

(** X16: [adcp_quality_control] needs the global attribute [logbook]: on a
    dataset that has none it never returns. If nothing raises before, the
    flags are written and the closing [dataset.attrs["logbook"] += l.logbook]
    raises [KeyError]. *)
Theorem quality_control_needs_logbook :
  forall (amp_th corr_th pg_th roll_th pitch_th : option float)
         (horizontal_vel_th vertical_vel_th error_vel_th : option float)
         (motion_correction_mode : option string) (sidelobes_correction : bool)
         (bottom_depth : option float) (st : State),
    attribute "logbook" (dataset st) = None ->
    (exists e st',
       adcp_quality_control _timestamp today str_num circmean circular_distance
         cos_radians uninit amp_th corr_th pg_th roll_th pitch_th
         horizontal_vel_th vertical_vel_th error_vel_th
         motion_correction_mode sidelobes_correction bottom_depth st = (inl e, st'))
    /\ forall s, attribute "logbook" (dataset s) = None ->
         exists s', finish _timestamp s = (inl (KeyError "logbook"), s').
Proof.
  intros amp_th corr_th pg_th roll_th pitch_th hth vth eth mode side bottom st Hst.
  split.
  - destruct (quality_control_without_logbook amp_th corr_th pg_th roll_th pitch_th
                hth vth eth mode side bottom st Hst) as (e & st' & E & _).
    by exists e, st'.
  - intros s Hs. destruct (finish_without_logbook s Hs) as (e & s' & E & ->).
    by exists s'.
Qed.

End needs_logbook.

(** ** What [adcp_quality_control] leaves as it is *)

Section quality_control_frame.
Import xr quality_control.
Variable _timestamp : string.
Variable today : string.
Variable str_num : float -> string.
Variable circmean : list float -> float.
Variable circular_distance : list float -> float -> list float.
Variable cos_radians : float -> float.
Variable uninit : string -> nat -> nat -> bool.
Context {X : Type} (F : Dataset -> X).
Hypothesis F_set_data :
  forall name a ds, name ∈ rewritten_names -> F (set_data name a ds) = F ds.
Hypothesis F_assign :
  forall name dims a ds, str_in "_QC" name = true -> F (assign name dims a ds) = F ds.
Hypothesis F_set_var_attr :
  forall name key v ds,
    str_in "_QC" name = true -> F (set_var_attr name key v ds) = F ds.
Hypothesis F_set_attr : forall key v ds, F (set_attr key v ds) = F ds.
Hypothesis F_stamp :
  forall ds,
    F {| depth := depth ds; time := time ds;
         variables := map_imap (fun name v => Some (stamp today name v)) (variables ds);
         ds_attrs := ds_attrs ds |} = F ds.

Ltac leaf :=
  apply preserves_update; intros;
  first [ apply F_set_data; unfold rewritten_names; in_list
        | apply F_assign; reflexivity
        | apply F_set_var_attr; reflexivity
        | apply F_set_attr ].

Lemma motion_correction_frame mode :
  preserves (on_dataset F) (motion_correction _timestamp mode).
Proof.
  unfold motion_correction. cbn [for_each].
  pres; first [apply preserves_l_log | apply preserves_l_warning | leaf].
Qed.

Lemma set_implausible_vel_to_nan_frame thres :
  preserves (on_dataset F) (set_implausible_vel_to_nan thres).
Proof.
  unfold set_implausible_vel_to_nan, void_implausible, assign_where. pres; leaf.
Qed.

Lemma pressure_block_frame acc :
  preserves (on_dataset F) (pressure_block _timestamp acc).
Proof.
  unfold pressure_block, l_log. pres; try apply preserves_pressure_test; leaf.
Qed.

Lemma temperature_block_frame : preserves (on_dataset F) (temperature_block _timestamp).
Proof.
  unfold temperature_block, l_log. pres; try apply preserves_temperature_test; leaf.
Qed.

Lemma fifth_beam_block_frame a c p :
  preserves (on_dataset F) (fifth_beam_block _timestamp str_num a c p).
Proof.
  unfold fifth_beam_block, l_log. pres; try apply preserves_vertical_beam_test; leaf.
Qed.

Lemma missing_block_frame vel_flags : preserves (on_dataset F) (missing_block vel_flags).
Proof. unfold missing_block. pres. Qed.

Lemma write_flags_frame vf tests : preserves (on_dataset F) (write_flags vf tests).
Proof. unfold write_flags. cbn [for_each]. pres; leaf. Qed.

Lemma stamp_flags_frame : preserves (on_dataset F) (stamp_flags today).
Proof. unfold stamp_flags. apply preserves_update. apply F_stamp. Qed.

Lemma finish_frame : preserves (on_dataset F) (finish _timestamp).
Proof. unfold finish, l_log. pres; leaf. Qed.

Lemma adcp_quality_control_frame
    amp_th corr_th pg_th roll_th pitch_th hth vth eth mode side bottom :
  preserves (on_dataset F)
    (adcp_quality_control _timestamp today str_num circmean circular_distance
       cos_radians uninit amp_th corr_th pg_th roll_th pitch_th hth vth eth
       mode side bottom).
Proof.
  unfold adcp_quality_control.
  apply preserves_bind; [by intros s|intros _].
  apply preserves_bind; [apply preserves_call_l|intros _].
  apply preserves_bind.
  { destruct mode as [m|]; [|apply preserves_ret].
    apply preserves_when. apply motion_correction_frame. }
  intros _.
  apply preserves_bind; [apply set_implausible_vel_to_nan_frame|intros _].
  apply preserves_bind; [apply preserves_gets|intros ds]. cbv zeta.
  apply preserves_bind;
    [apply preserves_threshold_block; intros; apply preserves_amplitude_test|intros ?].
  apply preserves_bind;
    [apply preserves_threshold_block; intros; apply preserves_correlation_test|intros ?].
  apply preserves_bind;
    [apply preserves_threshold_block; intros; apply preserves_percentgood_test|intros ?].
  apply preserves_bind;
    [apply preserves_threshold_block; intros; apply preserves_horizontal_vel_test|intros ?].
  apply preserves_bind;
    [apply preserves_threshold_block; intros; apply preserves_vertical_vel_test|intros ?].
  apply preserves_bind;
    [apply preserves_threshold_block; intros; apply preserves_error_vel_test|intros ?].
  apply preserves_bind; [apply preserves_threshold_block; intros; pres|intros ?].
  apply preserves_bind; [apply preserves_threshold_block; intros; pres|intros ?].
  apply preserves_bind; [apply preserves_sidelobes_block|intros ?].
  apply preserves_bind; [apply pressure_block_frame|intros ?].
  apply preserves_bind; [apply temperature_block_frame|intros _].
  apply preserves_bind; [apply fifth_beam_block_frame|intros _].
  apply preserves_bind; [apply missing_block_frame|intros ?].
  apply preserves_bind; [apply write_flags_frame|intros _].
  apply preserves_bind; [apply stamp_flags_frame|intros _].
  apply finish_frame.
Qed.

End quality_control_frame.

Section quality_control_untouched.
Import xr quality_control.
Variable _timestamp : string.
Variable today : string.
Variable str_num : float -> string.
Variable circmean : list float -> float.
Variable circular_distance : list float -> float -> list float.
Variable cos_radians : float -> float.
Variable uninit : string -> nat -> nat -> bool.

Lemma var_other n name (P : string -> bool) :
  P n = false -> P name = true -> name <> n.
Proof. intros Hn Hname ->. congruence. Qed.

(** X17: whatever its arguments, and whether it returns or raises,
    [adcp_quality_control] leaves the coordinates as they are, and every
    variable whose name has no [_QC] in it and is not one of [u], [v], [w],
    [uship], [vship]: its values, its dimensions and its attributes. *)
Theorem quality_control_rewrites_velocities_and_flags_only :
  forall (amp_th corr_th pg_th roll_th pitch_th : option float)
         (horizontal_vel_th vertical_vel_th error_vel_th : option float)
         (motion_correction_mode : option string) (sidelobes_correction : bool)
         (bottom_depth : option float) (st : State) (outcome : exn + unit)
         (st' : State),
    adcp_quality_control _timestamp today str_num circmean circular_distance
      cos_radians uninit amp_th corr_th pg_th roll_th pitch_th
      horizontal_vel_th vertical_vel_th error_vel_th
      motion_correction_mode sidelobes_correction bottom_depth st = (outcome, st') ->
    depth (dataset st') = depth (dataset st)
    /\ time (dataset st') = time (dataset st)
    /\ forall n, n ∉ rewritten_names -> str_in "_QC" n = false ->
         var n (dataset st') = var n (dataset st).
Proof.
  intros amp_th corr_th pg_th roll_th pitch_th hth vth eth mode side bottom st
    outcome st' H.
  assert (axes (dataset st') = axes (dataset st)) as [= Hd Ht].
  { eapply (preserves_run (on_dataset axes)); [|exact H].
    apply adcp_quality_control_frame; done. }
  split; [exact Hd|]. split; [exact Ht|]. intros n Hn Hqc.
  eapply (preserves_run (on_dataset (var n))); [|exact H].
  apply adcp_quality_control_frame.
  - intros name a ds Hname. unfold var, set_data. simpl.
    apply lookup_alter_ne. by intros ->.
  - intros name dims a ds Hname. unfold var, assign. simpl.
    apply lookup_insert_ne. by eapply var_other.
  - intros name key v ds Hname. unfold var, set_var_attr. simpl.
    apply lookup_alter_ne. by eapply var_other.
  - done.
  - intros ds. unfold var. simpl. rewrite map_lookup_imap.
    destruct (variables ds !! n) as [v|]; [|done]. simpl.
    unfold stamp. by rewrite Hqc.
Qed.

End quality_control_untouched.

(** ** The flags of the temperature and of the pressure *)

Lemma ltb_nan_l x y : is_nan x = true -> (x <? y)%float = false.
Proof.
  unfold is_nan. rewrite FloatAxioms.eqb_spec, FloatAxioms.ltb_spec.
  unfold SFltb, SFeqb.
  destruct (Prim2SF x) as [s|s| |s m e]; try reflexivity.
  - by destruct s.
  - by destruct s.
  - rewrite SFcompare_refl_finite. discriminate.
Qed.

Lemma ltb_nan_r' x y : is_nan y = true -> (x <? y)%float = false.
Proof.
  unfold is_nan. rewrite FloatAxioms.eqb_spec, FloatAxioms.ltb_spec.
  unfold SFltb, SFeqb.
  destruct (Prim2SF y) as [s|s| |s m e].
  - by destruct s.
  - by destruct s.
  - intros _. by destruct (Prim2SF x).
  - rewrite SFcompare_refl_finite. discriminate.
Qed.

Lemma range_flag_nan lo hi x : is_nan x = true -> range_flag lo hi x = 1%float.
Proof.
  intros H. unfold range_flag. by rewrite (ltb_nan_r' hi x H), (ltb_nan_l x lo H).
Qed.

Lemma lookup_range_flags lo hi (t : list float) j :
  np.putmask1 (replicate (length t) 1%float)
    (List.map (fun x => np.greater x hi || np.less x lo) t) 4%float !! j
  = range_flag lo hi <$> t !! j.
Proof.
  rewrite lookup_putmask1, lookup_map.
  destruct (t !! j) as [x|] eqn:E.
  - rewrite lookup_replicate_2 by (by eapply lookup_lt_Some). simpl.
    unfold range_flag, np.greater, np.less.
    by destruct ((hi <? x) || (x <? lo))%float.
  - simpl. apply lookup_ge_None in E.
    by rewrite (proj2 (lookup_ge_None _ _)) by (by rewrite length_replicate).
Qed.

Ltac not_in_list :=
  unfold rewritten_names;
  repeat (apply not_elem_of_cons; split; [done|]); apply not_elem_of_nil.

Section range_tests.
Import xr quality_control.
Variable _timestamp : string.
Variable today : string.
Variable str_num : float -> string.
Variable circmean : list float -> float.
Variable circular_distance : list float -> float -> list float.
Variable cos_radians : float -> float.
Variable uninit : string -> nat -> nat -> bool.

Lemma holds_assign_attr ds name dims a key v :
  holds (set_var_attr name key v (assign name dims a ds)) name a.
Proof.
  unfold holds, set_var_attr, assign. simpl.
  by rewrite lookup_alter_eq, lookup_insert_eq.
Qed.

Lemma temperature_test_run t s :
  holds (dataset s) "temperature" (Float1 t) ->
  temperature_test s
  = (inr (List.map (fun x => np.greater x MAX_TEMPERATURE || np.less x MIN_TEMPERATURE) t),
     s).
Proof. intros H. unfold temperature_test. by step (float1_getattr _ _ _ H). Qed.


Lemma temperature_block_inv t s s' :
  holds (dataset s) "temperature" (Float1 t) ->
  temperature_block _timestamp s = (inr tt, s') ->
  holds (dataset s') "temperature_QC"
    (Float1 (np.putmask1 (replicate (length t) 1%float)
               (List.map (fun x => np.greater x MAX_TEMPERATURE
                                   || np.less x MIN_TEMPERATURE) t) 4%float)).
Proof.
  intros Ht. unfold temperature_block. step (gets_run dataset s).
  rewrite (holds_contains _ _ _ Ht). step (l_log_run _timestamp
    "Good temperature range -2 to 32 celsius" s).
  set (s1 := mkState _ _ _).
  assert (holds (dataset s1) "temperature" (Float1 t)) as Ht1 by exact Ht.
  step (float1_getattr _ _ _ Ht1). step (temperature_test_run _ _ Ht1).
  step (update_run (assign "temperature_QC" ["time"]
          (Float1 (np.putmask1 (replicate (length t) 1%float)
                     (List.map (fun x => np.greater x MAX_TEMPERATURE
                                         || np.less x MIN_TEMPERATURE) t) 4%float))) s1).
  rewrite update_run. intros [= <-]. cbn [dataset]. apply holds_assign_attr.
Qed.


(** The stages of a quality control that returns, from the pressure on. *)
Lemma adcp_quality_control_stages
    amp_th corr_th pg_th roll_th pitch_th hth vth eth mode side bottom st st' :
  adcp_quality_control _timestamp today str_num circmean circular_distance
    cos_radians uninit amp_th corr_th pg_th roll_th pitch_th hth vth eth
    mode side bottom st = (inr tt, st') ->
  exists acc9 t9 acc10 t10 t11 t12 flags t14 t15,
    (forall n, n ∉ rewritten_names ->
       values_of n (dataset t9) = values_of n (dataset st))
    /\ covers (nd (dataset t9)) (nt (dataset t9)) acc9.1
    /\ pressure_block _timestamp acc9 t9 = (inr acc10, t10)
    /\ temperature_block _timestamp t10 = (inr tt, t11)
    /\ fifth_beam_block _timestamp str_num amp_th corr_th pg_th t11 = (inr tt, t12)
    /\ missing_block acc10.1 t12 = (inr flags, t12)
    /\ write_flags flags acc10.2 t12 = (inr tt, t14)
    /\ stamp_flags today t14 = (inr tt, t15)
    /\ finish _timestamp t15 = (inr tt, st').
Proof.
  intros H. unfold adcp_quality_control in H.
  apply bind_inr in H as ([] & s1 & H1 & H).
  apply bind_inr in H as ([] & s2 & H2 & H).
  apply bind_inr in H as ([] & s3 & H3 & H).
  apply bind_inr in H as ([] & s4 & H4 & H).
  apply bind_inr in H as (ds & s4' & Hds & H).
  rewrite gets_run in Hds. injection Hds as <- <-. cbv zeta in H.
  apply bind_inr in H as (acc1 & t1 & B1 & H).
  apply bind_inr in H as (acc2 & t2 & B2 & H).
  apply bind_inr in H as (acc3 & t3 & B3 & H).
  apply bind_inr in H as (acc4 & t4 & B4 & H).
  apply bind_inr in H as (acc5 & t5 & B5 & H).
  apply bind_inr in H as (acc6 & t6 & B6 & H).
  apply bind_inr in H as (acc7 & t7 & B7 & H).
  apply bind_inr in H as (acc8 & t8 & B8 & H).
  apply bind_inr in H as (acc9 & t9 & B9 & H).
  apply bind_inr in H as (acc10 & t10 & B10 & H).
  apply bind_inr in H as ([] & t11 & B11 & H).
  apply bind_inr in H as ([] & t12 & B12 & H).
  apply bind_inr in H as (flags & t13 & B13 & H).
  apply bind_inr in H as ([] & t14 & B14 & H).
  apply bind_inr in H as ([] & t15 & B15 & H).
  pose proof (missing_block_inv _ _ _ _ B13) as [-> _].
  exists acc9, t9, acc10, t10, t11, t12, flags, t14, t15.
  split.
  { intros n Hn.
    assert (forall name a ds, name ∈ rewritten_names ->
              values_of n (set_data name a ds) = values_of n ds) as Hset.
    { intros name a ds Hname. apply values_of_set_data. by intros <-. }
    assert (values_of n (dataset s1) = values_of n (dataset st)) as E1.
    { unfold l_reset, modify in H1. by injection H1 as <-. }
    pose proof (preserves_run _ _ _ _ _
                  (preserves_call_l (values_of n) _) H2) as E2.
    assert (values_of n (dataset s3) = values_of n (dataset s2)) as E3.
    { destruct mode as [m|]; [|by injection H3 as <-].
      eapply (preserves_run (on_dataset (values_of n))); [|exact H3].
      apply preserves_when. by apply motion_correction_frame. }
    pose proof (preserves_run _ _ _ _ _
                  (set_implausible_vel_to_nan_frame (values_of n) Hset _) H4) as E4.
    assert (forall th what test entry acc acc' s s',
              (forall x, preserves (on_dataset (values_of n)) (test x)) ->
              threshold_block _timestamp th what test entry acc s = (inr acc', s') ->
              values_of n (dataset s') = values_of n (dataset s)) as Hth.
    { intros th what test entry acc acc' s s' Htest Hrun.
      eapply (preserves_run (on_dataset (values_of n))); [|exact Hrun].
      by apply preserves_threshold_block. }
    pose proof (Hth _ _ _ _ _ _ _ _
                  (fun x => preserves_amplitude_test (values_of n) x) B1) as F1.
    pose proof (Hth _ _ _ _ _ _ _ _
                  (fun x => preserves_correlation_test (values_of n) x) B2) as F2.
    pose proof (Hth _ _ _ _ _ _ _ _
                  (fun x => preserves_percentgood_test (values_of n) x) B3) as F3.
    pose proof (Hth _ _ _ _ _ _ _ _
                  (fun x => preserves_horizontal_vel_test (values_of n) uninit x) B4)
      as F4.
    pose proof (Hth _ _ _ _ _ _ _ _
                  (fun x => preserves_vertical_vel_test (values_of n) uninit x) B5) as F5.
    pose proof (Hth _ _ _ _ _ _ _ _
                  (fun x => preserves_error_vel_test (values_of n) uninit x) B6) as F6.
    assert (values_of n (dataset t7) = values_of n (dataset t6)) as F7.
    { eapply Hth; [|exact B7]. intros. pres. }
    assert (values_of n (dataset t8) = values_of n (dataset t7)) as F8.
    { eapply Hth; [|exact B8]. intros. pres. }
    pose proof (preserves_run _ _ _ _ _
                  (preserves_sidelobes_block (values_of n) _timestamp cos_radians _ _ _)
                  B9) as F9.
    unfold on_dataset in *. congruence. }
  split; [|done].
  assert (axes (dataset t9) = axes (dataset s4)) as [= Ed Et].
  { transitivity (axes (dataset t8));
      [apply (preserves_run (on_dataset axes) _ _ _ _
                (preserves_sidelobes_block axes _timestamp cos_radians _ _ _) B9)|].
    transitivity (axes (dataset t7)).
    { eapply (preserves_run (on_dataset axes)); [|exact B8].
      apply preserves_threshold_block. intros. pres. }
    transitivity (axes (dataset t6)).
    { eapply (preserves_run (on_dataset axes)); [|exact B7].
      apply preserves_threshold_block. intros. pres. }
    transitivity (axes (dataset t5)).
    { eapply (preserves_run (on_dataset axes)); [|exact B6].
      apply preserves_threshold_block. intros. apply preserves_error_vel_test. }
    transitivity (axes (dataset t4)).
    { eapply (preserves_run (on_dataset axes)); [|exact B5].
      apply preserves_threshold_block. intros. apply preserves_vertical_vel_test. }
    transitivity (axes (dataset t3)).
    { eapply (preserves_run (on_dataset axes)); [|exact B4].
      apply preserves_threshold_block. intros. apply preserves_horizontal_vel_test. }
    transitivity (axes (dataset t2)).
    { eapply (preserves_run (on_dataset axes)); [|exact B3].
      apply preserves_threshold_block. intros. apply preserves_percentgood_test. }
    transitivity (axes (dataset t1)).
    { eapply (preserves_run (on_dataset axes)); [|exact B2].
      apply preserves_threshold_block. intros. apply preserves_correlation_test. }
    eapply (preserves_run (on_dataset axes)); [|exact B1].
    apply preserves_threshold_block. intros. apply preserves_amplitude_test. }
  unfold nd, nt. rewrite Ed, Et. fold (nd (dataset s4)). fold (nt (dataset s4)).
  eapply sidelobes_block_covers; [exact B9|].
  eapply threshold_block_covers; [exact B8|].
  eapply threshold_block_covers; [exact B7|].
  eapply threshold_block_covers; [exact B6|].
  eapply threshold_block_covers; [exact B5|].
  eapply threshold_block_covers; [exact B4|].
  eapply threshold_block_covers; [exact B3|].
  eapply threshold_block_covers; [exact B2|].
  eapply threshold_block_covers; [exact B1|].
  apply covers_full.
Qed.

(** The values of a variable that is neither rewritten nor a flag. *)
Lemma adcp_quality_control_values n
    amp_th corr_th pg_th roll_th pitch_th hth vth eth mode side bottom :
  n ∉ rewritten_names -> str_in "_QC" n = false ->
  preserves (on_dataset (values_of n))
    (adcp_quality_control _timestamp today str_num circmean circular_distance
       cos_radians uninit amp_th corr_th pg_th roll_th pitch_th hth vth eth
       mode side bottom).
Proof.
  intros Hn Hqc. apply adcp_quality_control_frame.
  - intros name a ds Hname. apply values_of_set_data. by intros <-.
  - intros name dims a ds Hname. apply values_of_assign. intros <-. congruence.
  - intros. apply values_of_set_var_attr.
  - done.
  - intros. apply values_of_stamp.
Qed.

(** What the stages after a block keep of the values of a variable. *)
Lemma after_temperature n t11 t12 t14 t15 st' a c p flags tests :
  n <> "vb_vel_QC" -> n <> "u_QC" -> n <> "v_QC" -> n <> "w_QC" ->
  fifth_beam_block _timestamp str_num a c p t11 = (inr tt, t12) ->
  write_flags flags tests t12 = (inr tt, t14) ->
  stamp_flags today t14 = (inr tt, t15) ->
  finish _timestamp t15 = (inr tt, st') ->
  values_of n (dataset st') = values_of n (dataset t11).
Proof.
  intros N1 N2 N3 N4 B12 B14 B15 H.
  pose proof (preserves_run _ _ _ _ _ (finish_values _timestamp n) H) as E1.
  pose proof (preserves_run _ _ _ _ _ (stamp_flags_values today n) B15) as E2.
  pose proof (preserves_run _ _ _ _ _ (write_flags_values n _ _ N2 N3 N4) B14) as E3.
  pose proof (preserves_run _ _ _ _ _
                (fifth_beam_block_values _timestamp str_num n _ _ _ N1) B12) as E4.
  unfold on_dataset in *. congruence.
Qed.

(** X18: when [adcp_quality_control] returns on a dataset with a variable
    [temperature], the dataset has [temperature_QC] with one flag for each
    temperature: 4 where it is above 32 or below -2, and 1 everywhere else.
    A temperature that is NaN is neither, so it is flagged 1, good. *)
Theorem temperature_flags_are_4_outside_the_range :
  forall (amp_th corr_th pg_th roll_th pitch_th : option float)
         (horizontal_vel_th vertical_vel_th error_vel_th : option float)
         (motion_correction_mode : option string) (sidelobes_correction : bool)
         (bottom_depth : option float) (st st' : State) (t : list float),
    holds (dataset st) "temperature" (Float1 t) ->
    adcp_quality_control _timestamp today str_num circmean circular_distance
      cos_radians uninit amp_th corr_th pg_th roll_th pitch_th
      horizontal_vel_th vertical_vel_th error_vel_th
      motion_correction_mode sidelobes_correction bottom_depth st = (inr tt, st') ->
    exists q,
      holds (dataset st') "temperature_QC" (Float1 q)
      /\ holds (dataset st') "temperature" (Float1 t)
      /\ (forall j, q !! j = range_flag MIN_TEMPERATURE MAX_TEMPERATURE <$> t !! j)
      /\ (forall j x, t !! j = Some x -> is_nan x = true -> q !! j = Some 1%float).
Proof.
  intros amp_th corr_th pg_th roll_th pitch_th hth vth eth mode side bottom st st' t
    Ht H.
  assert (holds (dataset st') "temperature" (Float1 t)) as Ht'.
  { unfold holds. rewrite <- Ht.
    by apply (preserves_run _ _ _ _ _
                (adcp_quality_control_values "temperature" _ _ _ _ _ _ _ _ _ _ _
                   ltac:(not_in_list) eq_refl) H). }
  apply adcp_quality_control_stages in H
    as (acc9 & t9 & acc10 & t10 & t11 & t12 & flags & t14 & t15
        & _ & _ & _ & B11 & B12 & _ & B14 & B15 & H).
  assert (holds (dataset t10) "temperature" (Float1 t)) as Ht10.
  { unfold holds. rewrite <- Ht'.
    change (values_of "temperature" (dataset t10)
            = values_of "temperature" (dataset st')).
    rewrite (after_temperature "temperature" _ _ _ _ _ _ _ _ _ _
               ltac:(done) ltac:(done) ltac:(done) ltac:(done) B12 B14 B15 H).
    symmetry.
    apply (preserves_run _ _ _ _ _
             (temperature_block_values _timestamp "temperature" ltac:(done)) B11). }
  pose proof (temperature_block_inv _ _ _ Ht10 B11) as Hq.
  eexists. split; [|split; [exact Ht'|]].
  { unfold holds. rewrite <- Hq.
    apply (after_temperature "temperature_QC" _ _ _ _ _ _ _ _ _ _
             ltac:(done) ltac:(done) ltac:(done) ltac:(done) B12 B14 B15 H). }
  split.
  - intros j. apply lookup_range_flags.
  - intros j x Hx Hnan. rewrite lookup_range_flags, Hx. simpl.
    by rewrite range_flag_nan.
Qed.

End range_tests.

Section pressure_flags.
Import xr quality_control.
Variable _timestamp : string.
Variable today : string.
Variable str_num : float -> string.
Variable circmean : list float -> float.
Variable circular_distance : list float -> float -> list float.
Variable cos_radians : float -> float.
Variable uninit : string -> nat -> nat -> bool.


End pressure_flags.

(** ** The correction for the motion of the ship *)

Section navigation.
Import xr quality_control.
Variable _timestamp : string.
Variable today : string.
Variable str_num : float -> string.
Variable circmean : list float -> float.
Variable circular_distance : list float -> float -> list float.
Variable cos_radians : float -> float.
Variable uninit : string -> nat -> nat -> bool.

Lemma getitem_missing name st :
  var name (dataset st) = None -> getitem name st = (inl (KeyError name), st).
Proof. unfold var, getitem. by intros ->. Qed.

Lemma cell_add_tile (x : grid float) (ship lon : list float) n i j a s o :
  (i < n)%nat ->
  cell x i j = Some a -> ship !! j = Some s -> lon !! j = Some o ->
  cell (np.zip2d PrimFloat.add x
          (np.tile (zip_with (fun s o => if np.isfinite o then s else 0%float) ship lon) n))
       i j
  = Some (a + (if is_finite o then s else 0))%float.
Proof.
  intros Hi Ha Hs Ho. rewrite cell_zip2d, Ha, cell_tile by done.
  by rewrite lookup_zip_with, Hs; simpl; rewrite Ho.
Qed.

Lemma motion_correction_nav_run x ship lon st :
  holds (dataset st) "u" (Float2 x) ->
  holds (dataset st) "u_ship" (Float1 ship) ->
  holds (dataset st) "lon" (Float1 lon) ->
  contains (dataset st) "v_ship" = true ->
  var "uship" (dataset st) = None ->
  motion_correction _timestamp "nav" st
  = (inl (KeyError "uship"),
     mkState (set_data "u"
                (Float2 (np.zip2d PrimFloat.add x
                           (np.tile (zip_with (fun s o => if np.isfinite o then s else 0%float)
                                       ship lon)
                                    (nd (dataset st)))))
                (dataset st))
             (l st) (stdout st)).
Proof.
  intros Hu Hs Hlon Hv Hno. unfold motion_correction.
  step (gets_run dataset st). cbn [String.eqb Ascii.eqb Bool.eqb forallb].
  rewrite (holds_contains _ _ _ Hs), Hv. cbn [andb for_each].
  apply bind_raise_l.
  step (float2_getitem _ _ _ Hu).
  change ("u" +:+ "_ship") with "u_ship". step (float1_getitem _ _ _ Hs).
  step (float1_getattr _ _ _ Hlon).
  rewrite (bind_ret_l _ _ _ _ _ (update_run _ _)). cbv beta.
  apply bind_raise_l. change ("u" +:+ "ship") with "uship".
  apply getitem_missing. cbn [dataset]. unfold var, set_data. simpl.
  rewrite lookup_alter_ne by done. exact Hno.
Qed.

(** X20: with [motion_correction_mode="nav"], on a dataset that has the
    velocities of the ship [u_ship] and [v_ship] and the longitude [lon]
    (over time, as [u] is over depth and time) but no variable [uship],
    [adcp_quality_control] raises
    [KeyError: 'uship']: the function tests for [u_ship] and then assigns to
    [uship]. When it raises, the velocity of the ship is already added to
    [u] (where the longitude is finite), and [v] is as it was. *)
Theorem navigation_correction_needs_uship :
  forall (amp_th corr_th pg_th roll_th pitch_th : option float)
         (horizontal_vel_th vertical_vel_th error_vel_th : option float)
         (sidelobes_correction : bool) (bottom_depth : option float)
         (st : State) (x : grid float) (ship lon : list float),
    holds (dataset st) "u" (Float2 x) ->
    holds (dataset st) "u_ship" (Float1 ship) ->
    holds (dataset st) "lon" (Float1 lon) ->
    contains (dataset st) "v_ship" = true ->
    var "uship" (dataset st) = None ->
    exists st' x',
      adcp_quality_control _timestamp today str_num circmean circular_distance
        cos_radians uninit amp_th corr_th pg_th roll_th pitch_th
        horizontal_vel_th vertical_vel_th error_vel_th
        (Some "nav") sidelobes_correction bottom_depth st
      = (inl (KeyError "uship"), st')
      /\ holds (dataset st') "u" (Float2 x')
      /\ (forall i j a s o,
            (i < nd (dataset st))%nat ->
            cell x i j = Some a -> ship !! j = Some s -> lon !! j = Some o ->
            cell x' i j = Some (a + (if is_finite o then s else 0))%float)
      /\ var "v" (dataset st') = var "v" (dataset st).
Proof.
  intros amp_th corr_th pg_th roll_th pitch_th hth vth eth side bottom st x ship lon
    Hu Hs Hlon Hv Hno.
  unfold adcp_quality_control.
  rewrite (bind_ret_l _ _ _ _ _ (eq_refl : l_reset st = (inr tt, _))). cbv beta.
  set (s1 := mkState _ _ _).
  rewrite (bind_ret_l _ _ _ _ _
             (eq_refl : l_section _timestamp "Quality Control" s1 = (inr tt, _))).
  cbv beta. set (s2 := mkState _ _ _).
  assert (dataset s2 = dataset st) as Eds by reflexivity.
  clearbody s2. rewrite <- Eds in Hu, Hs, Hlon, Hv, Hno.
  change (truthy_str "nav") with true. cbn [when].
  rewrite (bind_raise_l _ _ _ _ _ (motion_correction_nav_run _ _ _ _ Hu Hs Hlon Hv Hno)).
  eexists _, _. split; [reflexivity|]. cbn [dataset].
  split; [by eapply holds_set_data_eq|]. split.
  - intros i j a s o Hi Ha Hs' Ho. rewrite Eds. by apply cell_add_tile.
  - unfold var, set_data. simpl. rewrite lookup_alter_ne by done. by rewrite Eds.
Qed.

End navigation.

(** ** The variables of a load, and the quality control of a loaded dataset *)

Section loaded_variables.
Import xr loader.
Variable _timestamp : string.
Variable str_num : float -> string.
Variable to_datetime64 : Z -> float -> Z.
Variable datetime_str : Z -> string.
Variable median : list float -> float.
Variable nanmean : list float -> float.
Variable mean : list float -> float.
Variable beam_to_xyz : float -> string -> list (grid float) -> list (grid float).
Variable beam_to_xyz_bt : float -> string -> grid float -> grid float.
Variable rdi_xyz_enu :
  list (grid float) -> list float -> list float -> list float -> string -> list (grid float).
Variable rdi_xyz_enu_bt :
  grid float -> list float -> list float -> list float -> string -> grid float.
Variable round3 : float -> float.
Variable FixedLeader : Type.

Lemma init_dataset_no_other k time_ depth_ sonar :
  k ∉ loadable_names -> var k (init_dataset time_ depth_ sonar) = None.
Proof.
  intros Hk. unfold loadable_names in Hk. apart Hk.
  unfold var, init_dataset. cbn [variables].
  apply not_elem_of_list_to_map_1.
  destruct (String.eqb sonar "sv"); cbn;
    repeat (apply not_elem_of_cons; split; [congruence|]); apply not_elem_of_nil.
Qed.

(** The sensors of a load, and the names it has no variable under. *)
Lemma load_sensors files_msg raw (fl : FixedLeader) sonar yearbase orientation
    sensor_depth st dataset raw' fl' st' :
  load_rdi_binary _timestamp str_num to_datetime64 datetime_str median nanmean
    mean beam_to_xyz beam_to_xyz_bt rdi_xyz_enu rdi_xyz_enu_bt round3
    FixedLeader files_msg raw fl sonar yearbase orientation sensor_depth st
  = (inr (dataset, raw', fl'), st') ->
  holds dataset "heading" (Float1 (heading raw))
  /\ holds dataset "roll_" (Float1 (roll raw))
  /\ holds dataset "pitch" (Float1 (pitch raw))
  /\ holds dataset "temp" (Float1 (temperature raw))
  /\ var "pres" dataset = None
  /\ (forall k, k ∉ loadable_names -> var k dataset = None)
  /\ attribute "logbook" dataset = None.
Proof.
  intros H.
  apply load_rdi_binary_stages in H
    as (bad & t & xd & oc & s10 & s11 & s12 & s13 & s14
        & _ & _ & Hds & Hh & _ & _ & H11 & H12 & _ & H13 & H14 & H15 & -> & -> & ->).
  pose proof (preserves_run _ _ _ _ _
                (load_transducer_data_header _timestamp nanmean mean oc) H11) as Hh11.
  pose proof (preserves_run _ _ _ _ _
                (load_transducer_data_attrs _timestamp nanmean mean oc) H11) as Ha11.
  pose proof (preserves_run _ _ _ _ _ (load_depth_data_data xd) H12) as D12.
  pose proof (preserves_run _ _ _ _ _ (load_navigation_data_data _timestamp) H13) as D13.
  unfold on_data, on_ds in Hh11, Ha11, D12, D13. rewrite Hh in Hh11.
  assert (header (data s13) = header raw) as Hh13 by congruence.
  apply header_fields in Hh13
    as (_ & _ & _ & _ & _ & _ & _ & _ & _ & Eh & Er & Ep & Et).
  assert (forall k, var k (ds st') = var k (ds s14)) as V15.
  { intros k.
    apply (preserves_run _ _ _ _ _ (set_attributes_var _timestamp k orientation) H15). }
  destruct (load_tail _ _ _ _ _ _ _ _ _ _ H12 H13 H14 H15)
    as (_ & V & _ & _ & _ & P & _ & _ & x & _ & A).
  apply load_other_variables_inv in H14 as (_ & _ & Sh & Sr & Sp & St & _).
  rewrite Eh in Sh. rewrite Er in Sr. rewrite Ep in Sp. rewrite Et in St.
  split; [eapply holds_var; [apply V15|exact Sh]|].
  split; [eapply holds_var; [apply V15|exact Sr]|].
  split; [eapply holds_var; [apply V15|exact Sp]|].
  split; [eapply holds_var; [apply V15|exact St]|].
  split; [exact P|]. split.
  - intros k Hk. rewrite V.
    + pose proof (preserves_run _ _ _ _ _
                    (load_transducer_data_var _timestamp nanmean mean k oc
                       ltac:(unfold loadable_names in Hk; apart Hk;
                             unfold transducer_names;
                             repeat (apply not_elem_of_cons; split; [congruence|]);
                             apply not_elem_of_nil)) H11) as V11.
      unfold on_ds in V11. rewrite V11, Hds. by apply init_dataset_no_other.
    + unfold loadable_names in Hk. apart Hk. unfold other_names.
      repeat (apply not_elem_of_cons; split; [congruence|]). apply not_elem_of_nil.
  - unfold attribute. rewrite A, Ha11, Hds.
    rewrite !lookup_insert_ne by done. apply lookup_empty.
Qed.

(** X21: the sensor series of the file are in the dataset a load returns as
    they are, the roll under [roll_] and the temperature under [temp]; and
    the dataset has no variable under any name but those [init_dataset]
    declares and [dday]: none called [temperature], [roll] or [pres]. *)
Theorem sensors_of_a_load :
  forall (files_msg : string) (raw : Bunch) (fl : FixedLeader) (sonar : string)
         (yearbase : Z) (orientation : string) (sensor_depth : option float)
         (st st' : State) (dataset : Dataset) (raw' : Bunch) (fl' : FixedLeader),
    load_rdi_binary _timestamp str_num to_datetime64 datetime_str median nanmean
      mean beam_to_xyz beam_to_xyz_bt rdi_xyz_enu rdi_xyz_enu_bt round3
      FixedLeader files_msg raw fl sonar yearbase orientation sensor_depth st
    = (inr (dataset, raw', fl'), st') ->
    holds dataset "heading" (Float1 (heading raw))
    /\ holds dataset "roll_" (Float1 (roll raw))
    /\ holds dataset "pitch" (Float1 (pitch raw))
    /\ holds dataset "temp" (Float1 (temperature raw))
    /\ (forall k, is_Some (var k dataset) -> k ∈ loadable_names /\ k <> "pres")
    /\ var "temperature" dataset = None
    /\ var "roll" dataset = None.
Proof.
  intros files_msg raw fl sonar yearbase orientation sensor_depth st st'
    dataset raw' fl' H.
  apply load_sensors in H as (Sh & Sr & Sp & St & P & V & _).
  split; [exact Sh|]. split; [exact Sr|]. split; [exact Sp|]. split; [exact St|].
  split; [|split; apply V; unfold loadable_names;
             repeat (apply not_elem_of_cons; split; [done|]); apply not_elem_of_nil].
  intros k Hk. split.
  - destruct (decide (k ∈ loadable_names)) as [?|Hno]; [done|].
    rewrite (V k Hno) in Hk. by destruct Hk.
  - intros ->. rewrite P in Hk. by destruct Hk.
Qed.

End loaded_variables.

Section load_then_quality_control.
Import xr.
Variable _timestamp : string.
Variable str_num : float -> string.
Variable to_datetime64 : Z -> float -> Z.
Variable datetime_str : Z -> string.
Variable median : list float -> float.
Variable nanmean : list float -> float.
Variable mean : list float -> float.
Variable beam_to_xyz : float -> string -> list (grid float) -> list (grid float).
Variable beam_to_xyz_bt : float -> string -> grid float -> grid float.
Variable rdi_xyz_enu :
  list (grid float) -> list float -> list float -> list float -> string -> list (grid float).
Variable rdi_xyz_enu_bt :
  grid float -> list float -> list float -> list float -> string -> grid float.
Variable round3 : float -> float.
Variable FixedLeader : Type.
Variable today : string.
Variable circmean : list float -> float.
Variable circular_distance : list float -> float -> list float.
Variable cos_radians : float -> float.
Variable uninit : string -> nat -> nat -> bool.

Lemma not_contains n ds :
  values_of n ds = None -> n <> "depth" -> n <> "time" -> contains ds n = false.
Proof.
  unfold values_of, contains. intros H Hd Ht.
  destruct (variables ds !! n) eqn:E; [discriminate|].
  rewrite bool_decide_eq_false_2 by (by intros []).
  rewrite bool_decide_eq_false_2; [done|].
  apply not_elem_of_cons; split; [done|].
  apply not_elem_of_cons; split; [done|]. apply not_elem_of_nil.
Qed.

Lemma pressure_block_skipped acc acc' s s' :
  values_of "pres" (quality_control.dataset s) = None ->
  quality_control.pressure_block _timestamp acc s = (inr acc', s') -> s' = s.
Proof.
  intros Hno. unfold quality_control.pressure_block.
  step (gets_run quality_control.dataset s).
  rewrite (not_contains _ _ Hno) by done. by intros [= _ <-].
Qed.

Lemma temperature_block_skipped s s' :
  values_of "temperature" (quality_control.dataset s) = None ->
  quality_control.temperature_block _timestamp s = (inr tt, s') -> s' = s.
Proof.
  intros Hno. unfold quality_control.temperature_block.
  step (gets_run quality_control.dataset s).
  rewrite (not_contains _ _ Hno) by done. by intros [= <-].
Qed.

(** X22: the dataset [load_rdi_binary] returns cannot go through
    [adcp_quality_control] as it is: the load writes its log under the
    attribute [_vartmp_logbook], the quality control appends to the
    attribute [logbook], so whatever the thresholds and the options, the
    quality control of a freshly loaded dataset raises. *)
Theorem loaded_dataset_fails_quality_control :
  forall (files_msg : string) (raw : loader.Bunch) (fl : FixedLeader) (sonar : string)
         (yearbase : Z) (orientation : string) (sensor_depth : option float)
         (st st' : loader.State) (dataset : Dataset) (raw' : loader.Bunch)
         (fl' : FixedLeader)
         (amp_th corr_th pg_th roll_th pitch_th : option float)
         (horizontal_vel_th vertical_vel_th error_vel_th : option float)
         (motion_correction_mode : option string) (sidelobes_correction : bool)
         (bottom_depth : option float) (l0 : utils.Logger) (out : list string),
    loader.load_rdi_binary _timestamp str_num to_datetime64 datetime_str median
      nanmean mean beam_to_xyz beam_to_xyz_bt rdi_xyz_enu rdi_xyz_enu_bt round3
      FixedLeader files_msg raw fl sonar yearbase orientation sensor_depth st
    = (inr (dataset, raw', fl'), st') ->
    exists e s',
      quality_control.adcp_quality_control _timestamp today str_num circmean
        circular_distance cos_radians uninit amp_th corr_th pg_th roll_th pitch_th
        horizontal_vel_th vertical_vel_th error_vel_th
        motion_correction_mode sidelobes_correction bottom_depth
        (quality_control.mkState dataset l0 out)
      = (inl e, s').
Proof.
  intros files_msg raw fl sonar yearbase orientation sensor_depth st st' dataset
    raw' fl' amp_th corr_th pg_th roll_th pitch_th hth vth eth mode side bottom
    l0 out H.
  apply load_sensors in H as (_ & _ & _ & _ & _ & _ & Hno).
  destruct (quality_control_without_logbook _timestamp today str_num circmean
              circular_distance cos_radians uninit amp_th corr_th pg_th roll_th
              pitch_th hth vth eth mode side bottom
              (quality_control.mkState dataset l0 out) Hno) as (e & s' & E & _).
  by exists e, s'.
Qed.

(** X23: the range tests of [adcp_quality_control] never see the data of a
    load. They read the variables [pres] and [temperature]; the load drops
    [pres] and stores the temperature under [temp]. So when the quality
    control returns on a dataset with the variables of a load (say, after
    the attribute [logbook] is added), it has made neither [pres_QC] nor
    [temperature_QC] and the temperatures of the file are under [temp],
    unflagged. *)
Theorem range_tests_skip_a_loaded_dataset :
  forall (files_msg : string) (raw : loader.Bunch) (fl : FixedLeader) (sonar : string)
         (yearbase : Z) (orientation : string) (sensor_depth : option float)
         (st st' : loader.State) (dataset : Dataset) (raw' : loader.Bunch)
         (fl' : FixedLeader)
         (amp_th corr_th pg_th roll_th pitch_th : option float)
         (horizontal_vel_th vertical_vel_th error_vel_th : option float)
         (motion_correction_mode : option string) (sidelobes_correction : bool)
         (bottom_depth : option float) (s s' : quality_control.State),
    loader.load_rdi_binary _timestamp str_num to_datetime64 datetime_str median
      nanmean mean beam_to_xyz beam_to_xyz_bt rdi_xyz_enu rdi_xyz_enu_bt round3
      FixedLeader files_msg raw fl sonar yearbase orientation sensor_depth st
    = (inr (dataset, raw', fl'), st') ->
    variables (quality_control.dataset s) = variables dataset ->
    quality_control.adcp_quality_control _timestamp today str_num circmean
      circular_distance cos_radians uninit amp_th corr_th pg_th roll_th pitch_th
      horizontal_vel_th vertical_vel_th error_vel_th
      motion_correction_mode sidelobes_correction bottom_depth s
    = (inr tt, s') ->
    var "pres_QC" (quality_control.dataset s') = None
    /\ var "temperature_QC" (quality_control.dataset s') = None
    /\ holds (quality_control.dataset s') "temp" (Float1 (loader.temperature raw)).
Proof.
  intros files_msg raw fl sonar yearbase orientation sensor_depth st st' dataset
    raw' fl' amp_th corr_th pg_th roll_th pitch_th hth vth eth mode side bottom
    s s' H Hvars Hqc.
  apply load_sensors in H as (_ & _ & _ & Htemp & Hpres & Hnone & _).
  assert (forall k, values_of k (quality_control.dataset s) = values_of k dataset) as Hval.
  { intros k. unfold values_of. by rewrite Hvars. }
  assert (forall k, k ∉ loadable_names -> values_of k (quality_control.dataset s) = None)
    as Hno.
  { intros k Hk. rewrite Hval. unfold values_of. fold (var k dataset).
    by rewrite (Hnone k Hk). }
  assert (holds (quality_control.dataset s') "temp" (Float1 (loader.temperature raw)))
    as Htemp'.
  { unfold holds. rewrite <- Htemp. fold (values_of "temp" dataset).
    rewrite <- Hval.
    by apply (preserves_run _ _ _ _ _
                (adcp_quality_control_values _timestamp today str_num circmean
                   circular_distance cos_radians uninit "temp" _ _ _ _ _ _ _ _ _ _ _
                   ltac:(not_in_list) eq_refl) Hqc). }
  apply adcp_quality_control_stages in Hqc
    as (acc9 & t9 & acc10 & t10 & t11 & t12 & flags & t14 & t15
        & Hpre & _ & B10 & B11 & B12 & _ & B14 & B15 & Hfin).
  pose proof (fun n N1 N2 N3 N4 =>
                after_temperature _timestamp today str_num n _ _ _ _ _ _ _ _ _ _
                  N1 N2 N3 N4 B12 B14 B15 Hfin) as Hafter.
  assert (values_of "pres" (quality_control.dataset t9) = None) as P9.
  { rewrite Hpre by not_in_list. rewrite Hval. unfold values_of.
    fold (var "pres" dataset). by rewrite Hpres. }
  apply (pressure_block_skipped _ _ _ _ P9) in B10 as ->.
  assert (forall k, k ∉ loadable_names -> k ∉ rewritten_names ->
            values_of k (quality_control.dataset t9) = None) as H9.
  { intros k Hk Hr. rewrite Hpre by done. by apply Hno. }
  assert (("temperature" ∉ loadable_names) /\ ("temperature_QC" ∉ loadable_names)
          /\ ("pres_QC" ∉ loadable_names)) as (L1 & L2 & L3).
  { unfold loadable_names.
    repeat split; repeat (apply not_elem_of_cons; split; [done|]); apply not_elem_of_nil. }
  apply (temperature_block_skipped _ _ (H9 _ L1 ltac:(not_in_list))) in B11 as ->.
  assert (forall k, values_of k (quality_control.dataset s') = None ->
            var k (quality_control.dataset s') = None) as Hvar.
  { intros k. unfold values_of, var. by destruct (variables _ !! k). }
  split; [|split; [|exact Htemp']]; apply Hvar.
  - rewrite (Hafter "pres_QC") by done. apply H9; [done|not_in_list].
  - rewrite (Hafter "temperature_QC") by done. apply H9; [done|not_in_list].
Qed.

End load_then_quality_control.

(** * The theorems on the small cases *)

Section on_the_loads.
Import xr loader.

Lemma magnetic_to_true_raises_witness :
  holds (ds sample_cases.positions) "lon" (Float1 [1; 2]%float)
  /\ holds (ds sample_cases.positions) "lat" (Float1 [3; 4]%float)
  /\ ds_attrs (ds sample_cases.positions) !! "magnetic_declination" = Some (ANum 10)
  /\ exists what,
       magnetic_to_true sample_cases.radians sample_cases.cos sample_cases.sin
         sample_cases.dot sample_cases.positions
       = (inl (ValueError what), sample_cases.positions).
Proof.
  assert (holds (ds sample_cases.positions) "lon" (Float1 [1; 2]%float)) as Hlon
    by (vm_compute; reflexivity).
  assert (holds (ds sample_cases.positions) "lat" (Float1 [3; 4]%float)) as Hlat
    by (vm_compute; reflexivity).
  assert (ds_attrs (ds sample_cases.positions) !! "magnetic_declination"
          = Some (ANum 10)) as Hattr by (vm_compute; reflexivity).
  split; [exact Hlon|]. split; [exact Hlat|]. split; [exact Hattr|].
  exact (magnetic_to_true_raises sample_cases.radians sample_cases.cos
           sample_cases.sin sample_cases.dot sample_cases.positions
           [1; 2]%float [3; 4]%float 10%float Hlon Hlat Hattr).
Defined.

(** The load of a bundle returns what [sample_cases.loaded_dataset] names. *)
Lemma load_earth_run :
  exists raw' st',
    load_rdi_binary sample_load.timestamp sample_load.str_num
      sample_load.to_datetime64 sample_load.datetime_str sample_load.median
      sample_load.nanmean sample_load.mean sample_load.beam_to_xyz
      sample_load.beam_to_xyz_bt sample_load.rdi_xyz_enu sample_load.rdi_xyz_enu_bt
      sample_load.round3 unit
      "File: a.000" (sample_load.raw "earth") tt "wh" 2020%Z "down" None
      (mkState (init "") [] (sample_load.raw "earth") sample_load.nothing)
    = (inr (sample_cases.loaded_dataset (sample_load.raw "earth"), raw', tt), st').
Proof. eexists _, _. vm_compute. reflexivity. Qed.

Lemma load_in_order_run :
  exists raw' st',
    load_rdi_binary sample_load.timestamp sample_load.str_num
      sample_load.to_datetime64 sample_load.datetime_str sample_load.median
      sample_load.nanmean sample_load.mean sample_load.beam_to_xyz
      sample_load.beam_to_xyz_bt sample_load.rdi_xyz_enu sample_load.rdi_xyz_enu_bt
      sample_load.round3 unit
      "File: a.000" sample_cases.in_order tt "wh" 2020%Z "down" None
      (mkState (init "") [] sample_cases.in_order sample_load.nothing)
    = (inr (sample_cases.loaded_dataset sample_cases.in_order, raw', tt), st').
Proof. eexists _, _. vm_compute. reflexivity. Qed.

Lemma depth_coordinate_is_dep_witness :
  let dataset := sample_cases.loaded_dataset (sample_load.raw "earth") in
  (sample_cases.load_bundle (sample_load.raw "earth")).1
  = inr (dataset, (sample_load.returned "earth").1.2, tt)
  /\ depth dataset = [4; 8]%float
  /\ length (time dataset) = 2%nat.
Proof.
  cbv zeta. destruct load_earth_run as (raw' & st' & Hrun).
  destruct (depth_coordinate_is_dep sample_load.timestamp sample_load.str_num
              sample_load.to_datetime64 sample_load.datetime_str sample_load.median
              sample_load.nanmean sample_load.mean sample_load.beam_to_xyz
              sample_load.beam_to_xyz_bt sample_load.rdi_xyz_enu
              sample_load.rdi_xyz_enu_bt sample_load.round3 unit
              "File: a.000" (sample_load.raw "earth") tt "wh" 2020%Z "down" None
              (mkState (init "") [] (sample_load.raw "earth") sample_load.nothing)
              st' (sample_cases.loaded_dataset (sample_load.raw "earth")) raw' tt Hrun)
    as (Hd & Ht & _).
  split; [vm_compute; reflexivity|]. split; [exact Hd|exact Ht].
Defined.

Lemma optional_variables_of_a_load_witness :
  let dataset := sample_cases.loaded_dataset (sample_load.raw "earth") in
  (exists raw', (sample_cases.load_bundle (sample_load.raw "earth")).1 = inr (dataset, raw', tt))
  /\ var "pres" dataset = None
  /\ is_Some (var "xducer_depth" dataset)
  /\ ~ is_Some (var "lon" dataset)
  /\ ~ is_Some (var "lat" dataset).
Proof.
  cbv zeta. destruct load_earth_run as (raw' & st' & Hrun).
  destruct (optional_variables_of_a_load sample_load.timestamp sample_load.str_num
              sample_load.to_datetime64 sample_load.datetime_str sample_load.median
              sample_load.nanmean sample_load.mean sample_load.beam_to_xyz
              sample_load.beam_to_xyz_bt sample_load.rdi_xyz_enu
              sample_load.rdi_xyz_enu_bt sample_load.round3 unit
              "File: a.000" (sample_load.raw "earth") tt "wh" 2020%Z "down" None
              (mkState (init "") [] (sample_load.raw "earth") sample_load.nothing)
              st' (sample_cases.loaded_dataset (sample_load.raw "earth")) raw' tt Hrun)
    as (P & X & Lon & Lat).
  split; [exists raw'; unfold sample_cases.load_bundle; by rewrite Hrun|].
  split; [exact P|]. split; [apply (proj2 X); discriminate|].
  split; intros H.
  - pose proof (proj1 Lon H) as Hf. by destruct Hf.
  - pose proof (proj1 Lat H) as Hf. by destruct Hf.
Defined.

Lemma bottom_track_all_or_none_witness :
  let dataset := sample_cases.loaded_dataset (sample_load.raw "earth") in
  (exists raw', (sample_cases.load_bundle (sample_load.raw "earth")).1 = inr (dataset, raw', tt))
  /\ forallb all_zero (bt_vel (sample_load.raw "earth")) = true
  /\ ~ is_Some (var "bt_u" dataset)
  /\ ~ is_Some (var "bt_depth" dataset).
Proof.
  cbv zeta. destruct load_earth_run as (raw' & st' & Hrun).
  destruct (bottom_track_all_or_none sample_load.timestamp sample_load.str_num
              sample_load.to_datetime64 sample_load.datetime_str sample_load.median
              sample_load.nanmean sample_load.mean sample_load.beam_to_xyz
              sample_load.beam_to_xyz_bt sample_load.rdi_xyz_enu
              sample_load.rdi_xyz_enu_bt sample_load.round3 unit
              "File: a.000" (sample_load.raw "earth") tt "wh" 2020%Z "down" None
              (mkState (init "") [] (sample_load.raw "earth") sample_load.nothing)
              st' (sample_cases.loaded_dataset (sample_load.raw "earth")) raw' tt Hrun)
    as (Hbt & Hsame).
  rewrite (Hsame eq_refl) in Hbt.
  assert (forallb all_zero (bt_vel (sample_load.raw "earth")) = true) as Hz by (vm_compute; reflexivity).
  rewrite Hz in Hbt.
  split; [exists raw'; unfold sample_cases.load_bundle; by rewrite Hrun|].
  split; [exact Hz|].
  split; intros H.
  - pose proof (proj1 (Hbt "bt_u" ltac:(in_list)) H) as Hf. discriminate Hf.
  - pose proof (proj1 (Hbt "bt_depth" ltac:(in_list)) H) as Hf. discriminate Hf.
Defined.


Lemma good_time_is_converted_witness :
  let dataset := sample_cases.loaded_dataset sample_cases.in_order in
  bad_dday (dday sample_cases.in_order) = false
  /\ (exists raw', (sample_cases.load_bundle sample_cases.in_order).1 = inr (dataset, raw', tt))
  /\ time dataset = [1577880000; 1577923200]%Z
  /\ holds dataset "time_string" (Str1 ["1577880000"; "1577923200"])
  /\ var "dday" dataset = None.
Proof.
  cbv zeta. destruct load_in_order_run as (raw' & st' & Hrun).
  assert (bad_dday (dday sample_cases.in_order) = false) as Hgood by (vm_compute; reflexivity).
  destruct (good_time_is_converted sample_load.timestamp sample_load.str_num
              sample_load.to_datetime64 sample_load.datetime_str sample_load.median
              sample_load.nanmean sample_load.mean sample_load.beam_to_xyz
              sample_load.beam_to_xyz_bt sample_load.rdi_xyz_enu
              sample_load.rdi_xyz_enu_bt sample_load.round3 unit
              "File: a.000" sample_cases.in_order tt "wh" 2020%Z "down" None
              (mkState (init "") [] sample_cases.in_order sample_load.nothing)
              st' (sample_cases.loaded_dataset sample_cases.in_order) raw' tt Hgood Hrun)
    as (Ht & Hs & Hd).
  assert (List.map (sample_load.to_datetime64 2020) (dday sample_cases.in_order)
          = [1577880000; 1577923200]%Z) as Etime by (vm_compute; reflexivity).
  rewrite Etime in Ht, Hs.
  split; [exact Hgood|].
  split; [exists raw'; unfold sample_cases.load_bundle; by rewrite Hrun|].
  split; [exact Ht|]. split; [exact Hs|exact Hd].
Defined.

Lemma attributes_of_a_load_witness :
  let dataset := sample_cases.loaded_dataset (sample_load.raw "earth") in
  (exists raw', (sample_cases.load_bundle (sample_load.raw "earth")).1 = inr (dataset, raw', tt))
  /\ dom (ds_attrs dataset)
     = list_to_set ["_vartmp_logbook"; "instrument_serial"; "orientation"; "bin_size";
                    "ping_frequency"; "beam_angle"; "coordsystem";
                    "_vartmp_XducerDepth"]
  /\ ds_attrs dataset !! "logbook" = None.
Proof.
  cbv zeta. destruct load_earth_run as (raw' & st' & Hrun).
  destruct (attributes_of_a_load sample_load.timestamp sample_load.str_num
              sample_load.to_datetime64 sample_load.datetime_str sample_load.median
              sample_load.nanmean sample_load.mean sample_load.beam_to_xyz
              sample_load.beam_to_xyz_bt sample_load.rdi_xyz_enu
              sample_load.rdi_xyz_enu_bt sample_load.round3 unit
              "File: a.000" (sample_load.raw "earth") tt "wh" 2020%Z "down" None
              (mkState (init "") [] (sample_load.raw "earth") sample_load.nothing)
              st' (sample_cases.loaded_dataset (sample_load.raw "earth")) raw' tt Hrun)
    as (x & A & _ & _ & Hno).
  split; [exists raw'; unfold sample_cases.load_bundle; by rewrite Hrun|].
  split; [|exact Hno].
  rewrite A. rewrite !dom_insert_L, dom_empty_L. set_solver.
Defined.

Lemma xyz_data_cannot_be_loaded_witness :
  trans_coordsystem (sample_load.raw "xyz") = "xyz"
  /\ exists st',
       load_rdi_binary sample_load.timestamp sample_load.str_num
              sample_load.to_datetime64 sample_load.datetime_str sample_load.median
              sample_load.nanmean sample_load.mean sample_load.beam_to_xyz
              sample_load.beam_to_xyz_bt sample_load.rdi_xyz_enu
              sample_load.rdi_xyz_enu_bt sample_load.round3 unit
         "File: a.000" (sample_load.raw "xyz") tt "wh" 2020%Z "down" None
         (mkState (init "") [] (sample_load.raw "xyz") sample_load.nothing)
       = (inl (UnboundLocalError "bt_xyze"), st').
Proof.
  split; [reflexivity|].
  exact (xyz_data_cannot_be_loaded sample_load.timestamp sample_load.str_num
              sample_load.to_datetime64 sample_load.datetime_str sample_load.median
              sample_load.nanmean sample_load.mean sample_load.beam_to_xyz
              sample_load.beam_to_xyz_bt sample_load.rdi_xyz_enu
              sample_load.rdi_xyz_enu_bt sample_load.round3 unit
              "File: a.000" (sample_load.raw "xyz") tt "wh" 2020%Z "down" None
              (mkState (init "") [] (sample_load.raw "xyz") sample_load.nothing) eq_refl).
Defined.

Lemma load_returns_iff_beam_or_earth_witness :
  (sonar_model (sample_load.raw "beam") = "os" -> XducerDepth (sample_load.raw "beam") <> [])
  /\ ((exists dataset raw' st',
         load_rdi_binary sample_load.timestamp sample_load.str_num
              sample_load.to_datetime64 sample_load.datetime_str sample_load.median
              sample_load.nanmean sample_load.mean sample_load.beam_to_xyz
              sample_load.beam_to_xyz_bt sample_load.rdi_xyz_enu
              sample_load.rdi_xyz_enu_bt sample_load.round3 unit
           "File: a.000" (sample_load.raw "beam") tt "wh" 2020%Z "down" None
           (mkState (init "") [] (sample_load.raw "beam") sample_load.nothing)
         = (inr (dataset, raw', tt), st'))
      <-> trans_coordsystem (sample_load.raw "beam") ∈ ["beam"; "earth"]).
Proof.
  assert (sonar_model (sample_load.raw "beam") = "os"
          -> XducerDepth (sample_load.raw "beam") <> []) as Hos by discriminate.
  split; [exact Hos|].
  exact (load_returns_iff_beam_or_earth sample_load.timestamp sample_load.str_num
              sample_load.to_datetime64 sample_load.datetime_str sample_load.median
              sample_load.nanmean sample_load.mean sample_load.beam_to_xyz
              sample_load.beam_to_xyz_bt sample_load.rdi_xyz_enu
              sample_load.rdi_xyz_enu_bt sample_load.round3 unit
              "File: a.000" (sample_load.raw "beam") tt "wh" 2020%Z "down" None
              (mkState (init "") [] (sample_load.raw "beam") sample_load.nothing) Hos).
Defined.

Lemma sensors_of_a_load_witness :
  let dataset := sample_cases.loaded_dataset (sample_load.raw "earth") in
  (exists raw', (sample_cases.load_bundle (sample_load.raw "earth")).1 = inr (dataset, raw', tt))
  /\ holds dataset "roll_" (Float1 [1; 2]%float)
  /\ holds dataset "temp" (Float1 [4; 5]%float)
  /\ var "temperature" dataset = None
  /\ var "roll" dataset = None.
Proof.
  cbv zeta. destruct load_earth_run as (raw' & st' & Hrun).
  destruct (sensors_of_a_load sample_load.timestamp sample_load.str_num
              sample_load.to_datetime64 sample_load.datetime_str sample_load.median
              sample_load.nanmean sample_load.mean sample_load.beam_to_xyz
              sample_load.beam_to_xyz_bt sample_load.rdi_xyz_enu
              sample_load.rdi_xyz_enu_bt sample_load.round3 unit
              "File: a.000" (sample_load.raw "earth") tt "wh" 2020%Z "down" None
              (mkState (init "") [] (sample_load.raw "earth") sample_load.nothing)
              st' (sample_cases.loaded_dataset (sample_load.raw "earth")) raw' tt Hrun)
    as (_ & Hr & _ & Ht & _ & Hno & Hroll).
  split; [exists raw'; unfold sample_cases.load_bundle; by rewrite Hrun|].
  split; [exact Hr|]. split; [exact Ht|]. split; [exact Hno|exact Hroll].
Defined.

End on_the_loads.

Section on_the_datasets.
Import xr quality_control.

Lemma velocity_flags_are_1_3_4_or_9_witness :
  let r := sample_cases.quality_control_mode sample.ds None in
  r = (inr tt, r.2)
  /\ exists flags,
       holds (dataset r.2) "u_QC" (Int2 flags)
       /\ holds (dataset r.2) "v_QC" (Int2 flags)
       /\ holds (dataset r.2) "w_QC" (Int2 flags)
       /\ covers (nd (dataset r.2)) (nt (dataset r.2)) flags
       /\ flagged_in [1; 3; 4; 9]%Z flags.
Proof.
  cbv zeta.
  assert (sample_cases.quality_control_mode sample.ds None
          = (inr tt, (sample_cases.quality_control_mode sample.ds None).2)) as Hrun
    by (vm_compute; reflexivity).
  split; [exact Hrun|].
  exact (velocity_flags_are_1_3_4_or_9 sample.timestamp sample.today sample.str_num
              sample.circmean sample.circular_distance sample.cos_radians sample.uninit
              (Some 30%float) (Some 64%float) (Some 90%float) (Some 20%float)
              (Some 20%float) (Some 5%float) (Some 5%float) (Some 5%float)
              None false None (sample.state sample.ds)
              (sample_cases.quality_control_mode sample.ds None).2 Hrun).
Defined.

(** Without [logbook] the sample goes through every test and block, and the
    last statement but three raises. *)
Lemma quality_control_needs_logbook_witness :
  attribute "logbook" sample_cases.ds_without_logbook = None
  /\ (sample_cases.quality_control_mode sample_cases.ds_without_logbook None).1 = inl (KeyError "logbook")
  /\ exists e st',
       adcp_quality_control sample.timestamp sample.today sample.str_num
              sample.circmean sample.circular_distance sample.cos_radians sample.uninit
         (Some 30%float) (Some 64%float) (Some 90%float) (Some 20%float)
              (Some 20%float) (Some 5%float) (Some 5%float) (Some 5%float)
         None false None (sample.state sample_cases.ds_without_logbook)
       = (inl e, st').
Proof.
  assert (attribute "logbook" (dataset (sample.state sample_cases.ds_without_logbook))
          = None) as Hno by (vm_compute; reflexivity).
  split; [exact Hno|]. split; [vm_compute; reflexivity|].
  exact (proj1 (quality_control_needs_logbook sample.timestamp sample.today sample.str_num
              sample.circmean sample.circular_distance sample.cos_radians sample.uninit
                  (Some 30%float) (Some 64%float) (Some 90%float) (Some 20%float)
              (Some 20%float) (Some 5%float) (Some 5%float) (Some 5%float)
                  None false None (sample.state sample_cases.ds_without_logbook) Hno)).
Defined.

Lemma quality_control_rewrites_velocities_and_flags_only_witness :
  let r := sample_cases.quality_control_mode sample.ds None in
  r = (inr tt, r.2)
  /\ time (dataset r.2) = [0; 1]%Z
  /\ var "amp1" (dataset r.2) = Some (sample.var2 sample.strong)
  /\ var "u" (dataset r.2) <> var "u" sample.ds.
Proof.
  cbv zeta.
  assert (sample_cases.quality_control_mode sample.ds None
          = (inr tt, (sample_cases.quality_control_mode sample.ds None).2)) as Hrun
    by (vm_compute; reflexivity).
  destruct (quality_control_rewrites_velocities_and_flags_only sample.timestamp sample.today sample.str_num
              sample.circmean sample.circular_distance sample.cos_radians sample.uninit
              (Some 30%float) (Some 64%float) (Some 90%float) (Some 20%float)
              (Some 20%float) (Some 5%float) (Some 5%float) (Some 5%float)
              None false None (sample.state sample.ds) (inr tt)
              (sample_cases.quality_control_mode sample.ds None).2 Hrun)
    as (_ & Ht & Hvar).
  split; [exact Hrun|]. split; [exact Ht|].
  split.
  - rewrite (Hvar "amp1" ltac:(not_in_list) eq_refl). vm_compute. reflexivity.
  - vm_compute. discriminate.
Defined.

Lemma temperature_flags_are_4_outside_the_range_witness :
  let r := sample_cases.quality_control_mode sample_cases.ds_with_sensors None in
  holds sample_cases.ds_with_sensors "temperature" (Float1 [10; 40]%float)
  /\ r = (inr tt, r.2)
  /\ exists q,
       holds (dataset r.2) "temperature_QC" (Float1 q)
       /\ q !! 0%nat = Some 1%float /\ q !! 1%nat = Some 4%float.
Proof.
  cbv zeta.
  assert (holds (dataset (sample.state sample_cases.ds_with_sensors)) "temperature"
            (Float1 [10; 40]%float)) as Ht by (vm_compute; reflexivity).
  assert (sample_cases.quality_control_mode sample_cases.ds_with_sensors None
          = (inr tt, (sample_cases.quality_control_mode sample_cases.ds_with_sensors None).2)) as Hrun
    by (vm_compute; reflexivity).
  destruct (temperature_flags_are_4_outside_the_range sample.timestamp sample.today sample.str_num
              sample.circmean sample.circular_distance sample.cos_radians sample.uninit
              (Some 30%float) (Some 64%float) (Some 90%float) (Some 20%float)
              (Some 20%float) (Some 5%float) (Some 5%float) (Some 5%float)
              None false None (sample.state sample_cases.ds_with_sensors)
              (sample_cases.quality_control_mode sample_cases.ds_with_sensors None).2 [10; 40]%float Ht Hrun)
    as (q & Hq & _ & Hflag & _).
  split; [exact Ht|]. split; [exact Hrun|].
  exists q. split; [exact Hq|].
  split; rewrite Hflag; vm_compute; reflexivity.
Defined.


Lemma navigation_correction_needs_uship_witness :
  let d := sample_cases.ds_with_ship in
  holds d "u" (Float2 sample.u)
  /\ holds d "u_ship" (Float1 [0.5; 0.5]%float)
  /\ holds d "lon" (Float1 [-60; PrimFloat.nan]%float)
  /\ contains d "v_ship" = true
  /\ var "uship" d = None
  /\ exists st' x',
       sample_cases.quality_control_mode d (Some "nav") = (inl (KeyError "uship"), st')
       /\ holds (dataset st') "u" (Float2 x')
       /\ cell x' 0 0 = Some 1.5%float
       /\ cell x' 0 1 = Some 2%float.
Proof.
  cbv zeta.
  assert (holds (dataset (sample.state sample_cases.ds_with_ship)) "u" (Float2 sample.u))
    as Hu by (vm_compute; reflexivity).
  assert (holds (dataset (sample.state sample_cases.ds_with_ship)) "u_ship"
            (Float1 [0.5; 0.5]%float)) as Hs by (vm_compute; reflexivity).
  assert (holds (dataset (sample.state sample_cases.ds_with_ship)) "lon"
            (Float1 [-60; PrimFloat.nan]%float)) as Hlon by (vm_compute; reflexivity).
  assert (contains (dataset (sample.state sample_cases.ds_with_ship)) "v_ship" = true)
    as Hv by (vm_compute; reflexivity).
  assert (var "uship" (dataset (sample.state sample_cases.ds_with_ship)) = None)
    as Hno by (vm_compute; reflexivity).
  destruct (navigation_correction_needs_uship sample.timestamp sample.today sample.str_num
              sample.circmean sample.circular_distance sample.cos_radians sample.uninit
              (Some 30%float) (Some 64%float) (Some 90%float) (Some 20%float)
              (Some 20%float) (Some 5%float) (Some 5%float) (Some 5%float)
              false None (sample.state sample_cases.ds_with_ship)
              sample.u [0.5; 0.5]%float [-60; PrimFloat.nan]%float Hu Hs Hlon Hv Hno)
    as (st' & x' & Hrun & Hx & Hcell & _).
  split; [exact Hu|]. split; [exact Hs|]. split; [exact Hlon|].
  split; [exact Hv|]. split; [exact Hno|].
  exists st', x'. split; [exact Hrun|]. split; [exact Hx|]. split.
  - rewrite (Hcell 0%nat 0%nat 1%float 0.5%float (-60)%float)
      by (vm_compute; first [reflexivity | lia]).
    vm_compute. reflexivity.
  - rewrite (Hcell 0%nat 1%nat 2%float 0.5%float PrimFloat.nan)
      by (vm_compute; first [reflexivity | lia]).
    vm_compute. reflexivity.
Defined.

End on_the_datasets.

Section on_the_loaded_dataset.
Import xr.

Lemma variables_set_attr key v d : variables (set_attr key v d) = variables d.
Proof. done. Qed.

Lemma loaded_dataset_fails_quality_control_witness :
  let dataset := sample_cases.loaded_dataset (sample_load.raw "earth") in
  (exists raw', (sample_cases.load_bundle (sample_load.raw "earth")).1 = inr (dataset, raw', tt))
  /\ exists e s',
       quality_control.adcp_quality_control sample_load.timestamp sample.today
         sample_load.str_num sample.circmean sample.circular_distance
         sample.cos_radians sample.uninit
         (Some 30%float) (Some 64%float) (Some 90%float) (Some 20%float)
              (Some 20%float) (Some 5%float) (Some 5%float) (Some 5%float)
         None false None (quality_control.mkState dataset quality_control.l_at_import [])
       = (inl e, s').
Proof.
  cbv zeta. destruct load_earth_run as (raw' & st' & Hrun).
  split; [exists raw'; unfold sample_cases.load_bundle; by rewrite Hrun|].
  exact (loaded_dataset_fails_quality_control sample_load.timestamp sample_load.str_num
              sample_load.to_datetime64 sample_load.datetime_str sample_load.median
              sample_load.nanmean sample_load.mean sample_load.beam_to_xyz
              sample_load.beam_to_xyz_bt sample_load.rdi_xyz_enu
              sample_load.rdi_xyz_enu_bt sample_load.round3 unit
           sample.today sample.circmean sample.circular_distance sample.cos_radians
           sample.uninit
           "File: a.000" (sample_load.raw "earth") tt "wh" 2020%Z "down" None
           (loader.mkState (loader.init "") [] (sample_load.raw "earth") sample_load.nothing)
           st' (sample_cases.loaded_dataset (sample_load.raw "earth")) raw' tt
           (Some 30%float) (Some 64%float) (Some 90%float) (Some 20%float)
              (Some 20%float) (Some 5%float) (Some 5%float) (Some 5%float)
           None false None quality_control.l_at_import [] Hrun).
Defined.

(** The loaded dataset, given an empty [logbook], goes through the quality
    control. *)
Lemma range_tests_skip_a_loaded_dataset_witness :
  let dataset := sample_cases.loaded_dataset (sample_load.raw "earth") in
  let s := quality_control.mkState (set_attr "logbook" (AStr "") dataset)
             quality_control.l_at_import [] in
  let r := quality_control.adcp_quality_control sample_load.timestamp sample.today
             sample_load.str_num sample.circmean sample.circular_distance
             sample.cos_radians sample.uninit
             (Some 30%float) (Some 64%float) (Some 90%float) (Some 20%float)
              (Some 20%float) (Some 5%float) (Some 5%float) (Some 5%float)
             None false None s in
  (exists raw', (sample_cases.load_bundle (sample_load.raw "earth")).1 = inr (dataset, raw', tt))
  /\ r = (inr tt, r.2)
  /\ var "pres_QC" (quality_control.dataset r.2) = None
  /\ var "temperature_QC" (quality_control.dataset r.2) = None
  /\ holds (quality_control.dataset r.2) "temp" (Float1 [4; 5]%float).
Proof.
  cbv zeta. destruct load_earth_run as (raw' & st' & Hrun).
  assert (quality_control.adcp_quality_control sample_load.timestamp sample.today
            sample_load.str_num sample.circmean sample.circular_distance
            sample.cos_radians sample.uninit
            (Some 30%float) (Some 64%float) (Some 90%float) (Some 20%float)
              (Some 20%float) (Some 5%float) (Some 5%float) (Some 5%float)
            None false None
            (quality_control.mkState (set_attr "logbook" (AStr "")
                                        (sample_cases.loaded_dataset (sample_load.raw "earth")))
               quality_control.l_at_import [])
          = (inr tt,
             (quality_control.adcp_quality_control sample_load.timestamp sample.today
                sample_load.str_num sample.circmean sample.circular_distance
                sample.cos_radians sample.uninit
                (Some 30%float) (Some 64%float) (Some 90%float) (Some 20%float)
              (Some 20%float) (Some 5%float) (Some 5%float) (Some 5%float)
                None false None
                (quality_control.mkState (set_attr "logbook" (AStr "")
                                            (sample_cases.loaded_dataset (sample_load.raw "earth")))
                   quality_control.l_at_import [])).2)) as Hqc
    by (vm_compute; reflexivity).
  split; [exists raw'; unfold sample_cases.load_bundle; by rewrite Hrun|].
  split; [exact Hqc|].
  exact (range_tests_skip_a_loaded_dataset sample_load.timestamp sample_load.str_num
              sample_load.to_datetime64 sample_load.datetime_str sample_load.median
              sample_load.nanmean sample_load.mean sample_load.beam_to_xyz
              sample_load.beam_to_xyz_bt sample_load.rdi_xyz_enu
              sample_load.rdi_xyz_enu_bt sample_load.round3 unit
           sample.today sample.circmean sample.circular_distance sample.cos_radians
           sample.uninit
           "File: a.000" (sample_load.raw "earth") tt "wh" 2020%Z "down" None
           (loader.mkState (loader.init "") [] (sample_load.raw "earth") sample_load.nothing)
           st' (sample_cases.loaded_dataset (sample_load.raw "earth")) raw' tt
           (Some 30%float) (Some 64%float) (Some 90%float) (Some 20%float)
              (Some 20%float) (Some 5%float) (Some 5%float) (Some 5%float)
           None false None
           (quality_control.mkState (set_attr "logbook" (AStr "")
                                       (sample_cases.loaded_dataset (sample_load.raw "earth")))
              quality_control.l_at_import [])
           _ Hrun (variables_set_attr _ _ _) Hqc).
Defined.

End on_the_loaded_dataset.
